(** * Speaking-assessment pipeline: a shallow embedding and its properties

  The development follows the three JavaScript classes of the repository:
  [AudioProcessor] (audio-processor.js), [Transcriber] (transcriber.js) and
  [AIAnalyzer] (ai-analyzer.js).  JavaScript numbers are IEEE-754 binary64
  values, so they are modelled by Rocq's primitive floats, whose operations
  are the same correctly rounded binary64 operations.  Quantities that the
  source keeps integral (loop counters, lengths, the per-skill scores that are
  built from integer constants) are carried as [Z] and injected with [of_Z]
  where the source mixes them with other numbers. *)

From Stdlib Require Import ZArith List String Ascii Bool Lia Floats.
From Stdlib Require Uint63.
From Stdlib Require Import Permutation Sorted.
Import ListNotations.

Set Warnings "-inexact-float".
Open Scope string_scope.
Open Scope Z_scope.

(** ** JavaScript numbers *)

Module JsNum.

(** An integer as a JavaScript number (exact for [|z| < 2^53]). *)
Definition of_Z (z : Z) : float :=
  if z <? 0 then (- of_uint63 (Uint63.of_Z (- z)))%float
  else of_uint63 (Uint63.of_Z z).

(** JavaScript truthiness of a number: [0], [-0] and [NaN] are falsy. *)
Definition truthy (x : float) : bool := negb (is_nan x || is_zero x).

(** [x || d] on numbers. *)
Definition or_else (x d : float) : float := if truthy x then x else d.

(** [a >= b], [a > b] : false as soon as one side is [NaN]. *)
Definition geb (a b : float) : bool := (b <=? a)%float.
Definition gtb (a b : float) : bool := (b <? a)%float.

(** [Math.max] and [Math.min] of two numbers: [NaN] is contagious and
    [+0] is larger than [-0]. *)
Definition Math_max (a b : float) : float :=
  if is_nan a || is_nan b then nan
  else if (a <? b)%float then b
  else if (b <? a)%float then a
  else if get_sign a then b else a.

Definition Math_min (a b : float) : float :=
  if is_nan a || is_nan b then nan
  else if (a <? b)%float then a
  else if (b <? a)%float then b
  else if get_sign a then a else b.

Definition Math_abs (a : float) : float := abs a.
Definition Math_sqrt (a : float) : float := sqrt a.

(** The signed numerator of a finite binary64 value [m * 2^e]. *)
Definition signed (s : bool) (m : positive) : Z := if s then Zneg m else Zpos m.

(** [Math.floor]: computed on the exact value of the argument; values with
    a non-negative exponent are integers already. *)
Definition Math_floor (x : float) : float :=
  match Prim2SF x with
  | S754_finite s m e =>
      if 0 <=? e then x else of_Z (signed s m / 2 ^ (- e))
  | _ => x
  end.

(** [Math.round]: the integer nearest to the exact value, ties towards
    [+infinity], i.e. [floor (x + 1/2)] without intermediate rounding. *)
Definition round_half_up (s : bool) (m : positive) (e : Z) : Z :=
  (2 * signed s m + 2 ^ (- e)) / 2 ^ (1 - e).

Definition Math_round (x : float) : float :=
  match Prim2SF x with
  | S754_finite s m e =>
      if 0 <=? e then x
      else let r := round_half_up s m e in
           if (r =? 0) && s then neg_zero else of_Z r
  | _ => x
  end.

(** The value of an integral number as a [Z]; [None] for [NaN], the
    infinities and non-integers. *)
Definition to_Z (x : float) : option Z :=
  match Prim2SF x with
  | S754_zero _ => Some 0
  | S754_finite s m e =>
      if 0 <=? e then Some (signed s m * 2 ^ e)
      else if (signed s m) mod 2 ^ (- e) =? 0 then Some (signed s m / 2 ^ (- e))
      else None
  | _ => None
  end.

(** *** Decimal strings: [Number.prototype.toFixed] and [parseFloat] *)

Definition digit_char (d : Z) : ascii := ascii_of_nat (48 + Z.to_nat d).

(** Decimal digits of a non-negative integer, most significant first. *)
Fixpoint digits_fuel (fuel : nat) (n : Z) (acc : string) : string :=
  match fuel with
  | O => acc
  | S fuel' =>
      let acc' := String (digit_char (n mod 10)) acc in
      if n <? 10 then acc' else digits_fuel fuel' (n / 10) acc'
  end.

Definition digits (n : Z) : string :=
  digits_fuel (S (Z.to_nat (Z.log2 n))) n EmptyString.

(** Left-pad with zeros up to [k] characters. *)
Fixpoint zeros (k : nat) : string :=
  match k with
  | O => EmptyString
  | S k' => String "0" (zeros k')
  end.

Definition pad_zeros (k : nat) (s : string) : string :=
  zeros (k - String.length s) ++ s.

(** [n / 10^d] written with exactly [d] fraction digits. *)
Definition fixed_digits (d : nat) (n : Z) : string :=
  let s := pad_zeros (S d) (digits n) in
  let k := (String.length s - d)%nat in
  match d with
  | O => s
  | _ => substring 0 k s ++ "." ++ substring k d s
  end.

(** The integer [n] for which [n / 10^d] is nearest to [m * 2^e]
    (the larger one on a tie), as [toFixed] specifies. *)
Definition scaled_round (d : nat) (m : positive) (e : Z) : Z :=
  let p := 10 ^ Z.of_nat d in
  if 0 <=? e then Zpos m * 2 ^ e * p
  else (2 * Zpos m * p + 2 ^ (- e)) / 2 ^ (1 - e).

(** [x.toFixed(d)] for [|x| < 1e21]; larger magnitudes, which JavaScript
    prints in exponent form, do not occur below and are rendered as
    ["Infinity"]. *)
Definition toFixed (d : nat) (x : float) : string :=
  match Prim2SF x with
  | S754_nan => "NaN"
  | S754_infinity s => if s then "-Infinity" else "Infinity"
  | S754_zero _ => fixed_digits d 0
  | S754_finite s m e =>
      if (of_Z (10 ^ 21) <=? abs x)%float then (if s then "-Infinity" else "Infinity")
      else
        let body := fixed_digits d (scaled_round d m e) in
        if s then "-" ++ body else body
  end.

Definition is_digit (c : ascii) : bool :=
  let n := nat_of_ascii c in (48 <=? n)%nat && (n <=? 57)%nat.

Definition is_space (c : ascii) : bool :=
  let n := nat_of_ascii c in
  ((9 <=? n)%nat && (n <=? 13)%nat) || (n =? 32)%nat || (n =? 160)%nat.

(** Reads a run of digits: the integer read so far, how many digits were
    read, and the rest of the string. *)
Fixpoint read_digits (s : string) (acc : Z) (count : nat) : Z * nat * string :=
  match s with
  | String c rest =>
      if is_digit c
      then read_digits rest (10 * acc + Z.of_nat (nat_of_ascii c - 48)) (S count)
      else (acc, count, s)
  | EmptyString => (acc, count, s)
  end.

Fixpoint skip_spaces (s : string) : string :=
  match s with
  | String c rest => if is_space c then skip_spaces rest else s
  | EmptyString => s
  end.

(** [parseFloat] on the longest prefix of the form
    [sign? digits (. digits)?] or [sign? Infinity]; anything else is [NaN].
    The quotient of two exactly represented integers is correctly rounded,
    hence the binary64 value nearest to the decimal that was read.
    Exponent suffixes are not read: no string parsed below has one. *)
Definition parseFloat (s : string) : float :=
  let s := skip_spaces s in
  let '(neg, s) :=
    match s with
    | String "-" rest => (true, rest)
    | String "+" rest => (false, rest)
    | _ => (false, s)
    end in
  let sign (x : float) := if neg then (- x)%float else x in
  if prefix "Infinity" s then sign infinity
  else
    let '(ip, ni, rest) := read_digits s 0 0 in
    let '(fp, nf, _) :=
      match rest with
      | String "." rest' => read_digits rest' 0 0
      | _ => (0, 0%nat, rest)
      end in
    match ni, nf with
    | O, O => nan
    | _, _ => sign (of_Z (ip * 10 ^ Z.of_nat nf + fp) / of_Z (10 ^ Z.of_nat nf))%float
    end.

End JsNum.

(** ** Outcomes of a call *)

(** A call returns a value, throws an [Error] with a message, or never
  returns. *)
Inductive outcome (A : Type) : Type :=
| Returns (a : A)
| Throws (message : string)
| Diverges.
Arguments Returns {A} a.
Arguments Throws {A} message.
Arguments Diverges {A}.

(** ** audio-processor.js *)

Module AudioProcessor.
Import JsNum.

(** The decoded [AudioBuffer]: only the three members that
    [extractFeatures] reads, with channel 0 as the sample data. *)
Record AudioBuffer := {
  duration : float;
  sampleRate : float;
  channelData : list float
}.


Record DurationAnalysis := {
  da_score : Z;
  da_feedback : string;
  da_minutes : string
}.

Definition analyzeDuration (duration : float) : DurationAnalysis :=
  let minutes := (duration / 60)%float in
  let '(score, feedback) :=
    if (minutes <? 0.5)%float then
      (40, "Too short. Try to speak for at least 1-2 minutes")
    else if geb minutes 0.5 && (minutes <? 1)%float then
      (60, "A bit short. Aim for 1.5-2.5 minutes for optimal assessment")
    else if geb minutes 1 && (minutes <=? 3)%float then
      (95, "Perfect duration! Well-balanced speaking time")
    else if gtb minutes 3 && (minutes <=? 4)%float then
      (85, "Good length, but slightly long. Try to be more concise")
    else
      (70, "Too long. Practice being more concise and focused") in
  {| da_score := score; da_feedback := feedback; da_minutes := toFixed 1 minutes |}.

Record VolumeAnalysis := {
  va_average : float;
  va_consistency : float;
  va_energy : float
}.

(** The accumulation loop of [analyzeVolume]: [(sum, sumSquares)]. *)
Definition volume_step (acc : float * float) (sample : float) : float * float :=
  let value := Math_abs sample in
  (fst acc + value, snd acc + value * value)%float.

Definition analyzeVolume (channelData : list float) : VolumeAnalysis :=
  let '(sum, sumSquares) := fold_left volume_step channelData (0, 0)%float in
  let length := of_Z (Z.of_nat (List.length channelData)) in
  let average := (sum / length)%float in
  let variance := (sumSquares / length - average * average)%float in
  let stdDev := Math_sqrt (Math_max 0 variance) in
  let consistency :=
    if gtb average 0 then Math_max 0 (Math_min 1 (1 - stdDev / average)%float)
    else 0%float in
  let energy := Math_sqrt (sumSquares / length)%float in
  {| va_average := parseFloat (toFixed 6 average);
     va_consistency := parseFloat (toFixed 6 consistency);
     va_energy := parseFloat (toFixed 6 energy) |}.

Record PauseAnalysis := {
  pa_count : Z;
  pa_totalDuration : float;
  pa_score : Z
}.

Definition threshold : float := 0.01%float.
Definition minPauseDuration : float := 0.3%float.

Definition minPauseSamples (sampleRate : float) : float :=
  Math_floor (minPauseDuration * sampleRate)%float.

(** [currentPause >= minPauseSamples] *)
Definition long_enough (sampleRate : float) (currentPause : Z) : bool :=
  geb (of_Z currentPause) (minPauseSamples sampleRate).

Definition silent (sample : float) : bool := (Math_abs sample <? threshold)%float.

(** Loop state of [detectPauses]. *)
Record PauseState := {
  pauseCount : Z;
  totalPauseDuration : float;
  currentPause : Z
}.

(** The [if (currentPause >= minPauseSamples) { ... }] block, which the
    source runs at every loud sample and once more after the loop. *)
Definition close_pause (sampleRate : float) (st : PauseState) : PauseState :=
  if long_enough sampleRate (currentPause st) then
    {| pauseCount := pauseCount st + 1;
       totalPauseDuration :=
         (totalPauseDuration st + of_Z (currentPause st) / sampleRate)%float;
       currentPause := currentPause st |}
  else st.

Definition pause_step (sampleRate : float) (st : PauseState) (sample : float)
  : PauseState :=
  if silent sample then
    {| pauseCount := pauseCount st;
       totalPauseDuration := totalPauseDuration st;
       currentPause := currentPause st + 1 |}
  else
    let st' := close_pause sampleRate st in
    {| pauseCount := pauseCount st';
       totalPauseDuration := totalPauseDuration st';
       currentPause := 0 |}.

Definition pause_score (pauseCount : Z) : Z :=
  if pauseCount <? 3 then 60
  else if (3 <=? pauseCount) && (pauseCount <=? 15) then 95
  else if (15 <? pauseCount) && (pauseCount <=? 25) then 80
  else 65.

Definition pause_loop (channelData : list float) (sampleRate : float) : PauseState :=
  close_pause sampleRate
    (fold_left (pause_step sampleRate) channelData
       {| pauseCount := 0; totalPauseDuration := 0%float; currentPause := 0 |}).

Definition detectPauses (channelData : list float) (sampleRate : float)
  : PauseAnalysis :=
  let st := pause_loop channelData sampleRate in
  {| pa_count := pauseCount st;
     pa_totalDuration := parseFloat (toFixed 2 (totalPauseDuration st));
     pa_score := pause_score (pauseCount st) |}.

Record SpeechRateAnalysis := {
  sr_rate : float;
  sr_score : Z;
  sr_feedback : string
}.

Definition estimateSpeechRate (duration : float) (pauseAnalysis : PauseAnalysis)
  : SpeechRateAnalysis :=
  let activeSpeechTime := Math_max 1 (duration - pa_totalDuration pauseAnalysis)%float in
  let estimatedWords := (activeSpeechTime * 2.5)%float in
  let wordsPerMinute := (estimatedWords / duration * 60)%float in
  let '(score, feedback) :=
    if (wordsPerMinute <? 100)%float then
      (70, "Speaking too slowly. Try to speak more naturally")
    else if geb wordsPerMinute 100 && (wordsPerMinute <=? 160)%float then
      (95, "Excellent speaking pace! Natural and clear")
    else if gtb wordsPerMinute 160 && (wordsPerMinute <=? 180)%float then
      (85, "Speaking a bit fast. Try to slow down slightly")
    else
      (65, "Speaking too fast. Slow down for better clarity") in
  {| sr_rate := Math_round wordsPerMinute; sr_score := score; sr_feedback := feedback |}.

Record PitchAnalysis := {
  pi_variation : string;
  pi_score : Z
}.

(** How often the body of [for (let i = 0; i < windows; i++)] runs:
    [None] when the bound is [+Infinity] and the loop never ends.
    [windows] comes out of [Math.floor], so it is an integer, [NaN] or
    infinite. *)
Definition iterations (windows : float) : option nat :=
  match to_Z windows with
  | Some n => Some (Z.to_nat n)
  | None => if (windows =? infinity)%float then None else Some O
  end.

(** The body of the window loop for index [i]: the mean absolute
    amplitude of the samples [start .. end-1].  The body only runs when
    [windowSize] is a positive integer, taken here as [ws]. *)
Definition window_mean (channelData : list float) (ws : Z) (i : nat) : float :=
  let start := Z.of_nat i * ws in
  let end_ := Z.min (start + ws) (Z.of_nat (List.length channelData)) in
  let samples := firstn (Z.to_nat (end_ - start)) (skipn (Z.to_nat start) channelData) in
  let sum := fold_left (fun sum sample => (sum + Math_abs sample)%float) samples 0%float in
  (sum / of_Z (end_ - start))%float.

Definition window_means (channelData : list float) (ws : Z) (n : nat) : list float :=
  filter (fun avg => gtb avg 0.001) (map (window_mean channelData ws) (seq 0 n)).

(** [Math.pow(x, 2)] is [x * x] in the engines' [pow]. *)
Definition square (x : float) : float := (x * x)%float.

Definition pitch_variation (pitchValues : list float) : float :=
  let count := of_Z (Z.of_nat (List.length pitchValues)) in
  let mean := (fold_left (fun a b => a + b) pitchValues 0 / count)%float in
  let variance :=
    (fold_left (fun sum val => sum + square (val - mean)) pitchValues 0 / count)%float in
  if gtb mean 0 then (Math_sqrt variance / mean)%float else 0%float.

Definition pitch_score (variation : float) : Z :=
  if (variation <? 0.2)%float then 65
  else if geb variation 0.2 && (variation <=? 0.6)%float then 95
  else 75.

Definition windowSize (sampleRate : float) : float :=
  Math_floor (sampleRate * 0.05)%float.

Definition windows (channelData : list float) (sampleRate : float) : float :=
  Math_floor (of_Z (Z.of_nat (List.length channelData)) / windowSize sampleRate)%float.

Definition analyzePitch (channelData : list float) (sampleRate : float)
  : outcome PitchAnalysis :=
  match iterations (windows channelData sampleRate) with
  | None => Diverges
  | Some n =>
      let ws := match to_Z (windowSize sampleRate) with Some w => w | None => 0 end in
      let pitchValues := window_means channelData ws n in
      match pitchValues with
      | [] => Returns {| pi_variation := "0.000"; pi_score := 50 |}
      | _ =>
          let variation := pitch_variation pitchValues in
          Returns {| pi_variation := toFixed 3 variation;
                     pi_score := pitch_score variation |}
      end
  end.

Definition estimateClarity (volumeAnalysis : VolumeAnalysis)
  (pitchAnalysis : PitchAnalysis) : float :=
  let clarityScore :=
    (va_consistency volumeAnalysis * 50 + of_Z (pi_score pitchAnalysis) / 2)%float in
  Math_round (Math_min 100 (Math_max 0 clarityScore)).

(** The feature object handed to the analyzer. *)
Record Features := {
  f_duration : float;
  durationScore : Z;
  durationFeedback : string;
  averageVolume : float;
  volumeConsistency : float;
  energyLevel : float;
  totalPauses : Z;
  pauseDuration : float;
  pauseScore : Z;
  speechRate : float;
  speechRateScore : Z;
  pitchVariation : string;
  pitchScore : Z;
  clarity : float
}.

(** [this.audioBuffer] is [null] until a file has been decoded. *)
Definition extractFeatures (audioBuffer : option AudioBuffer) : outcome Features :=
  match audioBuffer with
  | None => Throws "No audio buffer available"
  | Some buffer =>
      let duration := duration buffer in
      let sampleRate := sampleRate buffer in
      let channelData := channelData buffer in
      let durationAnalysis := analyzeDuration duration in
      let volumeAnalysis := analyzeVolume channelData in
      let pauseAnalysis := detectPauses channelData sampleRate in
      let speechRateAnalysis := estimateSpeechRate duration pauseAnalysis in
      match analyzePitch channelData sampleRate with
      | Returns pitchAnalysis =>
          let clarity := estimateClarity volumeAnalysis pitchAnalysis in
          Returns
            {| f_duration := duration;
               durationScore := da_score durationAnalysis;
               durationFeedback := da_feedback durationAnalysis;
               averageVolume := va_average volumeAnalysis;
               volumeConsistency := va_consistency volumeAnalysis;
               energyLevel := va_energy volumeAnalysis;
               totalPauses := pa_count pauseAnalysis;
               pauseDuration := pa_totalDuration pauseAnalysis;
               pauseScore := pa_score pauseAnalysis;
               speechRate := sr_rate speechRateAnalysis;
               speechRateScore := sr_score speechRateAnalysis;
               pitchVariation := pi_variation pitchAnalysis;
               pitchScore := pi_score pitchAnalysis;
               clarity := clarity |}
      | Throws message => Throws message
      | Diverges => Diverges
      end
  end.

End AudioProcessor.

(** ** JavaScript strings *)

(** Strings are sequences of code units below 256. *)
Module JsStr.

Definition code (c : ascii) : nat := nat_of_ascii c.

Definition between (lo hi n : nat) : bool := ((lo <=? n) && (n <=? hi))%nat.

(** [String.prototype.toLowerCase], one code unit at a time. *)
Definition lower_char (c : ascii) : ascii :=
  let n := code c in
  if between 65 90 n || (between 192 222 n && negb (n =? 215)%nat)
  then ascii_of_nat (n + 32) else c.

Fixpoint toLowerCase (s : string) : string :=
  match s with
  | EmptyString => EmptyString
  | String c rest => String (lower_char c) (toLowerCase rest)
  end.

(** The class [\s] and the characters removed by [trim]. *)
Definition is_space (c : ascii) : bool :=
  let n := code c in between 9 13 n || (n =? 32)%nat || (n =? 160)%nat.

(** The class [\w]. *)
Definition is_word (c : ascii) : bool :=
  let n := code c in
  between 48 57 n || between 65 90 n || between 97 122 n || (n =? 95)%nat.

Fixpoint rev_string (s acc : string) : string :=
  match s with
  | EmptyString => acc
  | String c rest => rev_string rest (String c acc)
  end.

(** [s.split(/[sep]+/)]: the pieces between maximal runs of separator
    characters; a run at either end leaves an empty piece there.
    [cur] is the current piece, reversed. *)
Fixpoint split_go (sep : ascii -> bool) (s cur : string) (in_sep : bool)
  : list string :=
  match s with
  | EmptyString => [rev_string cur EmptyString]
  | String c rest =>
      if sep c then
        if in_sep then split_go sep rest cur true
        else rev_string cur EmptyString :: split_go sep rest EmptyString true
      else split_go sep rest (String c cur) false
  end.

Definition split (sep : ascii -> bool) (s : string) : list string :=
  split_go sep s EmptyString false.

Fixpoint all_space (s : string) : bool :=
  match s with
  | EmptyString => true
  | String c rest => is_space c && all_space rest
  end.

(** [s.trim().length > 0] *)
Definition has_content (s : string) : bool := negb (all_space s).

(** [s.includes(m)] *)
Fixpoint includes (s m : string) : bool :=
  prefix m s ||
  match s with
  | EmptyString => false
  | String _ rest => includes rest m
  end.

(** Case-insensitive match of the literal [pat] at the head of [s];
    returns the last character matched and the remaining text. *)
Fixpoint match_here (pat s : string) (last : option ascii)
  : option (option ascii * string) :=
  match pat with
  | EmptyString => Some (last, s)
  | String p pat' =>
      match s with
      | EmptyString => None
      | String c rest =>
          if Ascii.eqb (lower_char c) (lower_char p)
          then match_here pat' rest (Some c) else None
      end
  end.

Definition word_before (prev : option ascii) : bool :=
  match prev with Some c => is_word c | None => false end.

Definition word_at (s : string) : bool :=
  match s with String c _ => is_word c | EmptyString => false end.

(** Does [\bpat\b] (flag [i]) match at the head of [s], the character
    before it being [prev]? *)
Definition matches_at (pat : string) (prev : option ascii) (s : string) : bool :=
  negb (Bool.eqb (word_before prev) (word_at s)) &&
  match match_here pat s prev with
  | Some (last, rest) => negb (Bool.eqb (word_before last) (word_at rest))
  | None => false
  end.

(** Number of matches of [new RegExp('\\b' + pat + '\\b', 'gi')] in [s]:
    after a match the search resumes behind it ([skip] counts the
    characters of the match still to be passed). *)
Fixpoint count_go (pat : string) (prev : option ascii) (s : string) (skip : nat)
  : Z :=
  match s with
  | EmptyString => 0
  | String c rest =>
      match skip with
      | S k => count_go pat (Some c) rest k
      | O =>
          if matches_at pat prev s
          then 1 + count_go pat (Some c) rest (String.length pat - 1)
          else count_go pat (Some c) rest 0
      end
  end.

Definition count_matches (pat s : string) : Z := count_go pat None s 0.

Definition mem (w : string) (l : list string) : bool :=
  existsb (String.eqb w) l.

(** Insertion-ordered de-duplication, as [new Set(...)] keeps it. *)
Fixpoint dedup_go (l seen : list string) : list string :=
  match l with
  | [] => []
  | w :: rest =>
      if mem w seen then dedup_go rest seen else w :: dedup_go rest (w :: seen)
  end.

Definition dedup (l : list string) : list string := dedup_go l [].

End JsStr.

(** ** What every object inherits *)

Module JsProto.
Import JsStr.

(** The names that every object inherits from [Object.prototype]:
    reading such a key from an object that does not have it yields the
    inherited member. *)
Definition inherited : list string :=
  [ "constructor"; "__defineGetter__"; "__defineSetter__"; "hasOwnProperty";
    "__lookupGetter__"; "__lookupSetter__"; "isPrototypeOf"; "propertyIsEnumerable";
    "toString"; "valueOf"; "__proto__"; "toLocaleString" ].

(** The inherited member as a string: the prototype object for
    [__proto__], and for the others the text of a built-in function as
    V8 and JavaScriptCore print it. *)
Definition member_text (key : string) : string :=
  if String.eqb key "__proto__" then "[object Object]"
  else if String.eqb key "constructor" then "function Object() { [native code] }"
  else "function " ++ key ++ "() { [native code] }".

End JsProto.

(** ** transcriber.js: transcript analysis *)

Module Transcriber.
Import JsNum JsStr.

(** Members that an object literal leaves out read as [undefined], which
    the analyzer only tests for truthiness: they are [false] or [[]] here. *)
Record GrammarIndicators := {
  hasComplexSentences : bool;
  hasConditionals : bool;
  hasPerfectTenses : bool;
  hasPassiveVoice : bool;
  gi_score : Z
}.

Record CoherenceIndicators := {
  hasIntroduction : bool;
  hasConclusion : bool;
  hasTransitionWords : bool;
  transitionWordsUsed : list string;
  ci_score : Z
}.

Record TranscriptAnalysis := {
  wordCount : Z;
  uniqueWordCount : Z;
  vocabularyRichness : string;
  sentenceCount : Z;
  avgWordsPerSentence : string;
  avgWordLength : string;
  fillerWordCount : Z;
  fillerWords : list (string * Z);
  fillerRatio : string;
  advancedWords : list string;
  advancedWordCount : Z;
  grammarIndicators : GrammarIndicators;
  coherenceIndicators : CoherenceIndicators;
  rawText : string
}.

Definition len {A} (l : list A) : Z := Z.of_nat (List.length l).

Definition advancedWordList : list string :=
  [ "furthermore"; "moreover"; "nevertheless"; "consequently"; "subsequently";
    "particularly"; "significantly"; "essentially"; "predominantly"; "fundamentally";
    "comprehensive"; "substantial"; "considerable"; "remarkable"; "extraordinary";
    "implement"; "establish"; "demonstrate"; "illustrate"; "emphasize";
    "perspective"; "approach"; "aspect"; "factor"; "impact";
    "enhance"; "facilitate"; "contribute"; "integrate"; "accommodate";
    "environment"; "technology"; "development"; "opportunity"; "experience";
    "sustainable"; "innovative"; "efficient"; "effective"; "beneficial";
    "analyze"; "evaluate"; "assess"; "determine"; "investigate";
    "phenomenon"; "methodology"; "hypothesis"; "paradigm"; "synthesis" ].

(** The second [forEach] of [detectAdvancedVocabulary]. *)
Fixpoint add_long_words (words foundAdvanced : list string) : list string :=
  match words with
  | [] => foundAdvanced
  | word :: rest =>
      if (8 <=? String.length word)%nat && negb (mem (toLowerCase word) foundAdvanced)
      then add_long_words rest (foundAdvanced ++ [toLowerCase word])%list
      else add_long_words rest foundAdvanced
  end.

Definition detectAdvancedVocabulary (words : list string) : list string :=
  let wordSet := map toLowerCase words in
  let foundAdvanced := filter (fun word => mem word wordSet) advancedWordList in
  firstn 20 (dedup (add_long_words words foundAdvanced)).

Definition complexMarkers : list string :=
  ["although"; "whereas"; "while"; "despite"; "unless"; "provided that"].
Definition conditionalMarkers : list string :=
  ["if"; "would"; "could"; "might"; "should"].
Definition perfectMarkers : list string :=
  ["have been"; "has been"; "had been"; "have had"; "has had"].
Definition passiveMarkers : list string :=
  ["is done"; "was done"; "been done"; "be done"; "is made"; "was made"].

Definition bonus (flag : bool) (points : Z) : Z := if flag then points else 0.

Definition analyzeGrammarIndicators (text : string) : GrammarIndicators :=
  let lower := toLowerCase text in
  let hasComplexSentences := existsb (includes lower) complexMarkers in
  let conditionalCount := len (filter (includes lower) conditionalMarkers) in
  let hasConditionals := 2 <=? conditionalCount in
  let hasPerfectTenses := existsb (includes lower) perfectMarkers in
  let hasPassiveVoice := existsb (includes lower) passiveMarkers in
  let score :=
    50 + bonus hasComplexSentences 15 + bonus hasConditionals 10
       + bonus hasPerfectTenses 10 + bonus hasPassiveVoice 5 in
  {| hasComplexSentences := hasComplexSentences;
     hasConditionals := hasConditionals;
     hasPerfectTenses := hasPerfectTenses;
     hasPassiveVoice := hasPassiveVoice;
     gi_score := Z.min 100 score |}.

Definition introMarkers : list string :=
  ["i would like to"; "i want to talk about"; "let me"; "first of all";
   "to begin with"; "i think"; "in my opinion"].
Definition conclusionMarkers : list string :=
  ["in conclusion"; "to sum up"; "finally"; "overall";
   "to conclude"; "in summary"; "all in all"].
Definition transitionWords : list string :=
  ["firstly"; "secondly"; "thirdly"; "however"; "therefore";
   "moreover"; "furthermore"; "additionally"; "nevertheless";
   "on the other hand"; "for example"; "for instance";
   "as a result"; "consequently"; "in addition"].

Definition analyzeCoherenceIndicators (text : string) : CoherenceIndicators :=
  let lowerText := toLowerCase text in
  let hasIntroduction := existsb (includes lowerText) introMarkers in
  let hasConclusion := existsb (includes lowerText) conclusionMarkers in
  let transitionWordsUsed := filter (includes lowerText) transitionWords in
  let hasTransitionWords := 0 <? len transitionWordsUsed in
  let score :=
    50 + bonus hasIntroduction 15 + bonus hasConclusion 15
       + bonus hasTransitionWords (len transitionWordsUsed * 5) in
  {| hasIntroduction := hasIntroduction;
     hasConclusion := hasConclusion;
     hasTransitionWords := hasTransitionWords;
     transitionWordsUsed := transitionWordsUsed;
     ci_score := Z.min 100 score |}.

Definition getEmptyAnalysis : TranscriptAnalysis :=
  {| wordCount := 0;
     uniqueWordCount := 0;
     vocabularyRichness := "0";
     sentenceCount := 0;
     avgWordsPerSentence := "0";
     avgWordLength := "0";
     fillerWordCount := 0;
     fillerWords := [];
     fillerRatio := "0";
     advancedWords := [];
     advancedWordCount := 0;
     grammarIndicators :=
       {| hasComplexSentences := false; hasConditionals := false;
          hasPerfectTenses := false; hasPassiveVoice := false; gi_score := 50 |};
     coherenceIndicators :=
       {| hasIntroduction := false; hasConclusion := false;
          hasTransitionWords := false; transitionWordsUsed := []; ci_score := 50 |};
     rawText := "" |}.

Definition fillerWordList : list string :=
  ["um"; "uh"; "like"; "you know"; "basically"; "actually";
   "literally"; "so"; "well"; "i mean"; "kind of"; "sort of"].

Definition is_sentence_end (c : ascii) : bool :=
  let n := code c in (n =? 46)%nat || (n =? 33)%nat || (n =? 63)%nat.

(** The [forEach] over the filler list: the map of the fillers that
    occur, in list order, and their total. *)
Definition count_fillers (text : string) : list (string * Z) * Z :=
  fold_left
    (fun (acc : list (string * Z) * Z) filler =>
       let matches := count_matches filler text in
       if 0 <? matches
       then ((fst acc ++ [(filler, matches)])%list, snd acc + matches)
       else acc)
    fillerWordList ([], 0).

Definition nonempty (w : string) : bool := (0 <? String.length w)%nat.

(** [text] is the argument when it is a string; [null] and [undefined]
    are [None]. *)
Definition analyzeTranscript (text : option string) : TranscriptAnalysis :=
  match text with
  | None => getEmptyAnalysis
  | Some text =>
      if (String.length text =? 0)%nat then getEmptyAnalysis
      else
        let words := filter nonempty (split is_space (toLowerCase text)) in
        let sentences := filter has_content (split is_sentence_end text) in
        let wordCount := len words in
        let uniqueWordCount := len (dedup words) in
        let vocabularyRichness := (of_Z uniqueWordCount / of_Z wordCount)%float in
        let '(fillerWordMap, fillerCount) := count_fillers text in
        let avgWordsPerSentence :=
          if 0 <? len sentences then (of_Z wordCount / of_Z (len sentences))%float
          else 0%float in
        let totalLength :=
          fold_left (fun sum w => sum + Z.of_nat (String.length w)) words 0 in
        let avgWordLength := (of_Z totalLength / of_Z (len words))%float in
        let advancedWords := detectAdvancedVocabulary words in
        {| wordCount := wordCount;
           uniqueWordCount := uniqueWordCount;
           vocabularyRichness := toFixed 1 (vocabularyRichness * 100)%float;
           sentenceCount := len sentences;
           avgWordsPerSentence := toFixed 1 avgWordsPerSentence;
           avgWordLength := toFixed 1 avgWordLength;
           fillerWordCount := fillerCount;
           fillerWords := fillerWordMap;
           fillerRatio := toFixed 1 (of_Z fillerCount / of_Z wordCount * 100)%float;
           advancedWords := advancedWords;
           advancedWordCount := len advancedWords;
           grammarIndicators := analyzeGrammarIndicators text;
           coherenceIndicators := analyzeCoherenceIndicators text;
           rawText := text |}
  end.

End Transcriber.

(** ** ai-analyzer.js: the scoring engine *)

Module AIAnalyzer.
Import JsNum JsStr JsProto.
Import AudioProcessor Transcriber.

(** *** Objects, arrays and their library functions *)

(** Property lookup in an object literal, kept as its entries in
    insertion order, which is the order of [for ... in]. *)
Fixpoint lookup {A} (key : string) (obj : list (string * A)) : option A :=
  match obj with
  | [] => None
  | (k, v) :: rest => if String.eqb key k then Some v else lookup key rest
  end.

(** [Array.prototype.sort] with a comparator: a stable sort, here by
    insertion; [before a b] stands for [compare(a, b) <= 0]. *)
Fixpoint insert {A} (before : A -> A -> bool) (x : A) (l : list A) : list A :=
  match l with
  | [] => [x]
  | y :: rest => if before x y then x :: l else y :: insert before x rest
  end.

Definition sort {A} (before : A -> A -> bool) (l : list A) : list A :=
  fold_right (insert before) [] l.

(** [a.slice(-k)] *)
Definition last_n {A} (k : nat) (l : list A) : list A :=
  skipn (List.length l - k) l.

(** [a.join(sep)] *)
Fixpoint join (sep : string) (l : list string) : string :=
  match l with
  | [] => ""
  | [s] => s
  | s :: rest => s ++ sep ++ join sep rest
  end.

Definition show_Z (z : Z) : string :=
  if z <? 0 then "-" ++ digits (- z) else digits z.

(** A word between double quotes. *)
Definition quoted (s : string) : string :=
  String (ascii_of_nat 34) (s ++ String (ascii_of_nat 34) EmptyString).

(** [s.charAt(0).toUpperCase() + s.slice(1)] *)
Definition capitalize (s : string) : string :=
  match s with
  | EmptyString => EmptyString
  | String c rest =>
      let n := code c in
      String (if between 97 122 n then ascii_of_nat (n - 32) else c) rest
  end.

(** [x || d] on an integer-valued member. *)
Definition or_default (x d : Z) : Z := if x =? 0 then d else x.

Definition clamp (score : Z) : Z := Z.min 100 (Z.max 0 score).

(** *** The analyzer object *)

Record LevelRange := {
  min : float;
  max : float;
  description : string
}.

Record Analyzer := {
  levelThresholds : list (string * LevelRange);
  weights : list (string * float)
}.

(** The constructor; no method assigns to either member afterwards. *)
Definition new_AIAnalyzer : Analyzer :=
  {| levelThresholds :=
       [ ("A1", {| min := 0; max := 28; description := "Beginner - Basic words and phrases" |});
         ("A2", {| min := 28; max := 42; description := "Elementary - Simple everyday expressions" |});
         ("B1", {| min := 42; max := 58; description := "Intermediate - Familiar topics with effort" |});
         ("B2", {| min := 58; max := 73; description := "Upper Intermediate - Fluent interaction" |});
         ("C1", {| min := 73; max := 87; description := "Advanced - Complex topics with ease" |});
         ("C2", {| min := 87; max := 100; description := "Mastery - Near-native proficiency" |}) ];
     weights :=
       [ ("pronunciation", 0.22%float);
         ("fluency", 0.22%float);
         ("vocabulary", 0.18%float);
         ("grammar", 0.15%float);
         ("coherence", 0.13%float);
         ("time", 0.10%float) ] |}.

(** *** Per-skill analyses *)

Record FluencyStats := {
  st_pauseRatio : string;
  st_speechRate : float;
  st_pauseCount : Z;
  st_fillerWords : Z
}.

(** The object returned by the five skill analyses.  [stats] is only set
    by the fluency analysis; [wordCount]/[uniqueWords] only by the
    vocabulary analysis ([null] when there is no transcript or the count
    is zero). *)
Record SkillAnalysis := {
  score : Z;
  feedback : list string;
  issues : list string;
  details : list string;
  honestAssessment : string;
  stats : option FluencyStats;
  sa_wordCount : option Z;
  sa_uniqueWords : option Z
}.

(** The running [score], [feedback], [issues] and [details] of an
    analysis, and the statements that update them. *)
Record Acc := {
  a_score : Z;
  a_feedback : list string;
  a_issues : list string;
  a_details : list string
}.

Definition start (base : Z) : Acc :=
  {| a_score := base; a_feedback := []; a_issues := []; a_details := [] |}.

Definition add (points : Z) (a : Acc) : Acc :=
  {| a_score := a_score a + points; a_feedback := a_feedback a;
     a_issues := a_issues a; a_details := a_details a |}.

Definition say (msg : string) (a : Acc) : Acc :=
  {| a_score := a_score a; a_feedback := (a_feedback a ++ [msg])%list;
     a_issues := a_issues a; a_details := a_details a |}.

Definition issue (msg : string) (a : Acc) : Acc :=
  {| a_score := a_score a; a_feedback := a_feedback a;
     a_issues := (a_issues a ++ [msg])%list; a_details := a_details a |}.

Definition detail (msg : string) (a : Acc) : Acc :=
  {| a_score := a_score a; a_feedback := a_feedback a;
     a_issues := a_issues a; a_details := (a_details a ++ [msg])%list |}.

(** Statements in sequence. *)
Definition seq2 (f g : Acc -> Acc) : Acc -> Acc := fun a => g (f a).
Notation "f ;; g" := (seq2 f g) (at level 61, left associativity).
Definition skip : Acc -> Acc := fun a => a.

(** [score = Math.min(100, Math.max(0, score))] followed by the result
    object; [Math.round] leaves the integer unchanged. *)
Definition finish (assess : Z -> string) (a : Acc) : SkillAnalysis :=
  let score := clamp (a_score a) in
  {| score := score;
     feedback := a_feedback a;
     issues := a_issues a;
     details := a_details a;
     honestAssessment := assess score;
     stats := None;
     sa_wordCount := None;
     sa_uniqueWords := None |}.

Definition getPronunciationAssessment (score : Z) : string :=
  if 80 <=? score then "Your pronunciation is excellent. Native speakers understand you easily."
  else if 65 <=? score then "Good pronunciation with minor issues. Keep practicing difficult sounds."
  else if 50 <=? score then "Pronunciation is developing. Practice with native audio regularly."
  else "Focus on basic pronunciation. Record yourself and compare with natives.".

Definition analyzePronunciation (features : Features)
  (transcription : option TranscriptAnalysis) : SkillAnalysis :=
  let clarity := or_else (clarity features) 50 in
  let pitchVar := or_else (parseFloat (pitchVariation features)) 0 in
  finish getPronunciationAssessment
    (( (if geb clarity 80 then
          add 25 ;; say "Excellent speech clarity" ;;
          detail "Your articulation is clear and easy to understand"
        else if geb clarity 60 then add 15 ;; say "Good clarity overall"
        else if geb clarity 40 then add 5 ;; issue "Work on clearer articulation"
        else add (-10) ;; issue "Pronunciation needs significant improvement") ;;
       (if geb pitchVar 0.25 && (pitchVar <=? 0.55)%float then
          add 15 ;; say "Natural intonation"
        else if (pitchVar <? 0.15)%float then
          add (-12) ;; issue "Speech sounds monotone - add expression"
        else if gtb pitchVar 0.7 then add (-5) ;; issue "Intonation too varied"
        else add 8) ;;
       (if geb (volumeConsistency features) 0.6 then
          add 10 ;; say "Consistent volume"
        else if (volumeConsistency features <? 0.3)%float then
          add (-5) ;; issue "Volume varies too much"
        else skip) ;;
       (match transcription with
        | Some transcription =>
            if 0 <? wordCount transcription then
              let avgWordLength := or_else (parseFloat (avgWordLength transcription)) 0 in
              if geb avgWordLength 4.5 then
                add 5 ;; detail "Clear pronunciation of longer words detected"
              else skip
            else skip
        | None => skip
        end))
       (start 50)).

Definition getFluencyAssessment (score : Z) : string :=
  if 80 <=? score then "Excellent fluency! You speak naturally and smoothly."
  else if 65 <=? score then "Good fluency with some hesitations. Practice speaking without pausing."
  else if 50 <=? score then "Fluency needs work. Try shadowing exercises."
  else "Significant fluency issues. Focus on reducing pauses and filler words.".

Definition analyzeFluency (features : Features)
  (transcription : option TranscriptAnalysis) : SkillAnalysis :=
  let duration := or_else (f_duration features) 0 in
  let pauseCount := or_default (totalPauses features) 0 in
  let pauseDuration := or_else (pauseDuration features) 0 in
  let speechRate := or_else (speechRate features) 100 in
  let pauseRatio := if gtb duration 0 then (pauseDuration / duration)%float else 0%float in
  let result :=
    finish getFluencyAssessment
      (( (if (pauseRatio <? 0.15)%float && (3 <=? pauseCount) && (pauseCount <=? 12) then
            add 28 ;; say "Excellent fluency with natural pauses"
          else if (pauseRatio <? 0.25)%float && (pauseCount <=? 18) then
            add 18 ;; say "Good fluency overall"
          else if (pauseRatio <? 0.35)%float then
            add 8 ;; issue "Reduce hesitations between thoughts"
          else add (-10) ;; issue "Too many pauses - practice speaking more smoothly") ;;
         (if geb speechRate 110 && (speechRate <=? 150)%float then
            add 18 ;; say "Natural speaking pace"
          else if geb speechRate 90 && (speechRate <? 110)%float then
            add 10 ;; issue "Try speaking a bit faster"
          else if gtb speechRate 150 && (speechRate <=? 170)%float then
            add 10 ;; issue "Slow down slightly"
          else if (speechRate <? 90)%float then
            add (-5) ;; issue "Speaking too slowly"
          else add (-10) ;; issue "Speaking too fast - listeners may struggle") ;;
         (match transcription with
          | Some transcription =>
              let fillerRatio := or_else (parseFloat (fillerRatio transcription)) 0 in
              if gtb fillerRatio 8 then
                add (-15) ;;
                issue ("Too many filler words (" ++ show_Z (fillerWordCount transcription)
                       ++ " detected)") ;;
                detail ("Common fillers: " ++ join ", " (map fst (fillerWords transcription)))
              else if gtb fillerRatio 4 then
                add (-8) ;; issue ("Reduce filler words like " ++ quoted "um" ++ ", " ++ quoted "uh"
                                 ++ ", " ++ quoted "like")
              else if (fillerRatio <=? 2)%float then
                add 5 ;; say "Minimal filler words - great fluency!"
              else skip
          | None => skip
          end))
         (start 50)) in
  {| score := score result;
     feedback := feedback result;
     issues := issues result;
     details := details result;
     honestAssessment := honestAssessment result;
     stats :=
       Some {| st_pauseRatio := toFixed 1 (pauseRatio * 100)%float ++ "%";
               st_speechRate := speechRate;
               st_pauseCount := pauseCount;
               st_fillerWords :=
                 match transcription with
                 | Some transcription => fillerWordCount transcription
                 | None => 0
                 end |};
     sa_wordCount := None;
     sa_uniqueWords := None |}.

(** [vocabMap[topic] || 'general vocabulary']: a topic that names an
    inherited member yields that member, which is truthy and is printed
    into the detail. *)
Definition getTopicVocabulary (topic : string) : string :=
  let vocabMap :=
    [ ("introduction", "personal, background, experience, interests, hobbies");
      ("education", "academic, learning, skills, courses, degree, university");
      ("work", "career, professional, responsibilities, achievements, colleagues");
      ("technology", "digital, innovation, devices, software, artificial intelligence");
      ("environment", "nature, sustainability, climate, ecosystem, pollution");
      ("health", "wellness, fitness, nutrition, mental health, lifestyle");
      ("travel", "culture, destinations, experiences, adventure, tourism");
      ("sports", "competition, training, teamwork, fitness, championship");
      ("food", "cuisine, cooking, ingredients, nutrition, restaurant") ] in
  match lookup topic vocabMap with
  | Some words => words
  | None => if mem topic inherited then member_text topic else "general vocabulary"
  end.

Definition getVocabularyAssessment (score : Z) : string :=
  if 80 <=? score then "Excellent vocabulary range! You use varied and sophisticated words."
  else if 65 <=? score then "Good vocabulary. Continue learning new words daily."
  else if 50 <=? score then "Vocabulary is developing. Read more to expand your word bank."
  else "Limited vocabulary. Focus on learning common words and phrases first.".

(** [x || null] on a count. *)
Definition or_null (x : Z) : option Z := if x =? 0 then None else Some x.

(** The topic is a string; the empty string (like a missing topic) is
    falsy. *)
Definition analyzeVocabulary (features : Features) (topic : string)
  (transcription : option TranscriptAnalysis) : SkillAnalysis :=
  let with_transcript (transcription : TranscriptAnalysis) : Acc -> Acc :=
    let wordCount := wordCount transcription in
    let richness := or_else (parseFloat (vocabularyRichness transcription)) 0 in
    (if 150 <=? wordCount then
       add 20 ;; say ("Good vocabulary demonstration (" ++ show_Z wordCount ++ " words)")
     else if 80 <=? wordCount then
       add 12 ;; say ("Adequate word count (" ++ show_Z wordCount ++ " words)")
     else add 5 ;; issue "Speak more to demonstrate vocabulary range") ;;
    (if geb richness 65 then
       add 18 ;; say "Excellent word variety" ;;
       detail (show_Z (uniqueWordCount transcription) ++ " unique words used")
     else if geb richness 45 then add 12 ;; say "Good word variety"
     else add 5 ;; issue "Use more varied vocabulary - avoid repetition") ;;
    (if 5 <=? advancedWordCount transcription then
       add 15 ;; say "Strong use of advanced vocabulary" ;;
       detail ("Advanced words: " ++ join ", " (firstn 5 (advancedWords transcription)))
     else if 2 <=? advancedWordCount transcription then
       add 8 ;; say "Some advanced vocabulary used"
     else issue "Try using more sophisticated vocabulary") in
  let from_audio : Acc -> Acc :=
    let duration := or_else (f_duration features) 0 in
    let speechRate := or_else (speechRate features) 100 in
    let estimatedWords :=
      Math_round ((duration - or_else (pauseDuration features) 0) * (speechRate / 60))%float in
    if geb estimatedWords 150 then add 25 ;; say "Good vocabulary range demonstrated"
    else if geb estimatedWords 80 then add 15
    else issue "Speak longer to show vocabulary" in
  let result :=
    finish getVocabularyAssessment
      (( (match transcription with
          | Some transcription =>
              if 0 <? wordCount transcription then with_transcript transcription
              else from_audio
          | None => from_audio
          end) ;;
         (if nonempty topic && negb (String.eqb topic "custom") then
            add 5 ;;
            detail ("Topic vocabulary expected: " ++ getTopicVocabulary topic)
          else skip))
         (start 45)) in
  {| score := score result;
     feedback := feedback result;
     issues := issues result;
     details := details result;
     honestAssessment := honestAssessment result;
     stats := None;
     sa_wordCount :=
       match transcription with Some t => or_null (wordCount t) | None => None end;
     sa_uniqueWords :=
       match transcription with Some t => or_null (uniqueWordCount t) | None => None end |}.

Definition getGrammarAssessment (score : Z) : string :=
  if 80 <=? score then "Grammar appears strong with complex structures used correctly."
  else if 65 <=? score then "Good grammar control. Focus on advanced structures."
  else if 50 <=? score then "Grammar is adequate. Review common error patterns."
  else "Grammar needs attention. Start with basic sentence structures.".

(** The disclaimer is pushed onto [details] after the score has been
    clamped, which leaves the score as it is; the [limitation] member is
    a constant string and is not kept. *)
Definition analyzeGrammar (features : Features)
  (transcription : option TranscriptAnalysis) : SkillAnalysis :=
  finish getGrammarAssessment
    (( (if geb (volumeConsistency features) 0.6 && geb (speechRate features) 100 then
          add 15 ;; say "Confident speech suggests good grammar control"
        else if geb (volumeConsistency features) 0.4 then add 8
        else issue "Hesitation may indicate grammar uncertainty") ;;
       (match transcription with
        | Some transcription =>
            let gi := grammarIndicators transcription in
            let avgWords := or_else (parseFloat (avgWordsPerSentence transcription)) 0 in
            (if hasComplexSentences gi then
               add 12 ;; say "Uses complex sentence structures" else skip) ;;
            (if hasConditionals gi then
               add 8 ;; say "Good use of conditionals" else skip) ;;
            (if hasPerfectTenses gi then
               add 8 ;; say "Uses perfect tenses correctly" else skip) ;;
            (if hasPassiveVoice gi then
               add 5 ;; detail "Passive voice structures detected" else skip) ;;
            (if geb avgWords 12 then add 8 ;; say "Good sentence complexity"
             else if (avgWords <? 6)%float then
               issue "Try using longer, more complex sentences"
             else skip)
        | None => skip
        end) ;;
       (if geb (clarity features) 70 then add 8 ;; say "Clear speech structure"
        else skip) ;;
       detail "Note: Full grammar accuracy requires human review")
       (start 50)).

Definition getCoherenceAssessment (score : Z) : string :=
  if 80 <=? score then "Excellent organization! Ideas flow logically."
  else if 65 <=? score then "Good coherence. Use more transition words."
  else if 50 <=? score then "Organization needs work. Plan before speaking."
  else "Focus on clear structure: introduction, body, conclusion.".

Definition analyzeCoherence (features : Features)
  (transcription : option TranscriptAnalysis) : SkillAnalysis :=
  let pauseScore := or_default (pauseScore features) 50 in
  let pitchVar := or_else (parseFloat (pitchVariation features)) 0 in
  let duration := or_else (f_duration features) 0 in
  finish getCoherenceAssessment
    (( (if 85 <=? pauseScore then add 20 ;; say "Well-organized speech structure"
        else if 70 <=? pauseScore then add 15 ;; say "Good organization"
        else add 5 ;; issue "Organize ideas more clearly") ;;
       (if geb pitchVar 0.2 && (pitchVar <=? 0.5)%float then
          add 12 ;; say "Good use of emphasis"
        else skip) ;;
       (match transcription with
        | Some transcription =>
            let ci := coherenceIndicators transcription in
            (if hasIntroduction ci then add 10 ;; say "Clear introduction detected"
             else issue "Start with a clear introduction") ;;
            (if hasConclusion ci then add 10 ;; say "Good conclusion"
             else issue "End with a clear conclusion") ;;
            (if hasTransitionWords ci && (0 <? len (transitionWordsUsed ci)) then
               add (len (transitionWordsUsed ci) * 3) ;;
               say ("Uses transition words: "
                    ++ join ", " (firstn 3 (transitionWordsUsed ci)))
             else issue "Use linking words: however, therefore, moreover")
        | None => skip
        end) ;;
       (if geb duration 60 && (duration <=? 180)%float then add 5
        else if (duration <? 30)%float then
          add (-10) ;; issue "Response too short for coherent development"
        else skip))
       (start 45)).

Record TimeAnalysis := {
  ta_score : Z;
  ta_feedback : string;
  ta_issues : list string;
  ta_duration : float;
  ta_minutes : string
}.

Definition analyzeTimeManagement (features : Features) : TimeAnalysis :=
  let duration := or_else (f_duration features) 0 in
  let minutes := (duration / 60)%float in
  let '(score, feedback, issues) :=
    if (minutes <? 0.5)%float then
      (30, "Too short! Aim for 1-2 minutes minimum",
       ["Expand your response with more details"])
    else if geb minutes 0.5 && (minutes <? 1)%float then
      (55, "A bit short. Add more content", ["Include examples and explanations"])
    else if geb minutes 1 && (minutes <=? 2.5)%float then
      (95, "Perfect timing! Well-balanced response", [])
    else if gtb minutes 2.5 && (minutes <=? 3.5)%float then
      (82, "Good length, slightly long", ["Be more concise"])
    else
      (65, "Too long. Focus on key points", ["Practice summarizing"]) in
  {| ta_score := score;
     ta_feedback := feedback;
     ta_issues := issues;
     ta_duration := duration;
     ta_minutes := toFixed 1 minutes |}.

(** *** Scoring *)

(** One round of the [for (let key in scores)] loop.  For a key that
    [weights] does not have, [this.weights[key]] is [undefined] and 0.1
    takes its place, unless the key is the name of an inherited member:
    that member is truthy and, as a factor, [NaN]. *)
Definition overall_step (this : Analyzer) (totalScore : float) (entry : string * Z)
  : float :=
  let weight :=
    match lookup (fst entry) (weights this) with
    | Some w => or_else w 0.1
    | None => if mem (fst entry) inherited then nan else 0.1%float
    end in
  (totalScore + or_else (of_Z (snd entry)) 0 * weight)%float.

Definition calculateOverallScore (this : Analyzer) (scores : list (string * Z))
  : float :=
  let totalScore := fold_left (overall_step this) scores 0%float in
  Math_round (Math_min 100 (Math_max 0 totalScore)).

Definition in_range (overallScore : float) (range : LevelRange) : bool :=
  geb overallScore (min range) && (overallScore <? max range)%float.

Fixpoint first_level (overallScore : float) (levels : list (string * LevelRange))
  : option string :=
  match levels with
  | [] => None
  | (level, range) :: rest =>
      if in_range overallScore range then Some level
      else first_level overallScore rest
  end.

Definition determineLevel (this : Analyzer) (overallScore : float) : string :=
  match first_level overallScore (levelThresholds this) with
  | Some level => level
  | None => "C2"
  end.

(** *** Feedback generation *)

Inductive Severity := high | medium | low.

Definition severity_order (s : Severity) : Z :=
  match s with high => 0 | medium => 1 | low => 2 end.

(** The [icon] members hold a pictograph each and are left out, here
    and in the recommendations. *)
Record ErrorEntry := {
  e_type : string;
  severity : Severity;
  e_description : string;
  examples : list string
}.

(** The five analyses in the order of the object literal that the
    caller builds. *)
Record Analyses := {
  pronunciation : SkillAnalysis;
  fluency : SkillAnalysis;
  vocabulary : SkillAnalysis;
  grammar : SkillAnalysis;
  coherence : SkillAnalysis
}.

Definition entries (analyses : Analyses) : list (string * SkillAnalysis) :=
  [ ("pronunciation", pronunciation analyses);
    ("fluency", fluency analyses);
    ("vocabulary", vocabulary analyses);
    ("grammar", grammar analyses);
    ("coherence", coherence analyses) ].

Definition skillMap : list (string * string) :=
  [ ("pronunciation", "Pronunciation"); ("fluency", "Fluency");
    ("vocabulary", "Vocabulary"); ("grammar", "Grammar");
    ("coherence", "Coherence") ].

Definition identifyErrors (analyses : Analyses) : list ErrorEntry :=
  let threshold := 58 in
  let errors :=
    flat_map
      (fun entry : string * SkillAnalysis =>
         let '(skill, data) := entry in
         match lookup skill skillMap with
         | Some name =>
             if score data <? threshold then
               [ {| e_type := name;
                    severity :=
                      if score data <? 40 then high
                      else if score data <? 50 then medium else low;
                    e_description := honestAssessment data;
                    examples := issues data |} ]
             else []
         | None => []
         end)
      (entries analyses) in
  sort (fun a b => severity_order (severity a) <=? severity_order (severity b)) errors.

Record SkillScore := {
  ss_name : string;
  ss_score : Z
}.

Record StrengthsWeaknesses := {
  strengths : list SkillScore;
  weaknesses : list SkillScore
}.

Definition identifyStrengthsWeaknesses (analyses : Analyses) : StrengthsWeaknesses :=
  let skills :=
    sort (fun a b => ss_score b <=? ss_score a)
      (map (fun entry : string * SkillAnalysis =>
              {| ss_name := capitalize (fst entry); ss_score := score (snd entry) |})
         (entries analyses)) in
  {| strengths := firstn 3 (filter (fun s => 65 <=? ss_score s) skills);
     weaknesses := rev (last_n 3 (filter (fun s => ss_score s <? 58) skills)) |}.

Inductive Priority := priority_high | priority_medium.

Record Recommendation := {
  priority : Priority;
  category : string;
  title : string;
  rec_description : string;
  actions : list string
}.

Definition getSkillRecommendation (skill : string) (data : SkillAnalysis)
  : Recommendation :=
  let recs :=
    [ ("pronunciation",
       ("Improve Pronunciation", "Focus on clear articulation",
        [ "Use pronunciation apps (ELSA, Speechling)";
          "Record yourself and compare with natives";
          "Practice difficult sounds daily";
          "Learn word stress patterns" ]));
      ("fluency",
       ("Improve Fluency", "Speak more smoothly",
        [ "Practice shadowing technique";
          "Read aloud for 10 minutes daily";
          "Reduce thinking time before speaking";
          "Learn common phrases and expressions" ]));
      ("vocabulary",
       ("Expand Vocabulary", "Learn and use more words",
        [ "Learn 5-10 new words daily";
          "Use spaced repetition apps";
          "Read extensively on various topics";
          "Use new words in sentences immediately" ]));
      ("grammar",
       ("Strengthen Grammar", "Master sentence structures",
        [ "Focus on one grammar rule per week";
          "Practice with grammar exercises";
          "Write sentences using new structures";
          "Get feedback from teachers or apps" ]));
      ("coherence",
       ("Improve Organization", "Structure your ideas clearly",
        [ "Use introduction-body-conclusion structure";
          "Learn transition words";
          "Plan your response before speaking";
          "Practice IELTS/TOEFL speaking tasks" ])) ] in
  let '(title, description, actions) :=
    match lookup skill recs with
    | Some template => template
    | None => ("", "", [])
    end in
  {| priority := if score data <? 50 then priority_high else priority_medium;
     category := capitalize skill;
     title := title;
     rec_description := description;
     actions := actions |}.

Definition fillerRecommendation (fillerWordCount : Z) : Recommendation :=
  {| priority := priority_high;
     category := "Fluency";
     title := "Reduce Filler Words";
     rec_description := "You used " ++ show_Z fillerWordCount ++ " filler words";
     actions :=
       [ "Practice pausing silently instead of saying " ++ quoted "um";
         "Record yourself and count filler words";
         "Slow down and think before speaking";
         "Use transition words instead of fillers" ] |}.

Definition foundationRecommendation : Recommendation :=
  {| priority := priority_high;
     category := "Foundation";
     title := "Build Strong Foundation";
     rec_description := "Focus on basic skills first";
     actions :=
       [ "Learn the 1000 most common English words";
         "Practice basic sentence patterns daily";
         "Watch English videos with subtitles";
         "Speak English for 10 minutes every day" ] |}.

(** [skills], sorted by ascending score. *)
Definition skills_by_score (analyses : Analyses) : list (string * SkillAnalysis) :=
  sort (fun a b => score (snd a) <=? score (snd b)) (entries analyses).

(** [recommendations.push(x)] under a condition. *)
Definition push_if {A} (cond : bool) (x : A) (l : list A) : list A :=
  if cond then (l ++ [x])%list else l.

(** The array [skills] always has five elements, so [skills[0]] and
    [skills[1]] exist; the last case is never taken. *)
Definition generateRecommendations (analyses : Analyses) (level : string)
  (transcriptionAnalysis : option TranscriptAnalysis) : list Recommendation :=
  match skills_by_score analyses with
  | weakest :: second :: _ =>
      let r0 := [] in
      let r1 :=
        push_if (score (snd weakest) <? 65)
          (getSkillRecommendation (fst weakest) (snd weakest)) r0 in
      let r2 :=
        push_if (score (snd second) <? 60)
          (getSkillRecommendation (fst second) (snd second)) r1 in
      let r3 :=
        match transcriptionAnalysis with
        | Some t =>
            push_if (5 <? fillerWordCount t) (fillerRecommendation (fillerWordCount t)) r2
        | None => r2
        end in
      let r4 :=
        push_if (String.eqb level "A1" || String.eqb level "A2")
          foundationRecommendation r3 in
      firstn 4 r4
  | _ => []
  end.

(** The sections of the feedback markup.  Each section is a fixed
    template around the values kept here. *)
Inductive FeedbackPart :=
| OverallPart (level description : string) (overallScore duration : float)
    (wordsSpoken : option Z)
| TranscriptionPart (rawText : string) (words unique sentences : Z)
    (fillers : option Z)
| SkillPart (name : string) (score : Z) (feedbackText : string)
    (honestAssessment : option string) (stats : option FluencyStats)
    (issuesText detailsText : string).

Fixpoint ends_with_dot (s : string) : bool :=
  match s with
  | EmptyString => false
  | String c EmptyString => Ascii.eqb c "."
  | String _ rest => ends_with_dot rest
  end.

Definition with_final_dot (feedbackText : string) : string :=
  if nonempty feedbackText && negb (ends_with_dot feedbackText)
  then feedbackText ++ "." else feedbackText.

Definition skill_part (name : string) (d : SkillAnalysis) : FeedbackPart :=
  SkillPart name (score d) (with_final_dot (join ". " (feedback d)))
    (if nonempty (honestAssessment d) then Some (honestAssessment d) else None)
    (stats d) (join ". " (issues d)) (join ". " (details d)).

Definition time_part (d : TimeAnalysis) : FeedbackPart :=
  SkillPart "Time" (ta_score d) (with_final_dot (ta_feedback d)) None None
    (join ". " (ta_issues d)) "".

Definition generateDetailedFeedback (analyses : Analyses)
  (timeManagement : TimeAnalysis) (level description : string)
  (overallScore : float) (audioFeatures : Features)
  (transcriptionAnalysis : option TranscriptAnalysis) : list FeedbackPart :=
  ([ OverallPart level description overallScore (f_duration audioFeatures)
       (option_map wordCount transcriptionAnalysis) ]
   ++ match transcriptionAnalysis with
      | Some t =>
          if nonempty (rawText t) then
            [ TranscriptionPart (rawText t) (wordCount t) (uniqueWordCount t)
                (sentenceCount t)
                (if 0 <? fillerWordCount t then Some (fillerWordCount t) else None) ]
          else []
      | None => []
      end
   ++ [ skill_part "Pronunciation" (pronunciation analyses);
        skill_part "Fluency" (fluency analyses);
        skill_part "Vocabulary" (vocabulary analyses);
        skill_part "Grammar" (grammar analyses);
        skill_part "Coherence" (coherence analyses);
        time_part timeManagement ])%list.

(** *** The main analysis *)

Record Assessment := {
  level : string;
  levelDescription : string;
  overallScore : float;
  scores : list (string * Z);
  detailedFeedback : list FeedbackPart;
  errors : list ErrorEntry;
  recommendations : list Recommendation;
  as_strengths : list SkillScore;
  as_weaknesses : list SkillScore;
  topic : string;
  as_duration : float;
  transcription : option TranscriptAnalysis;
  timestamp : Z;
  analysisVersion : string
}.

(** The score object passed to [calculateOverallScore], in the order of
    its literal. *)
Definition score_entries (analyses : Analyses) (timeManagement : TimeAnalysis)
  : list (string * Z) :=
  [ ("pronunciation", score (pronunciation analyses));
    ("fluency", score (fluency analyses));
    ("vocabulary", score (vocabulary analyses));
    ("grammar", score (grammar analyses));
    ("coherence", score (coherence analyses));
    ("time", ta_score timeManagement) ].

Definition analyze_skills (audioFeatures : Features) (topic : string)
  (transcriptionAnalysis : option TranscriptAnalysis) : Analyses :=
  {| pronunciation := analyzePronunciation audioFeatures transcriptionAnalysis;
     fluency := analyzeFluency audioFeatures transcriptionAnalysis;
     vocabulary := analyzeVocabulary audioFeatures topic transcriptionAnalysis;
     grammar := analyzeGrammar audioFeatures transcriptionAnalysis;
     coherence := analyzeCoherence audioFeatures transcriptionAnalysis |}.

(** [now] is the instant read by [new Date()], in milliseconds; the
    [timestamp] member is its ISO rendering.  Reading [description] from
    a level that the thresholds do not list raises a [TypeError], which
    the [catch] block rethrows. *)
Definition analyzeFullSpeaking (this : Analyzer) (audioFeatures : Features)
  (topic : string) (transcriptionAnalysis : option TranscriptAnalysis) (now : Z)
  : outcome Assessment :=
  let analyses := analyze_skills audioFeatures topic transcriptionAnalysis in
  let timeManagement := analyzeTimeManagement audioFeatures in
  let overallScore :=
    calculateOverallScore this (score_entries analyses timeManagement) in
  let level := determineLevel this overallScore in
  match lookup level (levelThresholds this) with
  | None => Throws "Failed to analyze speaking: "
  | Some levelInfo =>
      let errors := identifyErrors analyses in
      let recommendations :=
        generateRecommendations analyses level transcriptionAnalysis in
      let detailedFeedback :=
        generateDetailedFeedback analyses timeManagement level
          (description levelInfo) overallScore audioFeatures transcriptionAnalysis in
      let analysis := identifyStrengthsWeaknesses analyses in
      Returns
        {| level := level;
           levelDescription := description levelInfo;
           overallScore := overallScore;
           scores :=
             [ ("pronunciation", score (pronunciation analyses));
               ("vocabulary", score (vocabulary analyses));
               ("fluency", score (fluency analyses));
               ("grammar", score (grammar analyses));
               ("time", ta_score timeManagement);
               ("coherence", score (coherence analyses)) ];
           detailedFeedback := detailedFeedback;
           errors := errors;
           recommendations := recommendations;
           as_strengths := strengths analysis;
           as_weaknesses := weaknesses analysis;
           topic := topic;
           as_duration := f_duration audioFeatures;
           transcription := transcriptionAnalysis;
           timestamp := now;
           analysisVersion := "4.0" |}
  end.

End AIAnalyzer.

(** ** Classes of binary64 values *)

Module Binary64.

(** Zero of either sign, a positive finite number or [+infinity]. *)
Definition nonneg (x : spec_float) : bool :=
  match x with
  | S754_zero _ | S754_infinity false | S754_finite false _ _ => true
  | _ => false
  end.

Definition is_number (x : spec_float) : bool :=
  match x with S754_nan => false | _ => true end.


(** [x] is not [NaN]. *)
Definition number (x : float) : Prop := is_nan x = false.

(** [x] is one of the integers [lo..hi]. *)
Definition integer_between (lo hi : Z) (x : float) : Prop :=
  exists k, lo <= k <= hi /\ x = JsNum.of_Z k.

(** A check of [count] consecutive integers from [lo] on, by halving. *)
Fixpoint all_range (P : Z -> bool) (lo : Z) (count : positive) : bool :=
  match count with
  | xH => P lo
  | xO half => all_range P lo half && all_range P (lo + Zpos half) half
  | xI half =>
      P lo && all_range P (lo + 1) half && all_range P (lo + 1 + Zpos half) half
  end.

End Binary64.

(** ** The design document's formulations *)

(** The definitions below restate, in the words of the design document,
    what the functions above are meant to compute; the theorems compare
    the two. *)

Module Design.
Import JsNum AudioProcessor Transcriber AIAnalyzer.

(** Level bands: A1 [0,28), A2 [28,42), B1 [42,58), B2 [58,73),
    C1 [73,87), C2 from 87 upwards. *)
Definition band_of (s : Z) : string :=
  if s <? 28 then "A1"
  else if s <? 42 then "A2"
  else if s <? 58 then "B1"
  else if s <? 73 then "B2"
  else if s <? 87 then "C1"
  else "C2".

(** The levels whose half-open band [min, max) contains the score. *)
Definition matching_bands (this : Analyzer) (overallScore : float) : list string :=
  map fst (filter (fun entry => in_range overallScore (snd entry)) (levelThresholds this)).

(** Overall score: round(clamp(sum of score x weight, 0, 100)) with the
    weights pronunciation .22, fluency .22, vocabulary .18, grammar .15,
    coherence .13, time .10.  The weights are hundredths, so the sum of
    integer scores is a number of hundredths, kept here as an integer. *)
Definition weight_percent (skill : string) : Z :=
  if String.eqb skill "pronunciation" then 22
  else if String.eqb skill "fluency" then 22
  else if String.eqb skill "vocabulary" then 18
  else if String.eqb skill "grammar" then 15
  else if String.eqb skill "coherence" then 13
  else if String.eqb skill "time" then 10
  else 0.

Definition skill_names : list string :=
  ["pronunciation"; "fluency"; "vocabulary"; "grammar"; "coherence"; "time"].

(** The sum of score x weight, in hundredths. *)
Definition weighted_hundredths (scores : list (string * Z)) : Z :=
  fold_right (fun entry sum => snd entry * weight_percent (fst entry) + sum) 0 scores.

(** round(clamp(sum, 0, 100)) of the exact sum, a half rounding up as
    [Math.round] does. *)
Definition overall_exact (scores : list (string * Z)) : Z :=
  (Z.min 10000 (Z.max 0 (weighted_hundredths scores)) + 50) / 100.

(** Pause detection: the lengths, in samples, of the maximal runs of
    consecutive samples below the silence threshold, in buffer order, the
    run still in progress at the end of the buffer included.  [current]
    is the length of the run in progress. *)
Definition run_if_any (current : Z) : list Z :=
  if 0 <? current then [current] else [].

Fixpoint silent_runs_from (current : Z) (samples : list float) : list Z :=
  match samples with
  | [] => run_if_any current
  | sample :: rest =>
      if silent sample then silent_runs_from (current + 1) rest
      else (run_if_any current ++ silent_runs_from 0 rest)%list
  end.

Definition silent_runs (samples : list float) : list Z := silent_runs_from 0 samples.

(** The runs that count as pauses: those of at least
    [floor (0.3 * sampleRate)] samples. *)
Definition pauses (samples : list float) (sampleRate : float) : list Z :=
  filter (long_enough sampleRate) (silent_runs samples).

(** The pause time, accumulated run by run. *)
Definition pause_time (sampleRate : float) (runs : list Z) (start : float) : float :=
  fold_left (fun total run => total + of_Z run / sampleRate)%float runs start.

Definition pause_band (count : Z) : Z :=
  if count <? 3 then 60
  else if count <=? 15 then 95
  else if count <=? 25 then 80
  else 65.

Definition total (runs : list Z) : Z := fold_right Z.add 0 runs.

End Design.

(** ** Sample inputs *)

Module Samples.
Import JsNum AudioProcessor Transcriber AIAnalyzer.

(** A clear, well-paced recording of a minute and a half, without a
    transcript. *)
Definition fluent_features : Features :=
  {| f_duration := 90;
     durationScore := 95;
     durationFeedback := "Perfect duration! Well-balanced speaking time";
     averageVolume := 0.2;
     volumeConsistency := 0.8;
     energyLevel := 0.25;
     totalPauses := 5;
     pauseDuration := 5;
     pauseScore := 95;
     speechRate := 130;
     speechRateScore := 95;
     pitchVariation := "0.300";
     pitchScore := 95;
     clarity := 90 |}.

(** Four minutes with long silences, and its transcript. *)
Definition halting_features : Features :=
  {| f_duration := 240;
     durationScore := 85;
     durationFeedback := "Good length, but slightly long. Try to be more concise";
     averageVolume := 0.2;
     volumeConsistency := 0.585156;
     energyLevel := 0.25;
     totalPauses := 19;
     pauseDuration := 139.57;
     pauseScore := 80;
     speechRate := 63;
     speechRateScore := 70;
     pitchVariation := "0.964";
     pitchScore := 75;
     clarity := 67 |}.

Definition halting_text : string :=
  "I think music helps people. Music helps people relax. Music helps people relax. Music helps people relax. Music helps people relax. Music helps people relax. Music helps people relax. Well, music helps people. Overall music helps people relax.".

Definition halting_transcript : TranscriptAnalysis :=
  analyzeTranscript (Some halting_text).

(** Audio: [n] samples of an alternating tone, and of silence. *)
Definition tone (n : nat) : list float :=
  map (fun i => if Nat.even i then 0.5%float else (-0.25)%float) (seq 0 n).

Definition silence (n : nat) : list float := repeat 0%float n.

Definition buffer_of (sampleRate : float) (channelData : list float) : AudioBuffer :=
  {| duration := (of_Z (Z.of_nat (List.length channelData)) / sampleRate)%float;
     sampleRate := sampleRate;
     channelData := channelData |}.


(** A recording whose first sample is infinite. *)
Definition overdriven : AudioBuffer := buffer_of 8000 (infinity :: tone 999).

(** Speech at 8000 Hz with silent runs of 2500, 100 and 3000 samples,
    the last one at the end of the buffer. *)
Definition speech_with_pauses : AudioBuffer :=
  buffer_of 8000
    (tone 800 ++ silence 2500 ++ tone 800 ++ silence 100 ++ tone 10 ++ silence 3000)%list.

(** What the extractor returns for it. *)
Definition speech_features : Features :=
  Eval vm_compute in
    match extractFeatures (Some speech_with_pauses) with
    | Returns features => features
    | _ => fluent_features
    end.

(** At 11025 Hz, a silent run of 3307 samples followed by one loud
    sample. *)
Definition just_short_run : list float := (silence 3307 ++ [0.5%float])%list.

End Samples.

(** ** transcriber.js: vocabulary level and the running transcript *)

Module Vocabulary.
Import JsNum JsStr Transcriber.

Record VocabularyLevel := {
  vl_level : string;
  vl_score : Z
}.

(** [analysis] is [None] for [null] and [undefined].  Each chain of
    [score += k] (or [score -= k]) under [if ... else if ...] adds (or
    takes away) the [k] of the first condition that holds. *)
Definition detectVocabularyLevel (analysis : option TranscriptAnalysis)
  : VocabularyLevel :=
  match analysis with
  | None => {| vl_level := "Unknown"; vl_score := 0 |}
  | Some analysis =>
      if wordCount analysis =? 0 then {| vl_level := "Unknown"; vl_score := 0 |}
      else
        let score := 0 in
        let score :=
          score + (if 150 <=? wordCount analysis then 20
                   else if 100 <=? wordCount analysis then 15
                   else if 50 <=? wordCount analysis then 10
                   else 5) in
        let richness := parseFloat (vocabularyRichness analysis) in
        let score :=
          score + (if geb richness 70 then 25
                   else if geb richness 50 then 18
                   else if geb richness 35 then 12
                   else 5) in
        let score :=
          score + (if 5 <=? advancedWordCount analysis then 20
                   else if 3 <=? advancedWordCount analysis then 15
                   else if 1 <=? advancedWordCount analysis then 8
                   else 0) in
        let avgWords := parseFloat (avgWordsPerSentence analysis) in
        let score :=
          score + (if geb avgWords 15 then 15
                   else if geb avgWords 10 then 10
                   else if geb avgWords 7 then 5
                   else 0) in
        let fillerRatio := parseFloat (fillerRatio analysis) in
        let score :=
          score - (if gtb fillerRatio 10 then 15
                   else if gtb fillerRatio 5 then 8
                   else if gtb fillerRatio 2 then 3
                   else 0) in
        let score := Z.max 0 (Z.min 100 score) in
        let level :=
          if 80 <=? score then "C1-C2"
          else if 65 <=? score then "B2"
          else if 50 <=? score then "B1"
          else if 35 <=? score then "A2"
          else "A1" in
        {| vl_level := level; vl_score := score |}
  end.

End Vocabulary.

Module Recognition.
Import JsStr.

(** The members of the transcriber that the recognition handlers
    assign. *)
Record State := {
  isTranscribing : bool;
  transcript : string;
  interimTranscript : string
}.

(** The constructor. *)
Definition new_Transcriber : State :=
  {| isTranscribing := false; transcript := ""; interimTranscript := "" |}.

(** One entry of [event.results]: the transcript of its first
    alternative and its [isFinal] flag. *)
Record SpeechResult := {
  r_transcript : string;
  isFinal : bool
}.

(** The loop of [onresult] over [results[resultIndex ..]]:
    [(interim, final)]. *)
Definition result_step (acc : string * string) (result : SpeechResult)
  : string * string :=
  if isFinal result then (fst acc, snd acc ++ r_transcript result ++ " ")
  else (fst acc ++ r_transcript result, snd acc).

(** What the update callback receives. *)
Record Update := {
  u_final : string;
  u_interim : string;
  combined : string
}.

Definition onresult (this : State) (resultIndex : nat) (results : list SpeechResult)
  : State * Update :=
  let '(interim, final) :=
    fold_left result_step (skipn resultIndex results) ("", "") in
  let transcript' :=
    if (0 <? String.length final)%nat then transcript this ++ final
    else transcript this in
  ({| isTranscribing := isTranscribing this;
      transcript := transcript';
      interimTranscript := interim |},
   {| u_final := transcript';
      u_interim := interim;
      combined := transcript' ++ interim |}).

(** [start], once recognition is set up: both texts are cleared. *)
Definition start (this : State) : State :=
  {| isTranscribing := true; transcript := ""; interimTranscript := "" |}.

Fixpoint trim_start (s : string) : string :=
  match s with
  | String c rest => if is_space c then trim_start rest else s
  | EmptyString => s
  end.

(** [String.prototype.trim] *)
Definition trim (s : string) : string :=
  rev_string (trim_start (rev_string (trim_start s) "")) "".

Definition getFullTranscript (this : State) : string :=
  trim (transcript this ++ interimTranscript this).

(** [stop] returns the full transcript. *)
Definition stop (this : State) : State * string :=
  ({| isTranscribing := false;
      transcript := transcript this;
      interimTranscript := interimTranscript this |},
   getFullTranscript this).

End Recognition.

(** ** storage.js: assessments, recordings and statistics in localStorage *)

(** What [JSON.parse(JSON.stringify(x))] gives back for a number: [null]
    for [NaN] and the infinities, [0] for [-0], the number itself
    otherwise. *)
Module Json.

Definition stored (x : float) : option float :=
  match Prim2SF x with
  | S754_nan | S754_infinity _ => None
  | S754_zero _ => Some 0%float
  | S754_finite _ _ _ => Some x
  end.

(** A stored number in arithmetic and comparisons: [null] counts as 0. *)
Definition to_number (j : option float) : float :=
  match j with Some x => x | None => 0%float end.

(** [j || d] *)
Definition or_else (j : option float) (d : float) : float :=
  match j with Some x => JsNum.or_else x d | None => d end.

End Json.

Module StorageManager.
Import JsNum JsStr Transcriber AIAnalyzer.

(** A stored assessment: the analysis with the three members that
    [saveAssessment] adds.  Instants are milliseconds; the source keeps
    their ISO rendering. *)
Record Saved := {
  id : string;
  savedAt : Z;
  version : Z;
  body : Assessment
}.

(** The members of a stored assessment as they are read back. *)
Definition saved_overallScore (a : Saved) : option float :=
  Json.stored (overallScore (body a)).

Record AudioData := {
  data : string;
  type : string;
  size : Z;
  ad_timestamp : Z;
  assessmentId : string
}.

Record ProgressEntry := {
  pe_date : Z;
  pe_level : string;
  pe_score : option float
}.

Record Statistics := {
  totalAssessments : Z;
  totalSpeakingTime : option float;
  averageScore : option float;
  bestScore : option float;
  levelProgress : list ProgressEntry;
  firstAssessment : option Z;
  lastAssessment : option Z
}.

(** The part of [localStorage] that the class uses: the value under
    [STORAGE_KEY], the value under [STATS_KEY] ([None] while the key is
    absent), and the values under [AUDIO_KEY + id], by [id].  Values are
    kept as [JSON.parse] reads them; they are the ones written by the
    class itself. *)
Record Store := {
  assessments : option (list Saved);
  statistics : option Statistics;
  audios : list (string * AudioData)
}.

Definition empty_statistics : Statistics :=
  {| totalAssessments := 0;
     totalSpeakingTime := Some 0%float;
     averageScore := Some 0%float;
     bestScore := Some 0%float;
     levelProgress := [];
     firstAssessment := None;
     lastAssessment := None |}.

Definition init (this : Store) : Store :=
  {| assessments :=
       match assessments this with Some l => Some l | None => Some [] end;
     statistics :=
       match statistics this with Some s => Some s | None => Some empty_statistics end;
     audios := audios this |}.

(** The constructor on a browser that has no data yet. *)
Definition new_StorageManager : Store :=
  init {| assessments := None; statistics := None; audios := [] |}.

Definition getAllAssessments (this : Store) : list Saved :=
  match assessments this with Some l => l | None => [] end.

Definition getStatistics (this : Store) : Statistics :=
  match statistics this with Some s => s | None => empty_statistics end.

(** [localStorage.removeItem(AUDIO_KEY + assessmentId)] *)
Definition deleteAudioFile (this : Store) (assessmentId : string) : Store :=
  {| assessments := assessments this;
     statistics := statistics this;
     audios := filter (fun entry => negb (String.eqb (fst entry) assessmentId)) (audios this) |}.

Definition getAudioFile (this : Store) (assessmentId : string) : option AudioData :=
  lookup assessmentId (audios this).

Definition getAudioPlaybackUrl (this : Store) (assessmentId : string) : option string :=
  match getAudioFile this assessmentId with
  | Some audioData => if nonempty (data audioData) then Some (data audioData) else None
  | None => None
  end.

(** [assessments.slice(20).forEach(a => this.deleteAudioFile(a.id))] *)
Definition cleanOldAudios (this : Store) : Store :=
  fold_left (fun st a => deleteAudioFile st (id a)) (skipn 20 (getAllAssessments this)) this.

(** [localStorage.setItem(AUDIO_KEY + id, ...)]: the key gets the new
    value, whether it was there or not. *)
Definition setAudio (this : Store) (assessmentId : string) (audioData : AudioData)
  : Store :=
  {| assessments := assessments this;
     statistics := statistics this;
     audios :=
       (assessmentId, audioData)
       :: filter (fun entry => negb (String.eqb (fst entry) assessmentId)) (audios this) |}.

(** How the promise of [saveAudioFile] is settled. *)
Inductive Settled :=
| Resolved (audioData : option AudioData)
| Rejected (message : string).

(** [saveAudioFile]: [result] is the data URL that the reader produced
    ([None] when reading failed, with the reader's error), [now] the
    clock, and [fits] tells whether the browser accepts the write or
    raises [QuotaExceededError]. *)
Definition saveAudioFile (this : Store) (result : option string) (error : string)
  (blobType : string) (blobSize : Z) (now : Z) (fits : bool) (assessmentId : string)
  : Store * Settled :=
  match result with
  | None => (this, Rejected error)
  | Some dataUrl =>
      let audioData :=
        {| data := dataUrl;
           type := if nonempty blobType then blobType else "audio/webm";
           size := blobSize;
           ad_timestamp := now;
           assessmentId := assessmentId |} in
      if 5 * 1024 * 1024 <? Z.of_nat (String.length dataUrl) then (this, Resolved None)
      else if fits then (setAudio this assessmentId audioData, Resolved (Some audioData))
      else (cleanOldAudios this, Rejected "Storage full. Old recordings cleaned.")
  end.

(** [updateStatistics]: [now k] is the [k]-th reading of the clock (the
    date of the first assessment is only read when none is stored yet),
    [fits] whether the write of the statistics is accepted; when it is
    not, the [catch] block leaves the stored statistics as they were. *)
Definition updateStatistics (this : Store) (now : nat -> Z) (fits : bool)
  (assessment : Saved) : Store :=
  let stats := getStatistics this in
  let assessments := getAllAssessments this in
  let totalAssessments := Z.of_nat (List.length assessments) in
  let totalSpeakingTime :=
    (Json.to_number (totalSpeakingTime stats)
     + JsNum.or_else (as_duration (body assessment)) 0)%float in
  let lastAssessment := now 0%nat in
  let '(firstAssessment, readings) :=
    match firstAssessment stats with
    | Some first => (first, 1%nat)
    | None => (now 1%nat, 2%nat)
    end in
  let totalScore :=
    fold_left (fun sum a => sum + Json.or_else (saved_overallScore a) 0)%float
      assessments 0%float in
  let averageScore := Math_round (totalScore / of_Z totalAssessments)%float in
  let bestScore :=
    if gtb (overallScore (body assessment)) (Json.to_number (bestScore stats))
    then Json.stored (overallScore (body assessment))
    else bestScore stats in
  let levelProgress :=
    (levelProgress stats
     ++ [ {| pe_date := now readings;
             pe_level := level (body assessment);
             pe_score := Json.stored (overallScore (body assessment)) |} ])%list in
  let levelProgress :=
    if (50 <? List.length levelProgress)%nat then last_n 50 levelProgress
    else levelProgress in
  if fits then
    {| assessments := StorageManager.assessments this;
       statistics :=
         Some {| totalAssessments := totalAssessments;
                 totalSpeakingTime := Json.stored totalSpeakingTime;
                 averageScore := Json.stored averageScore;
                 bestScore := bestScore;
                 levelProgress := levelProgress;
                 firstAssessment := Some firstAssessment;
                 lastAssessment := Some lastAssessment |};
       audios := audios this |}
  else this.

(** [saveAssessment]: [now 0] and [now 1] are the clock readings for
    the id and for [savedAt], the later ones those of
    [updateStatistics]; [random] is the text of
    [Math.random().toString(36).substr(2, 9)]; [fits] tells whether the
    write of the list is accepted and [statsFit] whether the write of the
    statistics is.  The result is the id, or [None] for [null]. *)
Definition saveAssessment (this : Store) (now : nat -> Z) (random : string)
  (fits statsFit : bool) (assessment : Assessment) : Store * option string :=
  let assessments := getAllAssessments this in
  let saved :=
    {| id := "assess_" ++ show_Z (now 0%nat) ++ "_" ++ random;
       savedAt := now 1%nat;
       version := 3;
       body := assessment |} in
  let assessments := saved :: assessments in
  let '(assessments, this) :=
    if (100 <? List.length assessments)%nat then
      (removelast assessments, deleteAudioFile this (id (last assessments saved)))
    else (assessments, this) in
  if fits then
    let this :=
      {| StorageManager.assessments := Some assessments;
         statistics := statistics this;
         audios := audios this |} in
    (updateStatistics this (fun k => now (2 + k)%nat) statsFit saved, Some (id saved))
  else (this, None).

(** [assessments.find(a => a.id === id)]; [None] is [undefined]. *)
Definition getAssessment (this : Store) (id' : string) : option Saved :=
  find (fun a => String.eqb (id a) id') (getAllAssessments this).

(** [deleteAssessment]: the list written is not longer than the one
    read, so the write is accepted; the result is [true]. *)
Definition deleteAssessment (this : Store) (id' : string) : Store * bool :=
  let assessments := getAllAssessments this in
  let filtered := filter (fun a => negb (String.eqb (id a) id')) assessments in
  (deleteAudioFile
     {| StorageManager.assessments := Some filtered;
        statistics := statistics this;
        audios := audios this |} id',
   true).

(** *** Progress *)

(** [list.reduce((sum, a) => sum + (value(a) || 0), 0) / list.length] *)
Definition average (value : Saved -> option float) (list : list Saved) : float :=
  (fold_left (fun sum a => sum + Json.or_else (value a) 0)%float list 0%float
   / of_Z (Z.of_nat (List.length list)))%float.

(** [a.scores?.[skill]] as it is read back. *)
Definition saved_score (skill : string) (a : Saved) : option float :=
  match lookup skill (scores (body a)) with
  | Some s => Json.stored (of_Z s)
  | None => None
  end.

Definition calculateSkillProgress (assessments : list Saved) (skill : string) : float :=
  if (List.length assessments <? 2)%nat then 0%float
  else
    let recent := firstn 3 assessments in
    let older := last_n 3 assessments in
    let recentAvg := average (saved_score skill) recent in
    let olderAvg := average (saved_score skill) older in
    Math_round (recentAvg - olderAvg)%float.

(** The four messages; the first one quotes the rounded improvement. *)
Inductive ProgressMessage :=
| GreatProgress (percent : float)
| MakingProgress
| LowerScores
| SteadyPerformance.

Record SkillProgress := {
  sp_pronunciation : float;
  sp_vocabulary : float;
  sp_fluency : float;
  sp_grammar : float;
  sp_coherence : float
}.

Record Progress := {
  improvement : float;
  isImproving : bool;
  recentAverage : float;
  skillProgress : SkillProgress;
  pr_totalAssessments : Z;
  message : ProgressMessage
}.

(** [None] stands for the object with [hasProgress: false] and the
    request to complete at least 2 assessments. *)
Definition getProgressAnalysis (this : Store) : option Progress :=
  let assessments := getAllAssessments this in
  if (List.length assessments <? 2)%nat then None
  else
    let recent := firstn 5 assessments in
    let older := last_n 5 assessments in
    let recentAvg := average saved_overallScore recent in
    let olderAvg := average saved_overallScore older in
    let improvement := (recentAvg - olderAvg)%float in
    Some
      {| improvement := Math_round improvement;
         isImproving := gtb improvement 0;
         recentAverage := Math_round recentAvg;
         skillProgress :=
           {| sp_pronunciation := calculateSkillProgress assessments "pronunciation";
              sp_vocabulary := calculateSkillProgress assessments "vocabulary";
              sp_fluency := calculateSkillProgress assessments "fluency";
              sp_grammar := calculateSkillProgress assessments "grammar";
              sp_coherence := calculateSkillProgress assessments "coherence" |};
         pr_totalAssessments := Z.of_nat (List.length assessments);
         message :=
           if gtb improvement 5 then GreatProgress (Math_round improvement)
           else if gtb improvement 0 then MakingProgress
           else if (improvement <? -5)%float then LowerScores
           else SteadyPerformance |}.

End StorageManager.

(** ** audio-processor.js: the check of an uploaded file *)

Module FileCheck.
Import JsStr.

(** The members of a [File] that the check reads. *)
Record File := {
  f_type : string;
  f_name : string;
  f_size : Z
}.

Record Validation := {
  valid : bool;
  error : option string
}.

Definition validTypes : list string :=
  [ "audio/mpeg"; "audio/mp3"; "audio/wav"; "audio/wave"; "audio/x-wav";
    "audio/m4a"; "audio/x-m4a"; "audio/aac"; "audio/x-aac"; "audio/ogg"; "audio/webm" ].

Definition extensions : list string := ["mp3"; "wav"; "m4a"; "aac"; "ogg"; "webm"].

(** [s.endsWith(suffix)] *)
Fixpoint ends_with (s suffix : string) : bool :=
  String.eqb s suffix ||
  match s with
  | EmptyString => false
  | String _ rest => ends_with rest suffix
  end.

(** [/\.(mp3|wav|m4a|aac|ogg|webm)$/i.test(name)]: the name ends with
    a dot and one of the extensions, in either letter case. *)
Definition validExtensions (name : string) : bool :=
  existsb (fun extension => ends_with (toLowerCase name) ("." ++ extension)) extensions.

(** [file] is [None] for [null] and [undefined]. *)
Definition validateAudioFile (file : option File) : Validation :=
  match file with
  | None => {| valid := false; error := Some "No file selected" |}
  | Some file =>
      let isValidType := mem (f_type file) validTypes || validExtensions (f_name file) in
      if negb isValidType then
        {| valid := false;
           error := Some "Invalid file type. Please upload MP3, WAV, M4A, AAC, OGG, or WEBM files" |}
      else
        let maxSize := 100 * 1024 * 1024 in
        if maxSize <? f_size file then
          {| valid := false; error := Some "File too large. Maximum size is 100MB" |}
        else if f_size file <? 10000 then
          {| valid := false;
             error := Some "File too small. Please upload a proper audio recording" |}
        else {| valid := true; error := None |}
  end.

End FileCheck.

(** ** ui-controller.js: helpers *)

Module UIController.
Import JsNum JsStr.

(** [s.slice(start, end)] for integers: negative positions count from
    the end. *)
Definition slice (s : string) (start end_ : Z) : string :=
  let len := Z.of_nat (String.length s) in
  let from := if start <? 0 then Z.max (len + start) 0 else Z.min start len in
  let to := if end_ <? 0 then Z.max (len + end_) 0 else Z.min end_ len in
  substring (Z.to_nat from) (Z.to_nat (Z.max (to - from) 0)) s.

Definition truncateText (text : string) (maxLength : Z) : string :=
  if Z.of_nat (String.length text) <=? maxLength then text
  else slice text 0 (maxLength - 3) ++ "...".

(** *** The score bars *)

(** What one run of the interval callback of [animateScore] shows: the
    width of the bar, the number in the label and the class of the bar;
    [stopped] tells whether the callback cleared the interval. *)
Record Frame := {
  width : float;
  label : float;
  className : string;
  stopped : bool
}.

Definition frame_of (current : float) (stopped : bool) : Frame :=
  {| width := current;
     label := Math_round current;
     className :=
       if geb current 73 then "score-fill score-excellent"
       else if geb current 55 then "score-fill score-good"
       else if geb current 40 then "score-fill score-average"
       else "score-fill score-low";
     stopped := stopped |}.

(** The callback: the new [current] and the frame shown. *)
Definition tick (targetScore increment current : float) : float * Frame :=
  let current := (current + increment)%float in
  if geb current targetScore then (targetScore, frame_of targetScore true)
  else (current, frame_of current false).

(** The frames of the first [runs] runs of the callback, up to the one
    that clears the interval. *)
Fixpoint frames (runs : nat) (targetScore increment current : float) : list Frame :=
  match runs with
  | O => []
  | S runs' =>
      let '(current', frame) := tick targetScore increment current in
      if stopped frame then [frame]
      else frame :: frames runs' targetScore increment current'
  end.

Definition animateScore (runs : nat) (targetScore : float) : list Frame :=
  frames runs targetScore (targetScore / 35)%float 0%float.

End UIController.

(** ** brain.js: what the application learns from the sessions *)

(** Objects with keys that are computed at run time. *)
Module JsObject.
Import JsNum JsStr JsProto AIAnalyzer.

(** The functions below do not cover the keys that name an inherited
    member. *)
Definition covered (key : string) : bool := negb (mem key inherited).

Fixpoint all_digits (s : string) : bool :=
  match s with
  | EmptyString => true
  | String c rest => is_digit c && all_digits rest
  end.

Definition value_of (key : string) : Z := fst (fst (read_digits key 0 0)).

(** An array index: the decimal form without a leading zero of an
    integer below [2^32 - 1].  These keys come first, in numeric order;
    the other keys follow in the order of their creation. *)
Definition is_index (key : string) : bool :=
  match key with
  | EmptyString => false
  | String c rest =>
      all_digits key
      && (negb (Ascii.eqb c "0") || (String.length rest =? 0)%nat)
      && (String.length key <=? 10)%nat
      && (value_of key <? 2 ^ 32 - 1)
  end.

Definition has {A} (key : string) (obj : list (string * A)) : bool :=
  existsb (fun entry => String.eqb (fst entry) key) obj.

(** The place of a new index key: behind the smaller indices. *)
Fixpoint insert_index {A} (key : string) (v : A) (obj : list (string * A))
  : list (string * A) :=
  match obj with
  | [] => [(key, v)]
  | entry :: rest =>
      if is_index (fst entry) && (value_of (fst entry) <? value_of key)
      then entry :: insert_index key v rest
      else (key, v) :: obj
  end.

(** [obj[key] = v] *)
Definition set {A} (key : string) (v : A) (obj : list (string * A))
  : list (string * A) :=
  if has key obj then
    map (fun entry => if String.eqb (fst entry) key then (key, v) else entry) obj
  else if is_index key then insert_index key v obj
  else (obj ++ [(key, v)])%list.

(** [Object.fromEntries(entries)] *)
Definition fromEntries {A} (entries : list (string * A)) : list (string * A) :=
  fold_left (fun obj entry => set (fst entry) (snd entry) obj) entries [].

(** [a.slice(-from, -to)] for [from >= to >= 0]: what lies between the
    last [from] and the last [to] elements. *)
Definition slice_back {A} (from to : nat) (l : list A) : list A :=
  skipn (List.length l - from) (firstn (List.length l - to) l).

End JsObject.

Module BrainSystem.
Import JsNum JsStr Transcriber AIAnalyzer JsObject.

(** *** The brain object *)

Record TopicPreference := {
  tp_topic : string;
  tp_count : Z;
  firstUsed : Z;
  lastUsed : Z
}.

(** [nativeLanguage] and [targetLevel] are [null] and never assigned;
    they are left out. *)
Record UserProfile := {
  totalSessions : Z;
  firstSession : option Z;
  lastSession : option Z;
  preferredTopics : list TopicPreference
}.

Record RatedSkill := {
  rs_skill : string;
  rs_score : Z
}.

(** An entry of [improvingSkills] or [decliningSkills] with its
    [improvement] or [decline]; a number is [None] when it has come back
    from storage as [null]. *)
Record Trending := {
  tr_skill : string;
  tr_amount : option float
}.

Record LearningPatterns := {
  strongSkills : list RatedSkill;
  weakSkills : list RatedSkill;
  improvingSkills : list Trending;
  decliningSkills : list Trending
}.

Record Mistake := {
  m_description : string;
  m_severity : Severity;
  m_count : Z;
  firstOccurrence : Z;
  lastOccurrence : Z
}.

Inductive Trend := improving | declining | stable.

Record Mastery := {
  attempts : Z;
  totalScore : option float;
  averageScore : option float;
  bestScore : option float;
  lastScore : option float;
  trend : Trend;
  ms_scores : list (option float)
}.

(** [uniqueWords] is a [Set] in the default brain, an array once
    [saveBrain] has converted it, and the empty object that
    [JSON.stringify] makes of a [Set] otherwise. *)
Inductive UniqueWords :=
| ASet (words : list string)
| AnArray (words : list string)
| AnObject.

Record WordBank := {
  frequentWords : list (string * Z);
  uniqueWords : UniqueWords;
  wb_fillerWords : list (string * Z);
  totalWords : Z
}.

(** The pictographs that open the titles are left out. *)
Record Milestone := {
  ml_type : string;
  ml_title : string;
  ml_description : string;
  ml_date : Z
}.

Inductive TipPriority := tip_high | tip_medium | tip_low.

(** The texts of a tip, by their templates. *)
Inductive TipText :=
| SkillTip (text : string)
| DeclinedTip (skill : string) (decline : option float)
| FillerTip
| TopicTip (topic : string) (average : option float).

Inductive TipReason :=
| ScoreReason (skill : string) (score : Z)
| DecliningReason
| FillerReason (count : Z)
| TopicReason.

Record Tip := {
  tip_priority : TipPriority;
  tip_skill : string;
  tip_text : TipText;
  tip_reason : TipReason
}.

Record Session := {
  se_date : Z;
  se_topic : string;
  se_level : string;
  se_overallScore : option float;
  se_scores : list (string * Z)
}.

Record Brain := {
  userProfile : UserProfile;
  learningPatterns : LearningPatterns;
  commonMistakes : list (string * list Mistake);
  topicMastery : list (string * Mastery);
  wordBank : WordBank;
  milestones : list Milestone;
  personalizedTips : list Tip;
  sessionHistory : list Session
}.

Definition getDefaultBrain : Brain :=
  {| userProfile :=
       {| totalSessions := 0; firstSession := None; lastSession := None;
          preferredTopics := [] |};
     learningPatterns :=
       {| strongSkills := []; weakSkills := [];
          improvingSkills := []; decliningSkills := [] |};
     commonMistakes :=
       [ ("pronunciation", []); ("grammar", []); ("vocabulary", []); ("fluency", []) ];
     topicMastery := [];
     wordBank :=
       {| frequentWords := []; uniqueWords := ASet [];
          wb_fillerWords := []; totalWords := 0 |};
     milestones := [];
     personalizedTips := [];
     sessionHistory := [] |}.

(** *** Storing and loading *)

(** A number or [null] after [JSON.stringify] and [JSON.parse]. *)
Definition json (j : option float) : option float :=
  match j with Some x => Json.stored x | None => None end.

Definition json_mastery (m : Mastery) : Mastery :=
  {| attempts := attempts m;
     totalScore := json (totalScore m);
     averageScore := json (averageScore m);
     bestScore := json (bestScore m);
     lastScore := json (lastScore m);
     trend := trend m;
     ms_scores := map json (ms_scores m) |}.

Definition json_trending (t : Trending) : Trending :=
  {| tr_skill := tr_skill t; tr_amount := json (tr_amount t) |}.

Definition json_session (s : Session) : Session :=
  {| se_date := se_date s; se_topic := se_topic s; se_level := se_level s;
     se_overallScore := json (se_overallScore s); se_scores := se_scores s |}.

(** [JSON.parse(JSON.stringify(brain))]: a [Set] comes back as an empty
    object; texts and whole numbers come back as they were. *)
Definition json_brain (brain : Brain) : Brain :=
  {| userProfile := userProfile brain;
     learningPatterns :=
       {| strongSkills := strongSkills (learningPatterns brain);
          weakSkills := weakSkills (learningPatterns brain);
          improvingSkills := map json_trending (improvingSkills (learningPatterns brain));
          decliningSkills := map json_trending (decliningSkills (learningPatterns brain)) |};
     commonMistakes := commonMistakes brain;
     topicMastery :=
       map (fun entry => (fst entry, json_mastery (snd entry))) (topicMastery brain);
     wordBank :=
       {| frequentWords := frequentWords (wordBank brain);
          uniqueWords :=
            match uniqueWords (wordBank brain) with
            | ASet _ => AnObject
            | other => other
            end;
          wb_fillerWords := wb_fillerWords (wordBank brain);
          totalWords := totalWords (wordBank brain) |};
     milestones := milestones brain;
     personalizedTips := personalizedTips brain;
     sessionHistory := map json_session (sessionHistory brain) |}.

(** The value under [BRAIN_KEY]: [None] while the key is absent. *)
Definition Stored := option Brain.

(** [init]: when the key is absent the default brain is written;
    [fits] tells whether the browser accepts the write, and [None]
    stands for the exception of a refused write, which is not caught. *)
Definition init (stored : Stored) (fits : bool) : option Stored :=
  match stored with
  | Some brain => Some (Some brain)
  | None => if fits then Some (Some (json_brain getDefaultBrain)) else None
  end.

(** The constructor on a browser that has no brain yet. *)
Definition new_BrainSystem (fits : bool) : option Stored := init None fits.

Definition getBrain (stored : Stored) : Brain :=
  match stored with
  | Some brain => brain
  | None => getDefaultBrain
  end.

(** [brain.wordBank.uniqueWords = Array.from(...)] for a [Set]: the
    brain as [saveBrain] leaves it to its caller. *)
Definition converted (brain : Brain) : Brain :=
  {| userProfile := userProfile brain;
     learningPatterns := learningPatterns brain;
     commonMistakes := commonMistakes brain;
     topicMastery := topicMastery brain;
     wordBank :=
       {| frequentWords := frequentWords (wordBank brain);
          uniqueWords :=
            match uniqueWords (wordBank brain) with
            | ASet words => AnArray words
            | other => other
            end;
          wb_fillerWords := wb_fillerWords (wordBank brain);
          totalWords := totalWords (wordBank brain) |};
     milestones := milestones brain;
     personalizedTips := personalizedTips brain;
     sessionHistory := sessionHistory brain |}.

(** [saveBrain]: [fits] tells whether the browser accepts the write. *)
Definition saveBrain (stored : Stored) (fits : bool) (brain : Brain) : Stored :=
  if fits then Some (json_brain (converted brain)) else stored.

(** [resetBrain]: [confirmed] is the answer to the dialog; the write
    is not guarded, as in [init]. *)
Definition resetBrain (stored : Stored) (confirmed fits : bool)
  : option (Stored * bool) :=
  if confirmed then
    if fits then Some (Some (json_brain getDefaultBrain), true) else None
  else Some (stored, false).

(** *** The clock *)

(** A step that reads the clock: [now k] is the [k]-th reading, and a
    step returns its result with the number of readings made so far, or
    [None] when it meets a key that the model does not cover. *)
Definition Step (A : Type) : Type := (nat -> Z) -> nat -> option (A * nat).

Definition ret {A} (a : A) : Step A := fun _ k => Some (a, k).

Definition bind {A B} (m : Step A) (f : A -> Step B) : Step B :=
  fun now k =>
    match m now k with
    | Some (a, k') => f a now k'
    | None => None
    end.

Notation "'do' x <- m ;; f" := (bind m (fun x => f))
  (at level 10, x name, m at level 60, f at level 200).

(** [new Date()] *)
Definition date : Step Z := fun now k => Some (now k, S k).

Definition uncovered {A} : Step A := fun _ _ => None.

(** *** Topics *)

(** [existing.count++; existing.lastUsed = ...] on the first entry of
    the topic. *)
Fixpoint touch (topic : string) (d : Z) (l : list TopicPreference)
  : list TopicPreference :=
  match l with
  | [] => []
  | t :: rest =>
      if String.eqb (tp_topic t) topic then
        {| tp_topic := tp_topic t; tp_count := tp_count t + 1;
           firstUsed := firstUsed t; lastUsed := d |} :: rest
      else t :: touch topic d rest
  end.

Definition with_topics (brain : Brain) (topics : list TopicPreference) : Brain :=
  {| userProfile :=
       {| totalSessions := totalSessions (userProfile brain);
          firstSession := firstSession (userProfile brain);
          lastSession := lastSession (userProfile brain);
          preferredTopics := topics |};
     learningPatterns := learningPatterns brain;
     commonMistakes := commonMistakes brain;
     topicMastery := topicMastery brain;
     wordBank := wordBank brain;
     milestones := milestones brain;
     personalizedTips := personalizedTips brain;
     sessionHistory := sessionHistory brain |}.

Definition updateTopicPreference (brain : Brain) (topic : string) : Step Brain :=
  let topics := preferredTopics (userProfile brain) in
  do topics <-
    (if existsb (fun t => String.eqb (tp_topic t) topic) topics then
       do d <- date ;; ret (touch topic d topics)
     else
       do d1 <- date ;;
       do d2 <- date ;;
       ret (topics ++ [ {| tp_topic := topic; tp_count := 1;
                           firstUsed := d1; lastUsed := d2 |} ])%list) ;;
  let topics := sort (fun a b => tp_count b <=? tp_count a) topics in
  ret (with_topics brain (firstn 10 topics)).

(** [list.reduce((a, b) => a + b, 0) / list.length] on numbers that may
    be [null]. *)
Definition mean (list : list (option float)) : float :=
  (fold_left (fun a b => a + Json.to_number b)%float list 0%float
   / of_Z (Z.of_nat (List.length list)))%float.

Definition new_mastery : Mastery :=
  {| attempts := 0; totalScore := Some 0%float; averageScore := Some 0%float;
     bestScore := Some 0%float; lastScore := Some 0%float; trend := stable;
     ms_scores := [] |}.

(** The update of one mastery entry by a score. *)
Definition master (mastery : Mastery) (score : float) : Mastery :=
  let attempts := attempts mastery + 1 in
  let totalScore := (Json.to_number (totalScore mastery) + score)%float in
  let averageScore := Math_round (totalScore / of_Z attempts)%float in
  let bestScore :=
    if gtb score (Json.to_number (bestScore mastery)) then Some score
    else bestScore mastery in
  let scores := (ms_scores mastery ++ [Some score])%list in
  let scores := if (10 <? List.length scores)%nat then last_n 10 scores else scores in
  let trend :=
    if (3 <=? List.length scores)%nat then
      let recent := last_n 3 scores in
      let older := slice_back 6 3 scores in
      if (0 <? List.length older)%nat then
        let recentAvg := mean recent in
        let olderAvg := mean older in
        if gtb (recentAvg - olderAvg)%float 5 then improving
        else if gtb (olderAvg - recentAvg)%float 5 then declining
        else stable
      else trend mastery
    else trend mastery in
  {| attempts := attempts;
     totalScore := Some totalScore;
     averageScore := Some averageScore;
     bestScore := bestScore;
     lastScore := Some score;
     trend := trend;
     ms_scores := scores |}.

Definition with_mastery (brain : Brain) (mastery : list (string * Mastery)) : Brain :=
  {| userProfile := userProfile brain;
     learningPatterns := learningPatterns brain;
     commonMistakes := commonMistakes brain;
     topicMastery := mastery;
     wordBank := wordBank brain;
     milestones := milestones brain;
     personalizedTips := personalizedTips brain;
     sessionHistory := sessionHistory brain |}.

Definition updateTopicMastery (brain : Brain) (topic : string) (score : float)
  : Step Brain :=
  if covered topic then
    let mastery :=
      match lookup topic (topicMastery brain) with
      | Some mastery => mastery
      | None => new_mastery
      end in
    ret (with_mastery brain (set topic (master mastery score) (topicMastery brain)))
  else uncovered.

(** *** Skills *)

Definition with_patterns (brain : Brain) (patterns : LearningPatterns) : Brain :=
  {| userProfile := userProfile brain;
     learningPatterns := patterns;
     commonMistakes := commonMistakes brain;
     topicMastery := topicMastery brain;
     wordBank := wordBank brain;
     milestones := milestones brain;
     personalizedTips := personalizedTips brain;
     sessionHistory := sessionHistory brain |}.

(** [sessions.reduce((sum, s) => sum + (s.scores?.[skill] || 0), 0)
    / sessions.length] *)
Definition skill_mean (skill : string) (sessions : list Session) : float :=
  (fold_left
     (fun sum s =>
        sum + match lookup skill (se_scores s) with
              | Some score => or_else (of_Z score) 0
              | None => 0
              end)%float sessions 0%float
   / of_Z (Z.of_nat (List.length sessions)))%float.

(** One round of the loop over the skills that looks for trends. *)
Definition trend_step (recentSessions olderSessions : list Session)
  (lists : list Trending * list Trending) (skill : string)
  : list Trending * list Trending :=
  let '(improvingSkills, decliningSkills) := lists in
  let diff :=
    (skill_mean skill recentSessions - skill_mean skill olderSessions)%float in
  if gtb diff 5 then
    if existsb (fun s => String.eqb (tr_skill s) skill) improvingSkills then lists
    else ((improvingSkills
           ++ [ {| tr_skill := skill; tr_amount := Some (Math_round diff) |} ])%list,
          decliningSkills)
  else if (diff <? -5)%float then
    if existsb (fun s => String.eqb (tr_skill s) skill) decliningSkills then lists
    else (improvingSkills,
          (decliningSkills
           ++ [ {| tr_skill := skill;
                   tr_amount := Some (Math_round (Math_abs diff)) |} ])%list)
  else lists.

(** [scores] is the score object by its entries, in its order. *)
Definition analyzeSkillPatterns (brain : Brain) (scores : list (string * Z))
  : Step Brain :=
  let skills := map fst scores in
  if forallb covered skills then
    let rated :=
      map (fun entry => {| rs_skill := fst entry; rs_score := snd entry |}) scores in
    let strongSkills :=
      sort (fun a b => rs_score b <=? rs_score a)
        (filter (fun r => 75 <=? rs_score r) rated) in
    let weakSkills :=
      sort (fun a b => rs_score a <=? rs_score b)
        (filter (fun r => negb (75 <=? rs_score r) && (rs_score r <? 55)) rated) in
    let history := sessionHistory brain in
    let '(improvingSkills, decliningSkills) :=
      let lists :=
        (improvingSkills (learningPatterns brain),
         decliningSkills (learningPatterns brain)) in
      if (5 <=? List.length history)%nat then
        let recentSessions := last_n 5 history in
        let olderSessions := slice_back 10 5 history in
        if (0 <? List.length olderSessions)%nat then
          fold_left (trend_step recentSessions olderSessions) skills lists
        else lists
      else lists in
    ret (with_patterns brain
           {| strongSkills := strongSkills;
              weakSkills := weakSkills;
              improvingSkills := improvingSkills;
              decliningSkills := decliningSkills |})
  else uncovered.

(** *** Mistakes *)

Fixpoint recur (description : string) (d : Z) (l : list Mistake) : list Mistake :=
  match l with
  | [] => []
  | m :: rest =>
      if String.eqb (m_description m) description then
        {| m_description := m_description m; m_severity := m_severity m;
           m_count := m_count m + 1;
           firstOccurrence := firstOccurrence m; lastOccurrence := d |} :: rest
      else m :: recur description d rest
  end.

Definition with_mistakes (brain : Brain) (mistakes : list (string * list Mistake))
  : Brain :=
  {| userProfile := userProfile brain;
     learningPatterns := learningPatterns brain;
     commonMistakes := mistakes;
     topicMastery := topicMastery brain;
     wordBank := wordBank brain;
     milestones := milestones brain;
     personalizedTips := personalizedTips brain;
     sessionHistory := sessionHistory brain |}.

(** One round of the loop of [learnFromMistakes]. *)
Definition mistake_step (brain : Brain) (error : ErrorEntry) : Step Brain :=
  let category := toLowerCase (e_type error) in
  if covered category then
    match lookup category (commonMistakes brain) with
    | Some known =>
        do known <-
          (if existsb (fun m => String.eqb (m_description m) (e_description error)) known
           then do d <- date ;; ret (recur (e_description error) d known)
           else
             do d1 <- date ;;
             do d2 <- date ;;
             ret (known ++ [ {| m_description := e_description error;
                                m_severity := severity error;
                                m_count := 1;
                                firstOccurrence := d1;
                                lastOccurrence := d2 |} ])%list) ;;
        let known := sort (fun a b => m_count b <=? m_count a) known in
        ret (with_mistakes brain (set category (firstn 10 known) (commonMistakes brain)))
    | None => ret brain
    end
  else uncovered.

Fixpoint learnFromMistakes (brain : Brain) (errors : list ErrorEntry) : Step Brain :=
  match errors with
  | [] => ret brain
  | error :: rest =>
      do brain <- mistake_step brain error ;;
      learnFromMistakes brain rest
  end.

(** *** Words *)

Definition fillerWordList : list string :=
  ["um"; "uh"; "like"; "you know"; "basically"; "actually"; "literally";
   "so"; "well"; "i mean"].

Fixpoint keep_chars (keep : ascii -> bool) (s : string) : string :=
  match s with
  | EmptyString => EmptyString
  | String c rest =>
      if keep c then String c (keep_chars keep rest) else keep_chars keep rest
  end.

(** [transcription.toLowerCase().replace(/[^\w\s]/g, '').split(/\s+/)
    .filter(w => w.length > 0)] *)
Definition words_of (transcription : string) : list string :=
  filter nonempty
    (split is_space
       (keep_chars (fun c => is_word c || is_space c) (toLowerCase transcription))).

(** [(obj[word] || 0) + 1] stored under [word]. *)
Definition count_up (word : string) (obj : list (string * Z)) : list (string * Z) :=
  set word (match lookup word obj with Some n => or_default n 0 | None => 0 end + 1) obj.

(** One round of the loop over the words. *)
Definition word_step (bank : WordBank) (word : string) : WordBank :=
  {| frequentWords := count_up word (frequentWords bank);
     uniqueWords :=
       match uniqueWords bank with
       | AnArray words => if mem word words then AnArray words
                          else AnArray (words ++ [word])%list
       | other => other
       end;
     wb_fillerWords :=
       if mem word fillerWordList then count_up word (wb_fillerWords bank)
       else wb_fillerWords bank;
     totalWords := totalWords bank |}.

Definition with_words (brain : Brain) (bank : WordBank) : Brain :=
  {| userProfile := userProfile brain;
     learningPatterns := learningPatterns brain;
     commonMistakes := commonMistakes brain;
     topicMastery := topicMastery brain;
     wordBank := bank;
     milestones := milestones brain;
     personalizedTips := personalizedTips brain;
     sessionHistory := sessionHistory brain |}.

(** [transcription] is [None] when the argument is not a string. *)
Definition learnFromTranscription (brain : Brain) (transcription : option string)
  : Step Brain :=
  match transcription with
  | None => ret brain
  | Some text =>
      if nonempty text then
        let words := words_of text in
        if forallb covered words then
          let bank := wordBank brain in
          let bank :=
            {| frequentWords := frequentWords bank;
               uniqueWords := uniqueWords bank;
               wb_fillerWords := wb_fillerWords bank;
               totalWords := totalWords bank + Z.of_nat (List.length words) |} in
          let bank := fold_left word_step words bank in
          let sortedFrequent :=
            firstn 500 (sort (fun a b => snd b <=? snd a) (frequentWords bank)) in
          ret (with_words brain
                 {| frequentWords := fromEntries sortedFrequent;
                    uniqueWords :=
                      match uniqueWords bank with
                      | AnArray words =>
                          if (1000 <? List.length words)%nat
                          then AnArray (last_n 1000 words) else AnArray words
                      | other => other
                      end;
                    wb_fillerWords := wb_fillerWords bank;
                    totalWords := totalWords bank |})
        else uncovered
      else ret brain
  end.

(** *** Milestones *)

Definition levelAchievements : list (string * (string * string)) :=
  [ ("B1", ("Intermediate Level!", "You reached B1 level!"));
    ("B2", ("Upper Intermediate!", "You reached B2 level!"));
    ("C1", ("Advanced Speaker!", "You reached C1 level!"));
    ("C2", ("Master Level!", "You achieved C2 - near-native fluency!")) ].

Definition sessionMilestones : list Z := [5; 10; 25; 50; 100].

Definition with_milestones (brain : Brain) (ms : list Milestone) : Brain :=
  {| userProfile := userProfile brain;
     learningPatterns := learningPatterns brain;
     commonMistakes := commonMistakes brain;
     topicMastery := topicMastery brain;
     wordBank := wordBank brain;
     milestones := ms;
     personalizedTips := personalizedTips brain;
     sessionHistory := sessionHistory brain |}.

Definition reached (brain : Brain) (type : string) : bool :=
  existsb (fun m => String.eqb (ml_type m) type) (milestones brain).

(** [checkMilestones]: the brain with the new milestones added, and the
    new milestones. *)
Definition checkMilestones (brain : Brain) (level : string) (overallScore : float)
  : Step (Brain * list Milestone) :=
  if covered level then
    let sessions := totalSessions (userProfile brain) in
    do first <-
      (if sessions =? 1 then
         do d <- date ;;
         ret [ {| ml_type := "first_session"; ml_title := "First Steps!";
                  ml_description := "You completed your first speaking assessment!";
                  ml_date := d |} ]
       else ret []) ;;
    do counted <-
      (if existsb (Z.eqb sessions) sessionMilestones then
         do d <- date ;;
         ret [ {| ml_type := "session_count";
                  ml_title := show_Z sessions ++ " Sessions!";
                  ml_description :=
                    "You've completed " ++ show_Z sessions ++ " speaking assessments!";
                  ml_date := d |} ]
       else ret []) ;;
    do levelled <-
      (match lookup level levelAchievements with
       | Some (title, desc) =>
           if reached brain ("level_" ++ level) then ret []
           else
             do d <- date ;;
             ret [ {| ml_type := "level_" ++ level; ml_title := title;
                      ml_description := desc; ml_date := d |} ]
       | None => ret []
       end) ;;
    do scored <-
      (if geb overallScore 90 then
         if reached brain "score_90" then ret []
         else
           do d <- date ;;
           ret [ {| ml_type := "score_90"; ml_title := "Excellent Score!";
                    ml_description := "You scored 90% or higher!"; ml_date := d |} ]
       else ret []) ;;
    let new := (first ++ counted ++ levelled ++ scored)%list in
    ret (with_milestones brain (milestones brain ++ new)%list, new)
  else uncovered.

(** *** Tips *)

Definition tips : list (string * string) :=
  [ ("pronunciation",
     "Practice with tongue twisters and record yourself comparing to native speakers");
    ("fluency", "Try the shadowing technique - repeat after native speakers immediately");
    ("vocabulary", "Learn 5 new words daily and use them in sentences");
    ("grammar", "Focus on one grammar rule per week and practice it extensively");
    ("coherence", "Use transition words: firstly, however, therefore, in conclusion");
    ("time", "Practice with a timer to manage your response length") ].

(** [None] for a skill that the model does not cover. *)
Definition getTipForSkill (skill : string) : option string :=
  if covered skill then
    Some match lookup skill tips with
         | Some tip => tip
         | None => "Keep practicing regularly"
         end
  else None.

Definition with_tips (brain : Brain) (tips : list Tip) : Brain :=
  {| userProfile := userProfile brain;
     learningPatterns := learningPatterns brain;
     commonMistakes := commonMistakes brain;
     topicMastery := topicMastery brain;
     wordBank := wordBank brain;
     milestones := milestones brain;
     personalizedTips := tips;
     sessionHistory := sessionHistory brain |}.

(** [Object.values(obj).reduce((a, b) => a + b, 0)] *)
Definition sum_values (obj : list (string * Z)) : Z :=
  fold_left (fun a entry => a + snd entry) obj 0.

Definition generatePersonalizedTips (brain : Brain) : Step Brain :=
  do weakest <-
    (match weakSkills (learningPatterns brain) with
     | weakest :: _ =>
         match getTipForSkill (rs_skill weakest) with
         | Some text =>
             ret [ {| tip_priority := tip_high;
                      tip_skill := rs_skill weakest;
                      tip_text := SkillTip text;
                      tip_reason := ScoreReason (rs_skill weakest) (rs_score weakest) |} ]
         | None => uncovered
         end
     | [] => ret []
     end) ;;
  let declined :=
    map (fun skill =>
           {| tip_priority := tip_medium;
              tip_skill := tr_skill skill;
              tip_text := DeclinedTip (tr_skill skill) (tr_amount skill);
              tip_reason := DecliningReason |})
      (decliningSkills (learningPatterns brain)) in
  let fillerCount := sum_values (wb_fillerWords (wordBank brain)) in
  let fillers :=
    if 10 <? fillerCount then
      [ {| tip_priority := tip_medium; tip_skill := "fluency";
           tip_text := FillerTip; tip_reason := FillerReason fillerCount |} ]
    else [] in
  let weakTopics :=
    filter (fun entry => (Json.to_number (averageScore (snd entry)) <? 60)%float)
      (topicMastery brain) in
  let topics :=
    match weakTopics with
    | (topic, mastery) :: _ =>
        [ {| tip_priority := tip_low; tip_skill := "vocabulary";
             tip_text := TopicTip topic (averageScore mastery);
             tip_reason := TopicReason |} ]
    | [] => []
    end in
  ret (with_tips brain (firstn 5 (weakest ++ declined ++ fillers ++ topics)%list)).

(** *** A session *)

Definition with_profile (brain : Brain) (profile : UserProfile) : Brain :=
  {| userProfile := profile;
     learningPatterns := learningPatterns brain;
     commonMistakes := commonMistakes brain;
     topicMastery := topicMastery brain;
     wordBank := wordBank brain;
     milestones := milestones brain;
     personalizedTips := personalizedTips brain;
     sessionHistory := sessionHistory brain |}.

Definition with_history (brain : Brain) (history : list Session) : Brain :=
  {| userProfile := userProfile brain;
     learningPatterns := learningPatterns brain;
     commonMistakes := commonMistakes brain;
     topicMastery := topicMastery brain;
     wordBank := wordBank brain;
     milestones := milestones brain;
     personalizedTips := personalizedTips brain;
     sessionHistory := history |}.

(** The steps of [learnFromSession] between [getBrain] and
    [saveBrain]. *)
Definition learn (brain : Brain) (assessment : Assessment)
  (transcription : option string) : Step Brain :=
  do last <- date ;;
  do first <-
    (match firstSession (userProfile brain) with
     | Some first => ret first
     | None => date
     end) ;;
  let brain :=
    with_profile brain
      {| totalSessions := totalSessions (userProfile brain) + 1;
         firstSession := Some first;
         lastSession := Some last;
         preferredTopics := preferredTopics (userProfile brain) |} in
  do brain <-
    (if nonempty (topic assessment) then
       do brain <- updateTopicPreference brain (topic assessment) ;;
       updateTopicMastery brain (topic assessment) (overallScore assessment)
     else ret brain) ;;
  do brain <- analyzeSkillPatterns brain (scores assessment) ;;
  do brain <- learnFromMistakes brain (errors assessment) ;;
  do brain <-
    (match transcription with
     | Some text =>
         if nonempty text then learnFromTranscription brain transcription
         else ret brain
     | None => ret brain
     end) ;;
  do checked <- checkMilestones brain (level assessment) (overallScore assessment) ;;
  do brain <- generatePersonalizedTips (fst checked) ;;
  do d <- date ;;
  let history :=
    (sessionHistory brain
     ++ [ {| se_date := d;
             se_topic := topic assessment;
             se_level := level assessment;
             se_overallScore := Some (overallScore assessment);
             se_scores := scores assessment |} ])%list in
  let history :=
    if (100 <? List.length history)%nat then last_n 100 history else history in
  ret (with_history brain history).

(** [learnFromSession]: the brain that is returned and what is stored
    afterwards; [None] when the session is not covered. *)
Definition learnFromSession (stored : Stored) (now : nat -> Z) (fits : bool)
  (assessment : Assessment) (transcription : option string)
  : option (Brain * Stored) :=
  match learn (getBrain stored) assessment transcription now 0%nat with
  | Some (brain, _) => Some (converted brain, saveBrain stored fits brain)
  | None => None
  end.

(** *** Insights *)

Record OverallTrend := {
  ot_trend : option Trend;
  ot_change : option float
}.

(** [ot_trend] is [None] for ['insufficient_data']; the message is
    fixed by the trend and the change. *)
Definition calculateOverallTrend (brain : Brain) : OverallTrend :=
  let history := sessionHistory brain in
  if (List.length history <? 5)%nat then {| ot_trend := None; ot_change := None |}
  else
    let recent := last_n 5 history in
    let older := slice_back 10 5 history in
    if (List.length older =? 0)%nat then {| ot_trend := None; ot_change := None |}
    else
      let recentAvg := mean (map se_overallScore recent) in
      let olderAvg := mean (map se_overallScore older) in
      let diff := (recentAvg - olderAvg)%float in
      if gtb diff 5 then
        {| ot_trend := Some improving; ot_change := Some (Math_round diff) |}
      else if (diff <? -5)%float then
        {| ot_trend := Some declining; ot_change := Some (Math_round diff) |}
      else {| ot_trend := Some stable; ot_change := Some (Math_round diff) |}.

(** A mistake with its category. *)
Definition getTopMistakes (brain : Brain) : list (string * Mistake) :=
  let allMistakes :=
    flat_map (fun entry => map (fun m => (fst entry, m)) (snd entry))
      (commonMistakes brain) in
  firstn 5 (sort (fun a b => m_count (snd b) <=? m_count (snd a)) allMistakes).

(** [daysSince]: [dateStr] is the stored instant or [None], [today]
    the clock. *)
Definition daysSince (dateStr : option Z) (today : Z) : float :=
  match dateStr with
  | None => 0%float
  | Some d => Math_floor (of_Z (today - d) / of_Z (1000 * 60 * 60 * 24))%float
  end.

Record Insights := {
  in_totalSessions : Z;
  daysSinceFirst : float;
  strongestSkill : option RatedSkill;
  weakestSkill : option RatedSkill;
  in_improvingSkills : list Trending;
  favoriteTopic : option TopicPreference;
  in_topicMastery : list (string * Mastery);
  topMistakes : list (string * Mistake);
  totalWordsSpoken : Z;
  uniqueWordCount : Z;
  in_fillerWordCount : Z;
  in_tips : list Tip;
  recentMilestones : list Milestone;
  overallTrend : OverallTrend
}.

Definition getInsights (stored : Stored) (today : Z) : Insights :=
  let brain := getBrain stored in
  {| in_totalSessions := totalSessions (userProfile brain);
     daysSinceFirst := daysSince (firstSession (userProfile brain)) today;
     strongestSkill := hd_error (strongSkills (learningPatterns brain));
     weakestSkill := hd_error (weakSkills (learningPatterns brain));
     in_improvingSkills := improvingSkills (learningPatterns brain);
     favoriteTopic := hd_error (preferredTopics (userProfile brain));
     in_topicMastery := topicMastery brain;
     topMistakes := getTopMistakes brain;
     totalWordsSpoken := totalWords (wordBank brain);
     uniqueWordCount :=
       match uniqueWords (wordBank brain) with
       | AnArray words => Z.of_nat (List.length words)
       | _ => 0
       end;
     in_fillerWordCount := sum_values (wb_fillerWords (wordBank brain));
     in_tips := personalizedTips brain;
     recentMilestones := last_n 5 (milestones brain);
     overallTrend := calculateOverallTrend brain |}.

End BrainSystem.

(** ** More sample inputs *)

Module MoreSamples.
Import JsNum AudioProcessor Transcriber AIAnalyzer StorageManager.

(** An assessment with the given overall score and level and nothing
    else of note. *)
Definition plain_assessment (overall : Z) (lvl : string) : Assessment :=
  {| level := lvl;
     levelDescription := "";
     overallScore := of_Z overall;
     scores :=
       [ ("pronunciation", overall); ("vocabulary", overall); ("fluency", overall);
         ("grammar", overall); ("time", overall); ("coherence", overall) ];
     detailedFeedback := [];
     errors := [];
     recommendations := [];
     as_strengths := [];
     as_weaknesses := [];
     topic := "work";
     as_duration := 90;
     transcription := None;
     timestamp := 0;
     analysisVersion := "4.0" |}.

(** A clock that advances by one millisecond at every reading. *)
Definition clock (start : Z) (k : nat) : Z := start + Z.of_nat k.

End MoreSamples.

(** * Properties *)

(** ** Facts about binary64 arithmetic *)

Module FloatFacts.
Import JsNum Binary64.

Lemma iter_pos_invariant {A} (P : A -> Prop) (f : A -> A) :
  (forall x, P x -> P (f x)) -> forall p x, P x -> P (iter_pos f p x).
Proof.
  intros Hf p. induction p as [p IH | p IH |]; intros x Hx; simpl; auto.
Qed.

Lemma shr_1_nonneg mrs : 0 <= shr_m mrs -> 0 <= shr_m (shr_1 mrs).
Proof.
  destruct mrs as [m r s]. simpl.
  destruct m as [| p | p]; simpl; try lia; destruct p; simpl; lia.
Qed.

Lemma shr_fexp_nonneg m e l :
  0 <= m -> 0 <= shr_m (fst (shr_fexp prec emax m e l)).
Proof.
  intros Hm. unfold shr_fexp, shr.
  assert (H0 : 0 <= shr_m (shr_record_of_loc m l)).
  { destruct l as [| []]; simpl; assumption. }
  destruct (fexp prec emax (Zdigits2 m + e) - e) as [| p | p]; simpl; auto.
  apply iter_pos_invariant; auto using shr_1_nonneg.
Qed.

Lemma round_nearest_even_nonneg m l : 0 <= m -> 0 <= round_nearest_even m l.
Proof.
  intros Hm. destruct l as [| []]; simpl; try lia.
  destruct (Z.even m); lia.
Qed.

(** Rounding a non-negative mantissa gives a zero, a finite number or
    an infinity of the requested sign, never [NaN]. *)
Lemma binary_round_aux_cases s m e l :
  0 <= m ->
  binary_round_aux prec emax s m e l = S754_zero s \/
  (exists m' e', binary_round_aux prec emax s m e l = S754_finite s m' e') \/
  binary_round_aux prec emax s m e l = S754_infinity s.
Proof.
  intros Hm. unfold binary_round_aux.
  pose proof (shr_fexp_nonneg m e l Hm) as H1.
  destruct (shr_fexp prec emax m e l) as [mrs' e'] eqn:E1. simpl in H1.
  pose proof (shr_fexp_nonneg _ e' loc_Exact
                (round_nearest_even_nonneg _ (loc_of_shr_record mrs') H1)) as H2.
  destruct (shr_fexp prec emax _ e' loc_Exact) as [mrs'' e''] eqn:E2. simpl in H2.
  destruct (shr_m mrs'') as [| p | p]; [ left; reflexivity | | lia ].
  destruct (e'' <=? emax - prec); [ right; left; eauto | right; right; reflexivity ].
Qed.

Lemma binary_round_cases s m e :
  binary_round prec emax s m e = S754_zero s \/
  (exists m' e', binary_round prec emax s m e = S754_finite s m' e') \/
  binary_round prec emax s m e = S754_infinity s.
Proof.
  unfold binary_round.
  destruct (shl_align m e _) as [mz ez].
  apply binary_round_aux_cases. lia.
Qed.



(** Sums of non-negative numbers are non-negative numbers. *)
Lemma SFadd_nonneg x y :
  nonneg x = true -> nonneg y = true -> nonneg (SF64add x y) = true.
Proof.
  destruct x as [sx | [] | | [] mx ex]; destruct y as [sy | [] | | [] my ey];
    simpl; try discriminate; try reflexivity; intros _ _.
  - destruct sx, sy; reflexivity.
  - unfold SF64add, SFadd. simpl.
    destruct (binary_round_cases false
                (fst (shl_align mx ex (Z.min ex ey)) + fst (shl_align my ey (Z.min ex ey)))
                (Z.min ex ey)) as [-> | [(m' & e' & ->) | ->]]; reflexivity.
Qed.



Lemma digits2_pos_bound m : Zpos m < 2 ^ Zpos (digits2_pos m).
Proof.
  induction m as [m IH | m IH |]; simpl digits2_pos.
  - rewrite Pos2Z.inj_succ, Z.pow_succ_r by lia. lia.
  - rewrite Pos2Z.inj_succ, Z.pow_succ_r by lia. lia.
  - reflexivity.
Qed.

(** A valid mantissa has at most 53 bits. *)
Lemma valid_mantissa_bound x s m e :
  Prim2SF x = S754_finite s m e -> Zpos m < 2 ^ 53.
Proof.
  intros E. pose proof (Prim2SF_valid x) as V. rewrite E in V. simpl in V.
  unfold bounded, canonical_mantissa, fexp in V.
  apply andb_prop in V. destruct V as [V _]. apply Z.eqb_eq in V.
  pose proof (digits2_pos_bound m) as B.
  assert (D : Zpos (digits2_pos m) <= 53) by (unfold prec in V; lia).
  eapply Z.lt_le_trans; [ exact B | ].
  apply Z.pow_le_mono_r; lia.
Qed.

Lemma SFcompare_refl x : is_number x = true -> SFcompare x x = Some Eq.
Proof.
  destruct x as [s | s | | s m e]; simpl; try discriminate; intros _.
  - reflexivity.
  - destruct s; reflexivity.
  - destruct s; rewrite Z.compare_refl, Pos.compare_cont_refl; reflexivity.
Qed.

Lemma is_nan_spec x : is_nan x = negb (is_number (Prim2SF x)).
Proof.
  unfold is_nan. rewrite FloatAxioms.eqb_spec. unfold SFeqb.
  destruct (Prim2SF x) as [s | s | | s m e] eqn:E; try reflexivity.
  - destruct s; reflexivity.
  - rewrite SFcompare_refl by reflexivity. reflexivity.
Qed.

Lemma number_spec x : number x <-> is_number (Prim2SF x) = true.
Proof.
  unfold number. rewrite is_nan_spec. destruct (is_number (Prim2SF x)); simpl; intuition congruence.
Qed.

Lemma ltb_zero_cases x :
  (0 <? x)%float = true ->
  Prim2SF x = S754_infinity false \/ exists m e, Prim2SF x = S754_finite false m e.
Proof.
  rewrite FloatAxioms.ltb_spec. unfold SFltb.
  change (Prim2SF 0) with (S754_zero false).
  destruct (Prim2SF x) as [s | [] | | [] m e]; simpl; try discriminate; eauto.
Qed.

(** A number that is zero or negative: [Math.max(0, x)] is [0]. *)
Lemma not_positive_cases x :
  number x -> (0 <? x)%float = false ->
  (x <? 0)%float = true \/ exists s, Prim2SF x = S754_zero s.
Proof.
  intros N. apply number_spec in N.
  rewrite !FloatAxioms.ltb_spec. unfold SFltb.
  change (Prim2SF 0) with (S754_zero false).
  destruct (Prim2SF x) as [s | [] | | [] m e]; simpl in *; try discriminate; eauto.
Qed.

(** [Math.round] of a positive number that is not above 100 is one of
    the integers 0..100. *)
Lemma Math_round_bounds x :
  (0 <? x)%float = true -> (100 <? x)%float = false ->
  exists k, 0 <= k <= 100 /\ Math_round x = of_Z k.
Proof.
  intros Hpos Hle.
  destruct (ltb_zero_cases x Hpos) as [E | (m & e & E)];
    rewrite FloatAxioms.ltb_spec in Hle; unfold SFltb in Hle; rewrite E in Hle;
    change (Prim2SF 100) with (S754_finite false 7036874417766400 (-46)) in Hle;
    cbv beta iota delta [SFcompare] in Hle; [ discriminate | ].
  pose proof (valid_mantissa_bound x false m e E) as Hm.
  assert (He : e < -46 \/ (e = -46 /\ Zpos m <= 100 * 2 ^ 46)).
  { revert Hle. destruct (Z.compare_spec (-46) e) as [Heq | Hlt | Hgt];
      try discriminate; intros Hle.
    - right. split; [ symmetry; exact Heq | ].
      change (100 * 2 ^ 46) with (Zpos 7036874417766400).
      destruct (Pos.compare_cont Eq 7036874417766400 m) eqn:C; try discriminate.
      + apply Pos.compare_eq in C. subst m. apply Z.le_refl.
      + change (Pos.compare_cont Eq 7036874417766400 m)
          with (7036874417766400 ?= m)%positive in C.
        apply Pos.compare_gt_iff in C. apply Z.lt_le_incl. exact C.
    - left. exact Hgt. }
  unfold Math_round. rewrite E.
  assert (Hneg : (0 <=? e) = false) by (apply Z.leb_gt; clear - He; lia).
  rewrite Hneg. unfold round_half_up, signed. rewrite andb_false_r.
  exists ((2 * Z.pos m + 2 ^ (- e)) / 2 ^ (1 - e)). split; [ | reflexivity ].
  assert (P : 0 < 2 ^ (- e)) by (apply Z.pow_pos_nonneg; clear - He; lia).
  assert (Q : 2 ^ (1 - e) = 2 * 2 ^ (- e)).
  { replace (1 - e) with (Z.succ (- e)) by (clear; lia).
    apply Z.pow_succ_r. clear - He. lia. }
  assert (B : 2 * Z.pos m < 201 * 2 ^ (- e)).
  { destruct He as [He | [-> Hm']].
    - assert (R : 2 ^ 53 <= 2 ^ (- e + 6)) by (apply Z.pow_le_mono_r; clear - He; lia).
      rewrite Z.pow_add_r in R by (clear - He; lia).
      change (2 ^ 6) with 64 in R.
      revert Hm R P. generalize (2 ^ 53) (2 ^ (- e)) (Z.pos m). clear. intros. lia.
    - change (- -46) with 46 in *.
      revert Hm' P. generalize (2 ^ 46) (Z.pos m). clear. intros. lia. }
  assert (Pm : 0 < Z.pos m) by reflexivity.
  rewrite Q. revert P B Pm. generalize (2 ^ (- e)) (Z.pos m). clear. intros q n P B Pm.
  split.
  - apply Z.div_pos; lia.
  - apply Z.lt_succ_r. apply Z.div_lt_upper_bound; lia.
Qed.

(** The clamp [Math.min(100, Math.max(0, x))] followed by [Math.round]
    yields one of the integers 0..100 whenever [x] is a number. *)
Lemma round_clamp_bounds x :
  number x ->
  exists k, 0 <= k <= 100 /\ Math_round (Math_min 100 (Math_max 0 x)) = of_Z k.
Proof.
  intros N. unfold Math_max. rewrite N.
  change (is_nan 0) with false. cbn [orb].
  change (get_sign 0) with false.
  destruct (0 <? x)%float eqn:Hpos.
  - unfold Math_min. rewrite N.
    change (is_nan 100) with false. cbn [orb].
    change (get_sign 100) with false.
    destruct (100 <? x)%float eqn:Hbig.
    + exists 100. split; [ lia | reflexivity ].
    + destruct (x <? 100)%float; apply Math_round_bounds; assumption.
  - assert (M : (if (x <? 0)%float then 0%float else 0%float) = 0%float)
      by (destruct (x <? 0)%float; reflexivity).
    rewrite M. exists 0. split; [ lia | reflexivity ].
Qed.

End FloatFacts.

(** ** Magnitudes: when a quotient stays finite *)

Module MagnitudeFacts.
Import JsNum Binary64 FloatFacts.

(** The number of bits of a mantissa. *)
Lemma digits2_pos_lower m : 2 ^ (Zpos (digits2_pos m) - 1) <= Zpos m.
Proof.
  induction m as [m IH | m IH |]; simpl digits2_pos.
  - rewrite Pos2Z.inj_succ. replace (Z.succ (Zpos (digits2_pos m)) - 1)
      with (Z.succ (Zpos (digits2_pos m) - 1)) by lia.
    rewrite Z.pow_succ_r by lia. lia.
  - rewrite Pos2Z.inj_succ. replace (Z.succ (Zpos (digits2_pos m)) - 1)
      with (Z.succ (Zpos (digits2_pos m) - 1)) by lia.
    rewrite Z.pow_succ_r by lia. lia.
  - simpl. lia.
Qed.

Lemma Zdigits2_nonneg m : 0 <= Zdigits2 m.
Proof. destruct m; simpl; lia. Qed.

Lemma Zdigits2_le m k : 0 <= m -> 0 <= k -> m < 2 ^ k -> Zdigits2 m <= k.
Proof.
  intros Hm Hk H. destruct m as [| p | p]; simpl; [ lia | | lia ].
  pose proof (digits2_pos_lower p) as L.
  destruct (Z.le_gt_cases (Zpos (digits2_pos p)) k) as [ | G]; [ assumption | exfalso ].
  assert (P : 2 ^ k <= 2 ^ (Zpos (digits2_pos p) - 1)) by (apply Z.pow_le_mono_r; lia).
  lia.
Qed.

Lemma Zdigits2_upper m : 0 <= m -> m < 2 ^ Zdigits2 m.
Proof.
  intros Hm. destruct m as [| p | p]; simpl; [ lia | apply digits2_pos_bound | lia ].
Qed.

Lemma Zdigits2_lower m : 0 < m -> 2 ^ (Zdigits2 m - 1) <= m.
Proof.
  intros Hm. destruct m as [| p | p]; simpl; [ lia | apply digits2_pos_lower | lia ].
Qed.

Lemma Zdigits2_succ m : 0 <= m -> Zdigits2 (m + 1) <= Zdigits2 m + 1.
Proof.
  intros Hm. pose proof (Zdigits2_nonneg m) as N. pose proof (Zdigits2_upper m Hm) as U.
  apply Zdigits2_le; [ lia | lia | ].
  rewrite Z.pow_add_r by lia. change (2 ^ 1) with 2. lia.
Qed.

Lemma Zdigits2_mono a b : 0 <= a <= b -> Zdigits2 a <= Zdigits2 b.
Proof.
  intros H. pose proof (Zdigits2_nonneg b). pose proof (Zdigits2_upper b ltac:(lia)).
  apply Zdigits2_le; lia.
Qed.

(** One shift to the right removes one bit. *)
Lemma shr_1_digits mrs :
  0 <= shr_m mrs ->
  Zdigits2 (shr_m (shr_1 mrs)) = Z.max 0 (Zdigits2 (shr_m mrs) - 1).
Proof.
  destruct mrs as [m r s]. cbn [shr_m].
  destruct m as [| p | p]; intros H; [ reflexivity | | lia ].
  destruct p; cbn [shr_1 shr_m Zdigits2 digits2_pos]; rewrite ?Pos2Z.inj_succ; lia.
Qed.

Lemma iter_shr_1_digits p :
  forall mrs,
    0 <= shr_m mrs ->
    0 <= shr_m (iter_pos shr_1 p mrs) /\
    Zdigits2 (shr_m (iter_pos shr_1 p mrs)) = Z.max 0 (Zdigits2 (shr_m mrs) - Zpos p).
Proof.
  induction p as [p IH | p IH |]; intros mrs H; simpl iter_pos.
  - pose proof (shr_1_nonneg mrs H) as H1. pose proof (shr_1_digits mrs H) as D1.
    destruct (IH _ H1) as [H2 D2]. destruct (IH _ H2) as [H3 D3].
    split; [ exact H3 | ]. rewrite D3, D2, D1. pose proof (Zdigits2_nonneg (shr_m mrs)). lia.
  - destruct (IH _ H) as [H2 D2]. destruct (IH _ H2) as [H3 D3].
    split; [ exact H3 | ]. rewrite D3, D2. pose proof (Zdigits2_nonneg (shr_m mrs)). lia.
  - split; [ apply shr_1_nonneg, H | apply shr_1_digits, H ].
Qed.

(** The exponent and the magnitude after [shr_fexp]. *)
Lemma shr_fexp_bounds m e l :
  0 <= m ->
  let r := shr_fexp prec emax m e l in
  0 <= shr_m (fst r) /\
  snd r = Z.max e (fexp prec emax (Zdigits2 m + e)) /\
  Zdigits2 (shr_m (fst r)) + snd r <= Z.max (Zdigits2 m + e) (snd r).
Proof.
  intros Hm. unfold shr_fexp, shr.
  assert (H0 : shr_m (shr_record_of_loc m l) = m) by (destruct l as [| []]; reflexivity).
  pose proof (Zdigits2_nonneg m) as N.
  destruct (fexp prec emax (Zdigits2 m + e) - e) as [| p | p] eqn:K; cbn [fst snd].
  - rewrite H0. repeat split; lia.
  - destruct (iter_shr_1_digits p (shr_record_of_loc m l)) as [H1 D]; [ rewrite H0; exact Hm | ].
    rewrite H0 in D. split; [ exact H1 | ]. split; [ lia | ]. rewrite D. lia.
  - rewrite H0. repeat split; lia.
Qed.

Lemma round_nearest_even_digits m l :
  0 <= m -> Zdigits2 (round_nearest_even m l) <= Zdigits2 m + 1.
Proof.
  intros Hm. pose proof (Zdigits2_succ m Hm).
  destruct l as [| []]; simpl; try lia. destruct (Z.even m); lia.
Qed.

(** The exponent and the magnitude of what [binary_round_aux] returns. *)
Lemma binary_round_aux_exponent s m e l s' m' e' :
  0 <= m ->
  binary_round_aux prec emax s m e l = S754_finite s' m' e' ->
  e' <= Z.max e (Z.max (Zdigits2 m + e - 52) (-1074)) /\
  Zpos (digits2_pos m') + e' <= Z.max (Zdigits2 m + e + 1) (Z.max (e + 1) (-1073)).
Proof.
  intros Hm. unfold binary_round_aux.
  pose proof (shr_fexp_bounds m e l Hm) as B1.
  destruct (shr_fexp prec emax m e l) as [mrs1 e1]. cbn [fst snd] in B1.
  destruct B1 as (P1 & E1 & M1).
  pose proof (round_nearest_even_nonneg _ (loc_of_shr_record mrs1) P1) as P2.
  pose proof (round_nearest_even_digits _ (loc_of_shr_record mrs1) P1) as D2.
  pose proof (shr_fexp_bounds _ e1 loc_Exact P2) as B2.
  destruct (shr_fexp prec emax _ e1 loc_Exact) as [mrs2 e2]. cbn [fst snd] in B2.
  destruct B2 as (P3 & E2 & M2).
  destruct (shr_m mrs2) as [| p | p] eqn:S2; try discriminate.
  destruct (e2 <=? emax - prec); [ | discriminate ].
  intros H. inversion H; subst. clear H.
  unfold fexp, emin, prec, emax in *. simpl Zdigits2 in M2.
  set (d := Zdigits2 m) in *. set (d1 := Zdigits2 (shr_m mrs1)) in *.
  set (d2 := Zdigits2 (round_nearest_even (shr_m mrs1) (loc_of_shr_record mrs1))) in *.
  clearbody d d1 d2. lia.
Qed.

Lemma binary_round_aux_not_infinity s m e l s' :
  0 <= m -> e <= 971 -> Zdigits2 m + e <= 1023 ->
  binary_round_aux prec emax s m e l <> S754_infinity s'.
Proof.
  intros Hm He Hd. unfold binary_round_aux.
  pose proof (shr_fexp_bounds m e l Hm) as B1.
  destruct (shr_fexp prec emax m e l) as [mrs1 e1]. cbn [fst snd] in B1.
  destruct B1 as (P1 & E1 & M1).
  pose proof (round_nearest_even_nonneg _ (loc_of_shr_record mrs1) P1) as P2.
  pose proof (round_nearest_even_digits _ (loc_of_shr_record mrs1) P1) as D2.
  pose proof (shr_fexp_bounds _ e1 loc_Exact P2) as B2.
  destruct (shr_fexp prec emax _ e1 loc_Exact) as [mrs2 e2]. cbn [fst snd] in B2.
  destruct B2 as (P3 & E2 & M2).
  destruct (shr_m mrs2) as [| p | p] eqn:S2; try discriminate.
  destruct (Z.leb_spec e2 (emax - prec)) as [ | G]; [ discriminate | exfalso ].
  unfold fexp, emin, prec, emax in *.
  set (d := Zdigits2 m) in *. set (d1 := Zdigits2 (shr_m mrs1)) in *.
  set (d2 := Zdigits2 (round_nearest_even (shr_m mrs1) (loc_of_shr_record mrs1))) in *.
  clearbody d d1 d2. lia.
Qed.

Lemma iter_xO_digits m d :
  Zpos (digits2_pos (Pos.iter xO m d)) = Zpos (digits2_pos m) + Zpos d.
Proof.
  induction d as [| d IH] using Pos.peano_ind.
  - simpl. rewrite Pos2Z.inj_succ. lia.
  - rewrite Pos.iter_succ. simpl digits2_pos. rewrite !Pos2Z.inj_succ, IH. lia.
Qed.

(** Aligning a mantissa keeps its magnitude and does not raise the
    exponent. *)
Lemma shl_align_magnitude m e e' :
  let r := shl_align m e e' in
  Zpos (digits2_pos (fst r)) + snd r = Zpos (digits2_pos m) + e /\ snd r <= e.
Proof.
  unfold shl_align. destruct (e' - e) as [| d | d] eqn:K; cbn [fst snd]; try lia.
  rewrite iter_xO_digits. lia.
Qed.

Lemma binary_round_magnitude s m e :
  e <= 971 -> Zpos (digits2_pos m) + e <= 1023 ->
  binary_round prec emax s m e = S754_zero s \/
  exists m' e',
    binary_round prec emax s m e = S754_finite s m' e' /\
    Zpos (digits2_pos m') + e' <= Z.max (Zpos (digits2_pos m) + e + 1) (Z.max (e + 1) (-1073)).
Proof.
  intros He Hd. unfold binary_round.
  pose proof (shl_align_magnitude m e (fexp prec emax (Zpos (digits2_pos m) + e))) as A.
  destruct (shl_align m e _) as [mz ez]. cbn [fst snd] in A. destruct A as [A1 A2].
  assert (Hz : 0 <= Zpos mz) by lia.
  destruct (binary_round_aux_cases s (Zpos mz) ez loc_Exact Hz)
    as [-> | [(m' & e' & E) | E]].
  - left. reflexivity.
  - right. exists m', e'. split; [ exact E | ].
    destruct (binary_round_aux_exponent _ _ _ _ _ _ _ Hz E) as [_ M].
    simpl Zdigits2 in M. lia.
  - exfalso. revert E. apply binary_round_aux_not_infinity; simpl Zdigits2; lia.
Qed.

(** An unsigned 63-bit integer becomes zero or a positive finite number
    below [2^64]. *)
Lemma of_uint63_cases i :
  Prim2SF (of_uint63 i) = S754_zero false \/
  exists m e,
    Prim2SF (of_uint63 i) = S754_finite false m e /\ Zpos (digits2_pos m) + e <= 64.
Proof.
  rewrite FloatAxioms.of_uint63_spec.
  pose proof (Uint63.to_Z_bounded i) as B.
  change Uint63Axioms.wB with (2 ^ 63) in B.
  destruct (Uint63Axioms.to_Z i) as [| p | p] eqn:E; [ left; reflexivity | | lia ].
  assert (D : Zpos (digits2_pos p) <= 63).
  { apply (Zdigits2_le (Zpos p) 63); lia. }
  cbn [binary_normalize].
  destruct (binary_round_magnitude false p 0) as [-> | (m' & e' & -> & M)]; try lia.
  - left. reflexivity.
  - right. exists m', e'. split; [ reflexivity | lia ].
Qed.

(** A number that is at least 1. *)
Lemma ge_one_cases x :
  (1 <=? x)%float = true ->
  Prim2SF x = S754_infinity false \/
  exists m e, Prim2SF x = S754_finite false m e /\ 1 <= Zpos (digits2_pos m) + e.
Proof.
  intros H. pose proof (Prim2SF_valid x) as V.
  rewrite FloatAxioms.leb_spec in H. unfold SFleb in H.
  change (Prim2SF 1) with (S754_finite false 4503599627370496 (-52)) in H.
  destruct (Prim2SF x) as [s | [] | | [] m e]; cbv beta iota delta [SFcompare] in H;
    try discriminate; [ left; reflexivity | right ].
  exists m, e. split; [ reflexivity | ].
  simpl in V. unfold bounded, canonical_mantissa, fexp, emin, prec, emax in V.
  apply andb_prop in V. destruct V as [V _]. apply Z.eqb_eq in V.
  revert H. destruct (Z.compare_spec (-52) e) as [Heq | Hlt | Hgt]; intros H.
  - subst e.
    pose proof (Zdigits2_le (Zpos m) 52) as L. simpl Zdigits2 in L.
    destruct (Z.le_gt_cases 53 (Zpos (digits2_pos m))) as [ | G]; [ lia | exfalso ].
    destruct (Pos.compare_cont Eq 4503599627370496 m) eqn:C; try discriminate.
    + apply Pos.compare_eq in C. subst m. discriminate G.
    + change (Pos.compare_cont Eq 4503599627370496 m)
        with (4503599627370496 ?= m)%positive in C.
      apply Pos.compare_lt_iff in C.
      assert (C' : 2 ^ 52 < Zpos m) by exact C.
      pose proof (digits2_pos_bound m) as U.
      assert (P : 2 ^ Zpos (digits2_pos m) <= 2 ^ 52) by (apply Z.pow_le_mono_r; lia).
      revert C' U P. generalize (2 ^ 52) (2 ^ Zpos (digits2_pos m)) (Zpos m). clear.
      intros. lia.
  - lia.
  - discriminate.
Qed.

(** The quotient of the division core: not negative, with a bound on its
    exponent and on its magnitude. *)
Lemma div_core_bounds m1 e1 m2 e2 :
  let d := Zpos (digits2_pos m1) + e1 - (Zpos (digits2_pos m2) + e2) in
  let r := SFdiv_core_binary prec emax (Zpos m1) e1 (Zpos m2) e2 in
  0 <= fst (fst r) /\
  snd (fst r) <= Z.max (d - 53) (-1074) /\
  Zdigits2 (fst (fst r)) + snd (fst r) <= Z.max (d + 1) (snd (fst r)).
Proof.
  intros d. unfold SFdiv_core_binary. cbn [Zdigits2].
  set (e' := Z.min (fexp prec emax (Zpos (digits2_pos m1) + e1 - (Zpos (digits2_pos m2) + e2)))
               (e1 - e2)).
  assert (E : e' <= Z.max (d - 53) (-1074)).
  { unfold e', fexp, emin, prec, emax, d. lia. }
  assert (S : 0 <= e1 - e2 - e') by (unfold e'; lia).
  set (s := e1 - e2 - e') in *.
  set (m' := match s with Zpos _ => Z.shiftl (Zpos m1) s | Z0 => Zpos m1 | Zneg _ => 0 end).
  assert (M : m' = Zpos m1 * 2 ^ s).
  { unfold m'. destruct s as [| p | p]; [ simpl; lia | | lia ].
    rewrite Z.shiftl_mul_pow2 by lia. reflexivity. }
  pose proof (Z_div_mod m' (Zpos m2) ltac:(lia)) as Q.
  destruct (Z.div_eucl m' (Zpos m2)) as [q r]. cbn [fst snd].
  destruct Q as [Q R].
  assert (P : 0 < 2 ^ s) by (apply Z.pow_pos_nonneg; lia).
  assert (Hq : 0 <= q) by nia.
  split; [ exact Hq | ]. split; [ exact E | ].
  destruct (Z.eq_dec q 0) as [-> | Hne]; [ simpl; lia | ].
  pose proof (digits2_pos_bound m1) as U1.
  pose proof (digits2_pos_lower m2) as L2.
  set (d1 := Zpos (digits2_pos m1)) in *. set (d2 := Zpos (digits2_pos m2)) in *.
  assert (D1 : 0 < d1) by (unfold d1; lia). assert (D2 : 0 < d2) by (unfold d2; lia).
  assert (B : m' < 2 ^ (d1 + s)).
  { rewrite M, Z.pow_add_r by lia. nia. }
  assert (K : 0 <= d1 + s - d2 + 1).
  { destruct (Z.le_gt_cases 0 (d1 + s - d2 + 1)) as [ | G]; [ assumption | exfalso ].
    assert (T : 2 ^ (d1 + s) <= 2 ^ (d2 - 1)) by (apply Z.pow_le_mono_r; lia).
    assert (q * Zpos m2 <= m') by lia. nia. }
  assert (Dq : Zdigits2 q <= d1 + s - d2 + 1).
  { apply Zdigits2_le; [ exact Hq | exact K | ].
    assert (T : 2 ^ (d1 + s) = 2 ^ (d1 + s - d2 + 1) * 2 ^ (d2 - 1)).
    { rewrite <- Z.pow_add_r by lia. f_equal. lia. }
    assert (P2 : 0 < 2 ^ (d2 - 1)) by (apply Z.pow_pos_nonneg; lia).
    assert (X : q * 2 ^ (d2 - 1) < 2 ^ (d1 + s - d2 + 1) * 2 ^ (d2 - 1)) by nia.
    nia. }
  unfold d, s in *. lia.
Qed.

(** An integer divided by a number that is at least 1 is not infinite. *)
Lemma div_by_ge_one_finite i y s :
  (1 <=? y)%float = true ->
  Prim2SF (of_uint63 i / y)%float <> S754_infinity s.
Proof.
  intros Hy. rewrite FloatAxioms.div_spec.
  destruct (of_uint63_cases i) as [-> | (m1 & e1 & -> & M1)];
    destruct (ge_one_cases y Hy) as [-> | (m2 & e2 & -> & M2)];
    try discriminate.
  unfold SF64div, SFdiv.
  pose proof (div_core_bounds m1 e1 m2 e2) as B. cbv zeta in B.
  destruct (SFdiv_core_binary prec emax (Zpos m1) e1 (Zpos m2) e2) as [[q e'] l].
  cbn [fst snd] in B. destruct B as (Q & E & D).
  apply binary_round_aux_not_infinity; [ exact Q | lia | lia ].
Qed.

Lemma of_uint63_finite i s : Prim2SF (of_uint63 i) <> S754_infinity s.
Proof.
  destruct (of_uint63_cases i) as [-> | (m & e & -> & _)]; discriminate.
Qed.

Lemma of_Z_finite z s : Prim2SF (of_Z z) <> S754_infinity s.
Proof.
  unfold of_Z. destruct (z <? 0).
  - rewrite FloatAxioms.opp_spec.
    destruct (of_uint63_cases (Uint63.of_Z (- z))) as [-> | (m & e & -> & _)]; discriminate.
  - apply of_uint63_finite.
Qed.

(** [Math.floor] does not make a number infinite. *)
Lemma Math_floor_finite x s :
  Prim2SF x <> S754_infinity s -> Prim2SF (Math_floor x) <> S754_infinity s.
Proof.
  intros H. unfold Math_floor.
  destruct (Prim2SF x) as [s0 | s0 | | s0 m e] eqn:E; try (rewrite E; exact H).
  destruct (0 <=? e); [ rewrite E; discriminate | apply of_Z_finite ].
Qed.

Lemma eqb_infinity x :
  Prim2SF x <> S754_infinity false -> (x =? infinity)%float = false.
Proof.
  intros H. rewrite FloatAxioms.eqb_spec. unfold SFeqb.
  change (Prim2SF infinity) with (S754_infinity false).
  destruct (Prim2SF x) as [s | [] | | [] m e]; try reflexivity.
  contradiction H. reflexivity.
Qed.

(** *** Lower bounds *)

Lemma Zdigits2_ge m k : 0 <= k -> 2 ^ k <= m -> k + 1 <= Zdigits2 m.
Proof.
  intros Hk H.
  assert (P : 0 < 2 ^ k) by (apply Z.pow_pos_nonneg; lia).
  pose proof (Zdigits2_upper m ltac:(lia)) as U.
  pose proof (Zdigits2_nonneg m) as N.
  destruct (Z.le_gt_cases (k + 1) (Zdigits2 m)) as [ | G]; [ assumption | exfalso ].
  assert (T : 2 ^ Zdigits2 m <= 2 ^ k) by (apply Z.pow_le_mono_r; lia).
  lia.
Qed.

Lemma Zdigits2_positive m : 0 <= m -> 0 < Zdigits2 m -> 0 < m.
Proof. destruct m; simpl; lia. Qed.

(** Above the smallest magnitude, [shr_fexp] keeps the magnitude and a
    mantissa that is not zero. *)
Lemma shr_fexp_magnitude m e l :
  0 < m -> -1074 < Zdigits2 m + e ->
  let r := shr_fexp prec emax m e l in
  0 < shr_m (fst r) /\ Zdigits2 (shr_m (fst r)) + snd r = Zdigits2 m + e.
Proof.
  intros Hm Hd. unfold shr_fexp, shr.
  assert (H0 : shr_m (shr_record_of_loc m l) = m) by (destruct l as [| []]; reflexivity).
  destruct (fexp prec emax (Zdigits2 m + e) - e) as [| p | p] eqn:K; cbn [fst snd].
  - rewrite H0. split; [ exact Hm | reflexivity ].
  - destruct (iter_shr_1_digits p (shr_record_of_loc m l)) as [H1 D]; [ rewrite H0; lia | ].
    rewrite H0 in D. unfold fexp, emin, prec, emax in K.
    split; [ apply Zdigits2_positive; [ exact H1 | lia ] | lia ].
  - rewrite H0. split; [ exact Hm | reflexivity ].
Qed.

Lemma round_nearest_even_ge m l : m <= round_nearest_even m l.
Proof. destruct l as [| []]; simpl; try lia. destruct (Z.even m); lia. Qed.

(** Rounding does not lower the magnitude. *)
Lemma binary_round_aux_lower s m e l :
  0 < m -> -1074 < Zdigits2 m + e ->
  binary_round_aux prec emax s m e l = S754_infinity s \/
  exists m' e',
    binary_round_aux prec emax s m e l = S754_finite s m' e' /\
    Zdigits2 m + e <= Zpos (digits2_pos m') + e'.
Proof.
  intros Hm Hd. unfold binary_round_aux.
  pose proof (shr_fexp_magnitude m e l Hm Hd) as B1.
  destruct (shr_fexp prec emax m e l) as [mrs1 e1]. cbn [fst snd] in B1.
  destruct B1 as [P1 M1].
  pose proof (round_nearest_even_ge (shr_m mrs1) (loc_of_shr_record mrs1)) as G.
  pose proof (Zdigits2_mono (shr_m mrs1) _ ltac:(split; [ lia | exact G ])) as D.
  set (m1 := round_nearest_even (shr_m mrs1) (loc_of_shr_record mrs1)) in *.
  assert (Hm1 : 0 < m1) by lia.
  assert (Hd1 : -1074 < Zdigits2 m1 + e1) by lia.
  pose proof (shr_fexp_magnitude m1 e1 loc_Exact Hm1 Hd1) as B2.
  destruct (shr_fexp prec emax m1 e1 loc_Exact) as [mrs2 e2]. cbn [fst snd] in B2.
  destruct B2 as [P2 M2].
  destruct (shr_m mrs2) as [| p | p] eqn:S2; try lia.
  destruct (e2 <=? emax - prec); [ right | left; reflexivity ].
  exists p, e2. split; [ reflexivity | ]. simpl Zdigits2 in M2. lia.
Qed.

Lemma binary_round_lower s m e :
  -1074 < Zpos (digits2_pos m) + e ->
  binary_round prec emax s m e = S754_infinity s \/
  exists m' e',
    binary_round prec emax s m e = S754_finite s m' e' /\
    Zpos (digits2_pos m) + e <= Zpos (digits2_pos m') + e'.
Proof.
  intros Hd. unfold binary_round.
  pose proof (shl_align_magnitude m e (fexp prec emax (Zpos (digits2_pos m) + e))) as A.
  destruct (shl_align m e _) as [mz ez]. cbn [fst snd] in A. destruct A as [A1 A2].
  destruct (binary_round_aux_lower s (Zpos mz) ez loc_Exact) as [-> | (m' & e' & -> & M)];
    simpl Zdigits2 in *; try lia.
  - left. reflexivity.
  - right. exists m', e'. split; [ reflexivity | lia ].
Qed.

(** A positive integer keeps at least its number of bits. *)
Lemma of_uint63_lower i :
  0 < Uint63Axioms.to_Z i ->
  exists m e,
    Prim2SF (of_uint63 i) = S754_finite false m e /\
    Zdigits2 (Uint63Axioms.to_Z i) <= Zpos (digits2_pos m) + e.
Proof.
  intros H. pose proof (of_uint63_finite i false) as F. revert F.
  rewrite FloatAxioms.of_uint63_spec.
  destruct (Uint63Axioms.to_Z i) as [| p | p]; try lia.
  cbn [binary_normalize Zdigits2]. intros F.
  destruct (binary_round_lower false p 0) as [E | (m' & e' & E & M)]; [ lia | | ].
  - contradiction.
  - exists m', e'. split; [ exact E | lia ].
Qed.

(** A positive number of magnitude at least 1 is at least 1. *)
Lemma ge_one_of_magnitude x m e :
  Prim2SF x = S754_finite false m e -> 1 <= Zpos (digits2_pos m) + e ->
  (1 <=? x)%float = true.
Proof.
  intros E M. pose proof (Prim2SF_valid x) as V.
  rewrite FloatAxioms.leb_spec. unfold SFleb. rewrite E in *.
  change (Prim2SF 1) with (S754_finite false 4503599627370496 (-52)).
  cbv beta iota delta [SFcompare].
  simpl in V. unfold bounded, canonical_mantissa, fexp, emin, prec, emax in V.
  apply andb_prop in V. destruct V as [V _]. apply Z.eqb_eq in V.
  destruct (Z.compare_spec (-52) e) as [Heq | Hlt | Hgt]; [ | reflexivity | lia ].
  subst e. assert (D : Zpos (digits2_pos m) = 53) by lia.
  pose proof (digits2_pos_lower m) as L. rewrite D in L. change (53 - 1) with 52 in L.
  destruct (Pos.compare_cont Eq 4503599627370496 m) eqn:C; try reflexivity.
  exfalso.
  change (Pos.compare_cont Eq 4503599627370496 m) with (4503599627370496 ?= m)%positive in C.
  apply Pos.compare_gt_iff in C.
  assert (C' : Zpos m < 2 ^ 52) by exact C.
  revert C' L. generalize (2 ^ 52) (Zpos m). clear. intros. lia.
Qed.

Lemma ge_one_of_infinity x :
  Prim2SF x = S754_infinity false -> (1 <=? x)%float = true.
Proof.
  intros E. rewrite FloatAxioms.leb_spec. unfold SFleb. rewrite E. reflexivity.
Qed.

(** The magnitude of a product of positive numbers. *)
Lemma mul_lower x y m1 e1 m2 e2 :
  Prim2SF x = S754_finite false m1 e1 ->
  Prim2SF y = S754_finite false m2 e2 ->
  -1074 < Zpos (digits2_pos m1) + e1 + (Zpos (digits2_pos m2) + e2) - 1 ->
  Prim2SF (x * y)%float = S754_infinity false \/
  exists m e,
    Prim2SF (x * y)%float = S754_finite false m e /\
    Zpos (digits2_pos m1) + e1 + (Zpos (digits2_pos m2) + e2) - 1
    <= Zpos (digits2_pos m) + e.
Proof.
  intros E1 E2 H. rewrite FloatAxioms.mul_spec, E1, E2.
  unfold SF64mul, SFmul. cbn [xorb].
  pose proof (digits2_pos_lower m1) as L1. pose proof (digits2_pos_lower m2) as L2.
  assert (D : Zpos (digits2_pos m1) + Zpos (digits2_pos m2) - 1
              <= Zdigits2 (Zpos (m1 * m2))).
  { replace (Zpos (digits2_pos m1) + Zpos (digits2_pos m2) - 1)
      with ((Zpos (digits2_pos m1) - 1) + (Zpos (digits2_pos m2) - 1) + 1) by lia.
    apply Zdigits2_ge; [ lia | ].
    rewrite Z.pow_add_r by lia. rewrite Pos2Z.inj_mul.
    apply Z.mul_le_mono_nonneg; try assumption; apply Z.pow_nonneg; lia. }
  destruct (binary_round_aux_lower false (Zpos (m1 * m2)) (e1 + e2) loc_Exact)
    as [-> | (m & e & -> & M)]; try lia.
  - left. reflexivity.
  - right. exists m, e. split; [ reflexivity | lia ].
Qed.

(** [Math.floor] of a number that is at least 1 is at least 1. *)
Lemma floor_ge_one x :
  (1 <=? x)%float = true -> (1 <=? Math_floor x)%float = true.
Proof.
  intros H. unfold Math_floor.
  destruct (ge_one_cases x H) as [E | (m & e & E & M)]; rewrite E; [ exact H | ].
  destruct (Z.leb_spec 0 e) as [ | He]; [ exact H | ].
  unfold signed.
  pose proof (valid_mantissa_bound x false m e E) as U.
  pose proof (digits2_pos_lower m) as L.
  assert (P : 0 < 2 ^ (- e)) by (apply Z.pow_pos_nonneg; lia).
  assert (T : 2 ^ (- e) <= 2 ^ (Zpos (digits2_pos m) - 1)) by (apply Z.pow_le_mono_r; lia).
  assert (R : 1 <= Zpos m / 2 ^ (- e)).
  { apply Z.div_le_lower_bound; lia. }
  assert (R' : Zpos m / 2 ^ (- e) <= Zpos m) by (apply Z.div_le_upper_bound; nia).
  set (r := Zpos m / 2 ^ (- e)) in *.
  unfold of_Z. replace (r <? 0) with false by (symmetry; apply Z.ltb_ge; lia).
  assert (Z : Uint63Axioms.to_Z (Uint63.of_Z r) = r).
  { rewrite Uint63.of_Z_spec. apply Z.mod_small.
    change Uint63Axioms.wB with (2 ^ 63).
    assert (2 ^ 53 < 2 ^ 63) by reflexivity. lia. }
  destruct (of_uint63_lower (Uint63.of_Z r)) as (m' & e' & E' & M'); [ lia | ].
  rewrite Z in M'.
  apply (ge_one_of_magnitude _ m' e' E').
  pose proof (Zdigits2_ge r 0 ltac:(lia) ltac:(simpl; lia)). lia.
Qed.

Lemma all_range_spec (P : Z -> bool) count :
  forall lo,
    all_range P lo count = true ->
    forall k, lo <= k < lo + Zpos count -> P k = true.
Proof.
  induction count as [half IH | half IH |]; intros lo H k Hk; cbn [all_range] in H.
  - apply andb_prop in H. destruct H as [H H3]. apply andb_prop in H. destruct H as [H1 H2].
    destruct (Z.eq_dec k lo) as [-> | Hne]; [ exact H1 | ].
    destruct (Z.lt_ge_cases k (lo + 1 + Zpos half)).
    + apply (IH _ H2). lia.
    + apply (IH _ H3). lia.
  - apply andb_prop in H. destruct H as [H1 H2].
    destruct (Z.lt_ge_cases k (lo + Zpos half)).
    + apply (IH _ H1). lia.
    + apply (IH _ H2). lia.
  - assert (k = lo) by lia. subst k. exact H.
Qed.

End MagnitudeFacts.

(** ** The order of binary64 values *)

Module NumberOrder.
Import JsNum Binary64 FloatFacts.

(** A valid value as an integer multiple of [2^-1074], the infinities
    beyond every finite value. *)
Definition top : Z := 2 ^ 2100.

Definition key (x : spec_float) : Z :=
  match x with
  | S754_zero _ | S754_nan => 0
  | S754_infinity s => if s then - top else top
  | S754_finite s m e =>
      if s then - (Zpos m * 2 ^ (e + 1074)) else Zpos m * 2 ^ (e + 1074)
  end.

Lemma valid_finite s m e :
  valid_binary (S754_finite s m e) = true ->
  -1074 <= e <= 971 /\ Zpos m < 2 ^ 53 /\ (e = -1074 \/ 2 ^ 52 <= Zpos m).
Proof.
  intros V. unfold valid_binary, SpecFloat.valid_binary in V.
  unfold bounded, canonical_mantissa, fexp, emin in V.
  apply andb_prop in V. destruct V as [V1 V2].
  apply Z.eqb_eq in V1. apply Z.leb_le in V2.
  change (3 - emax - prec) with (-1074) in V1.
  change (emax - prec) with 971 in V2. change prec with 53 in V1.
  pose proof (digits2_pos_bound m) as B.
  pose proof (MagnitudeFacts.digits2_pos_lower m) as L.
  assert (D : Zpos (digits2_pos m) <= 53) by lia.
  split; [ lia | ]. split.
  - eapply Z.lt_le_trans; [ exact B | ]. apply Z.pow_le_mono_r; lia.
  - destruct (Z.eq_dec e (-1074)) as [-> | Hne]; [ left; reflexivity | right ].
    assert (E : Zpos (digits2_pos m) = 53) by lia.
    rewrite E in L. exact L.
Qed.

Lemma key_finite_pos m e :
  valid_binary (S754_finite false m e) = true ->
  0 < key (S754_finite false m e) < top.
Proof.
  intros V. destruct (valid_finite _ _ _ V) as (He & Hm & _). cbn [key].
  assert (P : 0 < 2 ^ (e + 1074)) by (apply Z.pow_pos_nonneg; lia).
  assert (Q : 2 ^ (e + 1074) <= 2 ^ 2045) by (apply Z.pow_le_mono_r; lia).
  assert (T : top = 2 ^ 53 * 2 ^ 2045 * 4).
  { unfold top. rewrite <- Z.pow_add_r by lia. change 4 with (2 ^ 2).
    rewrite <- Z.pow_add_r by lia. reflexivity. }
  rewrite T. clear T.
  assert (Pm : 0 < Zpos m) by reflexivity.
  revert P Q Hm Pm. generalize (2 ^ (e + 1074)) (2 ^ 2045) (2 ^ 53) (Zpos m).
  clear. intros p q r n P Q Hm Pm.
  assert (H1 : 0 < n * p) by (apply Z.mul_pos_pos; assumption).
  assert (H2 : n * p <= n * q) by (apply Z.mul_le_mono_nonneg_l; lia).
  assert (H3 : n * q < r * q) by (apply Z.mul_lt_mono_pos_r; lia).
  lia.
Qed.

(** Among valid positive values, the exponent decides first. *)
Lemma key_exponent m1 e1 m2 e2 :
  valid_binary (S754_finite false m1 e1) = true ->
  valid_binary (S754_finite false m2 e2) = true ->
  e1 < e2 ->
  key (S754_finite false m1 e1) < key (S754_finite false m2 e2).
Proof.
  intros V1 V2 H.
  destruct (valid_finite _ _ _ V1) as (He1 & Hm1 & _).
  destruct (valid_finite _ _ _ V2) as (He2 & _ & [-> | Hm2]); [ lia | ].
  cbn [key].
  assert (P : 0 < 2 ^ (e1 + 1074)) by (apply Z.pow_pos_nonneg; lia).
  assert (Q : 2 * 2 ^ (e1 + 1074) <= 2 ^ (e2 + 1074)).
  { rewrite <- Z.pow_succ_r by lia. apply Z.pow_le_mono_r; lia. }
  assert (R : 2 ^ 53 = 2 * 2 ^ 52) by reflexivity.
  rewrite R in Hm1. clear R.
  assert (R : 0 < 2 ^ 52) by reflexivity.
  revert P Q R Hm1 Hm2.
  generalize (2 ^ (e1 + 1074)) (2 ^ (e2 + 1074)) (2 ^ 52) (Zpos m1) (Zpos m2).
  clear. intros p q r a b P Q R Ha Hb.
  assert (H1 : a * p < 2 * r * p) by (apply Z.mul_lt_mono_pos_r; assumption).
  assert (H2 : r * (2 * p) <= r * q) by (apply Z.mul_le_mono_nonneg_l; lia).
  assert (H3 : r * q <= b * q) by (apply Z.mul_le_mono_nonneg_r; lia).
  lia.
Qed.

Lemma key_mantissa m1 m2 e :
  -1074 <= e ->
  (Zpos m1 * 2 ^ (e + 1074) ?= Zpos m2 * 2 ^ (e + 1074)) = Pos.compare_cont Eq m1 m2.
Proof.
  intros He.
  assert (P : 0 < 2 ^ (e + 1074)) by (apply Z.pow_pos_nonneg; lia).
  change (Pos.compare_cont Eq m1 m2) with (Zpos m1 ?= Zpos m2).
  destruct (Z.compare_spec (Zpos m1) (Zpos m2)) as [E | L | G].
  - rewrite E. apply Z.compare_refl.
  - apply Z.compare_lt_iff. apply Z.mul_lt_mono_pos_r; assumption.
  - apply Z.compare_gt_iff. apply Z.mul_lt_mono_pos_r; assumption.
Qed.

Lemma compare_positive m1 e1 m2 e2 :
  valid_binary (S754_finite false m1 e1) = true ->
  valid_binary (S754_finite false m2 e2) = true ->
  match e1 ?= e2 with
  | Lt => Lt
  | Gt => Gt
  | Eq => Pos.compare_cont Eq m1 m2
  end = (key (S754_finite false m1 e1) ?= key (S754_finite false m2 e2)).
Proof.
  intros V1 V2. destruct (Z.compare_spec e1 e2) as [E | L | G].
  - subst e2. symmetry. apply key_mantissa.
    destruct (valid_finite _ _ _ V1) as (He & _). lia.
  - symmetry. apply Z.compare_lt_iff. apply key_exponent; assumption.
  - symmetry. apply Z.compare_gt_iff. apply key_exponent; assumption.
Qed.

(** The comparison of two valid numbers is the comparison of their
    keys. *)
Lemma compare_key x y :
  valid_binary x = true -> valid_binary y = true ->
  is_number x = true -> is_number y = true ->
  SFcompare x y = Some (key x ?= key y).
Proof.
  intros Vx Vy Nx Ny.
  destruct x as [sx | sx | | sx mx ex]; try discriminate;
    destruct y as [sy | sy | | sy my ey]; try discriminate.
  - reflexivity.
  - destruct sy; reflexivity.
  - destruct sy.
    + pose proof (key_finite_pos my ey Vy) as K. cbn [key SFcompare] in *.
      f_equal. symmetry. apply Z.compare_gt_iff. lia.
    + pose proof (key_finite_pos my ey Vy) as K. cbn [key SFcompare] in *.
      f_equal. symmetry. apply Z.compare_lt_iff. lia.
  - destruct sx; reflexivity.
  - destruct sx, sy; reflexivity.
  - destruct sy; pose proof (key_finite_pos my ey Vy) as K; destruct sx; cbn [key SFcompare] in *;
      f_equal; symmetry;
      first [ apply Z.compare_lt_iff; unfold top in *; lia
            | apply Z.compare_gt_iff; unfold top in *; lia ].
  - pose proof (key_finite_pos mx ex Vx) as K. destruct sx; cbn [key SFcompare] in *;
      f_equal; symmetry;
      first [ apply Z.compare_lt_iff; lia | apply Z.compare_gt_iff; lia ].
  - pose proof (key_finite_pos mx ex Vx) as K. destruct sx, sy; cbn [key SFcompare] in *;
      f_equal; symmetry;
      first [ apply Z.compare_lt_iff; unfold top in *; lia
            | apply Z.compare_gt_iff; unfold top in *; lia ].
  - pose proof (key_finite_pos mx ex Vx) as Kx.
    pose proof (key_finite_pos my ey Vy) as Ky.
    destruct sx, sy.
    + cbn [SFcompare]. f_equal.
      transitivity (CompOpp match ex ?= ey with
                            | Lt => Lt
                            | Gt => Gt
                            | Eq => Pos.compare_cont Eq mx my
                            end); [ destruct (ex ?= ey); reflexivity | ].
      rewrite (compare_positive mx ex my ey Vx Vy).
      cbn [key]. rewrite <- Z.compare_opp. symmetry. apply Z.compare_antisym.
    + cbn [SFcompare]. f_equal. symmetry. apply Z.compare_lt_iff.
      cbn [key] in *. lia.
    + cbn [SFcompare]. f_equal. symmetry. apply Z.compare_gt_iff.
      cbn [key] in *. lia.
    + cbn [SFcompare]. f_equal. apply compare_positive; assumption.
Qed.

(** The key of a number. *)
Definition rank (x : float) : Z := key (Prim2SF x).

Lemma compare_rank x y :
  number x -> number y ->
  SFcompare (Prim2SF x) (Prim2SF y) = Some (rank x ?= rank y).
Proof.
  intros Nx Ny. apply compare_key; try apply Prim2SF_valid; apply number_spec; assumption.
Qed.

Lemma compare_nan x y :
  is_nan x = true \/ is_nan y = true -> SFcompare (Prim2SF x) (Prim2SF y) = None.
Proof.
  rewrite !is_nan_spec.
  destruct (Prim2SF x) as [| | |], (Prim2SF y) as [| | |]; simpl;
    intros [H | H]; try discriminate; reflexivity.
Qed.

Lemma ltb_rank x y :
  (x <? y)%float = true <-> number x /\ number y /\ rank x < rank y.
Proof.
  rewrite FloatAxioms.ltb_spec. unfold SFltb, number.
  destruct (is_nan x) eqn:Nx; [ rewrite compare_nan by tauto; intuition discriminate | ].
  destruct (is_nan y) eqn:Ny; [ rewrite compare_nan by tauto; intuition discriminate | ].
  rewrite compare_rank by assumption.
  destruct (Z.compare_spec (rank x) (rank y)); intuition (try discriminate; try lia).
Qed.

Lemma leb_rank x y :
  (x <=? y)%float = true <-> number x /\ number y /\ rank x <= rank y.
Proof.
  rewrite FloatAxioms.leb_spec. unfold SFleb, number.
  destruct (is_nan x) eqn:Nx; [ rewrite compare_nan by tauto; intuition discriminate | ].
  destruct (is_nan y) eqn:Ny; [ rewrite compare_nan by tauto; intuition discriminate | ].
  rewrite compare_rank by assumption.
  destruct (Z.compare_spec (rank x) (rank y)); intuition (try discriminate; try lia).
Qed.

Lemma ltb_false_rank x y :
  number x -> number y -> (x <? y)%float = false -> rank y <= rank x.
Proof.
  intros Nx Ny H. destruct (Z.le_gt_cases (rank y) (rank x)) as [L | G]; [ exact L | ].
  assert (T : (x <? y)%float = true) by (apply ltb_rank; auto).
  congruence.
Qed.

Lemma leb_false_rank x y :
  number x -> number y -> (x <=? y)%float = false -> rank y < rank x.
Proof.
  intros Nx Ny H. destruct (Z.lt_ge_cases (rank y) (rank x)) as [L | G]; [ exact L | ].
  assert (T : (x <=? y)%float = true) by (apply leb_rank; auto).
  congruence.
Qed.

Lemma ltb_trans x y z :
  (x <? y)%float = true -> (y <? z)%float = true -> (x <? z)%float = true.
Proof. rewrite !ltb_rank. intuition lia. Qed.

Lemma leb_trans x y z :
  (x <=? y)%float = true -> (y <=? z)%float = true -> (x <=? z)%float = true.
Proof. rewrite !leb_rank. intuition lia. Qed.

Lemma ltb_leb_trans x y z :
  (x <? y)%float = true -> (y <=? z)%float = true -> (x <? z)%float = true.
Proof. rewrite !ltb_rank, leb_rank. intuition lia. Qed.

Lemma leb_ltb_trans x y z :
  (x <=? y)%float = true -> (y <? z)%float = true -> (x <? z)%float = true.
Proof. rewrite !ltb_rank, leb_rank. intuition lia. Qed.

Lemma ltb_leb x y : (x <? y)%float = true -> (x <=? y)%float = true.
Proof. rewrite ltb_rank, leb_rank. intuition lia. Qed.

Lemma ltb_not_leb x y : (x <? y)%float = true -> (y <=? x)%float = false.
Proof.
  rewrite ltb_rank. intros (Nx & Ny & L).
  destruct (y <=? x)%float eqn:E; [ | reflexivity ].
  apply leb_rank in E. lia.
Qed.

Lemma leb_not_ltb x y : (x <=? y)%float = true -> (y <? x)%float = false.
Proof.
  rewrite leb_rank. intros (Nx & Ny & L).
  destruct (y <? x)%float eqn:E; [ | reflexivity ].
  apply ltb_rank in E. lia.
Qed.

(** Two numbers are always comparable. *)
Lemma leb_total x y :
  number x -> number y -> (x <? y)%float = false -> (y <=? x)%float = true.
Proof.
  intros Nx Ny H. apply leb_rank. auto using ltb_false_rank.
Qed.

Lemma ltb_total x y :
  number x -> number y -> (x <=? y)%float = false -> (y <? x)%float = true.
Proof.
  intros Nx Ny H. apply ltb_rank. auto using leb_false_rank.
Qed.

Lemma ltb_number x y : (x <? y)%float = true -> number x /\ number y.
Proof. rewrite ltb_rank. tauto. Qed.

Lemma leb_number x y : (x <=? y)%float = true -> number x /\ number y.
Proof. rewrite leb_rank. tauto. Qed.

End NumberOrder.

(** ** Rounding: how far a result lies from the exact value *)

Module RoundingFacts.
Import JsNum Binary64 FloatFacts MagnitudeFacts NumberOrder.

(** *** Shifting and rounding a mantissa *)

Lemma shr_1_half mrs : 0 <= shr_m mrs -> shr_m (shr_1 mrs) = shr_m mrs / 2.
Proof.
  destruct mrs as [m r s]. cbn [shr_m].
  destruct m as [| p | p]; intros H; [ reflexivity | | lia ].
  destruct p as [p | p |]; cbn [shr_1 shr_m].
  - apply (Z.div_unique (Zpos p~1) 2 (Zpos p) 1); lia.
  - apply (Z.div_unique (Zpos p~0) 2 (Zpos p) 0); lia.
  - reflexivity.
Qed.

Lemma iter_shr_1_value p :
  forall mrs,
    0 <= shr_m mrs ->
    0 <= shr_m (iter_pos shr_1 p mrs) /\
    shr_m (iter_pos shr_1 p mrs) = shr_m mrs / 2 ^ Zpos p.
Proof.
  induction p as [p IH | p IH |]; intros mrs H; simpl iter_pos.
  - pose proof (shr_1_nonneg _ H) as H0.
    destruct (IH _ H0) as [H1 E1]. destruct (IH _ H1) as [H2 E2].
    split; [ exact H2 | ].
    rewrite E2, E1, (shr_1_half _ H).
    assert (P : 0 < 2 ^ Zpos p) by (apply Z.pow_pos_nonneg; lia).
    rewrite !Z.div_div by lia. f_equal.
    replace (Zpos p~1) with (1 + Zpos p + Zpos p) by lia.
    rewrite !Z.pow_add_r by lia. change (2 ^ 1) with 2. ring.
  - destruct (IH mrs H) as [H1 E1]. destruct (IH _ H1) as [H2 E2].
    split; [ exact H2 | ]. rewrite E2, E1.
    assert (P : 0 < 2 ^ Zpos p) by (apply Z.pow_pos_nonneg; lia).
    rewrite Z.div_div by lia. f_equal.
    replace (Zpos p~0) with (Zpos p + Zpos p) by lia.
    rewrite Z.pow_add_r by lia. reflexivity.
  - split; [ apply shr_1_nonneg, H | ]. rewrite (shr_1_half _ H). reflexivity.
Qed.

(** What [shr_fexp] leaves of a mantissa: the quotient by the power of
    two that the exponent has gained. *)
Lemma shr_fexp_value m e l :
  0 <= m ->
  let r := shr_fexp prec emax m e l in
  e <= snd r /\ 0 <= shr_m (fst r) /\ shr_m (fst r) = m / 2 ^ (snd r - e).
Proof.
  intros Hm. unfold shr_fexp, shr.
  assert (H0 : shr_m (shr_record_of_loc m l) = m) by (destruct l as [| []]; reflexivity).
  destruct (fexp prec emax (Zdigits2 m + e) - e) as [| p | p]; cbn [fst snd].
  - rewrite H0, Z.sub_diag. simpl. rewrite Z.div_1_r. repeat split; lia.
  - destruct (iter_shr_1_value p (shr_record_of_loc m l)) as [H1 E1];
      [ rewrite H0; exact Hm | ].
    rewrite H0 in E1. split; [ lia | ]. split; [ exact H1 | ].
    rewrite E1. f_equal. f_equal. lia.
  - rewrite H0, Z.sub_diag. simpl. rewrite Z.div_1_r. repeat split; lia.
Qed.

Lemma round_nearest_even_le m l : round_nearest_even m l <= m + 1.
Proof. destruct l as [| []]; simpl; try lia. destruct (Z.even m); lia. Qed.

(** The mantissa that [binary_round_aux] returns, brought back to the
    exponent of the argument, is less than two units of its last place
    away from the argument. *)
Lemma binary_round_aux_value s m e l s' m' e' :
  0 <= m ->
  binary_round_aux prec emax s m e l = S754_finite s' m' e' ->
  s' = s /\ e <= e' /\
  Zpos m' * 2 ^ (e' - e) <= m + 2 ^ (e' - e) /\
  m < Zpos m' * 2 ^ (e' - e) + 2 * 2 ^ (e' - e).
Proof.
  intros Hm. unfold binary_round_aux.
  pose proof (shr_fexp_value m e l Hm) as B1.
  destruct (shr_fexp prec emax m e l) as [mrs1 e1]. cbn [fst snd] in B1.
  destruct B1 as (E1 & P1 & V1).
  pose proof (round_nearest_even_ge (shr_m mrs1) (loc_of_shr_record mrs1)) as G.
  pose proof (round_nearest_even_le (shr_m mrs1) (loc_of_shr_record mrs1)) as L.
  set (r := round_nearest_even (shr_m mrs1) (loc_of_shr_record mrs1)) in *.
  assert (Hr : 0 <= r) by lia.
  pose proof (shr_fexp_value r e1 loc_Exact Hr) as B2.
  destruct (shr_fexp prec emax r e1 loc_Exact) as [mrs2 e2]. cbn [fst snd] in B2.
  destruct B2 as (E2 & P2 & V2).
  destruct (shr_m mrs2) as [| p | p] eqn:S2; try discriminate.
  destruct (e2 <=? emax - prec); [ | discriminate ].
  intros H. inversion H; subst s' m' e'. clear H.
  split; [ reflexivity | ]. split; [ lia | ].
  assert (Pa : 0 < 2 ^ (e1 - e)) by (apply Z.pow_pos_nonneg; lia).
  assert (Pb : 0 < 2 ^ (e2 - e1)) by (apply Z.pow_pos_nonneg; lia).
  assert (Pab : 2 ^ (e2 - e) = 2 ^ (e1 - e) * 2 ^ (e2 - e1)).
  { rewrite <- Z.pow_add_r by lia. f_equal. lia. }
  pose proof (Z.mul_div_le m _ Pa) as D1.
  pose proof (Z.mul_succ_div_gt m _ Pa) as D1'.
  pose proof (Z.mul_div_le r _ Pb) as D2.
  pose proof (Z.mul_succ_div_gt r _ Pb) as D2'.
  rewrite <- V1 in D1, D1'. rewrite <- V2 in D2, D2'.
  rewrite Pab.
  set (a := 2 ^ (e1 - e)) in *. set (b := 2 ^ (e2 - e1)) in *.
  set (m1 := shr_m mrs1) in *. clearbody a b m1 r.
  clear V1 V2 S2 P2 E1 E2 Pab. split; nia.
Qed.

(** *** Numbers that are not negative, on a common scale *)

(** The value of a number that is not negative, in units of [2^-1074]. *)
Definition scaled (x : spec_float) : Z :=
  match x with
  | S754_finite false m e => Zpos m * 2 ^ (e + 1074)
  | _ => 0
  end.

Definition unit : Z := 2 ^ 1074.

(** [+0] or a positive finite number. *)
Definition plain (x : spec_float) : bool :=
  match x with
  | S754_zero false | S754_finite false _ _ => true
  | _ => false
  end.

Lemma plain_number x : plain (Prim2SF x) = true -> number x.
Proof.
  intros H. apply number_spec. destruct (Prim2SF x) as [[] | | | [] ? ?]; try discriminate; reflexivity.
Qed.

Lemma plain_rank x : plain (Prim2SF x) = true -> rank x = scaled (Prim2SF x).
Proof.
  unfold rank. destruct (Prim2SF x) as [[] | | | [] ? ?]; try discriminate; reflexivity.
Qed.

Lemma scaled_nonneg x : 0 <= scaled x.
Proof.
  destruct x as [| | | [] m e]; cbn [scaled];
    first [ lia | apply Z.mul_nonneg_nonneg; [ lia | apply Z.pow_nonneg; lia ] ].
Qed.

(** The shape of a finite value of a float. *)
Lemma finite_shape x s m e :
  Prim2SF x = S754_finite s m e ->
  -1074 <= e <= 971 /\ Zpos m < 2 ^ 53 /\ (e = -1074 \/ 2 ^ 52 <= Zpos m) /\
  e = Z.max (Zpos (digits2_pos m) + e - 53) (-1074).
Proof.
  intros E. pose proof (Prim2SF_valid x) as V. rewrite E in V.
  unfold valid_binary, bounded, canonical_mantissa, fexp, emin in V.
  apply andb_prop in V. destruct V as [V1 V2].
  apply Z.eqb_eq in V1. apply Z.leb_le in V2.
  change (3 - emax - prec) with (-1074) in V1.
  change (emax - prec) with 971 in V2. change prec with 53 in V1.
  pose proof (digits2_pos_bound m) as B.
  pose proof (digits2_pos_lower m) as L.
  assert (D : Zpos (digits2_pos m) <= 53) by lia.
  split; [ lia | ]. split; [ | split ].
  - eapply Z.lt_le_trans; [ exact B | ]. apply Z.pow_le_mono_r; lia.
  - destruct (Z.eq_dec e (-1074)) as [-> | Hne]; [ left; reflexivity | right ].
    assert (E' : Zpos (digits2_pos m) = 53) by lia.
    rewrite E' in L. exact L.
  - lia.
Qed.

Lemma pow_shift a b : b <= a -> -1074 <= b -> 2 ^ (a + 1074) = 2 ^ (a - b) * 2 ^ (b + 1074).
Proof. intros. rewrite <- Z.pow_add_r by lia. f_equal. lia. Qed.


Lemma magnitude_below m e k :
  -1074 <= e -> scaled (S754_finite false m e) < 2 ^ (k + 1074) ->
  Zpos (digits2_pos m) + e <= k.
Proof.
  intros He H. cbn [scaled] in H.
  pose proof (digits2_pos_lower m) as L.
  destruct (Z.le_gt_cases (Zpos (digits2_pos m) + e) k) as [ | G]; [ assumption | exfalso ].
  assert (P : 0 < 2 ^ (e + 1074)) by (apply Z.pow_pos_nonneg; lia).
  assert (Q : 2 ^ (k + 1074) <= 2 ^ (Zpos (digits2_pos m) - 1) * 2 ^ (e + 1074)).
  { rewrite <- Z.pow_add_r by lia. apply Z.pow_le_mono_r; lia. }
  nia.
Qed.

Lemma iter_xO_value m d : Zpos (Pos.iter xO m d) = Zpos m * 2 ^ Zpos d.
Proof.
  induction d as [| d IH] using Pos.peano_ind.
  - simpl. lia.
  - rewrite Pos.iter_succ, Pos2Z.inj_xO, IH, Pos2Z.inj_succ, Z.pow_succ_r by lia. lia.
Qed.

(** Aligning keeps the value. *)
Lemma shl_align_value m e e' :
  let r := shl_align m e e' in
  snd r = Z.min e e' /\ Zpos (fst r) = Zpos m * 2 ^ (e - snd r).
Proof.
  unfold shl_align. destruct (e' - e) as [| d | d] eqn:K; cbn [fst snd].
  - split; [ lia | ]. rewrite Z.sub_diag. simpl. lia.
  - split; [ lia | ]. rewrite Z.sub_diag. simpl. lia.
  - split; [ lia | ]. rewrite iter_xO_value. f_equal. f_equal. lia.
Qed.

(** The sum of two positive finite numbers: a positive finite number
    less than two units of its last place away from the exact sum,
    provided the exact sum is below [2^k]. *)
Lemma add_finite x y m1 e1 m2 e2 k :
  Prim2SF x = S754_finite false m1 e1 ->
  Prim2SF y = S754_finite false m2 e2 ->
  k <= 1023 ->
  scaled (Prim2SF x) + scaled (Prim2SF y) < 2 ^ (k + 1074) ->
  exists m e,
    Prim2SF (x + y)%float = S754_finite false m e /\
    e <= Z.max (k - 52) (-1074) /\
    scaled (Prim2SF (x + y)%float)
    <= scaled (Prim2SF x) + scaled (Prim2SF y) + 2 ^ (e + 1074) /\
    scaled (Prim2SF x) + scaled (Prim2SF y)
    < scaled (Prim2SF (x + y)%float) + 2 * 2 ^ (e + 1074).
Proof.
  intros E1 E2 Hk Hs.
  destruct (finite_shape x _ _ _ E1) as (R1 & _). destruct (finite_shape y _ _ _ E2) as (R2 & _).
  pose proof (finite_shape (x + y)%float) as Shape.
  rewrite FloatAxioms.add_spec in *. rewrite E1, E2 in *.
  unfold SF64add, SFadd in *. cbn [cond_Zopp] in *.
  set (ez := Z.min e1 e2) in *.
  pose proof (shl_align_value m1 e1 ez) as A1. pose proof (shl_align_value m2 e2 ez) as A2.
  cbv zeta in A1, A2. destruct A1 as [A1 V1]. destruct A2 as [A2 V2].
  assert (Z1 : snd (shl_align m1 e1 ez) = ez) by (unfold ez in *; lia).
  assert (Z2 : snd (shl_align m2 e2 ez) = ez) by (unfold ez in *; lia).
  rewrite Z1 in V1. rewrite Z2 in V2.
  set (M := Zpos (fst (shl_align m1 e1 ez)) + Zpos (fst (shl_align m2 e2 ez))) in *.
  assert (HM : M * 2 ^ (ez + 1074)
               = scaled (S754_finite false m1 e1) + scaled (S754_finite false m2 e2)).
  { unfold M. rewrite V1, V2. cbn [scaled].
    rewrite (pow_shift e1 ez), (pow_shift e2 ez) by (unfold ez; lia). ring. }
  assert (Mpos : 0 < M) by (unfold M; lia).
  destruct M as [| p | p] eqn:EM; try lia.
  cbn [binary_normalize] in *. unfold binary_round in *.
  pose proof (shl_align_value p ez (fexp prec emax (Zpos (digits2_pos p) + ez))) as A.
  pose proof (shl_align_magnitude p ez (fexp prec emax (Zpos (digits2_pos p) + ez))) as G.
  destruct (shl_align p ez _) as [mz ez'] eqn:SA. cbn [fst snd] in A, G.
  destruct A as [A V]. destruct G as [G _].
  assert (Hez : -1074 <= ez') by (unfold fexp, emin, prec, emax in A; unfold ez in *; lia).
  assert (Hez' : ez' <= ez) by lia.
  assert (HV : Zpos mz * 2 ^ (ez' + 1074)
               = scaled (S754_finite false m1 e1) + scaled (S754_finite false m2 e2)).
  { rewrite <- HM, V. rewrite (pow_shift ez ez') by lia. ring. }
  assert (Dz : Zpos (digits2_pos mz) + ez' <= k).
  { apply magnitude_below; [ exact Hez | ]. cbn [scaled]. rewrite HV. exact Hs. }
  destruct (binary_round_aux_lower false (Zpos mz) ez' loc_Exact) as [Inf | (m & e & E & _)];
    [ lia | simpl Zdigits2; lia | | ].
  { exfalso. revert Inf. apply binary_round_aux_not_infinity; simpl Zdigits2; lia. }
  rewrite E in *. exists m, e. split; [ reflexivity | ].
  destruct (binary_round_aux_value false (Zpos mz) ez' loc_Exact false m e ltac:(lia) E)
    as (_ & Le & U & L).
  destruct (binary_round_aux_exponent false (Zpos mz) ez' loc_Exact false m e ltac:(lia) E)
    as [_ Mg].
  simpl Zdigits2 in Mg.
  destruct (Shape false m e eq_refl) as (Re & _ & _ & Ce).
  split; [ lia | ].
  cbn [scaled] in *. rewrite <- HV.
  rewrite (pow_shift e ez') by lia.
  assert (P : 0 < 2 ^ (ez' + 1074)) by (apply Z.pow_pos_nonneg; lia).
  set (u := 2 ^ (ez' + 1074)) in *. set (v := 2 ^ (e - ez')) in *.
  clearbody u v. clear - U L P. split; nia.
Qed.

(** The sum of two numbers that are [+0] or positive and finite. *)
Lemma add_plain x y k :
  plain (Prim2SF x) = true -> plain (Prim2SF y) = true ->
  k <= 1023 ->
  scaled (Prim2SF x) + scaled (Prim2SF y) < 2 ^ (k + 1074) ->
  plain (Prim2SF (x + y)%float) = true /\
  Z.abs (scaled (Prim2SF (x + y)%float) - (scaled (Prim2SF x) + scaled (Prim2SF y)))
  <= 2 * 2 ^ (Z.max (k - 52) (-1074) + 1074).
Proof.
  intros Px Py Hk Hs.
  assert (P : 0 <= 2 * 2 ^ (Z.max (k - 52) (-1074) + 1074)).
  { apply Z.mul_nonneg_nonneg; [ lia | apply Z.pow_nonneg; lia ]. }
  destruct (Prim2SF x) as [[] | | | [] m1 e1] eqn:E1; try discriminate;
    destruct (Prim2SF y) as [[] | | | [] m2 e2] eqn:E2; try discriminate.
  - rewrite FloatAxioms.add_spec, E1, E2. cbn. split; [ reflexivity | exact P ].
  - rewrite FloatAxioms.add_spec, E1, E2. cbn [SF64add SFadd plain scaled].
    split; [ reflexivity | ].
    replace (Zpos m2 * 2 ^ (e2 + 1074) - (0 + Zpos m2 * 2 ^ (e2 + 1074))) with 0 by ring.
    exact P.
  - rewrite FloatAxioms.add_spec, E1, E2. cbn [SF64add SFadd plain scaled].
    split; [ reflexivity | ].
    replace (Zpos m1 * 2 ^ (e1 + 1074) - (Zpos m1 * 2 ^ (e1 + 1074) + 0)) with 0 by ring.
    exact P.
  - rewrite <- E1, <- E2 in Hs.
    destruct (add_finite x y m1 e1 m2 e2 k E1 E2 Hk Hs) as (m & e & E & He & U & L).
    rewrite E in *. rewrite E1, E2 in *. split; [ reflexivity | ].
    assert (Q : 2 ^ (e + 1074) <= 2 ^ (Z.max (k - 52) (-1074) + 1074)).
    { apply Z.pow_le_mono_r; [ lia | ]. lia. }
    assert (Q' : 0 < 2 ^ (e + 1074)).
    { destruct (finite_shape (x + y)%float false m e) as (R & _).
      - rewrite <- E. reflexivity.
      - apply Z.pow_pos_nonneg; lia. }
    revert U L Q Q'.
    generalize (scaled (S754_finite false m e)) (scaled (S754_finite false m1 e1))
      (scaled (S754_finite false m2 e2)) (2 ^ (e + 1074))
      (2 ^ (Z.max (k - 52) (-1074) + 1074)).
    clear. intros. lia.
Qed.

End RoundingFacts.

(** ** Decimal strings: what [parseFloat] reads back from [toFixed] *)

Module DecimalFacts.
Import JsNum JsStr JsObject Binary64 FloatFacts MagnitudeFacts.

(** *** Digits *)

Lemma digit_not_space c : is_digit c = true -> JsNum.is_space c = false.
Proof.
  unfold is_digit, JsNum.is_space. cbv zeta. generalize (nat_of_ascii c). intros n H.
  apply andb_prop in H. destruct H as [H1 H2].
  apply Nat.leb_le in H1. apply Nat.leb_le in H2.
  assert (A : (n <=? 13)%nat = false) by (apply Nat.leb_gt; lia).
  assert (B : (n =? 32)%nat = false) by (apply Nat.eqb_neq; lia).
  assert (C : (n =? 160)%nat = false) by (apply Nat.eqb_neq; lia).
  rewrite A, B, C, andb_false_r. reflexivity.
Qed.












(** *** Reading *)






(** *** Quotients *)






(** *** [toFixed] and back *)




End DecimalFacts.

(** ** Level determination *)

Module LevelFacts.
Import JsNum AIAnalyzer Design.

Definition zero_to_hundred : list Z := map Z.of_nat (seq 0 101).

Lemma forall_0_100 (P : Z -> bool) :
  forallb P zero_to_hundred = true -> forall s, 0 <= s <= 100 -> P s = true.
Proof.
  intros H s Hs. rewrite forallb_forall in H. apply H.
  unfold zero_to_hundred. apply in_map_iff. exists (Z.to_nat s). split.
  - lia.
  - apply in_seq. lia.
Qed.

Definition same_strings (a b : list string) : bool :=
  if list_eq_dec string_dec a b then true else false.

Definition level_check (s : Z) : bool :=
  String.eqb (determineLevel new_AIAnalyzer (of_Z s)) (band_of s)
  && same_strings (matching_bands new_AIAnalyzer (of_Z s))
       (if s <? 100 then [band_of s] else []).

Lemma level_check_all : forallb level_check zero_to_hundred = true.
Proof. vm_compute. reflexivity. Qed.

(** C3: every integer overall score in [0,100] is mapped to the level of
    its half-open band, A1 [0,28), A2 [28,42), B1 [42,58), B2 [58,73),
    C1 [73,87), C2 [87,100); the bands do not overlap, so a score below 100
    lies in exactly that one band, while 100 lies in none and gets C2 from
    the fallback. *)
Theorem C3_level_bands (s : Z) :
  0 <= s <= 100 ->
  determineLevel new_AIAnalyzer (of_Z s) = band_of s /\
  matching_bands new_AIAnalyzer (of_Z s) = (if s <? 100 then [band_of s] else []).
Proof.
  intros Hs.
  pose proof (forall_0_100 level_check level_check_all s Hs) as H.
  unfold level_check in H. apply andb_prop in H. destruct H as [H1 H2].
  split.
  - apply String.eqb_eq. exact H1.
  - unfold same_strings in H2.
    destruct (list_eq_dec string_dec _ _) as [E | _]; [ exact E | discriminate ].
Qed.

(** An overall score of exactly 58 is level B2, inside the single band B2. *)
Lemma C3_level_bands_witness :
  0 <= 58 <= 100 /\
  determineLevel new_AIAnalyzer (of_Z 58) = "B2" /\
  matching_bands new_AIAnalyzer (of_Z 58) = ["B2"].
Proof.
  split; [ lia | ]. apply (C3_level_bands 58). lia.
Defined.

(** An overall score of exactly 100 is matched by no band and is level C2
    by the fallback. *)
Example level_of_100 :
  first_level (of_Z 100) (levelThresholds new_AIAnalyzer) = None /\
  determineLevel new_AIAnalyzer (of_Z 100) = "C2".
Proof. split; reflexivity. Qed.

End LevelFacts.

(** ** Sorting by score *)

Module SortFacts.
Import AIAnalyzer.

Section ByKey.
Context {A : Type} (key : A -> Z).

Definition by_key (a b : A) : bool := key a <=? key b.
Definition key_le (a b : A) : Prop := key a <= key b.

Lemma insert_perm x l : Permutation (insert by_key x l) (x :: l).
Proof.
  induction l as [| y l IH]; simpl.
  - apply Permutation_refl.
  - destruct (by_key x y).
    + apply Permutation_refl.
    + eapply perm_trans; [ apply perm_skip, IH | apply perm_swap ].
Qed.

Lemma sort_perm l : Permutation (sort by_key l) l.
Proof.
  induction l as [| x l IH]; simpl.
  - apply perm_nil.
  - eapply perm_trans; [ apply insert_perm | apply perm_skip, IH ].
Qed.

Lemma insert_sorted x l :
  StronglySorted key_le l -> StronglySorted key_le (insert by_key x l).
Proof.
  induction 1 as [| y l Hs IH Hy]; simpl.
  - constructor; constructor.
  - unfold by_key at 1. destruct (Z.leb_spec (key x) (key y)) as [Hle | Hgt].
    + constructor; [ constructor; assumption | ].
      constructor; [ exact Hle | ].
      eapply Forall_impl; [ | exact Hy ]. unfold key_le. intros; lia.
    + constructor; [ exact IH | ].
      eapply Permutation_Forall; [ apply Permutation_sym, insert_perm | ].
      constructor; [ unfold key_le; lia | exact Hy ].
Qed.

Lemma sort_sorted l : StronglySorted key_le (sort by_key l).
Proof.
  induction l as [| x l IH]; simpl.
  - constructor.
  - apply insert_sorted, IH.
Qed.

End ByKey.

End SortFacts.

(** ** Recommendations *)

Module RecommendationFacts.
Import JsNum AudioProcessor Transcriber AIAnalyzer SortFacts Samples.

Definition entry_score (e : string * SkillAnalysis) : Z := score (snd e).

Lemma skills_by_score_perm analyses :
  Permutation (skills_by_score analyses) (entries analyses).
Proof. apply (sort_perm entry_score). Qed.

Lemma skills_by_score_sorted analyses :
  StronglySorted (key_le entry_score) (skills_by_score analyses).
Proof. apply (sort_sorted entry_score). Qed.

(** The sorted array starts with the two lowest-scoring skills. *)
Lemma two_weakest analyses :
  exists weakest second rest,
    skills_by_score analyses = weakest :: second :: rest /\
    Permutation (weakest :: second :: rest) (entries analyses) /\
    (forall e, In e (entries analyses) -> entry_score weakest <= entry_score e) /\
    (forall e, In e (second :: rest) -> entry_score second <= entry_score e).
Proof.
  pose proof (skills_by_score_perm analyses) as P.
  pose proof (skills_by_score_sorted analyses) as S.
  pose proof (Permutation_length P) as L.
  destruct (skills_by_score analyses) as [| weakest [| second rest]];
    try discriminate L.
  exists weakest, second, rest.
  split; [ reflexivity | ]. split; [ exact P | ].
  inversion S as [| ? ? S' F]; subst.
  inversion S' as [| ? ? S'' F']; subst.
  split.
  - intros e He. apply (Permutation_in _ (Permutation_sym P)) in He.
    destruct He as [<- | He]; [ unfold key_le; lia | ].
    rewrite Forall_forall in F. apply F, He.
  - intros e [<- | He]; [ lia | ].
    rewrite Forall_forall in F'. apply F', He.
Qed.

(** What is pushed, step by step. *)
Definition skill_advice (limit : Z) (e : string * SkillAnalysis) : list Recommendation :=
  if entry_score e <? limit then [getSkillRecommendation (fst e) (snd e)] else [].

Definition filler_advice (t : option TranscriptAnalysis) : list Recommendation :=
  match t with
  | Some t => if 5 <? fillerWordCount t then [fillerRecommendation (fillerWordCount t)] else []
  | None => []
  end.

Definition foundation_advice (level : string) : list Recommendation :=
  if String.eqb level "A1" || String.eqb level "A2" then [foundationRecommendation] else [].

Lemma recommendations_unfold analyses level t weakest second rest :
  skills_by_score analyses = weakest :: second :: rest ->
  generateRecommendations analyses level t =
    (skill_advice 65 weakest ++ skill_advice 60 second
     ++ filler_advice t ++ foundation_advice level)%list.
Proof.
  intros E. unfold generateRecommendations. rewrite E.
  unfold skill_advice, filler_advice, foundation_advice, entry_score, push_if.
  destruct (score (snd weakest) <? 65), (score (snd second) <? 60),
    (String.eqb level "A1" || String.eqb level "A2"), t as [t |];
    try destruct (5 <? fillerWordCount t); reflexivity.
Qed.

(** C1 (amended): the two lowest-scoring of the five skills are taken;
    a per-skill recommendation is emitted for the weakest only if its
    score is below 65 and for the second-weakest only if its score is
    below 60; a filler-word recommendation follows if a transcript is
    present and its fillerWordCount exceeds 5, and a foundation
    recommendation if the level is A1 or A2; these come in that order and
    are never more than 4. *)
Theorem C1_recommendations analyses level t :
  exists weakest second rest,
    skills_by_score analyses = weakest :: second :: rest /\
    Permutation (weakest :: second :: rest) (entries analyses) /\
    (forall e, In e (entries analyses) -> entry_score weakest <= entry_score e) /\
    (forall e, In e (second :: rest) -> entry_score second <= entry_score e) /\
    generateRecommendations analyses level t =
      (skill_advice 65 weakest ++ skill_advice 60 second
       ++ filler_advice t ++ foundation_advice level)%list /\
    (List.length (generateRecommendations analyses level t) <= 4)%nat.
Proof.
  destruct (two_weakest analyses) as (weakest & second & rest & E & P & W & S).
  exists weakest, second, rest.
  repeat (split; [ assumption | ]).
  rewrite (recommendations_unfold _ _ _ _ _ _ E).
  split; [ reflexivity | ].
  unfold skill_advice, filler_advice, foundation_advice.
  destruct (entry_score weakest <? 65), (entry_score second <? 60),
    (String.eqb level "A1" || String.eqb level "A2"), t as [t |];
    try destruct (5 <? fillerWordCount t); simpl; lia.
Qed.

(** For the fluent sample every skill scores at least 65, the weakest
    being grammar with 73, and no recommendation at all is emitted: the
    weakest skill does not always get one. *)
Lemma C1_counterexample :
  let analyses := analyze_skills fluent_features "work" None in
  (exists weakest rest,
     skills_by_score analyses = weakest :: rest /\
     fst weakest = "grammar" /\ score (snd weakest) = 73) /\
  generateRecommendations analyses "C2" None = [] /\
  (exists a,
     analyzeFullSpeaking new_AIAnalyzer fluent_features "work" None 0 = Returns a /\
     level a = "C2" /\ recommendations a = []).
Proof.
  split; [ | split ].
  - eexists; eexists. vm_compute. repeat split; reflexivity.
  - vm_compute. reflexivity.
  - eexists. vm_compute. repeat split; reflexivity.
Qed.

End RecommendationFacts.
(** ** The overall score *)

Module OverallFacts.
Import JsNum JsStr JsProto Binary64 FloatFacts NumberOrder RoundingFacts.
Import AudioProcessor Transcriber AIAnalyzer Design.
Import LevelFacts Samples.

(** The weight that one round of the loop uses for a key. *)
Definition loop_weight (key : string) : float :=
  match lookup key (weights new_AIAnalyzer) with
  | Some w => or_else w 0.1
  | None => if mem key inherited then nan else 0.1%float
  end.

(** The weight of a skill as the code has it: the float nearest to its
    hundredths. *)
Definition weight_float (skill : string) : float :=
  (of_Z (weight_percent skill) / 100)%float.

Lemma loop_weight_skill key : In key skill_names -> loop_weight key = weight_float key.
Proof.
  intros H. repeat (destruct H as [<- | H]; [ reflexivity | ]). destruct H.
Qed.

Lemma weights_skill key :
  In key skill_names -> lookup key (weights new_AIAnalyzer) = Some (weight_float key).
Proof.
  intros H. repeat (destruct H as [<- | H]; [ reflexivity | ]). destruct H.
Qed.

Definition same_float (a b : float) : bool := PrimFloat.Leibniz.eqb a b.

Lemma same_float_eq a b : same_float a b = true -> a = b.
Proof. apply FloatAxioms.Leibniz.eqb_spec. Qed.

(** For a score between 0 and 100, [scores[key] || 0] is the score. *)
Lemma score_or_zero s : 0 <= s <= 100 -> or_else (of_Z s) 0 = of_Z s.
Proof.
  intros Hs. apply same_float_eq.
  revert s Hs. apply forall_0_100. vm_compute. reflexivity.
Qed.

Definition scores_in_range (scores : list (string * Z)) : Prop :=
  forall key s, In (key, s) scores -> 0 <= s <= 100.

(** The keys are skills. *)
Definition skills_only (scores : list (string * Z)) : Prop :=
  forall key s, In (key, s) scores -> In key skill_names.

Lemma permutation_skills scores :
  Permutation (map fst scores) skill_names -> skills_only scores.
Proof.
  intros P key s Hin. apply (Permutation_in _ P).
  apply in_map_iff. exists (key, s). split; [ reflexivity | exact Hin ].
Qed.

Lemma overall_step_eq key s total :
  0 <= s <= 100 ->
  overall_step new_AIAnalyzer total (key, s) = (total + of_Z s * loop_weight key)%float.
Proof.
  intros Hs. unfold overall_step. cbn [fst snd].
  rewrite (score_or_zero s Hs). reflexivity.
Qed.

(** *** One product *)

(** How far a product score x weight may lie from the exact one, in
    hundredths of the unit [2^-1074]; and how far the running sum may
    drift in one round. *)
Definition tolerance : Z := 2 ^ 1040.
Definition slack : Z := 2 ^ 1041.

Definition product_close (key : string) (s : Z) : bool :=
  let x := Prim2SF (of_Z s * weight_float key)%float in
  plain x && (Z.abs (100 * scaled x - s * weight_percent key * unit) <=? tolerance).

Lemma product_close_all key s :
  In key skill_names -> 0 <= s <= 100 -> product_close key s = true.
Proof.
  intros H Hs. revert s Hs.
  repeat (destruct H as [<- | H];
          [ apply forall_0_100; vm_compute; reflexivity | ]).
  destruct H.
Qed.

Lemma weight_percent_bounds key : 0 <= weight_percent key <= 22.
Proof.
  unfold weight_percent.
  repeat match goal with
         | |- context [String.eqb key ?k] => destruct (String.eqb key k)
         end; lia.
Qed.

Lemma constants :
  0 < unit /\ 0 < slack /\
  tolerance + 100 * (2 * 2 ^ (Z.max (9 - 52) (-1074) + 1074)) <= slack /\
  1200 * slack < unit /\ 2 ^ (9 + 1074) = 512 * unit /\
  0 < 2 ^ (Z.max (9 - 52) (-1074) + 1074).
Proof. vm_compute. repeat split; discriminate. Qed.

(** *** The loop *)

(** The running sum stays within [slack] per round of the exact sum. *)
Lemma loop_close scores :
  scores_in_range scores -> skills_only scores ->
  forall total N j,
    plain (Prim2SF total) = true ->
    Z.abs (100 * scaled (Prim2SF total) - N * unit) <= j * slack ->
    0 <= N <= 2200 * j -> 0 <= j ->
    j + Z.of_nat (List.length scores) <= 6 ->
    let result := fold_left (overall_step new_AIAnalyzer) scores total in
    plain (Prim2SF result) = true /\
    Z.abs (100 * scaled (Prim2SF result) - (N + weighted_hundredths scores) * unit)
    <= 6 * slack.
Proof.
  induction scores as [| [key s] scores IH]; intros R K total N j Pt Ht HN Hj Hl.
  - cbn [fold_left weighted_hundredths fold_right List.length Z.of_nat] in *.
    split; [ exact Pt | ]. rewrite Z.add_0_r.
    destruct constants as (_ & D & _).
    assert (j * slack <= 6 * slack) by (apply Z.mul_le_mono_nonneg_r; lia).
    lia.
  - assert (Hs : 0 <= s <= 100) by (apply (R key s); left; reflexivity).
    assert (Hk : In key skill_names) by (apply (K key s); left; reflexivity).
    cbn [fold_left]. rewrite (overall_step_eq key s total Hs), (loop_weight_skill key Hk).
    pose proof (product_close_all key s Hk Hs) as C. unfold product_close in C.
    apply andb_prop in C. destruct C as [Pp Cp]. apply Z.leb_le in Cp.
    set (p := (of_Z s * weight_float key)%float) in *.
    pose proof (weight_percent_bounds key) as W.
    set (c := s * weight_percent key) in *.
    assert (Hc : 0 <= c <= 2200) by (unfold c; nia).
    destruct constants as (U & D & Tol & Small & Big & Ulp).
    rewrite List.length_cons, Nat2Z.inj_succ in Hl.
    pose proof (Zle_0_nat (List.length scores)) as Ln.
    assert (Sum : scaled (Prim2SF total) + scaled (Prim2SF p) < 2 ^ (9 + 1074)).
    { rewrite Big.
      assert (A1 : N * unit <= 11000 * unit) by (apply Z.mul_le_mono_nonneg_r; lia).
      assert (A2 : c * unit <= 2200 * unit) by (apply Z.mul_le_mono_nonneg_r; lia).
      assert (A3 : j * slack <= 5 * slack) by (apply Z.mul_le_mono_nonneg_r; lia).
      revert Ht Cp A1 A2 A3 U D Tol Small Ulp.
      generalize (scaled (Prim2SF total)) (scaled (Prim2SF p)) (N * unit) (c * unit)
        (j * slack) unit slack tolerance
        (2 ^ (Z.max (9 - 52) (-1074) + 1074)).
      clear. intros. lia. }
    destruct (add_plain total p 9 Pt Pp ltac:(lia) Sum) as [Pr Er].
    destruct (IH ltac:(intros k' s' Hin; apply (R k' s'); right; exact Hin)
                 ltac:(intros k' s' Hin; apply (K k' s'); right; exact Hin)
                 (total + p)%float (N + c) (j + 1) Pr) as [Pf Ef].
    + replace ((N + c) * unit) with (N * unit + c * unit) by ring.
      replace ((j + 1) * slack) with (j * slack + slack) by ring.
      revert Ht Cp Er U D Tol Small Ulp.
      generalize (scaled (Prim2SF (total + p)%float))
        (scaled (Prim2SF total)) (scaled (Prim2SF p)) (N * unit) (c * unit)
        (j * slack) unit slack tolerance
        (2 ^ (Z.max (9 - 52) (-1074) + 1074)).
      clear. intros. lia.
    + lia.
    + lia.
    + lia.
    + split; [ exact Pf | ].
      cbn [weighted_hundredths fold_right fst snd].
      fold (weighted_hundredths scores). fold c.
      rewrite Z.add_assoc. exact Ef.
Qed.

(** *** The exact sum *)

Definition percent_total (keys : list string) : Z :=
  fold_right (fun key sum => weight_percent key + sum) 0 keys.

Lemma percent_total_permutation keys keys' :
  Permutation keys keys' -> percent_total keys = percent_total keys'.
Proof.
  induction 1 as [| key l l' P IH | a b l | l l' l'' P1 IH1 P2 IH2].
  - reflexivity.
  - cbn [percent_total fold_right]. fold (percent_total l). fold (percent_total l'). lia.
  - cbn [percent_total fold_right]. lia.
  - congruence.
Qed.

Lemma hundredths_bounds scores :
  scores_in_range scores ->
  0 <= weighted_hundredths scores <= 100 * percent_total (map fst scores).
Proof.
  induction scores as [| [key s] scores IH]; intros R.
  - cbn. lia.
  - cbn [weighted_hundredths percent_total fold_right map fst snd].
    fold (weighted_hundredths scores). fold (percent_total (map fst scores)).
    assert (Hs : 0 <= s <= 100) by (apply (R key s); left; reflexivity).
    pose proof (weight_percent_bounds key) as W.
    assert (H : 0 <= weighted_hundredths scores <= 100 * percent_total (map fst scores)).
    { apply IH. intros k' s' Hin. apply (R k' s'). right. exact Hin. }
    nia.
Qed.

(** *** Rounding the sum *)

Lemma round_scaled m e :
  e < 0 -> -1074 <= e ->
  round_half_up false m e = (2 * scaled (S754_finite false m e) + unit) / (2 * unit).
Proof.
  intros Neg He. unfold round_half_up, signed, unit. cbn [scaled].
  assert (P : 0 < 2 ^ (e + 1074)) by (apply Z.pow_pos_nonneg; lia).
  assert (E1 : 2 ^ 1074 = 2 ^ (- e) * 2 ^ (e + 1074)).
  { rewrite <- Z.pow_add_r by lia. f_equal. lia. }
  assert (E2 : 2 ^ (1 - e) = 2 * 2 ^ (- e)).
  { rewrite <- Z.pow_succ_r by lia. f_equal. lia. }
  rewrite E1, E2.
  replace (2 * (Zpos m * 2 ^ (e + 1074)) + 2 ^ (- e) * 2 ^ (e + 1074))
    with ((2 * Zpos m + 2 ^ (- e)) * 2 ^ (e + 1074)) by ring.
  replace (2 * (2 ^ (- e) * 2 ^ (e + 1074)))
    with (2 * 2 ^ (- e) * 2 ^ (e + 1074)) by ring.
  rewrite Z.div_mul_cancel_r; [ reflexivity | | lia ].
  assert (0 < 2 ^ (- e)) by (apply Z.pow_pos_nonneg; lia). lia.
Qed.

(** The integer nearest to a value that lies within [d] hundredths of
    [n] hundredths. *)
Lemma nearest_integer S N U d :
  0 < U -> 0 <= N -> Z.abs (100 * S - N * U) <= d -> 2 * d < U ->
  let r := (2 * S + U) / (2 * U) in
  let q := (N + 50) / 100 in
  (N mod 100 <> 50 -> r = q) /\ (r = q \/ r = q - 1).
Proof.
  intros HU HN Hd Small r q.
  assert (R : r = (200 * S + 100 * U) / (200 * U)).
  { unfold r. replace (200 * S + 100 * U) with (100 * (2 * S + U)) by ring.
    replace (200 * U) with (100 * (2 * U)) by ring.
    rewrite Z.div_mul_cancel_l by lia. reflexivity. }
  set (t := (N + 50) mod 100).
  assert (EN : N + 50 = 100 * q + t) by (unfold q, t; apply Z.div_mod; lia).
  assert (Ht : 0 <= t < 100) by (unfold t; apply Z.mod_pos_bound; lia).
  assert (NU : N * U = 100 * (q * U) + t * U - 50 * U).
  { replace N with (100 * q + t - 50) by lia. ring. }
  assert (T1 : t = 0 -> N mod 100 = 50).
  { intros Z0. rewrite Z0 in EN. clear - EN. clearbody q. Z.div_mod_to_equations. lia. }
  destruct (Z.eq_dec t 0) as [Z0 | NZ].
  - rewrite Z0 in NU. split; [ intros M; elim M; apply T1, Z0 | ].
    destruct (Z.le_gt_cases (N * U) (100 * S)) as [G | L].
    + left. rewrite R. symmetry. apply (Z.div_unique _ _ q (200 * S + 100 * U - 200 * U * q)).
      * left. lia.
      * ring.
    + right. rewrite R. symmetry.
      apply (Z.div_unique _ _ (q - 1) (200 * S + 100 * U - 200 * U * (q - 1))).
      * left. lia.
      * ring.
  - assert (TU : U <= t * U <= 99 * U) by nia.
    assert (E : r = q).
    { rewrite R. symmetry. apply (Z.div_unique _ _ q (200 * S + 100 * U - 200 * U * q)).
      - left. lia.
      - ring. }
    split; [ intros _; exact E | left; exact E ].
Qed.

Lemma hundred_rank : rank 100 = 100 * unit.
Proof. vm_compute. reflexivity. Qed.

Lemma zero_rank : rank 0 = 0.
Proof. reflexivity. Qed.

(** round(clamp(total, 0, 100)) for a total within [6 * slack] of [N]
    hundredths. *)
Lemma round_clamp_close total N :
  plain (Prim2SF total) = true ->
  Z.abs (100 * scaled (Prim2SF total) - N * unit) <= 6 * slack ->
  0 <= N <= 10000 ->
  let score := Math_round (Math_min 100 (Math_max 0 total)) in
  let q := (N + 50) / 100 in
  (N mod 100 <> 50 -> score = of_Z q) /\ (score = of_Z q \/ score = of_Z (q - 1)).
Proof.
  intros Pt Ht HN score q.
  destruct constants as (U & D & _ & Small & _).
  pose proof (plain_rank total Pt) as Rk.
  pose proof (plain_number total Pt) as Nt.
  destruct (Prim2SF total) as [[] | | | [] m e] eqn:E; try discriminate.
  - (* the total is +0 *)
    assert (T : total = 0%float).
    { rewrite <- (FloatAxioms.SF2Prim_Prim2SF total), E. reflexivity. }
    cbn [scaled] in Ht.
    assert (N0 : N = 0).
    { destruct (Z.eq_dec N 0) as [ | NZ]; [ assumption | exfalso ].
      assert (unit <= N * unit) by nia. lia. }
    subst N. unfold score, q. rewrite T.
    split; [ intros _ | left ]; vm_compute; reflexivity.
  - (* a positive total *)
    destruct (finite_shape total false m e E) as (Re & Hm & Norm & _).
    assert (Pos : 0 < scaled (S754_finite false m e)).
    { cbn [scaled]. apply Z.mul_pos_pos; [ lia | apply Z.pow_pos_nonneg; lia ]. }
    assert (Max : Math_max 0 total = total).
    { unfold Math_max. replace (is_nan 0) with false by reflexivity.
      unfold number in Nt. rewrite Nt. cbn [orb].
      assert (L : (0 <? total)%float = true).
      { apply ltb_rank. split; [ reflexivity | ]. split; [ exact Nt | ].
        rewrite Rk, zero_rank. exact Pos. }
      rewrite L. reflexivity. }
    unfold score. rewrite Max. unfold Math_min.
    replace (is_nan 100) with false by reflexivity.
    unfold number in Nt. rewrite Nt. cbn [orb].
    destruct (100 <? total)%float eqn:Over.
    + (* above 100 *)
      apply ltb_rank in Over. destruct Over as (_ & _ & Over).
      rewrite Rk, hundred_rank in Over.
      assert (N1 : N = 10000).
      { destruct (Z.eq_dec N 10000) as [ | NZ]; [ assumption | exfalso ].
        assert (N * unit <= 9999 * unit) by (apply Z.mul_le_mono_nonneg_r; lia).
        lia. }
      subst N. unfold q. split; [ intros _ | left ]; vm_compute; reflexivity.
    + (* at most 100 *)
      assert (Min : (if (total <? 100)%float then total
                     else if get_sign 100 then 100%float else total) = total).
      { destruct (total <? 100)%float; reflexivity. }
      rewrite Min.
      apply ltb_false_rank in Over; [ | reflexivity | exact Nt ].
      rewrite Rk, hundred_rank in Over.
      assert (Neg : e < 0).
      { destruct (Z.lt_ge_cases e 0) as [ | Ge]; [ assumption | exfalso ].
        destruct Norm as [-> | Hm']; [ lia | ].
        cbn [scaled] in Over.
        assert (Q : 2 ^ 1074 <= 2 ^ (e + 1074)) by (apply Z.pow_le_mono_r; lia).
        assert (Q' : 2 ^ 52 * 2 ^ 1074 <= Zpos m * 2 ^ (e + 1074)).
        { apply Z.mul_le_mono_nonneg; lia. }
        assert (Q'' : 100 * unit < 2 ^ 52 * 2 ^ 1074) by (vm_compute; reflexivity).
        lia. }
      unfold Math_round. rewrite E.
      destruct (Z.leb_spec 0 e) as [Ge | _]; [ lia | ].
      cbv zeta. rewrite andb_false_r.
      rewrite round_scaled by lia.
      assert (S6 : 2 * (6 * slack) < unit) by lia.
      destruct (nearest_integer (scaled (S754_finite false m e)) N unit (6 * slack)
                  U ltac:(lia) Ht S6) as [A B].
      cbv zeta in A, B. fold q in A, B.
      split.
      * intros M. rewrite (A M). reflexivity.
      * destruct B as [-> | ->]; [ left | right ]; reflexivity.
Qed.

(** The overall score of the six skills, against the exact one. *)
Lemma overall_close scores :
  Permutation (map fst scores) skill_names ->
  scores_in_range scores ->
  (weighted_hundredths scores mod 100 <> 50 ->
   calculateOverallScore new_AIAnalyzer scores = of_Z (overall_exact scores)) /\
  (calculateOverallScore new_AIAnalyzer scores = of_Z (overall_exact scores) \/
   calculateOverallScore new_AIAnalyzer scores = of_Z (overall_exact scores - 1)).
Proof.
  intros P R.
  pose proof (hundredths_bounds scores R) as B.
  rewrite (percent_total_permutation _ _ P) in B.
  change (percent_total skill_names) with 100 in B.
  assert (L : Z.of_nat (List.length scores) = 6).
  { rewrite <- (length_map fst scores), (Permutation_length P). reflexivity. }
  destruct (loop_close scores R (permutation_skills scores P) 0%float 0 0) as [Pt Ht];
    [ reflexivity | vm_compute; discriminate | lia | lia | lia | ].
  cbv zeta in Pt, Ht. rewrite Z.add_0_l in Ht.
  unfold calculateOverallScore, overall_exact.
  rewrite Z.max_r by lia. rewrite Z.min_r by lia.
  apply round_clamp_close; [ exact Pt | exact Ht | lia ].
Qed.

(** *** The range of the overall score *)

Lemma product_plain key s :
  In key skill_names -> 0 <= s <= 100 ->
  nonneg (Prim2SF (of_Z s * loop_weight key)%float) = true.
Proof.
  intros Hk Hs. rewrite (loop_weight_skill key Hk).
  pose proof (product_close_all key s Hk Hs) as C. unfold product_close in C.
  apply andb_prop in C. destruct C as [C _].
  destruct (Prim2SF (of_Z s * weight_float key)%float) as [[] | | | [] ? ?];
    try discriminate; reflexivity.
Qed.

Lemma total_nonneg scores :
  scores_in_range scores -> skills_only scores ->
  forall total,
    nonneg (Prim2SF total) = true ->
    nonneg (Prim2SF (fold_left (overall_step new_AIAnalyzer) scores total)) = true.
Proof.
  induction scores as [| [key s] scores IH]; intros R K total Ht; simpl.
  - exact Ht.
  - apply IH.
    + intros k' s' Hin. apply (R k' s'). right. exact Hin.
    + intros k' s' Hin. apply (K k' s'). right. exact Hin.
    + assert (Hs : 0 <= s <= 100) by (apply (R key s); left; reflexivity).
      assert (Hk : In key skill_names) by (apply (K key s); left; reflexivity).
      rewrite (overall_step_eq key s total Hs), FloatAxioms.add_spec.
      apply SFadd_nonneg; [ exact Ht | apply product_plain; assumption ].
Qed.

Lemma nonneg_number x : nonneg (Prim2SF x) = true -> number x.
Proof.
  intros H. apply number_spec. destruct (Prim2SF x) as [| [] | | [] ? ?]; try discriminate; reflexivity.
Qed.

(** Whatever the order and the number of the entries, the overall score
    of skill scores in [0,100] is one of the integers 0..100. *)
Lemma overall_in_range scores :
  scores_in_range scores -> skills_only scores ->
  integer_between 0 100 (calculateOverallScore new_AIAnalyzer scores).
Proof.
  intros R K. unfold calculateOverallScore, integer_between.
  apply round_clamp_bounds, nonneg_number, total_nonneg; [ exact R | exact K | reflexivity ].
Qed.

Lemma score_entries_skills analyses timeManagement :
  skills_only (score_entries analyses timeManagement).
Proof.
  intros key s H. unfold score_entries in H. simpl in H.
  repeat (destruct H as [H | H]; [ inversion H; simpl; tauto | ]). destruct H.
Qed.

Definition sample_scores : list (string * Z) :=
  [ ("pronunciation", 65); ("fluency", 35); ("vocabulary", 55);
    ("grammar", 58); ("coherence", 80); ("time", 65) ].

Lemma sample_scores_in_range : scores_in_range sample_scores.
Proof.
  intros key s H. simpl in H.
  repeat (destruct H as [H | H]; [ inversion H; subst; lia | ]). destruct H.
Qed.

(** C4, as it holds: for every map of the six skills to integer scores
    in [0,100] (entries in any order), the overall score is
    round(clamp(sum of score x weight, 0, 100)) of the exact sum, unless
    the exact sum lies halfway between two integers (its hundredths are
    50): there the binary sum may fall just short of the half, and the
    overall score is that integer or the one below.  The weights of the
    code are the binary64 numbers nearest to pronunciation 0.22, fluency
    0.22, vocabulary 0.18, grammar 0.15, coherence 0.13, time 0.10, and
    these hundredths add up to 100. *)
Theorem C4_overall_score (scores : list (string * Z)) :
  Permutation (map fst scores) skill_names ->
  scores_in_range scores ->
  (weighted_hundredths scores mod 100 <> 50 ->
   calculateOverallScore new_AIAnalyzer scores = of_Z (overall_exact scores)) /\
  (calculateOverallScore new_AIAnalyzer scores = of_Z (overall_exact scores) \/
   calculateOverallScore new_AIAnalyzer scores = of_Z (overall_exact scores - 1)) /\
  (forall skill, In skill skill_names ->
     lookup skill (weights new_AIAnalyzer)
     = Some (of_Z (weight_percent skill) / 100)%float) /\
  map weight_percent skill_names = [22; 22; 18; 15; 13; 10] /\
  fold_right Z.add 0 (map weight_percent skill_names) = 100.
Proof.
  intros P R. destruct (overall_close scores P R) as [A B].
  split; [ exact A | ]. split; [ exact B | ].
  split; [ exact weights_skill | split; reflexivity ].
Qed.

Lemma C4_overall_score_witness :
  (weighted_hundredths sample_scores mod 100 <> 50 ->
   calculateOverallScore new_AIAnalyzer sample_scores = of_Z (overall_exact sample_scores)) /\
  (calculateOverallScore new_AIAnalyzer sample_scores = of_Z (overall_exact sample_scores) \/
   calculateOverallScore new_AIAnalyzer sample_scores
   = of_Z (overall_exact sample_scores - 1)) /\
  (forall skill, In skill skill_names ->
     lookup skill (weights new_AIAnalyzer)
     = Some (of_Z (weight_percent skill) / 100)%float) /\
  map weight_percent skill_names = [22; 22; 18; 15; 13; 10] /\
  fold_right Z.add 0 (map weight_percent skill_names) = 100.
Proof.
  apply (C4_overall_score sample_scores).
  - apply Permutation_refl.
  - exact sample_scores_in_range.
Defined.

(** C4 as the design document words it fails: the exact weighted sum of
    these six scores is 57.50, which rounds to 58, and the code returns
    57. *)
Lemma C4_counterexample :
  Permutation (map fst sample_scores) skill_names /\
  scores_in_range sample_scores /\
  weighted_hundredths sample_scores = 5750 /\
  overall_exact sample_scores = 58 /\
  calculateOverallScore new_AIAnalyzer sample_scores = of_Z 57 /\
  of_Z 57 <> of_Z (overall_exact sample_scores).
Proof.
  split; [ apply Permutation_refl | ].
  split; [ exact sample_scores_in_range | ].
  split; [ reflexivity | ]. split; [ reflexivity | ].
  split; [ apply same_float_eq; vm_compute; reflexivity | ].
  intros H. apply (f_equal Prim2SF) in H. vm_compute in H. discriminate.
Qed.

End OverallFacts.

(** ** Skill scores and the assessment *)

Module ScoringFacts.
Import JsNum Binary64 FloatFacts AudioProcessor Transcriber AIAnalyzer Design.
Import OverallFacts Samples.

Lemma clamp_range x : 0 <= clamp x <= 100.
Proof. unfold clamp. lia. Qed.

Lemma finish_range assess a : 0 <= score (finish assess a) <= 100.
Proof. apply clamp_range. Qed.

Lemma pronunciation_range features transcription :
  0 <= score (analyzePronunciation features transcription) <= 100.
Proof. apply finish_range. Qed.

Lemma fluency_range features transcription :
  0 <= score (analyzeFluency features transcription) <= 100.
Proof. apply finish_range. Qed.

Lemma vocabulary_range features topic transcription :
  0 <= score (analyzeVocabulary features topic transcription) <= 100.
Proof. apply finish_range. Qed.

Lemma grammar_range features transcription :
  0 <= score (analyzeGrammar features transcription) <= 100.
Proof. apply finish_range. Qed.

Lemma coherence_range features transcription :
  0 <= score (analyzeCoherence features transcription) <= 100.
Proof. apply finish_range. Qed.

Lemma time_values features :
  In (ta_score (analyzeTimeManagement features)) [30; 55; 95; 82; 65].
Proof.
  unfold analyzeTimeManagement.
  repeat match goal with
         | |- context [if ?c then _ else _] => destruct c
         end; simpl; tauto.
Qed.

Lemma time_range features : 0 <= ta_score (analyzeTimeManagement features) <= 100.
Proof.
  pose proof (time_values features) as H. simpl in H.
  repeat (destruct H as [<- | H]; [ lia | ]). destruct H.
Qed.

Lemma score_entries_in_range features topic transcription :
  scores_in_range
    (score_entries (analyze_skills features topic transcription)
       (analyzeTimeManagement features)).
Proof.
  intros key s H. unfold score_entries, analyze_skills in H. cbn [In] in H.
  cbn [pronunciation fluency vocabulary grammar coherence] in H.
  destruct H as [H | [H | [H | [H | [H | [H | []]]]]]]; inversion H; subst.
  - apply pronunciation_range.
  - apply fluency_range.
  - apply vocabulary_range.
  - apply grammar_range.
  - apply coherence_range.
  - apply time_range.
Qed.

(** C8 (amended): for every feature set, topic and transcript analysis
    (present or absent), each of the six skill scores lies in [0,100],
    and the overall score computed from them is an integer in [0,100]
    in whatever order the six entries are listed.  The value itself is
    the rounded double-precision sum taken in the order of the entries;
    that it may differ between two orders is shown by the counterexample. *)
Theorem C8_scores_in_range features topic transcription :
  let entries :=
    score_entries (analyze_skills features topic transcription)
      (analyzeTimeManagement features) in
  (forall key s, In (key, s) entries -> 0 <= s <= 100) /\
  (forall scores, Permutation scores entries ->
     exists k, 0 <= k <= 100 /\ calculateOverallScore new_AIAnalyzer scores = of_Z k).
Proof.
  intros entries.
  pose proof (score_entries_in_range features topic transcription) as R.
  fold entries in R. split; [ exact R | ].
  intros scores P. apply overall_in_range.
  - intros key s H. apply (R key s). apply (Permutation_in _ P). exact H.
  - intros key s H. unfold entries in P.
    eapply score_entries_skills. apply (Permutation_in _ P). exact H.
Qed.

(** The assessment of the halting sample has overall score 57 and level
    B1, computed from the entries in the order pronunciation, fluency,
    vocabulary, grammar, coherence, time.  The [scores] member of that
    same assessment lists the same six entries in another order, and the
    overall score of that map is 58, which is level B2: reordering the
    entries changes the overall score. *)
Lemma C8_counterexample :
  exists a,
    analyzeFullSpeaking new_AIAnalyzer halting_features "custom"
      (Some halting_transcript) 0 = Returns a /\
    Permutation (scores a)
      (score_entries (analyze_skills halting_features "custom" (Some halting_transcript))
         (analyzeTimeManagement halting_features)) /\
    overallScore a = of_Z 57 /\
    calculateOverallScore new_AIAnalyzer (scores a) = of_Z 58 /\
    level a = "B1" /\
    determineLevel new_AIAnalyzer (calculateOverallScore new_AIAnalyzer (scores a)) = "B2".
Proof.
  eexists. split; [ vm_compute; reflexivity | ].
  split.
  - vm_compute.
    apply perm_skip.
    eapply perm_trans; [ apply perm_swap | ].
    do 3 apply perm_skip. apply perm_swap.
  - vm_compute. repeat split; reflexivity.
Qed.

End ScoringFacts.

(** ** Pause detection *)

Module PauseFacts.
Import JsNum Binary64 FloatFacts AudioProcessor Design Samples.

Lemma close_pause_current sampleRate st :
  currentPause (close_pause sampleRate st) = currentPause st.
Proof. unfold close_pause. destruct (long_enough _ _); reflexivity. Qed.

(** Closing the run in progress adds it to the count and to the pause
    time exactly when it is a run that is long enough. *)
Lemma close_pause_runs sampleRate st :
  long_enough sampleRate 0 = false ->
  0 <= currentPause st ->
  let runs := filter (long_enough sampleRate) (run_if_any (currentPause st)) in
  pauseCount (close_pause sampleRate st) = pauseCount st + Z.of_nat (List.length runs) /\
  totalPauseDuration (close_pause sampleRate st) =
    pause_time sampleRate runs (totalPauseDuration st).
Proof.
  intros H0 Hc. unfold close_pause, run_if_any.
  destruct (Z.ltb_spec 0 (currentPause st)) as [Hpos | Hzero].
  - simpl. destruct (long_enough sampleRate (currentPause st)); simpl; split;
      try reflexivity; lia.
  - assert (E : currentPause st = 0) by lia. rewrite E, H0. simpl. split; [ lia | reflexivity ].
Qed.

Lemma pause_time_app sampleRate runs1 runs2 start :
  pause_time sampleRate (runs1 ++ runs2) start =
  pause_time sampleRate runs2 (pause_time sampleRate runs1 start).
Proof. unfold pause_time. apply fold_left_app. Qed.

(** The loop of [detectPauses], started in any state, against the runs
    of the remaining samples. *)
Lemma pause_loop_runs sampleRate samples :
  long_enough sampleRate 0 = false ->
  forall st,
    0 <= currentPause st ->
    let final := close_pause sampleRate (fold_left (pause_step sampleRate) samples st) in
    let runs :=
      filter (long_enough sampleRate) (silent_runs_from (currentPause st) samples) in
    pauseCount final = pauseCount st + Z.of_nat (List.length runs) /\
    totalPauseDuration final = pause_time sampleRate runs (totalPauseDuration st).
Proof.
  intros H0. induction samples as [| sample rest IH]; intros st Hc.
  - simpl. apply close_pause_runs; assumption.
  - simpl fold_left. simpl silent_runs_from. unfold pause_step at 2.
    destruct (silent sample).
    + apply (IH {| pauseCount := pauseCount st;
                   totalPauseDuration := totalPauseDuration st;
                   currentPause := currentPause st + 1 |}).
      simpl. lia.
    + destruct (close_pause_runs sampleRate st H0 Hc) as [C T].
      specialize (IH {| pauseCount := pauseCount (close_pause sampleRate st);
                        totalPauseDuration := totalPauseDuration (close_pause sampleRate st);
                        currentPause := 0 |}).
      simpl in IH. destruct IH as [C' T']; [ lia | ].
      cbv zeta. rewrite filter_app, length_app, pause_time_app.
      rewrite C', T', C, T. split; [ lia | reflexivity ].
Qed.

Lemma pause_score_band count : pause_score count = pause_band count.
Proof.
  unfold pause_score, pause_band.
  destruct (Z.ltb_spec count 3); [ reflexivity | ].
  destruct (Z.leb_spec 3 count); [ | lia ].
  destruct (Z.leb_spec count 15); [ reflexivity | ].
  destruct (Z.ltb_spec 15 count); [ | lia ].
  reflexivity.
Qed.

(** [detectPauses] against the runs of the buffer. *)
Lemma detectPauses_runs channelData sampleRate :
  long_enough sampleRate 0 = false ->
  pa_count (detectPauses channelData sampleRate)
  = Z.of_nat (List.length (pauses channelData sampleRate)) /\
  pa_totalDuration (detectPauses channelData sampleRate)
  = parseFloat (toFixed 2 (pause_time sampleRate (pauses channelData sampleRate) 0%float)).
Proof.
  intros H0.
  destruct (pause_loop_runs sampleRate channelData H0
              {| pauseCount := 0; totalPauseDuration := 0%float; currentPause := 0 |})
    as [C T]; [ simpl; lia | ].
  simpl in C, T. split; [ exact C | ].
  unfold detectPauses. simpl. unfold pause_loop. rewrite T. reflexivity.
Qed.

(** C7 (amended): for every sample buffer, and every sample rate at which
    the 300 ms minimum, taken as floor(0.3 x rate) whole samples, is at
    least one sample, the pause count is the number of maximal runs of
    consecutive samples of absolute amplitude below 0.01 that have at
    least floor(0.3 x rate) samples, the run in progress at the end of
    the buffer included; the pause time adds length / rate over these
    runs in buffer order and is reported rounded to two decimals; the
    pause score is 60 for fewer than 3 pauses, 95 for 3 to 15, 80 for 16
    to 25 and 65 for more than 25. *)
Theorem C7_pause_detection (channelData : list float) (sampleRate : float) :
  long_enough sampleRate 0 = false ->
  let result := detectPauses channelData sampleRate in
  let runs := pauses channelData sampleRate in
  (forall sample, silent sample = (Math_abs sample <? 0.01)%float) /\
  (forall run, long_enough sampleRate run
               = (Math_floor (0.3 * sampleRate) <=? of_Z run)%float) /\
  pa_count result = Z.of_nat (List.length runs) /\
  pa_totalDuration result = parseFloat (toFixed 2 (pause_time sampleRate runs 0%float)) /\
  pa_score result = pause_band (pa_count result) /\
  (pa_count result < 3 -> pa_score result = 60) /\
  (3 <= pa_count result <= 15 -> pa_score result = 95) /\
  (16 <= pa_count result <= 25 -> pa_score result = 80) /\
  (25 < pa_count result -> pa_score result = 65).
Proof.
  intros H0 result runs.
  destruct (detectPauses_runs channelData sampleRate H0) as [C T].
  assert (B : pa_score result = pause_band (pa_count result)).
  { unfold result, detectPauses. simpl. apply pause_score_band. }
  split; [ reflexivity | ]. split; [ reflexivity | ].
  split; [ exact C | ]. split; [ exact T | ].
  split; [ exact B | ]. rewrite B. unfold pause_band.
  repeat split; intros Hc.
  - destruct (Z.ltb_spec (pa_count result) 3); [ reflexivity | lia ].
  - destruct (Z.ltb_spec (pa_count result) 3); [ lia | ].
    destruct (Z.leb_spec (pa_count result) 15); [ reflexivity | lia ].
  - destruct (Z.ltb_spec (pa_count result) 3); [ lia | ].
    destruct (Z.leb_spec (pa_count result) 15); [ lia | ].
    destruct (Z.leb_spec (pa_count result) 25); [ reflexivity | lia ].
  - destruct (Z.ltb_spec (pa_count result) 3); [ lia | ].
    destruct (Z.leb_spec (pa_count result) 15); [ lia | ].
    destruct (Z.leb_spec (pa_count result) 25); [ lia | reflexivity ].
Qed.

(** The sample with silent runs of 2500, 100 and 3000 samples at 8000 Hz
    has two pauses, 0.69 seconds of pause time and pause score 60. *)
Lemma C7_pause_detection_witness :
  long_enough 8000 0 = false /\
  let channelData := channelData speech_with_pauses in
  let result := detectPauses channelData 8000 in
  let runs := pauses channelData 8000 in
  (forall sample, silent sample = (Math_abs sample <? 0.01)%float) /\
  (forall run, long_enough 8000 run
               = (Math_floor (0.3 * 8000) <=? of_Z run)%float) /\
  pa_count result = Z.of_nat (List.length runs) /\
  pa_totalDuration result = parseFloat (toFixed 2 (pause_time 8000 runs 0%float)) /\
  pa_score result = pause_band (pa_count result) /\
  (pa_count result < 3 -> pa_score result = 60) /\
  (3 <= pa_count result <= 15 -> pa_score result = 95) /\
  (16 <= pa_count result <= 25 -> pa_score result = 80) /\
  (25 < pa_count result -> pa_score result = 65).
Proof.
  split; [ reflexivity | ].
  apply (C7_pause_detection (channelData speech_with_pauses) 8000). reflexivity.
Defined.

Example pauses_of_sample :
  silent_runs (channelData speech_with_pauses) = [2500; 100; 3000] /\
  pauses (channelData speech_with_pauses) 8000 = [2500; 3000] /\
  detectPauses (channelData speech_with_pauses) 8000
  = {| pa_count := 2; pa_totalDuration := 0.69; pa_score := 60 |}.
Proof. vm_compute. repeat split; reflexivity. Qed.

(** The minimum run at usual sample rates. *)
Example minimum_runs :
  minPauseSamples 8000 = 2400%float /\ minPauseSamples 44100 = 13230%float /\
  minPauseSamples 48000 = 14400%float /\ minPauseSamples 11025 = 3307%float.
Proof. vm_compute. repeat split; reflexivity. Qed.

(** At 11025 Hz a silent run of 3307 samples lasts less than 300 ms
    (3307 / 11025 s) and is counted as a pause all the same, because the
    minimum is floor(3307.5) = 3307 samples.  At 1 Hz the minimum is 0
    samples, and a buffer of one loud sample, which has no silent sample
    at all, is given two pauses. *)
Lemma C7_counterexample :
  (silent_runs just_short_run = [3307] /\
   (of_Z 3307 / 11025 <? 0.3)%float = true /\
   3307 * 1000 < 300 * 11025 /\
   pa_count (detectPauses just_short_run 11025) = 1) /\
  (silent_runs [1%float] = [] /\
   pa_count (detectPauses [1%float] 1) = 2).
Proof. vm_compute. repeat split; reflexivity. Qed.

End PauseFacts.
(** ** The volume of a buffer with samples in [-1, 1] *)

Module VolumeFacts.
Import JsNum Binary64 FloatFacts MagnitudeFacts NumberOrder RoundingFacts DecimalFacts.
Import AudioProcessor.

(** *** Operations that give a number *)







(** *** Values between 0 and 1 *)






(** *** The accumulation loop *)





(** *** The quotients *)



(** *** The consistency *)






End VolumeFacts.

(** ** Feature extraction *)

Module FeatureFacts.
Import JsNum Binary64 FloatFacts MagnitudeFacts VolumeFacts AudioProcessor Design Samples.





(** [analyzePitch] returns unless its loop bound is infinite. *)
Lemma analyzePitch_returns channelData sampleRate :
  (windows channelData sampleRate =? infinity)%float = false ->
  exists pitchAnalysis, analyzePitch channelData sampleRate = Returns pitchAnalysis.
Proof.
  intros H. unfold analyzePitch, iterations. rewrite H.
  destruct (to_Z _); destruct (window_means _ _ _); eauto.
Qed.

Lemma analyzePitch_never_throws channelData sampleRate message :
  analyzePitch channelData sampleRate <> Throws message.
Proof.
  unfold analyzePitch.
  destruct (iterations _); [ | discriminate ].
  destruct (window_means _ _ _); discriminate.
Qed.

(** With a window of at least one sample the number of windows is
    finite, whatever the length of the buffer. *)
Lemma windows_finite channelData sampleRate :
  (1 <=? windowSize sampleRate)%float = true ->
  (windows channelData sampleRate =? infinity)%float = false.
Proof.
  intros H. unfold windows. apply eqb_infinity, Math_floor_finite.
  unfold of_Z.
  assert (N : (Z.of_nat (List.length channelData) <? 0) = false) by (apply Z.ltb_ge; lia).
  rewrite N. apply div_by_ge_one_finite, H.
Qed.

Definition window_of_rate (rate : Z) : bool := (1 <=? windowSize (of_Z rate))%float.

Lemma window_from_20_to_31 : all_range window_of_rate 20 12 = true.
Proof. vm_compute. reflexivity. Qed.

(** From 32 Hz on, the product with 0.05 has magnitude at least 1. *)
Lemma twentieth_of_rate rate :
  32 <= rate < 2 ^ 63 -> (1 <=? of_Z rate * 0.05)%float = true.
Proof.
  intros H. unfold of_Z.
  replace (rate <? 0) with false by (symmetry; apply Z.ltb_ge; lia).
  assert (T : Uint63Axioms.to_Z (Uint63.of_Z rate) = rate).
  { rewrite Uint63.of_Z_spec. apply Z.mod_small.
    change Uint63Axioms.wB with (2 ^ 63). lia. }
  destruct (of_uint63_lower (Uint63.of_Z rate)) as (m & e & E & M); [ lia | ].
  rewrite T in M.
  pose proof (Zdigits2_ge rate 5 ltac:(lia) ltac:(change (2 ^ 5) with 32; lia)) as D.
  assert (E5 : Prim2SF 0.05 = S754_finite false 7205759403792794 (-57)) by reflexivity.
  destruct (mul_lower _ _ _ _ _ _ E E5) as [I | (m' & e' & E' & M')].
  - change (Zpos (digits2_pos 7205759403792794)) with 53. lia.
  - apply ge_one_of_infinity, I.
  - apply (ge_one_of_magnitude _ m' e' E').
    change (Zpos (digits2_pos 7205759403792794)) with 53 in M'. lia.
Qed.

(** The window is at least one sample at every whole sample rate from
    20 Hz on. *)
Lemma window_of_whole_rate rate :
  20 <= rate < 2 ^ 63 -> (1 <=? windowSize (of_Z rate))%float = true.
Proof.
  intros H. destruct (Z.lt_ge_cases rate 32) as [Hlt | Hge].
  - apply (all_range_spec window_of_rate 12 20 window_from_20_to_31). lia.
  - apply floor_ge_one, twentieth_of_rate. lia.
Qed.

(** C2 (amended): feature extraction fails, with the error "No audio
    buffer available", exactly when no audio buffer has been decoded; it
    does not reject an empty buffer or a sample rate that is not
    positive.  For a decoded buffer it succeeds and produces a FeatureSet
    with all its members whenever the 50 ms window, floor(0.05 x rate),
    is at least one sample, as it is at every whole sample rate from
    20 Hz on; the length of the buffer does not matter. *)
Theorem C2_extraction_outcome (audioBuffer : option AudioBuffer) :
  (audioBuffer = None <-> exists message, extractFeatures audioBuffer = Throws message) /\
  (audioBuffer = None -> extractFeatures audioBuffer = Throws "No audio buffer available") /\
  (forall buffer,
     audioBuffer = Some buffer ->
     (1 <=? windowSize (sampleRate buffer))%float = true \/
     (exists rate, 20 <= rate < 2 ^ 63 /\ sampleRate buffer = of_Z rate) ->
     exists features, extractFeatures audioBuffer = Returns features).
Proof.
  split; [ split | split ].
  - intros ->. eexists. reflexivity.
  - intros [message H]. destruct audioBuffer as [buffer |]; [ | reflexivity ].
    exfalso. simpl in H.
    destruct (analyzePitch (channelData buffer) (sampleRate buffer)) as [p | m |] eqn:E;
      try discriminate.
    exact (analyzePitch_never_throws _ _ _ E).
  - intros ->. reflexivity.
  - intros buffer -> H.
    assert (W : (1 <=? windowSize (sampleRate buffer))%float = true).
    { destruct H as [H | (rate & R & ->)]; [ exact H | apply window_of_whole_rate, R ]. }
    destruct (analyzePitch_returns _ _ (windows_finite (channelData buffer) _ W))
      as [pitchAnalysis E].
    simpl. rewrite E. eexists. reflexivity.
Qed.

(** An empty buffer at 44100 Hz is not rejected: a feature set comes
    back, with [NaN] as its average volume.  Nor is a negative sample
    rate rejected. *)
Lemma C2_counterexample :
  (exists features,
     extractFeatures (Some (buffer_of 44100 [])) = Returns features /\
     is_nan (averageVolume features) = true) /\
  (exists features,
     extractFeatures (Some (buffer_of (-8000) (tone 100))) = Returns features).
Proof.
  split.
  - eexists. vm_compute. split; reflexivity.
  - eexists. vm_compute. reflexivity.
Qed.

(** Below 20 Hz the window size is 0 and the window loop of
    [analyzePitch] has an infinite bound: the call does not return. *)
Example extraction_at_10_Hz :
  windowSize 10 = 0%float /\
  windows [0.5%float] 10 = infinity /\
  extractFeatures (Some (buffer_of 10 [0.5%float])) = Diverges.
Proof. vm_compute. repeat split; reflexivity. Qed.

(** The sample recording at 8000 Hz is analysed. *)
Lemma C2_extraction_outcome_witness :
  exists features, extractFeatures (Some speech_with_pauses) = Returns features.
Proof.
  apply (proj2 (proj2 (C2_extraction_outcome (Some speech_with_pauses))) speech_with_pauses).
  - reflexivity.
  - right. exists 8000. split; [ lia | reflexivity ].
Defined.

(** *** Scores of the feature set *)












(** Outside the range of the samples the clarity need not be a number:
    a buffer that holds an infinite sample has [NaN] as
    volumeConsistency and as clarity. *)
Example clarity_outside_range :
  exists features,
    extractFeatures (Some overdriven) = Returns features /\
    is_nan (volumeConsistency features) = true /\
    is_nan (clarity features) = true.
Proof. eexists. vm_compute. repeat split; reflexivity. Qed.

End FeatureFacts.

(** ** Transcript analysis *)

Module TranscriptFacts.
Import JsNum JsStr Transcriber.

Lemma bonus_nonneg flag points : 0 <= points -> 0 <= bonus flag points.
Proof. intros H. unfold bonus. destruct flag; lia. Qed.

Lemma len_nonneg {A} (l : list A) : 0 <= len l.
Proof. unfold len. lia. Qed.

Lemma grammar_score_range text :
  50 <= gi_score (analyzeGrammarIndicators text) <= 100.
Proof.
  unfold analyzeGrammarIndicators. cbn [gi_score].
  repeat match goal with
         | |- context [bonus ?f ?p] =>
             let H := fresh "B" in
             pose proof (bonus_nonneg f p ltac:(lia)) as H;
             generalize dependent (bonus f p); intros
         end.
  lia.
Qed.

Lemma coherence_score_range text :
  50 <= ci_score (analyzeCoherenceIndicators text) <= 100.
Proof.
  unfold analyzeCoherenceIndicators. cbn [ci_score].
  set (used := filter _ transitionWords).
  pose proof (len_nonneg used) as L.
  pose proof (bonus_nonneg (existsb (includes (toLowerCase text)) introMarkers) 15 ltac:(lia)).
  pose proof (bonus_nonneg (existsb (includes (toLowerCase text)) conclusionMarkers) 15 ltac:(lia)).
  pose proof (bonus_nonneg (0 <? len used) (len used * 5) ltac:(lia)).
  lia.
Qed.

Lemma analyzeTranscript_indicators text :
  (grammarIndicators (analyzeTranscript text) = grammarIndicators getEmptyAnalysis /\
   coherenceIndicators (analyzeTranscript text) = coherenceIndicators getEmptyAnalysis) \/
  (exists t,
     grammarIndicators (analyzeTranscript text) = analyzeGrammarIndicators t /\
     coherenceIndicators (analyzeTranscript text) = analyzeCoherenceIndicators t).
Proof.
  destruct text as [text |]; [ | left; split; reflexivity ].
  unfold analyzeTranscript.
  destruct (String.length text =? 0)%nat; [ left; split; reflexivity | ].
  right. exists text. destruct (count_fillers text). split; reflexivity.
Qed.

(** C10: for every input text, the grammar and the coherence indicator
    scores of its analysis lie in [50,100]: each starts at 50 and only
    receives bonuses that are not negative, capped at 100. *)
Theorem C10_indicator_scores (text : option string) :
  50 <= gi_score (grammarIndicators (analyzeTranscript text)) <= 100 /\
  50 <= ci_score (coherenceIndicators (analyzeTranscript text)) <= 100.
Proof.
  destruct (analyzeTranscript_indicators text) as [[-> ->] | (t & -> & ->)].
  - simpl. lia.
  - split; [ apply grammar_score_range | apply coherence_score_range ].
Qed.

(** The grammar score is 50 plus 15, 10, 10 and 5 for its four flags. *)
Lemma grammar_score_formula text :
  let gi := analyzeGrammarIndicators text in
  gi_score gi
  = 50 + bonus (hasComplexSentences gi) 15 + bonus (hasConditionals gi) 10
       + bonus (hasPerfectTenses gi) 10 + bonus (hasPassiveVoice gi) 5.
Proof.
  unfold analyzeGrammarIndicators.
  cbn [gi_score hasComplexSentences hasConditionals hasPerfectTenses hasPassiveVoice].
  set (complex := existsb _ complexMarkers).
  set (conditional := 2 <=? _).
  set (perfect := existsb _ perfectMarkers).
  set (passive := existsb _ passiveMarkers).
  clearbody complex conditional perfect passive.
  destruct complex, conditional, perfect, passive; reflexivity.
Qed.

(** For the empty string and for a missing argument the analysis is the
    neutral one: all counts 0, both ratios "0", both indicator scores 50. *)
Lemma empty_transcript :
  analyzeTranscript None = getEmptyAnalysis /\
  analyzeTranscript (Some "") = getEmptyAnalysis /\
  vocabularyRichness getEmptyAnalysis = "0" /\
  fillerRatio getEmptyAnalysis = "0".
Proof. repeat split; reflexivity. Qed.

(** C5 at the failing input: for the text of a single space the analysis
    has wordCount 0, all other counts 0 and both indicator scores 50, but
    vocabularyRichness and fillerRatio are "NaN": the quotient 0/0 reaches
    the analysis. *)
Theorem C5_blank_transcript :
  let analysis := analyzeTranscript (Some " ") in
  wordCount analysis = 0 /\
  uniqueWordCount analysis = 0 /\
  sentenceCount analysis = 0 /\
  fillerWordCount analysis = 0 /\
  advancedWordCount analysis = 0 /\
  gi_score (grammarIndicators analysis) = 50 /\
  ci_score (coherenceIndicators analysis) = 50 /\
  vocabularyRichness analysis = "NaN" /\
  fillerRatio analysis = "NaN" /\
  avgWordLength analysis = "NaN".
Proof. vm_compute. repeat split; reflexivity. Qed.

Lemma len_zero {A} (l : list A) : len l = 0 -> l = [].
Proof. destruct l; [ reflexivity | unfold len; simpl; lia ]. Qed.

(** The same happens for every non-empty text without a word. *)
Lemma wordless_transcript text :
  text <> "" ->
  wordCount (analyzeTranscript (Some text)) = 0 ->
  vocabularyRichness (analyzeTranscript (Some text)) = "NaN".
Proof.
  intros Hne. unfold analyzeTranscript.
  destruct (Nat.eqb_spec (String.length text) 0) as [E | _].
  - destruct text; [ congruence | discriminate E ].
  - destruct (count_fillers text). cbn [wordCount vocabularyRichness].
    intros H. apply len_zero in H. rewrite H. reflexivity.
Qed.

End TranscriptFacts.

(** ** The analysis returns *)

Module ReturnFacts.
Import JsNum AudioProcessor Transcriber AIAnalyzer Design.

Lemma first_level_listed overallScore levels level :
  first_level overallScore levels = Some level ->
  exists range, lookup level levels = Some range.
Proof.
  induction levels as [| [l r] levels IH]; simpl; [ discriminate | ].
  destruct (in_range overallScore r).
  - intros H. inversion H; subst. rewrite String.eqb_refl. eauto.
  - intros H. destruct (String.eqb level l); eauto.
Qed.

(** With the thresholds set by the constructor, the level found always
    has its description. *)
Lemma level_listed overallScore :
  exists range,
    lookup (determineLevel new_AIAnalyzer overallScore) (levelThresholds new_AIAnalyzer)
    = Some range.
Proof.
  unfold determineLevel.
  destruct (first_level overallScore (levelThresholds new_AIAnalyzer)) as [level |] eqn:E.
  - exact (first_level_listed _ _ _ E).
  - eexists. reflexivity.
Qed.

(** With the thresholds of the constructor the analysis returns, and the
    instant of the call is its timestamp. *)
Lemma analysis_returns features topic transcription now :
  exists a,
    analyzeFullSpeaking new_AIAnalyzer features topic transcription now = Returns a /\
    timestamp a = now.
Proof.
  unfold analyzeFullSpeaking.
  destruct (level_listed
              (calculateOverallScore new_AIAnalyzer
                 (score_entries (analyze_skills features topic transcription)
                    (analyzeTimeManagement features)))) as [range ->].
  eexists. split; reflexivity.
Qed.

End ReturnFacts.

(** ** Lists kept in order *)

Module OrderFacts.
Import AIAnalyzer SortFacts.

Section Sorted.
Context {A : Type} (R : A -> A -> Prop).

Lemma sort_ext (f g : A -> A -> bool) l :
  (forall a b, f a b = g a b) -> sort f l = sort g l.
Proof.
  intros E. induction l as [| x l IH]; simpl; [ reflexivity | ].
  rewrite IH. generalize (sort g l). intros s.
  induction s as [| y s IHs]; simpl; [ reflexivity | ].
  rewrite E, IHs. reflexivity.
Qed.

Lemma sorted_impl (R' : A -> A -> Prop) l :
  (forall a b, R a b -> R' a b) -> StronglySorted R l -> StronglySorted R' l.
Proof.
  intros I. induction 1 as [| x l S IH F]; constructor; [ exact IH | ].
  eapply Forall_impl; [ | exact F ]. intros; auto.
Qed.

Lemma filter_sorted f l : StronglySorted R l -> StronglySorted R (filter f l).
Proof.
  induction 1 as [| x l S IH F]; simpl; [ constructor | ].
  destruct (f x); [ | exact IH ].
  constructor; [ exact IH | ].
  rewrite Forall_forall in *. intros y Hy. apply F.
  apply filter_In in Hy. tauto.
Qed.

Lemma sorted_app l1 l2 :
  StronglySorted R (l1 ++ l2)%list ->
  StronglySorted R l1 /\ StronglySorted R l2 /\
  forall a b, In a l1 -> In b l2 -> R a b.
Proof.
  induction l1 as [| x l1 IH]; simpl; intros S.
  - repeat split; [ constructor | exact S | contradiction ].
  - inversion S as [| ? ? S' F]; subst.
    destruct (IH S') as (S1 & S2 & H12).
    rewrite Forall_forall in F.
    repeat split.
    + constructor; [ exact S1 | ].
      rewrite Forall_forall. intros y Hy. apply F, in_or_app. left. exact Hy.
    + exact S2.
    + intros a b [<- | Ha] Hb; [ apply F, in_or_app; right; exact Hb | auto ].
Qed.

Lemma firstn_sorted n l : StronglySorted R l -> StronglySorted R (firstn n l).
Proof.
  intros S. rewrite <- (firstn_skipn n l) in S. apply sorted_app in S. tauto.
Qed.

Lemma skipn_sorted n l : StronglySorted R l -> StronglySorted R (skipn n l).
Proof.
  intros S. rewrite <- (firstn_skipn n l) in S. apply sorted_app in S. tauto.
Qed.

Lemma rev_sorted l :
  StronglySorted R l -> StronglySorted (fun a b => R b a) (rev l).
Proof.
  induction 1 as [| x l S IH F]; simpl; [ constructor | ].
  clear S. revert IH. generalize (rev_involutive l).
  assert (F' : Forall (R x) (rev (rev l))) by (rewrite rev_involutive; exact F).
  clear F. generalize dependent (rev l). intros r F' _ Sr.
  induction Sr as [| y r Sr IHr Fr]; simpl.
  - constructor; constructor.
  - simpl in F'. apply Forall_app in F'. destruct F' as [F1 F2].
    constructor.
    + apply IHr. exact F1.
    + apply Forall_app. split; [ exact Fr | ].
      constructor; [ | constructor ]. inversion F2; assumption.
Qed.

(** What [slice(0, n)] leaves out of a sorted array comes after all it
    keeps, and then it keeps [n] elements. *)
Lemma beyond_firstn n l x :
  StronglySorted R l -> In x l -> ~ In x (firstn n l) ->
  List.length (firstn n l) = n /\ forall t, In t (firstn n l) -> R t x.
Proof.
  intros S Hx Hn.
  assert (Hs : In x (skipn n l)).
  { rewrite <- (firstn_skipn n l) in Hx. apply in_app_or in Hx. tauto. }
  split.
  - apply firstn_length_le.
    destruct (Nat.le_gt_cases n (List.length l)) as [H | H]; [ exact H | ].
    rewrite skipn_all2 in Hs by lia. contradiction.
  - rewrite <- (firstn_skipn n l) in S. apply sorted_app in S.
    intros t Ht. apply S; assumption.
Qed.

(** The same for [slice(-n)]. *)
Lemma before_last_n n l x :
  StronglySorted R l -> In x l -> ~ In x (last_n n l) ->
  List.length (last_n n l) = n /\ forall t, In t (last_n n l) -> R x t.
Proof.
  unfold last_n. intros S Hx Hn.
  set (k := (List.length l - n)%nat) in *.
  assert (Hf : In x (firstn k l)).
  { rewrite <- (firstn_skipn k l) in Hx. apply in_app_or in Hx. tauto. }
  split.
  - rewrite length_skipn. subst k.
    destruct (Nat.le_gt_cases n (List.length l)) as [H | H]; [ lia | ].
    replace (List.length l - n)%nat with 0%nat in Hf by lia. contradiction.
  - rewrite <- (firstn_skipn k l) in S. apply sorted_app in S.
    intros t Ht. apply S; assumption.
Qed.

End Sorted.

Lemma last_n_length {A} n (l : list A) : (List.length (last_n n l) <= n)%nat.
Proof. unfold last_n. rewrite length_skipn. lia. Qed.

Lemma last_n_incl {A} n (l : list A) x : In x (last_n n l) -> In x l.
Proof.
  unfold last_n. intros H. rewrite <- (firstn_skipn (List.length l - n) l).
  apply in_or_app. right. exact H.
Qed.

Lemma firstn_incl {A} n (l : list A) x : In x (firstn n l) -> In x l.
Proof.
  intros H. rewrite <- (firstn_skipn n l). apply in_or_app. left. exact H.
Qed.

End OrderFacts.

(** ** Errors, strengths and focus areas *)

Module FeedbackFacts.
Import JsNum Binary64 AudioProcessor Transcriber AIAnalyzer Design.
Import SortFacts OrderFacts LevelFacts OverallFacts ScoringFacts ReturnFacts Samples.

Definition severity_of (score : Z) : Severity :=
  if score <? 40 then high else if score <? 50 then medium else low.

(** The error entry of a skill: its capitalised name, the severity of
    its score, its assessment and its issues. *)
Definition error_of (entry : string * SkillAnalysis) : ErrorEntry :=
  {| e_type := capitalize (fst entry);
     severity := severity_of (score (snd entry));
     e_description := honestAssessment (snd entry);
     examples := issues (snd entry) |}.

Definition below_58 (entry : string * SkillAnalysis) : bool := score (snd entry) <? 58.

Definition severity_rank (e : ErrorEntry) : Z := severity_order (severity e).

Lemma errors_before_sorting analyses :
  identifyErrors analyses =
  sort (by_key severity_rank) (map error_of (filter below_58 (entries analyses))).
Proof.
  unfold identifyErrors. f_equal.
  unfold entries, below_58, error_of, severity_of. cbn.
  destruct (score (pronunciation analyses) <? 58), (score (fluency analyses) <? 58),
    (score (vocabulary analyses) <? 58), (score (grammar analyses) <? 58),
    (score (coherence analyses) <? 58); reflexivity.
Qed.

(** X1: the error list holds exactly one entry for each of the five
    skills that scores below 58 and none for the others; the entry names
    the skill, has severity high below 40, medium below 50 and low
    otherwise, and carries the skill's assessment and issues; the list is
    ordered high, medium, low. *)
Theorem X1_errors_by_severity (analyses : Analyses) :
  Permutation (identifyErrors analyses)
    (map error_of (filter below_58 (entries analyses))) /\
  StronglySorted (fun a b => severity_rank a <= severity_rank b)
    (identifyErrors analyses).
Proof.
  rewrite errors_before_sorting. split.
  - apply sort_perm.
  - apply (sort_sorted severity_rank).
Qed.

(** The five skills with their capitalised names and scores. *)
Definition skill_scores (analyses : Analyses) : list SkillScore :=
  map (fun entry : string * SkillAnalysis =>
         {| ss_name := capitalize (fst entry); ss_score := score (snd entry) |})
    (entries analyses).

Definition falling (a b : SkillScore) : Prop := ss_score b <= ss_score a.
Definition rising (a b : SkillScore) : Prop := ss_score a <= ss_score b.

Definition sorted_skills (analyses : Analyses) : list SkillScore :=
  sort (fun a b => ss_score b <=? ss_score a) (skill_scores analyses).

Lemma sorted_skills_falling analyses : StronglySorted falling (sorted_skills analyses).
Proof.
  unfold sorted_skills.
  rewrite (sort_ext _ (by_key (fun s => - ss_score s))).
  - eapply sorted_impl; [ | apply (sort_sorted (fun s => - ss_score s)) ].
    unfold key_le, falling. intros a b H. lia.
  - intros a b. unfold by_key.
    destruct (Z.leb_spec (ss_score b) (ss_score a)), (Z.leb_spec (- ss_score a) (- ss_score b));
      try reflexivity; lia.
Qed.

Lemma sorted_skills_in analyses s :
  In s (sorted_skills analyses) <-> In s (skill_scores analyses).
Proof.
  unfold sorted_skills.
  rewrite (sort_ext _ (by_key (fun s => - ss_score s))).
  - split; apply Permutation_in;
      [ | apply Permutation_sym ]; apply (sort_perm (fun s => - ss_score s)).
  - intros a b. unfold by_key.
    destruct (Z.leb_spec (ss_score b) (ss_score a)), (Z.leb_spec (- ss_score a) (- ss_score b));
      try reflexivity; lia.
Qed.

Definition strong (s : SkillScore) : bool := 65 <=? ss_score s.
Definition weak (s : SkillScore) : bool := ss_score s <? 58.

Lemma strengths_eq analyses :
  strengths (identifyStrengthsWeaknesses analyses) =
  firstn 3 (filter strong (sorted_skills analyses)).
Proof. reflexivity. Qed.

Lemma weaknesses_eq analyses :
  weaknesses (identifyStrengthsWeaknesses analyses) =
  rev (last_n 3 (filter weak (sorted_skills analyses))).
Proof. reflexivity. Qed.

(** X2: the strengths are the skills scoring 65 or more, best first, at
    most three of them, and a skill of 65 or more that is left out scores
    no higher than the three listed; the focus areas are the skills
    scoring below 58, weakest first, at most three of them, and a skill
    below 58 that is left out scores no lower than the three listed. *)
Theorem X2_strengths_and_focus_areas (analyses : Analyses) :
  let result := identifyStrengthsWeaknesses analyses in
  ((List.length (strengths result) <= 3)%nat /\
   StronglySorted falling (strengths result) /\
   (forall s, In s (strengths result) ->
      In s (skill_scores analyses) /\ 65 <= ss_score s) /\
   (forall s, In s (skill_scores analyses) -> 65 <= ss_score s ->
      ~ In s (strengths result) ->
      List.length (strengths result) = 3%nat /\
      forall t, In t (strengths result) -> ss_score s <= ss_score t)) /\
  ((List.length (weaknesses result) <= 3)%nat /\
   StronglySorted rising (weaknesses result) /\
   (forall w, In w (weaknesses result) ->
      In w (skill_scores analyses) /\ ss_score w < 58) /\
   (forall w, In w (skill_scores analyses) -> ss_score w < 58 ->
      ~ In w (weaknesses result) ->
      List.length (weaknesses result) = 3%nat /\
      forall t, In t (weaknesses result) -> ss_score t <= ss_score w)).
Proof.
  intros result. subst result.
  rewrite strengths_eq, weaknesses_eq.
  pose proof (sorted_skills_falling analyses) as S.
  split.
  - split; [ apply firstn_le_length | ].
    split; [ apply firstn_sorted, filter_sorted, S | ].
    split.
    + intros s Hs. apply firstn_incl, filter_In in Hs. destruct Hs as [Hs Hk].
      split; [ apply sorted_skills_in, Hs | ]. unfold strong in Hk. lia.
    + intros s Hs H65 Hn.
      apply (beyond_firstn falling); [ apply filter_sorted, S | | exact Hn ].
      apply filter_In. split; [ apply sorted_skills_in, Hs | ].
      unfold strong. lia.
  - split; [ rewrite length_rev; apply last_n_length | ].
    split.
    { apply (rev_sorted falling). unfold last_n. apply skipn_sorted, filter_sorted, S. }
    split.
    + intros w Hw. apply in_rev, last_n_incl, filter_In in Hw. destruct Hw as [Hw Hk].
      split; [ apply sorted_skills_in, Hw | ]. unfold weak in Hk. lia.
    + intros w Hw H58 Hn.
      destruct (before_last_n falling 3 (filter weak (sorted_skills analyses)) w)
        as [L T].
      * apply filter_sorted, S.
      * apply filter_In. split; [ apply sorted_skills_in, Hw | ]. unfold weak. lia.
      * intros H. apply Hn, in_rev. rewrite rev_involutive. exact H.
      * split; [ rewrite length_rev; exact L | ].
        intros t Ht. apply in_rev in Ht. apply (T t Ht).
Qed.

(** X3: every focus area is also reported as an error: the error list
    has an entry of the same skill name, with the severity of the same
    score. *)
Theorem X3_focus_area_has_error (analyses : Analyses) (w : SkillScore) :
  In w (weaknesses (identifyStrengthsWeaknesses analyses)) ->
  exists e,
    In e (identifyErrors analyses) /\
    e_type e = ss_name w /\ severity e = severity_of (ss_score w).
Proof.
  intros Hw. rewrite weaknesses_eq in Hw.
  apply in_rev, last_n_incl, filter_In in Hw. destruct Hw as [Hw Hk].
  apply sorted_skills_in in Hw. unfold skill_scores in Hw.
  apply in_map_iff in Hw. destruct Hw as (entry & <- & Hin).
  exists (error_of entry). split; [ | split; reflexivity ].
  rewrite errors_before_sorting.
  apply (Permutation_in _ (Permutation_sym (sort_perm severity_rank _))).
  apply in_map, filter_In. split; [ exact Hin | exact Hk ].
Qed.

(** The analyses of the halting sample. *)
Definition halting_analyses : Analyses :=
  analyze_skills halting_features "custom" (Some halting_transcript).


Lemma X3_focus_area_has_error_witness :
  exists e,
    In e (identifyErrors halting_analyses) /\
    e_type e = "Fluency" /\ severity e = high.
Proof.
  apply (X3_focus_area_has_error halting_analyses {| ss_name := "Fluency"; ss_score := 35 |}).
  vm_compute. tauto.
Defined.

(** X4: with the thresholds and weights of the constructor, every
    analysis returns an assessment whose overall score is one of the
    integers 0..100, whose level is the band of that score (A1 below 28,
    A2 below 42, B1 below 58, B2 below 73, C1 below 87, C2 from 87) and
    whose description is the one listed for that level. *)
Theorem X4_level_of_the_assessment (features : Features) (topic : string)
  (transcription : option TranscriptAnalysis) (now : Z) :
  exists a s range,
    analyzeFullSpeaking new_AIAnalyzer features topic transcription now = Returns a /\
    0 <= s <= 100 /\
    overallScore a = of_Z s /\
    level a = band_of s /\
    lookup (level a) (levelThresholds new_AIAnalyzer) = Some range /\
    levelDescription a = description range.
Proof.
  destruct (overall_in_range _ (score_entries_in_range features topic transcription)
              (score_entries_skills _ _))
    as (s & Hs & E).
  pose proof (forall_0_100 level_check level_check_all s Hs) as L.
  unfold level_check in L. apply andb_prop in L. destruct L as [L _].
  apply String.eqb_eq in L.
  unfold analyzeFullSpeaking. rewrite E, L.
  destruct (level_listed (of_Z s)) as [range R]. rewrite L in R. rewrite R.
  eexists _, s, range. split; [ reflexivity | ]. cbn.
  repeat split; try assumption; lia.
Qed.

End FeedbackFacts.

(** ** Vocabulary level *)

Module VocabularyFacts.
Import JsNum JsStr Transcriber Vocabulary NumberOrder.

(** X5: the vocabulary estimate is "Unknown" with score 0 exactly when
    there is no analysis or no word was counted; otherwise the score lies
    between 0 and 80, and the top level "C1-C2" is given exactly when the
    score is 80, that is, when there are at least 150 words, a richness of
    at least 70, at least 5 advanced words, at least 15 words per sentence
    and a filler ratio that is not above 2. *)
Theorem X5_vocabulary_level (analysis : option TranscriptAnalysis) :
  let result := detectVocabularyLevel analysis in
  0 <= vl_score result <= 80 /\
  (vl_level result = "Unknown" <->
   match analysis with Some a => wordCount a = 0 | None => True end) /\
  (vl_level result = "Unknown" -> vl_score result = 0) /\
  (vl_level result = "C1-C2" <-> vl_score result = 80) /\
  (vl_score result = 80 <->
   exists a,
     analysis = Some a /\
     150 <= wordCount a /\
     geb (parseFloat (vocabularyRichness a)) 70 = true /\
     5 <= advancedWordCount a /\
     geb (parseFloat (avgWordsPerSentence a)) 15 = true /\
     gtb (parseFloat (fillerRatio a)) 2 = false).
Proof.
  destruct analysis as [a |]; cbv zeta; unfold detectVocabularyLevel.
  2: { cbn. repeat split; try lia; try discriminate; try (intros (a & H & _); discriminate). }
  destruct (Z.eqb_spec (wordCount a) 0) as [W | W].
  { cbn. repeat split; try lia; try discriminate; try tauto.
    intros (a' & H & H150 & _). inversion H; subst. lia. }
  cbv zeta.
  set (r := geb (parseFloat (vocabularyRichness a)) 70).
  set (w := geb (parseFloat (avgWordsPerSentence a)) 15).
  set (f := gtb (parseFloat (fillerRatio a)) 2).
  set (p1 := if 150 <=? wordCount a then 20 else _).
  assert (H1 : 5 <= p1 <= 20 /\ (p1 = 20 <-> 150 <= wordCount a)).
  { subst p1. destruct (Z.leb_spec 150 (wordCount a)); [ lia | ].
    destruct (100 <=? wordCount a); [ lia | ].
    destruct (50 <=? wordCount a); lia. }
  clearbody p1.
  set (p2 := if r then 25 else _).
  assert (H2 : 5 <= p2 <= 25 /\ (p2 = 25 <-> r = true)).
  { subst p2. destruct r; [ intuition lia | ].
    destruct (geb _ 50); [ intuition (try lia; discriminate) | ].
    destruct (geb _ 35); intuition (try lia; discriminate). }
  clearbody p2.
  set (p3 := if 5 <=? advancedWordCount a then 20 else _).
  assert (H3 : 0 <= p3 <= 20 /\ (p3 = 20 <-> 5 <= advancedWordCount a)).
  { subst p3. destruct (Z.leb_spec 5 (advancedWordCount a)); [ lia | ].
    destruct (3 <=? advancedWordCount a); [ lia | ].
    destruct (1 <=? advancedWordCount a); lia. }
  clearbody p3.
  set (p4 := if w then 15 else _).
  assert (H4 : 0 <= p4 <= 15 /\ (p4 = 15 <-> w = true)).
  { subst p4. destruct w; [ intuition lia | ].
    destruct (geb _ 10); [ intuition (try lia; discriminate) | ].
    destruct (geb _ 7); intuition (try lia; discriminate). }
  clearbody p4.
  set (p5 := if gtb (parseFloat (fillerRatio a)) 10 then 15 else _).
  assert (H5 : 0 <= p5 <= 15 /\ (p5 = 0 <-> f = false)).
  { subst p5 f. unfold gtb.
    destruct (10 <? parseFloat (fillerRatio a))%float eqn:G10.
    { rewrite (ltb_trans 2 10 _ eq_refl G10). intuition (try lia; discriminate). }
    destruct (5 <? parseFloat (fillerRatio a))%float eqn:G5.
    { rewrite (ltb_trans 2 5 _ eq_refl G5). intuition (try lia; discriminate). }
    destruct (2 <? parseFloat (fillerRatio a))%float; intuition (try lia; discriminate). }
  clearbody p5.
  set (s5 := 0 + p1 + p2 + p3 + p4 - p5).
  assert (T : s5 = 80 <-> p1 = 20 /\ p2 = 25 /\ p3 = 20 /\ p4 = 15 /\ p5 = 0)
    by (subst s5; lia).
  assert (H : s5 = 80 <->
              150 <= wordCount a /\ r = true /\ 5 <= advancedWordCount a /\
              w = true /\ f = false) by tauto.
  assert (B : -5 <= s5 <= 80) by (subst s5; lia).
  clearbody s5. clear T H1 H2 H3 H4 H5 p1 p2 p3 p4 p5.
  cbn [vl_score vl_level].
  assert (S : Z.max 0 (Z.min 100 s5) = 80 <-> s5 = 80) by lia.
  assert (V : 0 <= Z.max 0 (Z.min 100 s5) <= 80) by lia.
  revert S V. generalize (Z.max 0 (Z.min 100 s5)). intros v S V.
  split; [ exact V | ].
  split.
  { split; [ | intros E; contradiction ].
    destruct (80 <=? v), (65 <=? v), (50 <=? v), (35 <=? v); discriminate. }
  split.
  { destruct (80 <=? v), (65 <=? v), (50 <=? v), (35 <=? v); discriminate. }
  split.
  { destruct (Z.leb_spec 80 v) as [L | L].
    - split; [ lia | reflexivity ].
    - split; [ | lia ].
      destruct (65 <=? v), (50 <=? v), (35 <=? v); discriminate. }
  rewrite S, H. split.
  - intros (H150 & Hr & Ha & Hw & Hf). exists a. tauto.
  - intros (a' & E & H'). inversion E; subst a'. tauto.
Qed.

End VocabularyFacts.

(** ** Counts of the transcript analysis *)

Module CountFacts.
Import JsNum JsStr Transcriber TranscriptFacts.

Lemma mem_In w l : mem w l = true <-> In w l.
Proof.
  unfold mem. rewrite existsb_exists. split.
  - intros (x & Hx & E). apply String.eqb_eq in E. subst. exact Hx.
  - intros H. exists w. split; [ exact H | apply String.eqb_refl ].
Qed.

Lemma mem_false w l : mem w l = false <-> ~ In w l.
Proof.
  rewrite <- mem_In. destruct (mem w l); intuition congruence.
Qed.

Lemma dedup_go_spec l : forall seen,
  NoDup (dedup_go l seen) /\
  forall x, In x (dedup_go l seen) <-> In x l /\ ~ In x seen.
Proof.
  induction l as [| w l IH]; intros seen; simpl.
  - split; [ constructor | tauto ].
  - destruct (mem w seen) eqn:M.
    + destruct (IH seen) as [N I]. split; [ exact N | ].
      apply mem_In in M. intros x. rewrite I.
      split; [ tauto | ]. intros [[<- | H] Hn]; tauto.
    + destruct (IH (w :: seen)) as [N I]. apply mem_false in M. split.
      * constructor; [ | exact N ]. rewrite I. simpl. tauto.
      * intros x. simpl. rewrite I. simpl.
        destruct (string_dec w x) as [<- | Hne]; tauto.
Qed.

Lemma dedup_NoDup l : NoDup (dedup l).
Proof. apply dedup_go_spec. Qed.

Lemma dedup_In l x : In x (dedup l) <-> In x l.
Proof.
  unfold dedup. destruct (dedup_go_spec l []) as [_ I]. rewrite I. simpl. tauto.
Qed.

Lemma dedup_length l : (List.length (dedup l) <= List.length l)%nat.
Proof.
  apply NoDup_incl_length; [ apply dedup_NoDup | ].
  intros x. apply dedup_In.
Qed.

(** *** Lower case *)

Lemma lower_char_idempotent c : lower_char (lower_char c) = lower_char c.
Proof. destruct c as [[] [] [] [] [] [] [] []]; reflexivity. Qed.

Lemma lower_char_space c : is_space (lower_char c) = is_space c.
Proof. destruct c as [[] [] [] [] [] [] [] []]; reflexivity. Qed.

Fixpoint chars (s : string) : list ascii :=
  match s with
  | EmptyString => []
  | String c rest => c :: chars rest
  end.

Definition lower (s : string) : Prop := Forall (fun c => lower_char c = c) (chars s).

Lemma toLowerCase_lower s : lower (toLowerCase s).
Proof.
  induction s as [| c s IH]; simpl; constructor; [ apply lower_char_idempotent | exact IH ].
Qed.

Lemma lower_fixed s : lower s -> toLowerCase s = s.
Proof.
  induction s as [| c s IH]; simpl; intros H; [ reflexivity | ].
  inversion H; subst. f_equal; auto.
Qed.

Lemma toLowerCase_length s : String.length (toLowerCase s) = String.length s.
Proof. induction s as [| c s IH]; simpl; congruence. Qed.

(** *** Splitting *)

Lemma chars_rev_string s : forall acc,
  chars (rev_string s acc) = (rev (chars s) ++ chars acc)%list.
Proof.
  induction s as [| c s IH]; intros acc; simpl; [ reflexivity | ].
  rewrite IH. simpl. rewrite <- app_assoc. reflexivity.
Qed.

Lemma chars_nil s : chars s = [] <-> s = "".
Proof. destruct s; simpl; split; intros H; try reflexivity; discriminate. Qed.

Lemma rev_string_empty cur : rev_string cur "" = "" <-> cur = "".
Proof.
  rewrite <- !chars_nil, chars_rev_string. simpl. rewrite app_nil_r.
  split; intros H.
  - apply (f_equal (@rev ascii)) in H. rewrite rev_involutive in H. exact H.
  - rewrite H. reflexivity.
Qed.

(** The characters of a piece come from the text. *)
Lemma split_go_chars sep s : forall cur in_sep w c,
  In w (split_go sep s cur in_sep) -> In c (chars w) ->
  In c (chars s) \/ In c (chars cur).
Proof.
  induction s as [| a s IH]; intros cur in_sep w c; simpl.
  - intros [<- | []] Hc. rewrite chars_rev_string in Hc. simpl in Hc.
    rewrite app_nil_r in Hc. right. apply in_rev. exact Hc.
  - destruct (sep a).
    + destruct in_sep.
      * intros Hw Hc. destruct (IH _ _ _ _ Hw Hc); tauto.
      * intros [<- | Hw] Hc.
        -- rewrite chars_rev_string in Hc. simpl in Hc. rewrite app_nil_r in Hc.
           right. apply in_rev. exact Hc.
        -- destruct (IH _ _ _ _ Hw Hc) as [H | []]. tauto.
    + intros Hw Hc. destruct (IH _ _ _ _ Hw Hc) as [H | [<- | H]]; tauto.
Qed.

Lemma split_chars sep s w c :
  In w (split sep s) -> In c (chars w) -> In c (chars s).
Proof.
  intros Hw Hc. destruct (split_go_chars sep s "" false w c Hw Hc) as [H | []]. exact H.
Qed.

Lemma split_lower sep s w : lower s -> In w (split sep s) -> lower w.
Proof.
  unfold lower. rewrite !Forall_forall. intros L Hw c Hc.
  apply L. exact (split_chars sep s w c Hw Hc).
Qed.

(** Every piece is empty exactly when the text consists of separators. *)
Lemma split_go_blank sep s : forall cur in_sep,
  filter nonempty (split_go sep s cur in_sep) = [] <->
  cur = "" /\ forallb sep (chars s) = true.
Proof.
  assert (E : forall cur, nonempty (rev_string cur "") = false <-> cur = "").
  { intros cur. rewrite <- rev_string_empty. unfold nonempty.
    destruct (rev_string cur ""); simpl; split; intros H; try reflexivity; discriminate. }
  induction s as [| a s IH]; intros cur in_sep; simpl.
  - destruct (nonempty (rev_string cur "")) eqn:N.
    + split; [ discriminate | ]. intros [H _]. apply E in H. congruence.
    + apply E in N. tauto.
  - destruct (sep a); simpl.
    + destruct in_sep; [ apply IH | ]. simpl.
      destruct (nonempty (rev_string cur "")) eqn:N.
      * split; [ discriminate | ]. intros [H _]. apply E in H. congruence.
      * apply E in N. rewrite IH. tauto.
    + rewrite IH. split; [ intros [H _]; discriminate | intros [_ H]; discriminate ].
Qed.

Lemma all_space_chars s : all_space s = forallb is_space (chars s).
Proof. induction s as [| c s IH]; simpl; congruence. Qed.

Lemma all_space_lower s : all_space (toLowerCase s) = all_space s.
Proof.
  induction s as [| c s IH]; simpl; [ reflexivity | ].
  rewrite lower_char_space, IH. reflexivity.
Qed.

(** The words of a text. *)
Definition words_of (text : string) : list string :=
  filter nonempty (split is_space (toLowerCase text)).

Lemma words_blank text : words_of text = [] <-> all_space text = true.
Proof.
  unfold words_of, split. rewrite split_go_blank, <- all_space_chars, all_space_lower.
  tauto.
Qed.

Lemma words_lower text w : In w (words_of text) -> lower w.
Proof.
  unfold words_of. intros H. apply filter_In in H. destruct H as [H _].
  exact (split_lower _ _ _ (toLowerCase_lower text) H).
Qed.

(** *** Advanced vocabulary *)

Definition advanced (word : string) : Prop :=
  In (toLowerCase word) advancedWordList \/ (8 <= String.length word)%nat.

Lemma add_long_words_In words : forall found x,
  In x (add_long_words words found) <->
  In x found \/ exists w, In w words /\ (8 <= String.length w)%nat /\ x = toLowerCase w.
Proof.
  induction words as [| word words IH]; intros found x; cbn [add_long_words In].
  - split; [ tauto | ]. intros [H | (w & [] & _)]. exact H.
  - destruct (Nat.leb_spec 8 (String.length word)) as [L | L]; cbn [andb].
    + destruct (mem (toLowerCase word) found) eqn:M; cbn [negb]; rewrite IH.
      * apply mem_In in M. split.
        -- intros [H | (w & Hw & H)]; [ tauto | right; exists w; tauto ].
        -- intros [H | (w & [<- | Hw] & H8 & ->)];
             [ tauto | tauto | right; exists w; tauto ].
      * rewrite in_app_iff. simpl. split.
        -- intros [[H | [<- | []]] | (w & Hw & H)];
             [ tauto | right; exists word; tauto | right; exists w; tauto ].
        -- intros [H | (w & [<- | Hw] & H8 & ->)];
             [ tauto | tauto | right; exists w; tauto ].
    + rewrite IH. split.
      * intros [H | (w & Hw & H)]; [ tauto | right; exists w; tauto ].
      * intros [H | (w & [<- | Hw] & H8 & ->)]; [ tauto | lia | right; exists w; tauto ].
Qed.

(** The words found before the cut to twenty. *)
Definition all_advanced (words : list string) : list string :=
  dedup (add_long_words words
           (filter (fun word => mem word (map toLowerCase words)) advancedWordList)).

Lemma all_advanced_In words x :
  In x (all_advanced words) <->
  exists w, In w words /\ x = toLowerCase w /\ advanced w.
Proof.
  unfold all_advanced, advanced. rewrite dedup_In, add_long_words_In, filter_In, mem_In,
    in_map_iff.
  split.
  - intros [(Hl & w & <- & Hw) | (w & Hw & H8 & ->)]; exists w; tauto.
  - intros (w & Hw & -> & [Hl | H8]).
    + left. split; [ exact Hl | ]. exists w. tauto.
    + right. exists w. tauto.
Qed.

Lemma detected_spec words :
  (List.length (detectAdvancedVocabulary words) <= 20)%nat /\
  NoDup (detectAdvancedVocabulary words) /\
  (forall x, In x (detectAdvancedVocabulary words) ->
     exists w, In w words /\ x = toLowerCase w /\ advanced w).
Proof.
  change (detectAdvancedVocabulary words) with (firstn 20 (all_advanced words)).
  split; [ apply firstn_le_length | ].
  split.
  - pose proof (dedup_NoDup (add_long_words words
                  (filter (fun word => mem word (map toLowerCase words)) advancedWordList))) as N.
    fold (all_advanced words) in N.
    rewrite <- (firstn_skipn 20 (all_advanced words)) in N.
    apply NoDup_app_remove_r in N. exact N.
  - intros x Hx. apply all_advanced_In.
    rewrite <- (firstn_skipn 20 (all_advanced words)). apply in_or_app. left. exact Hx.
Qed.

(** X6: the advanced words reported are at most twenty, without
    repetition; each is a word of the input in lower case that is on the
    list of advanced words or has at least eight characters; and when
    fewer than twenty are reported, every such word of the input is among
    them. *)
Theorem X6_advanced_vocabulary (words : list string) :
  let found := detectAdvancedVocabulary words in
  (List.length found <= 20)%nat /\
  NoDup found /\
  (forall x, In x found -> exists w, In w words /\ x = toLowerCase w /\ advanced w) /\
  ((List.length found < 20)%nat ->
   forall w, In w words -> advanced w -> In (toLowerCase w) found).
Proof.
  intros found. subst found.
  destruct (detected_spec words) as (L20 & N & I).
  repeat (split; [ assumption | ]).
  change (detectAdvancedVocabulary words) with (firstn 20 (all_advanced words)).
  intros L w Hw Ha.
  assert (E : firstn 20 (all_advanced words) = all_advanced words).
  { apply firstn_all2. rewrite length_firstn in L. lia. }
  rewrite E. apply all_advanced_In. exists w. tauto.
Qed.

(** *** The counts *)

Definition total_of (fillers : list (string * Z)) : Z :=
  fold_right (fun entry sum => snd entry + sum) 0 fillers.

Lemma total_of_app l1 l2 : total_of (l1 ++ l2) = total_of l1 + total_of l2.
Proof. induction l1 as [| e l1 IH]; simpl; lia. Qed.

Lemma count_fillers_spec text :
  let '(fillerWordMap, fillerCount) := count_fillers text in
  fillerCount = total_of fillerWordMap /\
  Forall (fun entry => In (fst entry) fillerWordList /\ 0 < snd entry /\
                       snd entry = count_matches (fst entry) text) fillerWordMap.
Proof.
  unfold count_fillers.
  assert (G : forall fillers acc,
             incl fillers fillerWordList ->
             snd acc = total_of (fst acc) /\
             Forall (fun entry => In (fst entry) fillerWordList /\ 0 < snd entry /\
                                  snd entry = count_matches (fst entry) text) (fst acc) ->
             let r := fold_left
                        (fun (acc : list (string * Z) * Z) filler =>
                           let matches := count_matches filler text in
                           if 0 <? matches
                           then ((fst acc ++ [(filler, matches)])%list, snd acc + matches)
                           else acc) fillers acc in
             snd r = total_of (fst r) /\
             Forall (fun entry => In (fst entry) fillerWordList /\ 0 < snd entry /\
                                  snd entry = count_matches (fst entry) text) (fst r)).
  { induction fillers as [| filler fillers IH]; intros acc I H; simpl; [ exact H | ].
    apply IH; [ intros x Hx; apply I; right; exact Hx | ].
    destruct (Z.ltb_spec 0 (count_matches filler text)) as [P | P]; [ | exact H ].
    destruct H as [S F]. simpl. split.
    - rewrite total_of_app. simpl. lia.
    - apply Forall_app. split; [ exact F | ].
      constructor; [ | constructor ]. simpl.
      split; [ apply I; left; reflexivity | ]. split; [ exact P | reflexivity ]. }
  specialize (G fillerWordList ([], 0) (incl_refl _)).
  cbv zeta in G.
  destruct (fold_left _ fillerWordList ([], 0)) as [m c].
  apply G. simpl. split; [ reflexivity | constructor ].
Qed.

Lemma analysis_words text :
  String.length text <> 0%nat ->
  let a := analyzeTranscript (Some text) in
  wordCount a = len (words_of text) /\
  uniqueWordCount a = len (dedup (words_of text)) /\
  advancedWords a = detectAdvancedVocabulary (words_of text) /\
  advancedWordCount a = len (advancedWords a) /\
  fillerWords a = fst (count_fillers text) /\
  fillerWordCount a = snd (count_fillers text) /\
  sentenceCount a = len (filter has_content (split is_sentence_end text)) /\
  rawText a = text.
Proof.
  intros N. unfold analyzeTranscript.
  destruct (Nat.eqb_spec (String.length text) 0) as [E | _]; [ contradiction | ].
  fold (words_of text). destruct (count_fillers text) as [m c].
  cbv zeta.
  cbn [wordCount uniqueWordCount advancedWords advancedWordCount fillerWords
       fillerWordCount sentenceCount rawText fst snd].
  repeat split; reflexivity.
Qed.

(** X7: in every transcript analysis the counts fit together: the
    unique words are at most the words, the advanced words are at most
    twenty and at most the unique words, the sentence count is not
    negative, and the filler count is the sum of the entries of the
    filler map, each of which is positive, belongs to a listed filler and
    is its number of matches in the text. *)
Theorem X7_counts_fit_together (text : option string) :
  let a := analyzeTranscript text in
  0 <= advancedWordCount a <= uniqueWordCount a /\
  uniqueWordCount a <= wordCount a /\
  advancedWordCount a <= 20 /\
  advancedWordCount a = len (advancedWords a) /\
  0 <= sentenceCount a /\
  fillerWordCount a = total_of (fillerWords a) /\
  Forall (fun entry => In (fst entry) fillerWordList /\ 0 < snd entry) (fillerWords a).
Proof.
  assert (Z0 : let a := getEmptyAnalysis in
               0 <= advancedWordCount a <= uniqueWordCount a /\
               uniqueWordCount a <= wordCount a /\
               advancedWordCount a <= 20 /\
               advancedWordCount a = len (advancedWords a) /\
               0 <= sentenceCount a /\
               fillerWordCount a = total_of (fillerWords a) /\
               Forall (fun entry => In (fst entry) fillerWordList /\ 0 < snd entry)
                 (fillerWords a)).
  { cbn. repeat split; try lia; try reflexivity. constructor. }
  destruct text as [text |]; [ | exact Z0 ].
  destruct (Nat.eq_dec (String.length text) 0) as [E | N].
  { unfold analyzeTranscript. rewrite E. exact Z0. }
  clear Z0. intros a.
  destruct (analysis_words text N) as (Hw & Hu & Ha & Hc & Hm & Hf & Hs & _).
  fold a in Hw, Hu, Ha, Hc, Hm, Hf, Hs.
  destruct (detected_spec (words_of text)) as (L20 & ND & I).
  pose proof (count_fillers_spec text) as F.
  destruct (count_fillers text) as [m c]. destruct F as [F1 F2].
  cbn [fst snd] in Hm, Hf.
  rewrite Hc, Hu, Hw, Hs, Ha, Hm, Hf. unfold len.
  split.
  { split; [ lia | ]. apply inj_le.
    apply NoDup_incl_length; [ exact ND | ].
    intros x Hx. destruct (I x Hx) as (w & Hin & -> & _).
    rewrite (lower_fixed w (words_lower text w Hin)). apply dedup_In. exact Hin. }
  split; [ apply inj_le, dedup_length | ].
  split; [ lia | ].
  split; [ reflexivity | ].
  split; [ lia | ].
  split; [ exact F1 | ].
  eapply Forall_impl; [ | exact F2 ]. intros entry (H1 & H2 & _). split; assumption.
Qed.

Lemma no_words_blank text :
  wordCount (analyzeTranscript (Some text)) = 0 <-> all_space text = true.
Proof.
  destruct (Nat.eq_dec (String.length text) 0) as [E | N].
  - unfold analyzeTranscript. rewrite E. cbn [Nat.eqb wordCount getEmptyAnalysis].
    destruct text; [ cbn; tauto | discriminate ].
  - destruct (analysis_words text N) as (Hw & _). rewrite Hw.
    rewrite <- words_blank. split.
    + apply len_zero.
    + intros ->. reflexivity.
Qed.

(** X8: the analysis counts no word exactly when there is no text or
    the text consists of white space only (the empty text included). *)
Theorem X8_no_words (text : option string) :
  wordCount (analyzeTranscript text) = 0 <->
  match text with Some text => all_space text = true | None => True end.
Proof.
  destruct text as [text |]; [ apply no_words_blank | cbn; tauto ].
Qed.

End CountFacts.

(** ** The running transcript *)

Module RecognitionFacts.
Import JsStr Transcriber Recognition CountFacts.

Lemma append_empty s : s ++ "" = s.
Proof. induction s as [| c s IH]; simpl; congruence. Qed.

Lemma append_assoc s t u : (s ++ t) ++ u = s ++ (t ++ u).
Proof. induction s as [| c s IH]; simpl; congruence. Qed.

(** The results that an event brings: those from [resultIndex] on. *)
Definition fresh (event : nat * list SpeechResult) : list SpeechResult :=
  skipn (fst event) (snd event).

(** The final phrases among them, each followed by a space, and the
    interim phrases, as one text each. *)
Fixpoint finals (results : list SpeechResult) : string :=
  match results with
  | [] => ""
  | r :: rest => if isFinal r then r_transcript r ++ " " ++ finals rest else finals rest
  end.

Fixpoint interims (results : list SpeechResult) : string :=
  match results with
  | [] => ""
  | r :: rest => if isFinal r then interims rest else r_transcript r ++ interims rest
  end.

(** The handler run on a sequence of events. *)
Definition run (events : list (nat * list SpeechResult)) (this : State) : State :=
  fold_left (fun st event => fst (onresult st (fst event) (snd event))) events this.

Fixpoint all_finals (events : list (nat * list SpeechResult)) : string :=
  match events with
  | [] => ""
  | event :: rest => finals (fresh event) ++ all_finals rest
  end.

Lemma result_loop results : forall interim final,
  fold_left result_step results (interim, final) =
  (interim ++ interims results, final ++ finals results).
Proof.
  induction results as [| r results IH]; intros interim final; simpl.
  - rewrite !append_empty. reflexivity.
  - unfold result_step at 2. simpl. destruct (isFinal r); rewrite IH; simpl.
    + rewrite !append_assoc. reflexivity.
    + rewrite append_assoc. reflexivity.
Qed.

Lemma onresult_state this resultIndex results :
  let st := fst (onresult this resultIndex results) in
  transcript st = transcript this ++ finals (skipn resultIndex results) /\
  interimTranscript st = interims (skipn resultIndex results) /\
  isTranscribing st = isTranscribing this.
Proof.
  unfold onresult. rewrite result_loop. cbn.
  destruct (finals (skipn resultIndex results)) as [| c f]; cbn.
  - rewrite append_empty. repeat split.
  - repeat split.
Qed.

Lemma run_transcript events : forall this,
  transcript (run events this) = transcript this ++ all_finals events.
Proof.
  induction events as [| event events IH]; intros this; simpl.
  - rewrite append_empty. reflexivity.
  - unfold run in *. simpl. rewrite IH.
    destruct (onresult_state this (fst event) (snd event)) as (T & _).
    cbv zeta in T. rewrite T. unfold fresh. apply append_assoc.
Qed.

Lemma run_interim events : forall this,
  interimTranscript (run events this) =
  match rev events with
  | [] => interimTranscript this
  | event :: _ => interims (fresh event)
  end.
Proof.
  intros this. unfold run.
  destruct events as [| e0 events] using rev_ind; [ reflexivity | ].
  rewrite fold_left_app, rev_app_distr. simpl.
  destruct (onresult_state
              (fold_left (fun st event => fst (onresult st (fst event) (snd event)))
                 events this) (fst e0) (snd e0)) as (_ & I & _).
  exact I.
Qed.

(** X9: from [start] on, the transcript is the concatenation, in order
    of arrival, of every final phrase that the recognition events brought,
    each followed by one space: no final phrase is lost or repeated; the
    interim text is that of the latest event only; and the update handed
    to the callback combines the two. *)
Theorem X9_transcript_accumulates (this : State)
  (events : list (nat * list SpeechResult)) :
  let st := run events (start this) in
  transcript st = all_finals events /\
  interimTranscript st =
    match rev events with
    | [] => ""
    | event :: _ => interims (fresh event)
    end /\
  forall resultIndex results,
    let '(st', update) := onresult st resultIndex results in
    transcript st' = transcript st ++ finals (skipn resultIndex results) /\
    u_final update = transcript st' /\
    u_interim update = interimTranscript st' /\
    combined update = transcript st' ++ interimTranscript st'.
Proof.
  intros st. subst st. split; [ apply run_transcript | ].
  split; [ apply run_interim | ].
  intros resultIndex results.
  pose proof (onresult_state (run events (start this)) resultIndex results) as H.
  cbv zeta in H. destruct H as (T & _).
  destruct (onresult (run events (start this)) resultIndex results) as [st' update] eqn:E.
  cbn [fst] in T. split; [ exact T | ].
  unfold onresult in E. rewrite result_loop in E. inversion E; subst. cbn.
  repeat split.
Qed.

(** *** Trimming *)

Lemma trim_start_head s :
  trim_start s = "" \/
  exists c rest, trim_start s = String c rest /\ is_space c = false.
Proof.
  induction s as [| c s IH]; simpl; [ left; reflexivity | ].
  destruct (is_space c) eqn:E; [ exact IH | right; eauto ].
Qed.

Lemma all_space_rev s : forall acc,
  all_space (rev_string s acc) = all_space s && all_space acc.
Proof.
  induction s as [| c s IH]; intros acc; simpl; [ reflexivity | ].
  rewrite IH. simpl. destruct (is_space c), (all_space s); reflexivity.
Qed.

(** A trimmed text that is all white space is empty. *)
Lemma trim_blank s : all_space (trim s) = true -> trim s = "".
Proof.
  unfold trim. intros H.
  destruct (trim_start_head (rev_string (trim_start s) "")) as [E | (c & rest & E & Hc)].
  - rewrite E. reflexivity.
  - rewrite E in H. rewrite all_space_rev in H. simpl in H. rewrite Hc in H.
    simpl in H. discriminate.
Qed.

(** X10: the text that [stop] returns is the trimmed full transcript, so
    it is either empty or has at least one word: analysed, a non-empty
    text returned by [stop] has a positive word count.  This holds of
    the text that [stop] returns only: the [combined] text that
    [onresult] hands to the update callback is not trimmed, and after
    one final result with an empty transcript it is a single space, a
    non-empty text in which the analysis counts no word. *)
Theorem X10_stopped_transcript_has_words (this : State) :
  (let '(st, text) := stop this in
   text = getFullTranscript this /\
   transcript st = transcript this /\
   isTranscribing st = false /\
   (text = "" \/ 0 < wordCount (analyzeTranscript (Some text)))) /\
  (let '(st, update) :=
     onresult (start this) 0 [ {| r_transcript := ""; isFinal := true |} ] in
   combined update = " " /\
   combined update <> "" /\
   wordCount (analyzeTranscript (Some (combined update))) = 0).
Proof.
  split; [ | vm_compute; repeat split; discriminate ].
  unfold stop. cbv beta iota.
  split; [ reflexivity | ]. split; [ reflexivity | ]. split; [ reflexivity | ].
  destruct (all_space (getFullTranscript this)) eqn:B.
  - left. apply trim_blank. exact B.
  - right.
    pose proof (no_words_blank (getFullTranscript this)) as H.
    assert (P : 0 <= wordCount (analyzeTranscript (Some (getFullTranscript this)))).
    { destruct (Nat.eq_dec (String.length (getFullTranscript this)) 0) as [E | N].
      - unfold analyzeTranscript. rewrite E. cbn [Nat.eqb wordCount getEmptyAnalysis]. lia.
      - destruct (analysis_words _ N) as (Hw & _). rewrite Hw. apply TranscriptFacts.len_nonneg. }
    destruct (Z.eq_dec (wordCount (analyzeTranscript (Some (getFullTranscript this)))) 0)
      as [Z0 | NZ]; [ | lia ].
    apply H in Z0. congruence.
Qed.

End RecognitionFacts.

(** ** Stored assessments *)

Module StorageFacts.
Import JsNum Binary64 FloatFacts NumberOrder JsStr Transcriber AIAnalyzer StorageManager.
Import OrderFacts MoreSamples.

(** The assessment as [saveAssessment] stores it. *)
Definition saved_as (now : nat -> Z) (random : string) (assessment : Assessment) : Saved :=
  {| id := "assess_" ++ show_Z (now 0%nat) ++ "_" ++ random;
     savedAt := now 1%nat;
     version := 3;
     body := assessment |}.

Lemma updateStatistics_assessments this now fits assessment :
  assessments (updateStatistics this now fits assessment) = assessments this /\
  audios (updateStatistics this now fits assessment) = audios this.
Proof.
  unfold updateStatistics.
  destruct (firstAssessment (getStatistics this)); destruct fits; split; reflexivity.
Qed.

Lemma lookup_filter_same {A} key (l : list (string * A)) :
  lookup key (filter (fun entry => negb (String.eqb (fst entry) key)) l) = None.
Proof.
  induction l as [| [k v] l IH]; simpl; [ reflexivity | ].
  destruct (String.eqb_spec k key) as [-> | N]; simpl; [ exact IH | ].
  destruct (String.eqb_spec key k) as [E | _]; [ congruence | exact IH ].
Qed.

Lemma lookup_filter_other {A} key other (l : list (string * A)) :
  other <> key ->
  lookup other (filter (fun entry => negb (String.eqb (fst entry) key)) l) = lookup other l.
Proof.
  intros N. induction l as [| [k v] l IH]; simpl; [ reflexivity | ].
  destruct (String.eqb_spec k key) as [-> | Nk]; simpl.
  - destruct (String.eqb_spec other key) as [E | _]; [ contradiction | exact IH ].
  - rewrite IH. reflexivity.
Qed.

Lemma removelast_firstn {A} (x : A) l :
  removelast (x :: l) = firstn (List.length l) (x :: l).
Proof.
  rewrite removelast_firstn_len. reflexivity.
Qed.

(** X11: when the browser accepts the write and at most 100 assessments
    are stored, [saveAssessment] returns the new id, puts the assessment
    first, keeps the earlier ones behind it in their order and drops what
    comes after the first 100; the assessment is then found under its
    id. *)
Theorem X11_saved_assessment_comes_first (this : Store) (now : nat -> Z)
  (random : string) (statsFit : bool) (assessment : Assessment) :
  (List.length (getAllAssessments this) <= 100)%nat ->
  let saved := saved_as now random assessment in
  let '(st, result) := saveAssessment this now random true statsFit assessment in
  result = Some (id saved) /\
  getAllAssessments st = firstn 100 (saved :: getAllAssessments this) /\
  (List.length (getAllAssessments st) <= 100)%nat /\
  getAssessment st (id saved) = Some saved.
Proof.
  intros L saved. unfold saveAssessment. fold (saved_as now random assessment). fold saved.
  set (l := getAllAssessments this) in *.
  assert (F : forall kept,
             kept = firstn 100 (saved :: l) ->
             let st :=
               updateStatistics
                 {| assessments := Some kept;
                    statistics := statistics this;
                    audios := audios this |}
                 (fun k => now (2 + k)%nat) statsFit saved in
             getAllAssessments st = firstn 100 (saved :: l) /\
             (List.length (getAllAssessments st) <= 100)%nat /\
             getAssessment st (id saved) = Some saved).
  { intros kept -> st.
    destruct (updateStatistics_assessments
                {| assessments := Some (firstn 100 (saved :: l));
                   statistics := statistics this;
                   audios := audios this |}
                (fun k => now (2 + k)%nat) statsFit saved) as [U _].
    unfold getAssessment, getAllAssessments. subst st. rewrite U. cbn [assessments].
    split; [ reflexivity | ]. split; [ apply firstn_le_length | ].
    cbn [firstn find]. rewrite String.eqb_refl. reflexivity. }
  destruct (Nat.ltb_spec 100 (List.length (saved :: l))) as [H | H];
    cbv beta iota zeta.
  - split; [ reflexivity | ].
    match goal with
    | |- context [deleteAudioFile this ?k] =>
        change (statistics (deleteAudioFile this k)) with (statistics this);
        generalize (audios (deleteAudioFile this k)); intros au
    end.
    assert (K : removelast (saved :: l) = firstn 100 (saved :: l)).
    { rewrite removelast_firstn. simpl in H. replace (List.length l) with 100%nat by lia.
      reflexivity. }
    rewrite K.
    destruct (updateStatistics_assessments
                {| assessments := Some (firstn 100 (saved :: l));
                   statistics := statistics this;
                   audios := au |}
                (fun k => now (2 + k)%nat) statsFit saved) as [U _].
    unfold getAssessment, getAllAssessments. rewrite U. cbn [assessments].
    split; [ reflexivity | ]. split; [ apply firstn_le_length | ].
    cbn [firstn find]. rewrite String.eqb_refl. reflexivity.
  - split; [ reflexivity | ]. apply F. symmetry. apply firstn_all2. exact H.
Qed.

Lemma X11_saved_assessment_comes_first_witness :
  let now := clock 1700000000000 in
  let saved := saved_as now "k3j9x0q2a" (plain_assessment 64 "B2") in
  let '(st, result) :=
    saveAssessment new_StorageManager now "k3j9x0q2a" true true (plain_assessment 64 "B2") in
  result = Some (id saved) /\
  getAllAssessments st = firstn 100 (saved :: getAllAssessments new_StorageManager) /\
  (List.length (getAllAssessments st) <= 100)%nat /\
  getAssessment st (id saved) = Some saved.
Proof.
  apply (X11_saved_assessment_comes_first new_StorageManager (clock 1700000000000)
           "k3j9x0q2a" true (plain_assessment 64 "B2")).
  simpl. lia.
Defined.

(** X12: when the browser refuses the write of the list,
    [saveAssessment] returns [null], and the stored assessments and
    statistics are as before; only the recording of the oldest
    assessment is gone already when 100 or more were stored. *)
Theorem X12_refused_write_stores_nothing (this : Store) (now : nat -> Z)
  (random : string) (statsFit : bool) (assessment : Assessment) :
  let '(st, result) := saveAssessment this now random false statsFit assessment in
  result = None /\
  assessments st = assessments this /\
  statistics st = statistics this /\
  audios st =
    if (100 <=? List.length (getAllAssessments this))%nat
    then audios (deleteAudioFile this
                   (id (last (getAllAssessments this) (saved_as now random assessment))))
    else audios this.
Proof.
  unfold saveAssessment. fold (saved_as now random assessment).
  set (saved := saved_as now random assessment).
  set (l := getAllAssessments this).
  change (100 <? List.length (saved :: l))%nat with (100 <=? List.length l)%nat.
  destruct (100 <=? List.length l)%nat eqn:C; cbv beta iota zeta.
  - repeat split.
    destruct l as [| a l]; [ discriminate C | reflexivity ].
  - repeat split.
Qed.

(** X13: [deleteAssessment] removes every stored assessment of the
    given id together with its recording, leaves the other assessments
    and recordings as they are and in their order, and does not touch the
    statistics. *)
Theorem X13_delete_assessment (this : Store) (id' : string) :
  let '(st, ok) := deleteAssessment this id' in
  ok = true /\
  getAssessment st id' = None /\
  getAudioFile st id' = None /\
  getAllAssessments st =
    filter (fun a => negb (String.eqb (id a) id')) (getAllAssessments this) /\
  (forall other, other <> id' ->
     getAssessment st other = getAssessment this other /\
     getAudioFile st other = getAudioFile this other) /\
  statistics st = statistics this.
Proof.
  unfold deleteAssessment, getAssessment, getAudioFile. cbn.
  set (l := getAllAssessments this).
  split; [ reflexivity | ]. split.
  { induction l as [| a l IH]; simpl; [ reflexivity | ].
    destruct (String.eqb_spec (id a) id') as [E | N]; simpl; [ exact IH | ].
    destruct (String.eqb_spec (id a) id'); [ contradiction | exact IH ]. }
  split; [ apply lookup_filter_same | ].
  split; [ reflexivity | ].
  split; [ | reflexivity ].
  intros other N. split; [ | apply lookup_filter_other; exact N ].
  induction l as [| a l IH]; simpl; [ reflexivity | ].
  destruct (String.eqb_spec (id a) id') as [E | Na]; simpl.
  - destruct (String.eqb_spec (id a) other) as [E' | _]; [ congruence | exact IH ].
  - destruct (String.eqb (id a) other); [ reflexivity | exact IH ].
Qed.

Lemma last_n_app_last {A} n (l : list A) x :
  exists earlier, last_n (S n) (l ++ [x]) = (earlier ++ [x])%list.
Proof.
  unfold last_n. rewrite length_app. simpl.
  replace (List.length l + 1 - S n)%nat with (List.length l - n)%nat by lia.
  rewrite skipn_app.
  replace (List.length l - n - List.length l)%nat with 0%nat by lia.
  simpl. eauto.
Qed.

(** X14: after an assessment and the statistics have been written, the
    statistics count exactly the stored assessments, the progress list
    has at most 50 entries and ends with the level and score of the new
    assessment, the date of the last assessment is the one just read, and
    the date of the first assessment is kept once it is set. *)
Theorem X14_statistics_after_saving (this : Store) (now : nat -> Z)
  (random : string) (assessment : Assessment) :
  let '(st, _) := saveAssessment this now random true true assessment in
  let stats := getStatistics st in
  totalAssessments stats = Z.of_nat (List.length (getAllAssessments st)) /\
  (List.length (levelProgress stats) <= 50)%nat /\
  (exists earlier date,
     levelProgress stats =
       (earlier ++ [ {| pe_date := date;
                        pe_level := level assessment;
                        pe_score := Json.stored (overallScore assessment) |} ])%list) /\
  lastAssessment stats = Some (now 2%nat) /\
  firstAssessment stats =
    Some match firstAssessment (getStatistics this) with
         | Some first => first
         | None => now 3%nat
         end.
Proof.
  unfold saveAssessment. fold (saved_as now random assessment).
  set (saved := saved_as now random assessment).
  set (l := getAllAssessments this).
  assert (G : forall st0,
             statistics st0 = statistics this ->
             let st := updateStatistics st0 (fun k => now (2 + k)%nat) true saved in
             let stats := getStatistics st in
             totalAssessments stats = Z.of_nat (List.length (getAllAssessments st)) /\
             (List.length (levelProgress stats) <= 50)%nat /\
             (exists earlier date,
                levelProgress stats =
                  (earlier ++ [ {| pe_date := date;
                                   pe_level := level assessment;
                                   pe_score := Json.stored (overallScore assessment) |} ])%list) /\
             lastAssessment stats = Some (now 2%nat) /\
             firstAssessment stats =
               Some match firstAssessment (getStatistics this) with
                    | Some first => first
                    | None => now 3%nat
                    end).
  { intros st0 S. cbv zeta.
    assert (GS : getStatistics st0 = getStatistics this)
      by (unfold getStatistics; rewrite S; reflexivity).
    unfold updateStatistics. rewrite GS.
    set (old := levelProgress (getStatistics this)).
    destruct (firstAssessment (getStatistics this)) as [first |]; cbv beta iota zeta;
      match goal with
      | |- context [(old ++ [?e])%list] => set (entry := e)
      end;
      cbn [getStatistics statistics getAllAssessments assessments totalAssessments
           levelProgress lastAssessment firstAssessment];
      (split; [ reflexivity | ]);
      (split;
       [ destruct (Nat.ltb_spec 50 (List.length (old ++ [entry])));
         [ apply last_n_length | lia ] | ]);
      (split; [ | split; reflexivity ]);
      (destruct (50 <? List.length (old ++ [entry]))%nat;
       [ destruct (last_n_app_last 49 old entry) as [earlier E];
         exists earlier; eexists; rewrite E; reflexivity
       | exists old; eexists; reflexivity ]). }
  destruct (100 <? List.length (saved :: l))%nat; cbv beta iota zeta; apply G; reflexivity.
Qed.

(** *** Progress *)

(** A number minus itself is [0], or [NaN] when it is infinite or
    [NaN]. *)
Lemma sub_self x : (x - x)%float = 0%float \/ is_nan (x - x)%float = true.
Proof.
  assert (H : Prim2SF (x - x)%float = S754_zero false \/ Prim2SF (x - x)%float = S754_nan).
  { rewrite FloatAxioms.sub_spec. unfold SF64sub, SFsub.
    destruct (Prim2SF x) as [s | s | | s m e].
    - left. destruct s; reflexivity.
    - right. destruct s; reflexivity.
    - right. reflexivity.
    - left. rewrite Z.sub_diag. reflexivity. }
  destruct H as [H | H].
  - left. apply Prim2SF_inj. rewrite H. reflexivity.
  - right. rewrite is_nan_spec, H. reflexivity.
Qed.

Lemma nan_not_less x y : is_nan x = true -> (x <? y)%float = false /\ (y <? x)%float = false.
Proof.
  intros N. split.
  - destruct (x <? y)%float eqn:E; [ | reflexivity ].
    apply ltb_number in E. unfold number in E. destruct E. congruence.
  - destruct (y <? x)%float eqn:E; [ | reflexivity ].
    apply ltb_number in E. unfold number in E. destruct E. congruence.
Qed.

Lemma Math_round_nan x : is_nan x = true -> is_nan (Math_round x) = true.
Proof.
  intros N. unfold Math_round.
  pose proof N as N'. rewrite is_nan_spec in N'.
  destruct (Prim2SF x); try discriminate. exact N.
Qed.

(** What is reported for a difference of two equal averages. *)
Lemma equal_averages x :
  let d := (x - x)%float in
  gtb d 0 = false /\ gtb d 5 = false /\ (d <? -5)%float = false /\
  (Math_round d = 0%float \/ is_nan (Math_round d) = true).
Proof.
  cbv zeta. unfold gtb. destruct (sub_self x) as [-> | N].
  - repeat split. left. reflexivity.
  - destruct (nan_not_less _ 0%float N) as [_ H0].
    destruct (nan_not_less _ 5%float N) as [_ H5].
    destruct (nan_not_less _ (-5)%float N) as [Hm _].
    repeat split; try assumption. right. apply Math_round_nan. exact N.
Qed.

Lemma short_slices {A} n (l : list A) :
  (List.length l <= n)%nat -> firstn n l = l /\ last_n n l = l.
Proof.
  intros H. split; [ apply firstn_all2; exact H | ].
  unfold last_n. replace (List.length l - n)%nat with 0%nat by lia. reflexivity.
Qed.

Lemma skill_progress_short assessments skill :
  (List.length assessments <= 3)%nat ->
  calculateSkillProgress assessments skill = 0%float \/
  is_nan (calculateSkillProgress assessments skill) = true.
Proof.
  intros H. unfold calculateSkillProgress.
  destruct (List.length assessments <? 2)%nat; [ left; reflexivity | ].
  destruct (short_slices 3 assessments H) as [-> ->].
  apply equal_averages.
Qed.

(** X15: progress is reported only from two stored assessments on; up
    to five stored assessments the recent and the older window are the
    same assessments, so the improvement reported is 0 (or NaN), never an
    improvement, with the steady-performance message; likewise the
    progress of each skill is 0 (or NaN) up to three stored
    assessments. *)
Theorem X15_progress_needs_more_assessments (this : Store) :
  let count := List.length (getAllAssessments this) in
  (getProgressAnalysis this = None <-> (count < 2)%nat) /\
  forall p,
    getProgressAnalysis this = Some p ->
    pr_totalAssessments p = Z.of_nat count /\
    ((count <= 5)%nat ->
     isImproving p = false /\
     message p = SteadyPerformance /\
     (improvement p = 0%float \/ is_nan (improvement p) = true)) /\
    ((count <= 3)%nat ->
     forall v,
       In v [ sp_pronunciation (skillProgress p); sp_vocabulary (skillProgress p);
              sp_fluency (skillProgress p); sp_grammar (skillProgress p);
              sp_coherence (skillProgress p) ] ->
       v = 0%float \/ is_nan v = true).
Proof.
  cbv zeta. unfold getProgressAnalysis.
  set (l := getAllAssessments this).
  destruct (Nat.ltb_spec (List.length l) 2) as [H | H].
  - split; [ tauto | ]. intros p E. discriminate E.
  - split; [ split; [ discriminate | lia ] | ].
    intros p E. cbv zeta in E.
    split; [ inversion E; reflexivity | ]. split.
    + intros H5. destruct (short_slices 5 l H5) as [F L]. rewrite F, L in E.
      inversion E; subst p; clear E.
      cbn [isImproving message improvement].
      destruct (equal_averages (average saved_overallScore l)) as (G0 & G5 & Gm & R).
      cbv zeta in G0, G5, Gm, R. rewrite G0, G5, Gm. tauto.
    + intros H3 v Hv. inversion E; subst p; clear E.
      cbn [skillProgress sp_pronunciation sp_vocabulary sp_fluency sp_grammar
           sp_coherence In] in Hv.
      destruct Hv as [<- | [<- | [<- | [<- | [<- | []]]]]];
        apply skill_progress_short; exact H3.
Qed.

(** *** Recordings *)

Lemma deleteAudioFile_lookup this key other :
  getAudioFile (deleteAudioFile this key) other =
  if String.eqb key other then None else getAudioFile this other.
Proof.
  unfold getAudioFile, deleteAudioFile. cbn [audios].
  destruct (String.eqb_spec key other) as [<- | N].
  - apply lookup_filter_same.
  - apply lookup_filter_other. congruence.
Qed.

Lemma clean_loop old : forall this key,
  let st := fold_left (fun st a => deleteAudioFile st (id a)) old this in
  assessments st = assessments this /\
  statistics st = statistics this /\
  getAudioFile st key =
    if existsb (fun a => String.eqb (id a) key) old then None else getAudioFile this key.
Proof.
  induction old as [| a old IH]; intros this key; cbn [fold_left existsb].
  - repeat split.
  - destruct (IH (deleteAudioFile this (id a)) key) as (A & S & G).
    cbv zeta in *. rewrite A, S, G, deleteAudioFile_lookup.
    split; [ reflexivity | ]. split; [ reflexivity | ].
    destruct (String.eqb (id a) key); cbn [orb];
      destruct (existsb _ old); reflexivity.
Qed.

(** X16: cleaning old recordings deletes the recording of every
    assessment that comes after the first twenty of the stored list and
    keeps every other recording; the assessments and the statistics stay
    as they are. *)
Theorem X16_clean_old_audios (this : Store) (assessmentId : string) :
  let st := cleanOldAudios this in
  getAudioFile st assessmentId =
    (if existsb (fun a => String.eqb (id a) assessmentId)
          (skipn 20 (getAllAssessments this))
     then None else getAudioFile this assessmentId) /\
  getAllAssessments st = getAllAssessments this /\
  statistics st = statistics this.
Proof.
  cbv zeta. unfold cleanOldAudios.
  destruct (clean_loop (skipn 20 (getAllAssessments this)) this assessmentId)
    as (A & S & G).
  cbv zeta in *. split; [ exact G | ]. split; [ | exact S ].
  unfold getAllAssessments at 1. rewrite A. reflexivity.
Qed.

(** X17: a recording whose data URL has more than 5 * 1024 * 1024
    characters is never stored; a recording that is stored is the one
    found and played back under its assessment id afterwards, the
    recordings of the other assessments staying as they are; and when the
    browser refuses the write, the promise is rejected and the new
    recording is not stored, the old recordings having been cleaned. *)
Theorem X17_save_audio_file (this : Store) (dataUrl error blobType : string)
  (blobSize now : Z) (fits : bool) (assessmentId : string) :
  let '(st, settled) :=
    saveAudioFile this (Some dataUrl) error blobType blobSize now fits assessmentId in
  (5 * 1024 * 1024 < Z.of_nat (String.length dataUrl) ->
   st = this /\ settled = Resolved None) /\
  (Z.of_nat (String.length dataUrl) <= 5 * 1024 * 1024 -> fits = true ->
   (exists audioData,
      settled = Resolved (Some audioData) /\
      getAudioFile st assessmentId = Some audioData /\
      data audioData = dataUrl) /\
   getAudioPlaybackUrl st assessmentId =
     (if nonempty dataUrl then Some dataUrl else None) /\
   forall other, other <> assessmentId ->
     getAudioFile st other = getAudioFile this other) /\
  (Z.of_nat (String.length dataUrl) <= 5 * 1024 * 1024 -> fits = false ->
   settled = Rejected "Storage full. Old recordings cleaned." /\
   st = cleanOldAudios this).
Proof.
  unfold saveAudioFile.
  destruct (Z.ltb_spec (5 * 1024 * 1024) (Z.of_nat (String.length dataUrl))) as [H | H].
  - split; [ intros _; split; reflexivity | ]. split; intros H'; lia.
  - destruct fits.
    + split; [ intros H'; lia | ]. split; [ | intros _ F; discriminate F ].
      intros _ _. unfold getAudioPlaybackUrl, getAudioFile, setAudio. cbn [audios lookup].
      rewrite String.eqb_refl. cbn [data].
      split; [ eexists; repeat split | ]. split; [ reflexivity | ].
      intros other N. destruct (String.eqb_spec other assessmentId) as [E | _];
        [ contradiction | ].
      apply lookup_filter_other. exact N.
    + split; [ intros H'; lia | ]. split; [ intros _ F; discriminate F | ].
      intros _ _. split; reflexivity.
Qed.

End StorageFacts.

(** ** The check of an uploaded file *)

Module FileFacts.
Import JsStr FileCheck CountFacts RecognitionFacts.

Lemma ends_with_spec s suffix :
  ends_with s suffix = true <-> exists stem, s = stem ++ suffix.
Proof.
  induction s as [| c s IH]; cbn [ends_with].
  - rewrite orb_false_r, String.eqb_eq. split.
    + intros <-. exists "". reflexivity.
    + intros (stem & H). destruct stem; simpl in H; [ exact H | discriminate ].
  - rewrite orb_true_iff, String.eqb_eq, IH. split.
    + intros [<- | (stem & ->)]; [ exists ""; reflexivity | exists (String c stem); reflexivity ].
    + intros (stem & H). destruct stem as [| d stem]; simpl in H.
      * left. exact H.
      * right. exists stem. inversion H. reflexivity.
Qed.

(** The name ends, whatever the case of its letters, with a dot and a
    listed extension. *)
Definition has_extension (name : string) : Prop :=
  exists extension stem,
    In extension extensions /\ toLowerCase name = stem ++ "." ++ extension.

Lemma validExtensions_spec name : validExtensions name = true <-> has_extension name.
Proof.
  unfold validExtensions, has_extension. rewrite existsb_exists. split.
  - intros (extension & Hin & H). apply ends_with_spec in H. destruct H as (stem & H).
    exists extension, stem. tauto.
  - intros (extension & stem & Hin & H). exists extension. split; [ exact Hin | ].
    apply ends_with_spec. exists stem. exact H.
Qed.

(** X18: a file is accepted exactly when it is there, its type is one
    of the listed audio types or its name ends in one of the six
    extensions in either letter case, and its size lies between 10000 and
    100 * 1024 * 1024 bytes, both included; an accepted file carries no
    error and every rejected one carries one, the missing file first,
    then the type, then the size. *)
Theorem X18_accepted_files (file : option File) :
  let result := validateAudioFile file in
  (valid result = true <->
   exists f,
     file = Some f /\
     (In (f_type f) validTypes \/ has_extension (f_name f)) /\
     10000 <= f_size f <= 104857600) /\
  (valid result = true <-> error result = None) /\
  (forall f, file = Some f ->
     ~ (In (f_type f) validTypes \/ has_extension (f_name f)) ->
     error result =
       Some "Invalid file type. Please upload MP3, WAV, M4A, AAC, OGG, or WEBM files").
Proof.
  cbv zeta. destruct file as [f |]; cbn [validateAudioFile].
  2: { split; [ | split ].
       - split; [ discriminate | intros (f & H & _); discriminate ].
       - split; discriminate.
       - intros f H. discriminate. }
  assert (T : mem (f_type f) validTypes || validExtensions (f_name f) = true <->
              In (f_type f) validTypes \/ has_extension (f_name f)).
  { rewrite orb_true_iff, mem_In, validExtensions_spec. tauto. }
  destruct (mem (f_type f) validTypes || validExtensions (f_name f)); cbn [negb].
  - change (100 * 1024 * 1024) with 104857600.
    destruct (Z.ltb_spec 104857600 (f_size f)) as [B | B];
      [ | destruct (Z.ltb_spec (f_size f) 10000) as [S | S] ]; cbn [valid error].
    + split; [ | split ].
      * split; [ discriminate | intros (f' & E & _ & R); inversion E; subst; lia ].
      * split; discriminate.
      * intros f' E N. inversion E; subst. tauto.
    + split; [ | split ].
      * split; [ discriminate | intros (f' & E & _ & R); inversion E; subst; lia ].
      * split; discriminate.
      * intros f' E N. inversion E; subst. tauto.
    + split; [ | split ].
      * split; [ intros _; exists f; tauto | reflexivity ].
      * split; reflexivity.
      * intros f' E N. inversion E; subst. tauto.
  - cbn [valid error]. split; [ | split ].
    + split; [ discriminate | ].
      intros (f' & E & Ty & _). inversion E; subst. apply T in Ty. discriminate.
    + split; discriminate.
    + reflexivity.
Qed.

End FileFacts.

(** ** Helpers of the user interface *)

Module UIFacts.
Import JsNum JsStr UIController LevelFacts RecognitionFacts.

Lemma length_append s t : String.length (s ++ t) = (String.length s + String.length t)%nat.
Proof. induction s as [| c s IH]; simpl; congruence. Qed.

Lemma length_prefix m s :
  String.length (substring 0 m s) = Nat.min m (String.length s).
Proof.
  revert s. induction m as [| m IH]; intros s; destruct s as [| c s]; simpl;
    try reflexivity.
  rewrite IH. reflexivity.
Qed.

(** X19: a text that is not longer than the limit is shown as it is;
    a longer one is cut to its first [maxLength - 3] characters followed
    by three dots, which makes exactly [maxLength] characters when the
    limit is at least 3; with a limit below 3 the result is longer than
    the limit. *)
Theorem X19_truncated_text (text : string) (maxLength : Z) :
  let result := truncateText text maxLength in
  let len := Z.of_nat (String.length text) in
  (len <= maxLength -> result = text) /\
  (maxLength < len -> 3 <= maxLength ->
   result = substring 0 (Z.to_nat (maxLength - 3)) text ++ "..." /\
   Z.of_nat (String.length result) = maxLength) /\
  (maxLength < len -> maxLength < 3 ->
   maxLength < Z.of_nat (String.length result)).
Proof.
  cbv zeta. unfold truncateText, slice.
  destruct (Z.leb_spec (Z.of_nat (String.length text)) maxLength) as [H | H].
  - split; [ reflexivity | ]. split; intros; lia.
  - split; [ intros; lia | ]. split.
    + intros _ H3. cbn [Z.ltb Z.compare].
      destruct (Z.ltb_spec (maxLength - 3) 0) as [N | N]; [ lia | ].
      change (Z.min 0 (Z.of_nat (String.length text))) with
        (Z.min 0 (Z.of_nat (String.length text))).
      rewrite (Z.min_l 0) by lia. rewrite (Z.min_l (maxLength - 3)) by lia.
      rewrite Z.sub_0_r, Z.max_l by lia. cbn [Z.to_nat].
      split; [ reflexivity | ].
      rewrite length_append, length_prefix. simpl String.length. lia.
    + intros _ H3. rewrite length_append. simpl String.length. lia.
Qed.

(** *** The animation of a score bar *)

(** The animation of a score is complete when its last frame stops the
    interval and shows the score itself, as width and as label, in the
    class of the score. *)
Definition ends_at (targetScore : float) (shown : list Frame) : bool :=
  match rev shown with
  | last :: _ =>
      stopped last
      && Leibniz.eqb (width last) targetScore
      && Leibniz.eqb (label last) targetScore
      && String.eqb (className last) (className (frame_of targetScore true))
  | [] => false
  end.

Definition grows (shown : list Frame) : bool :=
  forallb (fun pair => (width (fst pair) <=? width (snd pair))%float)
    (combine shown (tl shown)).

Definition animation_check (s : Z) : bool :=
  let shown := animateScore 36 (of_Z s) in
  ends_at (of_Z s) shown
  && grows shown
  && forallb (fun frame => (width frame <=? of_Z s)%float) shown
  && (if s =? 0 then (List.length shown =? 1)%nat
      else (35 <=? List.length shown)%nat && (List.length shown <=? 36)%nat).

Lemma animation_check_all : forallb animation_check zero_to_hundred = true.
Proof. vm_compute. reflexivity. Qed.

(** Only the last frame can be the one that stops the interval. *)
Lemma frames_running runs : forall targetScore increment current earlier last,
  frames runs targetScore increment current = (earlier ++ [last])%list ->
  Forall (fun frame => stopped frame = false) earlier.
Proof.
  induction runs as [| runs IH]; intros targetScore increment current earlier last;
    cbn [frames].
  - intros H. destruct earlier; discriminate H.
  - destruct (tick targetScore increment current) as [current' frame].
    destruct (stopped frame) eqn:S.
    + intros H. destruct earlier as [| e [| e' earlier]]; try discriminate H. constructor.
    + intros H. destruct earlier as [| e earlier].
      * constructor.
      * inversion H; subst. constructor; [ exact S | ].
        eapply IH. eassumption.
Qed.

(** X20: for every integer score from 0 to 100 the animation of the
    score bar comes to an end: the interval is cleared by the 35th or
    36th run of the callback (by the first run for a score of 0), the
    bar never shrinks and never passes the score, and the last frame
    shows exactly the score, with the class of the score. *)
Theorem X20_score_animation_ends (s : Z) :
  0 <= s <= 100 ->
  let shown := animateScore 36 (of_Z s) in
  (exists earlier last,
     shown = (earlier ++ [last])%list /\
     stopped last = true /\
     width last = of_Z s /\ label last = of_Z s /\
     className last = className (frame_of (of_Z s) true) /\
     Forall (fun frame => stopped frame = false) earlier) /\
  grows shown = true /\
  Forall (fun frame => (width frame <=? of_Z s)%float = true) shown /\
  (if s =? 0 then List.length shown = 1%nat
   else (35 <= List.length shown <= 36)%nat).
Proof.
  intros Hs. cbv zeta.
  pose proof (forall_0_100 animation_check animation_check_all s Hs) as C.
  unfold animation_check in C. cbv zeta in C.
  set (shown := animateScore 36 (of_Z s)) in *.
  apply andb_prop in C. destruct C as [C C4].
  apply andb_prop in C. destruct C as [C C3].
  apply andb_prop in C. destruct C as [C1 C2].
  split; [ | split; [ exact C2 | split ] ].
  - unfold ends_at in C1.
    destruct (rev shown) as [| last r] eqn:R; [ discriminate | ].
    apply andb_prop in C1. destruct C1 as [C1 Hc].
    apply andb_prop in C1. destruct C1 as [C1 Hl].
    apply andb_prop in C1. destruct C1 as [Hs' Hw].
    apply FloatAxioms.Leibniz.eqb_spec in Hw, Hl. apply String.eqb_eq in Hc.
    assert (E : shown = (rev r ++ [last])%list).
    { rewrite <- (rev_involutive shown), R. reflexivity. }
    exists (rev r), last. repeat (split; [ assumption | ]).
    exact (frames_running _ _ _ _ _ _ E).
  - apply Forall_forall. rewrite forallb_forall in C3. exact C3.
  - destruct (s =? 0).
    + apply Nat.eqb_eq. exact C4.
    + apply andb_prop in C4. destruct C4 as [A B].
      apply Nat.leb_le in A. apply Nat.leb_le in B. lia.
Qed.

Lemma X20_score_animation_ends_witness :
  let shown := animateScore 36 (of_Z 58) in
  (exists earlier last,
     shown = (earlier ++ [last])%list /\
     stopped last = true /\
     width last = of_Z 58 /\ label last = of_Z 58 /\
     className last = className (frame_of (of_Z 58) true) /\
     Forall (fun frame => stopped frame = false) earlier) /\
  grows shown = true /\
  Forall (fun frame => (width frame <=? of_Z 58)%float = true) shown /\
  (35 <= List.length shown <= 36)%nat.
Proof.
  apply (X20_score_animation_ends 58). lia.
Defined.

End UIFacts.

(** ** The two judgements of the duration *)

Module DurationFacts.
Import JsNum Binary64 FloatFacts NumberOrder AudioProcessor Transcriber AIAnalyzer Samples.

Lemma extracted_duration buffer features :
  extractFeatures (Some buffer) = Returns features ->
  f_duration features = duration buffer /\
  durationScore features = da_score (analyzeDuration (duration buffer)).
Proof.
  unfold extractFeatures.
  destruct (analyzePitch (channelData buffer) (sampleRate buffer)); try discriminate.
  intros H. inversion H; subst. split; reflexivity.
Qed.

(** The minutes that time management works with. *)
Lemma zero_cases x s : Prim2SF x = S754_zero s -> x = 0%float \/ x = (-0)%float.
Proof.
  intros H. destruct s; [ right | left ]; apply Prim2SF_inj; rewrite H; reflexivity.
Qed.

Lemma nan_quotient x : is_nan x = true -> is_nan (x / 60)%float = true.
Proof.
  rewrite !is_nan_spec, FloatAxioms.div_spec.
  destruct (Prim2SF x); intros H; try discriminate H. reflexivity.
Qed.

Lemma nan_comparisons x y :
  is_nan x = true ->
  (x <? y)%float = false /\ (y <? x)%float = false /\
  (x <=? y)%float = false /\ (y <=? x)%float = false.
Proof.
  intros N. repeat split.
  - destruct (x <? y)%float eqn:E; [ | reflexivity ].
    apply ltb_number in E. unfold number in E. destruct E; congruence.
  - destruct (y <? x)%float eqn:E; [ | reflexivity ].
    apply ltb_number in E. unfold number in E. destruct E; congruence.
  - destruct (x <=? y)%float eqn:E; [ | reflexivity ].
    apply leb_number in E. unfold number in E. destruct E; congruence.
  - destruct (y <=? x)%float eqn:E; [ | reflexivity ].
    apply leb_number in E. unfold number in E. destruct E; congruence.
Qed.

Definition time_score (duration : float) : Z :=
  let minutes := (or_else duration 0 / 60)%float in
  if (minutes <? 0.5)%float then 30
  else if geb minutes 0.5 && (minutes <? 1)%float then 55
  else if geb minutes 1 && (minutes <=? 2.5)%float then 95
  else if gtb minutes 2.5 && (minutes <=? 3.5)%float then 82
  else 65.

Lemma time_score_eq features :
  ta_score (analyzeTimeManagement features) = time_score (f_duration features).
Proof.
  unfold analyzeTimeManagement, time_score.
  repeat match goal with
         | |- context [if ?c then _ else _] => destruct c
         end; reflexivity.
Qed.

Definition duration_score (duration : float) : Z :=
  let minutes := (duration / 60)%float in
  if (minutes <? 0.5)%float then 40
  else if geb minutes 0.5 && (minutes <? 1)%float then 60
  else if geb minutes 1 && (minutes <=? 3)%float then 95
  else if gtb minutes 3 && (minutes <=? 4)%float then 85
  else 70.

Lemma duration_score_eq duration :
  da_score (analyzeDuration duration) = duration_score duration.
Proof.
  unfold analyzeDuration, duration_score.
  repeat match goal with
         | |- context [if ?c then _ else _] => destruct c
         end; reflexivity.
Qed.

Ltac settle := repeat (split || intro); try reflexivity; discriminate.

Lemma judgements duration :
  let d := duration_score duration in
  let t := time_score duration in
  (t = 95 -> d = 95) /\
  (is_nan duration = false -> (d = 40 <-> t = 30) /\ (d = 60 <-> t = 55)) /\
  (is_nan duration = true -> d = 70 /\ t = 30).
Proof.
  cbv zeta. unfold duration_score, time_score, or_else, truthy.
  destruct (is_nan duration) eqn:N; cbn [orb negb].
  - change (0 / 60 <? 0.5)%float with true. cbv iota.
    destruct (nan_comparisons (duration / 60)%float 0.5%float (nan_quotient _ N))
      as (A1 & _ & _ & A2).
    destruct (nan_comparisons (duration / 60)%float 1%float (nan_quotient _ N))
      as (_ & _ & _ & B).
    destruct (nan_comparisons (duration / 60)%float 3%float (nan_quotient _ N))
      as (_ & C & _ & _).
    unfold geb, gtb. rewrite A1, A2, B, C. cbn [andb]. settle.
  - destruct (is_zero duration) eqn:Z0; cbn [negb].
    + assert (E : duration = 0%float \/ duration = (-0)%float).
      { unfold is_zero in Z0. rewrite FloatAxioms.eqb_spec in Z0. unfold SFeqb in Z0.
        change (Prim2SF 0) with (S754_zero false) in Z0.
        destruct (Prim2SF duration) as [s | s | | s m e] eqn:P;
          try (destruct s; discriminate Z0); try discriminate Z0.
        exact (zero_cases duration s P). }
      destruct E as [-> | ->]; vm_compute; settle.
    + set (m := (duration / 60)%float). unfold geb, gtb.
      destruct (m <? 0.5)%float eqn:A.
      { settle. }
      destruct (0.5 <=? m)%float eqn:B; cbn [andb].
      * destruct (m <? 1)%float eqn:C.
        { settle. }
        destruct (1 <=? m)%float eqn:D; cbn [andb].
        -- destruct (m <=? 2.5)%float eqn:F.
           { rewrite (leb_trans m 2.5 3 F eq_refl).
             settle. }
           destruct (m <=? 3)%float; [ | destruct (3 <? m)%float; cbn [andb];
                                           [ destruct (m <=? 4)%float | ] ];
             destruct (2.5 <? m)%float; cbn [andb]; try destruct (m <=? 3.5)%float;
             settle.
        -- destruct (3 <? m)%float; cbn [andb]; [ destruct (m <=? 4)%float | ];
             destruct (2.5 <? m)%float; cbn [andb]; try destruct (m <=? 3.5)%float;
             settle.
      * destruct (1 <=? m)%float eqn:D; cbn [andb].
        -- destruct (m <=? 2.5)%float eqn:F.
           { rewrite (leb_trans m 2.5 3 F eq_refl).
             settle. }
           destruct (m <=? 3)%float; [ | destruct (3 <? m)%float; cbn [andb];
                                           [ destruct (m <=? 4)%float | ] ];
             destruct (2.5 <? m)%float; cbn [andb]; try destruct (m <=? 3.5)%float;
             settle.
        -- destruct (3 <? m)%float; cbn [andb]; [ destruct (m <=? 4)%float | ];
             destruct (2.5 <? m)%float; cbn [andb]; try destruct (m <=? 3.5)%float;
             settle.
Qed.

(** X21: the feature extractor and the analyzer both judge the
    duration of a recording.  On the features of any buffer, a time score
    of 95 (1 to 2.5 minutes) comes with a duration score of 95 (1 to 3
    minutes); for a duration that is a number, "too short" (40 and 30)
    and "a bit short" (60 and 55) are given together; for a duration that
    is NaN the extractor says "too long" (70) and the analyzer "too
    short" (30). *)
Theorem X21_two_judgements_of_duration (buffer : AudioBuffer) (features : Features) :
  extractFeatures (Some buffer) = Returns features ->
  let d := durationScore features in
  let t := ta_score (analyzeTimeManagement features) in
  (t = 95 -> d = 95) /\
  (is_nan (duration buffer) = false -> (d = 40 <-> t = 30) /\ (d = 60 <-> t = 55)) /\
  (is_nan (duration buffer) = true -> d = 70 /\ t = 30).
Proof.
  intros E. destruct (extracted_duration buffer features E) as [Hd Hs].
  cbv zeta. rewrite time_score_eq, Hs, Hd, duration_score_eq.
  apply judgements.
Qed.

Lemma X21_two_judgements_of_duration_witness :
  let d := durationScore speech_features in
  let t := ta_score (analyzeTimeManagement speech_features) in
  (t = 95 -> d = 95) /\
  (is_nan (duration speech_with_pauses) = false ->
   (d = 40 <-> t = 30) /\ (d = 60 <-> t = 55)) /\
  (is_nan (duration speech_with_pauses) = true -> d = 70 /\ t = 30).
Proof.
  apply (X21_two_judgements_of_duration speech_with_pauses speech_features).
  vm_compute. reflexivity.
Defined.

End DurationFacts.

(** ** The learning brain *)

(** Objects with run-time keys: what is stored under a key is read
    back, and the other keys keep their values. *)
Module ObjectFacts.
Import JsStr Transcriber AIAnalyzer JsObject.

Lemma has_lookup {A} key (obj : list (string * A)) :
  has key obj = false <-> lookup key obj = None.
Proof.
  induction obj as [| [k v] obj IH]; simpl; [ tauto | ].
  rewrite (String.eqb_sym k key). destruct (String.eqb key k); simpl; [ | exact IH ].
  split; discriminate.
Qed.

Lemma lookup_replace {A} key v (obj : list (string * A)) :
  has key obj = true ->
  lookup key
    (map (fun entry => if String.eqb (fst entry) key then (key, v) else entry) obj)
  = Some v.
Proof.
  induction obj as [| [k w] obj IH]; simpl; [ discriminate | ].
  destruct (String.eqb_spec k key) as [-> | N]; simpl.
  - rewrite String.eqb_refl. reflexivity.
  - destruct (String.eqb_spec key k) as [E | _]; [ congruence | exact IH ].
Qed.

Lemma lookup_insert_index {A} key v (obj : list (string * A)) :
  lookup key obj = None -> lookup key (insert_index key v obj) = Some v.
Proof.
  induction obj as [| [k w] obj IH]; simpl.
  - rewrite String.eqb_refl. reflexivity.
  - destruct (String.eqb_spec key k) as [E | N]; [ discriminate | ].
    intros H. destruct (is_index k && (value_of k <? value_of key)); simpl.
    + destruct (String.eqb_spec key k) as [E | _]; [ congruence | exact (IH H) ].
    + rewrite String.eqb_refl. reflexivity.
Qed.

Lemma lookup_append {A} key v (obj : list (string * A)) :
  lookup key obj = None -> lookup key (obj ++ [(key, v)])%list = Some v.
Proof.
  induction obj as [| [k w] obj IH]; simpl.
  - rewrite String.eqb_refl. reflexivity.
  - destruct (String.eqb key k); [ discriminate | exact IH ].
Qed.

Lemma lookup_set_same {A} key v (obj : list (string * A)) :
  lookup key (set key v obj) = Some v.
Proof.
  unfold set. destruct (has key obj) eqn:H.
  - apply lookup_replace, H.
  - apply has_lookup in H. destruct (is_index key).
    + apply lookup_insert_index, H.
    + apply lookup_append, H.
Qed.

Lemma lookup_set_other {A} key k v (obj : list (string * A)) :
  k <> key -> lookup k (set key v obj) = lookup k obj.
Proof.
  intros N. unfold set. destruct (has key obj).
  - induction obj as [| [k' w] obj IH]; simpl; [ reflexivity | ].
    destruct (String.eqb_spec k' key) as [-> | N']; simpl.
    + destruct (String.eqb_spec k key) as [E | _]; [ congruence | exact IH ].
    + rewrite IH. reflexivity.
  - destruct (is_index key).
    + induction obj as [| [k' w] obj IH]; simpl.
      * destruct (String.eqb_spec k key) as [E | _]; [ congruence | reflexivity ].
      * destruct (is_index k' && (value_of k' <? value_of key)); simpl.
        -- rewrite IH. reflexivity.
        -- destruct (String.eqb_spec k key) as [E | _]; [ congruence | reflexivity ].
    + induction obj as [| [k' w] obj IH]; simpl.
      * destruct (String.eqb_spec k key) as [E | _]; [ congruence | reflexivity ].
      * rewrite IH. reflexivity.
Qed.

Lemma set_length {A} key v (obj : list (string * A)) :
  List.length (set key v obj)
  = if has key obj then List.length obj else S (List.length obj).
Proof.
  unfold set. destruct (has key obj).
  - apply length_map.
  - destruct (is_index key).
    + induction obj as [| [k' w] obj IH]; simpl; [ reflexivity | ].
      destruct (is_index k' && (value_of k' <? value_of key)); simpl; congruence.
    + rewrite length_app. simpl. lia.
Qed.

(** An assignment to a key that is there leaves the keys in place. *)
Lemma set_known_keys {A} key v w (obj : list (string * A)) :
  lookup key obj = Some w -> map fst (set key v obj) = map fst obj.
Proof.
  intros L. unfold set. destruct (has key obj) eqn:H.
  - rewrite map_map. apply map_ext. intros [k' x]. simpl.
    destruct (String.eqb_spec k' key) as [-> | _]; reflexivity.
  - apply has_lookup in H. congruence.
Qed.

End ObjectFacts.

(** Lists kept sorted by count and cut to a length. *)
Module RankingFacts.
Import JsStr Transcriber AIAnalyzer SortFacts OrderFacts.

Section Counted.
Context {A : Type} (count : A -> Z).

Definition most_first (a b : A) : bool := count b <=? count a.

Lemma most_first_key : forall a b, most_first a b = by_key (fun t => - count t) a b.
Proof.
  intros a b. unfold most_first, by_key.
  destruct (Z.leb_spec (count b) (count a)), (Z.leb_spec (- count a) (- count b));
    (reflexivity || lia).
Qed.

Lemma ranked l : StronglySorted (fun a b => count b <= count a) (sort most_first l).
Proof.
  rewrite (sort_ext _ _ l most_first_key).
  eapply sorted_impl; [ | apply (sort_sorted (fun t => - count t)) ].
  unfold key_le. intros a b. lia.
Qed.

Lemma ranked_perm l : Permutation (sort most_first l) l.
Proof. rewrite (sort_ext _ _ l most_first_key). apply sort_perm. Qed.

Lemma ranked_length l : List.length (sort most_first l) = List.length l.
Proof. apply Permutation_length, ranked_perm. Qed.

(** A list in order is left as it is. *)
Lemma sort_sorted_same l :
  StronglySorted (fun a b => count b <= count a) l -> sort most_first l = l.
Proof.
  induction 1 as [| x l S IH F]; simpl; [ reflexivity | ].
  rewrite IH. destruct l as [| y l]; simpl; [ reflexivity | ].
  inversion F as [| ? ? Hy _]; subst. unfold most_first at 1.
  destruct (Z.leb_spec (count y) (count x)); [ reflexivity | lia ].
Qed.

(** An entry that no other entry has to give way to stays last. *)
Lemma insert_before_last a s x :
  most_first a x = true ->
  insert most_first a (s ++ [x])%list = (insert most_first a s ++ [x])%list.
Proof.
  intros B. induction s as [| y s IH]; simpl.
  - rewrite B. reflexivity.
  - destruct (most_first a y); [ reflexivity | ]. rewrite IH. reflexivity.
Qed.

Lemma sort_with_last l x :
  Forall (fun a => count x <= count a) l ->
  sort most_first (l ++ [x])%list = (sort most_first l ++ [x])%list.
Proof.
  induction 1 as [| a l Ha F IH]; simpl; [ reflexivity | ].
  rewrite IH. apply insert_before_last. unfold most_first. apply Z.leb_le. exact Ha.
Qed.

(** A full list in order has no room for a newcomer with the least
    count. *)
Lemma full_list l x n :
  StronglySorted (fun a b => count b <= count a) l ->
  Forall (fun a => count x <= count a) l ->
  List.length l = n ->
  firstn n (sort most_first (l ++ [x])%list) = l.
Proof.
  intros S F L. rewrite (sort_with_last l x F), (sort_sorted_same l S).
  rewrite <- L. rewrite firstn_app, Nat.sub_diag, firstn_all. simpl.
  apply app_nil_r.
Qed.

Lemma cut_perm n l :
  (List.length l <= n)%nat -> Permutation (firstn n (sort most_first l)) l.
Proof.
  intros L. rewrite firstn_all2; [ apply ranked_perm | ].
  rewrite ranked_length. exact L.
Qed.

End Counted.

End RankingFacts.

(** Steps that read the clock. *)
Module StepFacts.
Import BrainSystem.

Lemma bind_eq {A B} (m : Step A) (f : A -> Step B) now k a k' :
  m now k = Some (a, k') -> bind m f now k = f a now k'.
Proof. unfold bind. intros ->. reflexivity. Qed.

End StepFacts.

Module TopicFacts.
Import JsNum JsStr Transcriber AIAnalyzer JsObject BrainSystem.
Import OrderFacts RankingFacts StepFacts ObjectFacts.

Lemma touch_length topic d l : List.length (touch topic d l) = List.length l.
Proof.
  induction l as [| t l IH]; simpl; [ reflexivity | ].
  destruct (String.eqb (tp_topic t) topic); simpl; congruence.
Qed.

Lemma touch_counts topic d l :
  Forall (fun t => 1 <= tp_count t) l ->
  Forall (fun t => 1 <= tp_count t) (touch topic d l).
Proof.
  induction 1 as [| t l Ht F IH]; simpl; [ constructor | ].
  destruct (String.eqb (tp_topic t) topic); constructor; simpl; (assumption || lia).
Qed.

(** The list that [updateTopicPreference] sorts. *)
Definition used (topic : string) (now : nat -> Z) (k : nat)
  (topics : list TopicPreference) : list TopicPreference :=
  if existsb (fun t => String.eqb (tp_topic t) topic) topics
  then touch topic (now k) topics
  else (topics ++ [ {| tp_topic := topic; tp_count := 1;
                       firstUsed := now k; lastUsed := now (S k) |} ])%list.

Lemma updateTopicPreference_eq brain topic now k :
  exists k',
    updateTopicPreference brain topic now k
    = Some (with_topics brain
              (firstn 10 (sort (most_first tp_count)
                            (used topic now k (preferredTopics (userProfile brain))))),
            k').
Proof.
  unfold updateTopicPreference, used.
  destruct (existsb _ (preferredTopics (userProfile brain))).
  - exists (S k). reflexivity.
  - exists (S (S k)). reflexivity.
Qed.

(** X22: whatever the topic, [updateTopicPreference] leaves at most ten
    preferred topics, the most used first, each still counted at least
    once when the old ones were; and while no more than ten topics are
    known and the topic is among them, the new list is the old one with
    the first entry of the topic counted once more, rearranged. *)
Theorem X22_preferred_topics (brain : Brain) (topic : string) (now : nat -> Z)
  (k : nat) :
  exists brain' k',
    updateTopicPreference brain topic now k = Some (brain', k') /\
    let old := preferredTopics (userProfile brain) in
    let new := preferredTopics (userProfile brain') in
    (List.length new <= 10)%nat /\
    StronglySorted (fun a b => tp_count b <= tp_count a) new /\
    (Forall (fun t => 1 <= tp_count t) old -> Forall (fun t => 1 <= tp_count t) new) /\
    ((List.length old <= 10)%nat ->
     existsb (fun t => String.eqb (tp_topic t) topic) old = true ->
     Permutation new (touch topic (now k) old)).
Proof.
  destruct (updateTopicPreference_eq brain topic now k) as [k' E].
  eexists. exists k'. split; [ exact E | ]. cbv zeta. cbn [userProfile with_topics preferredTopics].
  split; [ | split; [ | split ] ].
  - rewrite length_firstn. lia.
  - apply firstn_sorted, ranked.
  - intros F. rewrite Forall_forall. intros t I. apply firstn_incl in I.
    apply (Permutation_in _ (ranked_perm tp_count _)) in I. revert t I.
    rewrite <- Forall_forall. unfold used.
    destruct (existsb _ (preferredTopics (userProfile brain))).
    + apply touch_counts, F.
    + apply Forall_app. split; [ exact F | ]. constructor; [ simpl; lia | constructor ].
  - intros L T. unfold used. rewrite T. apply cut_perm. rewrite touch_length. exact L.
Qed.

(** X23: once ten topics are tracked, a further topic is not recorded:
    with ten preferred topics in order, each counted at least once, a
    session on another topic leaves the list exactly as it was, so that
    the topic is not counted however often it is used. *)
Theorem X23_eleventh_topic (brain : Brain) (topic : string) (now : nat -> Z) (k : nat)
  (Full : List.length (preferredTopics (userProfile brain)) = 10%nat)
  (Counted : Forall (fun t => 1 <= tp_count t) (preferredTopics (userProfile brain)))
  (Ordered : StronglySorted (fun a b => tp_count b <= tp_count a)
               (preferredTopics (userProfile brain)))
  (Other : existsb (fun t => String.eqb (tp_topic t) topic)
             (preferredTopics (userProfile brain)) = false) :
  exists brain',
    updateTopicPreference brain topic now k = Some (brain', S (S k)) /\
    preferredTopics (userProfile brain') = preferredTopics (userProfile brain).
Proof.
  unfold updateTopicPreference. rewrite Other. eexists. split; [ reflexivity | ].
  cbn [userProfile with_topics preferredTopics].
  apply (full_list tp_count); [ exact Ordered | | exact Full ].
  exact Counted.
Qed.

(** A brain that knows ten topics. *)
Definition ten_topics : list TopicPreference :=
  map (fun n => {| tp_topic := "topic " ++ show_Z n; tp_count := 11 - n;
                   firstUsed := 1700000000000; lastUsed := 1700000000000 |})
    [1; 2; 3; 4; 5; 6; 7; 8; 9; 10].

Definition busy_brain : Brain := with_topics getDefaultBrain ten_topics.

Lemma X23_eleventh_topic_witness :
  exists brain',
    updateTopicPreference busy_brain "travel" (MoreSamples.clock 1700000000000) 0%nat
    = Some (brain', 2%nat) /\
    preferredTopics (userProfile brain') = preferredTopics (userProfile busy_brain).
Proof.
  apply (X23_eleventh_topic busy_brain "travel" (MoreSamples.clock 1700000000000) 0%nat).
  - reflexivity.
  - vm_compute. repeat constructor; discriminate.
  - vm_compute. repeat constructor; discriminate.
  - reflexivity.
Defined.

End TopicFacts.

Module MasteryFacts.
Import JsNum JsStr Transcriber AIAnalyzer JsObject BrainSystem.
Import OrderFacts StepFacts ObjectFacts.

Lemma last_of_last_n {A} n (l : list A) x d : last (last_n (S n) (l ++ [x])) d = x.
Proof.
  destruct (StorageFacts.last_n_app_last n l x) as [earlier ->]. apply last_last.
Qed.

Lemma slice_back_length {A} from to (l : list A) :
  List.length (slice_back from to l)
  = (List.length l - to - (List.length l - from))%nat.
Proof.
  unfold slice_back. rewrite length_skipn, length_firstn. lia.
Qed.

Lemma last_n_all {A} n (l : list A) : (List.length l <= n)%nat -> last_n n l = l.
Proof.
  intros L. unfold last_n. replace (List.length l - n)%nat with 0%nat by lia. reflexivity.
Qed.

Lemma last_n_suffix {A} n (l : list A) :
  l = (firstn (List.length l - n) l ++ last_n n l)%list /\
  List.length (last_n n l) = Nat.min n (List.length l).
Proof.
  unfold last_n. split; [ symmetry; apply firstn_skipn | ].
  rewrite length_skipn. lia.
Qed.

(** A list falls into what lies before its last six elements, the up
    to three elements before the last three, and the last three. *)
Lemma three_parts {A} (l : list A) :
  l = (firstn (List.length l - 6) l ++ slice_back 6 3 l ++ last_n 3 l)%list.
Proof.
  unfold slice_back, last_n.
  set (a := (List.length l - 6)%nat). set (b := (List.length l - 3)%nat).
  rewrite <- (firstn_skipn b l) at 1.
  rewrite <- (firstn_skipn a (firstn b l)) at 1.
  rewrite firstn_firstn. replace (Nat.min a b) with a by (unfold a, b; lia).
  rewrite <- app_assoc. reflexivity.
Qed.

(** The trend that two averages give. *)
Definition trend_of (recentAvg olderAvg : float) : Trend :=
  if gtb (recentAvg - olderAvg)%float 5 then improving
  else if gtb (olderAvg - recentAvg)%float 5 then declining
  else stable.

(** What [master] keeps and how it sets the trend. *)
Lemma master_kept mastery score :
  let kept := last_n 10 (ms_scores mastery ++ [Some score]) in
  ms_scores (master mastery score) = kept /\
  trend (master mastery score)
  = if (3 <? List.length kept)%nat
    then trend_of (mean (last_n 3 kept)) (mean (slice_back 6 3 kept))
    else trend mastery.
Proof.
  intros kept. unfold master. cbn [ms_scores trend].
  set (scores := if (10 <? _)%nat then _ else _).
  assert (E : scores = kept).
  { unfold scores, kept.
    destruct (Nat.ltb_spec 10 (List.length (ms_scores mastery ++ [Some score])))
      as [G | G]; [ reflexivity | ].
    symmetry. apply last_n_all. exact G. }
  rewrite E. split; [ reflexivity | ].
  destruct (Nat.ltb_spec 3 (List.length kept)) as [G | G].
  - destruct (Nat.leb_spec 3 (List.length kept)) as [_ | L]; [ | lia ].
    destruct (Nat.ltb_spec 0 (List.length (slice_back 6 3 kept))) as [_ | L];
      [ reflexivity | ].
    rewrite slice_back_length in L. lia.
  - destruct (3 <=? List.length kept)%nat; [ | reflexivity ].
    destruct (Nat.ltb_spec 0 (List.length (slice_back 6 3 kept))) as [L | _];
      [ | reflexivity ].
    rewrite slice_back_length in L. lia.
Qed.

(** X24: for a topic that the model covers, [updateTopicMastery] takes
    the entry of the topic, a fresh one when the topic is new, and
    stores under the topic the entry with: one more attempt; the score
    added to the total; the rounded mean of total and attempts; the
    score as best score when it is greater than the best one; the score
    as last score; as scores exactly the last ten of the earlier scores
    followed by the new one, so the earlier scores followed by the new
    one are what was dropped followed by what is kept; and, when more
    than three scores are kept, the trend that the mean of the last
    three and the mean of the up to three before them give (improving
    or declining when they differ by more than 5, stable otherwise),
    the trend as it was when three or fewer are kept.  The entries of
    the other topics are as before. *)
Theorem X24_topic_mastery (brain : Brain) (topic : string) (score : float)
  (now : nat -> Z) (k : nat) (Covered : covered topic = true) :
  exists brain' mastery,
    updateTopicMastery brain topic score now k = Some (brain', k) /\
    lookup topic (topicMastery brain') = Some mastery /\
    let before :=
      match lookup topic (topicMastery brain) with
      | Some known => known
      | None => new_mastery
      end in
    let all := (ms_scores before ++ [Some score])%list in
    let kept := last_n 10 all in
    attempts mastery = attempts before + 1 /\
    totalScore mastery = Some (Json.to_number (totalScore before) + score)%float /\
    averageScore mastery
    = Some (Math_round ((Json.to_number (totalScore before) + score)
                        / of_Z (attempts before + 1))%float) /\
    bestScore mastery
    = (if gtb score (Json.to_number (bestScore before)) then Some score
       else bestScore before) /\
    lastScore mastery = Some score /\
    ms_scores mastery = kept /\
    (exists dropped, all = (dropped ++ kept)%list) /\
    List.length kept = Nat.min 10 (S (List.length (ms_scores before))) /\
    last kept None = Some score /\
    (exists rest, kept = (rest ++ slice_back 6 3 kept ++ last_n 3 kept)%list) /\
    List.length (last_n 3 kept) = Nat.min 3 (List.length kept) /\
    List.length (slice_back 6 3 kept) = Nat.min 3 (List.length kept - 3) /\
    trend mastery
    = (if (3 <? List.length kept)%nat
       then trend_of (mean (last_n 3 kept)) (mean (slice_back 6 3 kept))
       else trend before) /\
    forall other, other <> topic ->
      lookup other (topicMastery brain') = lookup other (topicMastery brain).
Proof.
  unfold updateTopicMastery. rewrite Covered.
  set (before := match lookup topic (topicMastery brain) with
                 | Some known => known
                 | None => new_mastery
                 end).
  eexists. exists (master before score). split; [ reflexivity | ].
  cbn [topicMastery with_mastery]. split; [ apply lookup_set_same | ].
  cbv zeta. destruct (master_kept before score) as [K T]. cbv zeta in K, T.
  destruct (last_n_suffix 10 (ms_scores before ++ [Some score])) as [S L].
  split; [ reflexivity | ]. split; [ reflexivity | ]. split; [ reflexivity | ].
  split; [ reflexivity | ]. split; [ reflexivity | ]. split; [ exact K | ].
  split; [ eexists; exact S | ].
  split; [ rewrite L, length_app; cbn [List.length]; f_equal; lia | ].
  split; [ apply (last_of_last_n 9) | ].
  split; [ eexists; apply three_parts | ].
  split; [ apply last_n_suffix | ].
  split; [ rewrite slice_back_length; lia | ].
  split; [ exact T | ].
  intros other N. apply lookup_set_other, N.
Qed.

(** A topic with ten scores on record. *)
Definition practised : Mastery :=
  {| attempts := 12; totalScore := Some 620%float; averageScore := Some 52%float;
     bestScore := Some 70%float; lastScore := Some 70%float; trend := stable;
     ms_scores := map (fun s => Some (of_Z s)) [40; 58; 52; 55; 47; 51; 50; 52; 64; 70] |}.

Definition practised_brain : Brain :=
  with_mastery getDefaultBrain [("travel", practised)].

(** On a topic with ten scores the oldest one is dropped, and the mean
    of 64, 70, 75 against the mean of 51, 50, 52 makes the trend
    improving. *)
Lemma X24_topic_mastery_witness :
  exists brain' mastery,
    updateTopicMastery practised_brain "travel" 75 (MoreSamples.clock 0) 0%nat
    = Some (brain', 0%nat) /\
    lookup "travel" (topicMastery brain') = Some mastery /\
    attempts mastery = 13 /\
    bestScore mastery = Some 75%float /\
    ms_scores mastery
    = map (fun s => Some (of_Z s)) [58; 52; 55; 47; 51; 50; 52; 64; 70; 75] /\
    trend mastery = improving.
Proof.
  destruct (X24_topic_mastery practised_brain "travel" 75 (MoreSamples.clock 0) 0%nat eq_refl)
    as (brain' & mastery & E & L & A & _ & _ & B & _ & K & _ & _ & _ & _ & _ & _ & T & _).
  exists brain', mastery.
  split; [ exact E | ]. split; [ exact L | ].
  split; [ exact A | ]. split; [ exact B | ].
  split; [ exact K | exact T ].
Defined.

End MasteryFacts.

Module TrendFacts.
Import JsNum JsStr Transcriber AIAnalyzer JsObject BrainSystem.
Import MasteryFacts.

(** X25: [calculateOverallTrend] reports insufficient data exactly
    while at most five sessions are in the history: with five sessions
    the first check passes, but no older session is left to compare
    with. *)
Theorem X25_trend_needs_six_sessions (brain : Brain) :
  ot_trend (calculateOverallTrend brain) = None <->
  (List.length (sessionHistory brain) <= 5)%nat.
Proof.
  unfold calculateOverallTrend.
  destruct (Nat.ltb_spec (List.length (sessionHistory brain)) 5) as [L | L].
  - simpl. split; [ lia | reflexivity ].
  - destruct (Nat.eqb_spec (List.length (slice_back 10 5 (sessionHistory brain))) 0)
      as [E | N]; rewrite slice_back_length in *.
    + simpl. split; [ lia | reflexivity ].
    + destruct (gtb _ 5); [ | destruct (_ <? -5)%float ]; simpl;
        (split; [ discriminate | lia ]).
Qed.

End TrendFacts.

Module MilestoneFacts.
Import JsNum JsStr Transcriber AIAnalyzer JsObject BrainSystem.
Import StepFacts.

(** How often a milestone of a type has been awarded. *)
Definition times (type : string) (ms : list Milestone) : nat :=
  List.length (filter (fun m => String.eqb (ml_type m) type) ms).

Lemma times_app type l1 l2 : times type (l1 ++ l2) = (times type l1 + times type l2)%nat.
Proof. unfold times. rewrite filter_app, length_app. reflexivity. Qed.

Lemma reached_times brain type :
  reached brain type = false -> times type (milestones brain) = 0%nat.
Proof.
  unfold reached, times. induction (milestones brain) as [| m l IH]; simpl;
    [ reflexivity | ].
  destruct (String.eqb (ml_type m) type); simpl; [ discriminate | exact IH ].
Qed.

(** The four groups of new milestones. *)
Definition for_first (brain : Brain) (d : Z) : list Milestone :=
  if totalSessions (userProfile brain) =? 1 then
    [ {| ml_type := "first_session"; ml_title := "First Steps!";
         ml_description := "You completed your first speaking assessment!";
         ml_date := d |} ]
  else [].

Lemma checkMilestones_eq brain level overallScore now k :
  covered level = true ->
  exists first counted levelled scored k',
    checkMilestones brain level overallScore now k
    = Some ((with_milestones brain
               (milestones brain ++ first ++ counted ++ levelled ++ scored)%list,
             (first ++ counted ++ levelled ++ scored)%list), k') /\
    (first = [] /\ totalSessions (userProfile brain) <> 1 \/
     (exists m, first = [m] /\ ml_type m = "first_session")
     /\ totalSessions (userProfile brain) = 1) /\
    (counted = [] \/ exists m, counted = [m] /\ ml_type m = "session_count") /\
    (levelled = [] \/
     exists m, levelled = [m] /\ ml_type m = "level_" ++ level
               /\ reached brain ("level_" ++ level) = false) /\
    (scored = [] \/
     exists m, scored = [m] /\ ml_type m = "score_90"
               /\ reached brain "score_90" = false).
Proof.
  intros C. unfold checkMilestones. rewrite C.
  set (sessions := totalSessions (userProfile brain)).
  destruct (Z.eqb_spec sessions 1) as [E1 | N1];
    destruct (existsb (Z.eqb sessions) sessionMilestones);
    destruct (lookup level levelAchievements) as [[title desc] |];
    try destruct (reached brain ("level_" ++ level)) eqn:RL;
    destruct (geb overallScore 90);
    try destruct (reached brain "score_90") eqn:RS;
    do 4 eexists; eexists; (split; [ reflexivity | ]);
    repeat split;
    try (left; split; [ reflexivity | assumption ]);
    try (right; split; [ eexists; split; reflexivity | assumption ]);
    try (left; reflexivity);
    try (right; eexists; repeat split; reflexivity || assumption).
Qed.

(** X26: for a level that the model covers, [checkMilestones] adds the
    new milestones behind the old ones and returns them; the milestone
    of the first session is among them exactly when the brain counts one
    session; and a milestone for a level or for a score of 90 is not
    awarded a second time: a type other than the two session types that
    was there at most once is there at most once afterwards. *)
Theorem X26_milestones_once (brain : Brain) (level : string) (overallScore : float)
  (now : nat -> Z) (k : nat) (Covered : covered level = true) :
  exists brain' new k',
    checkMilestones brain level overallScore now k = Some ((brain', new), k') /\
    milestones brain' = (milestones brain ++ new)%list /\
    (List.length new <= 4)%nat /\
    (In "first_session" (map ml_type new) <-> totalSessions (userProfile brain) = 1) /\
    forall type,
      type <> "first_session" -> type <> "session_count" ->
      (times type (milestones brain) <= 1)%nat ->
      (times type (milestones brain') <= 1)%nat.
Proof.
  destruct (checkMilestones_eq brain level overallScore now k Covered)
    as (first & counted & levelled & scored & k' & E & F & Cn & L & S).
  eexists. eexists. exists k'. split; [ exact E | ].
  cbn [milestones with_milestones]. split; [ reflexivity | ].
  split; [ | split ].
  - rewrite !length_app.
    destruct F as [[-> _] | [(m1 & -> & _) _]];
      destruct Cn as [-> | (m2 & -> & _)];
      destruct L as [-> | (m3 & -> & _)];
      destruct S as [-> | (m4 & -> & _)]; simpl; lia.
  - rewrite !map_app, !in_app_iff.
    destruct F as [[-> N] | [(m1 & -> & T1) E1]].
    + split; [ | intros; contradiction ].
      intros [[] | [I | [I | I]]].
      * destruct Cn as [-> | (m2 & -> & T)]; simpl in I; [ tauto | ].
        rewrite T in I. destruct I as [I | []]. discriminate.
      * destruct L as [-> | (m3 & -> & T & _)]; simpl in I; [ tauto | ].
        rewrite T in I. destruct I as [I | []]. discriminate.
      * destruct S as [-> | (m4 & -> & T & _)]; simpl in I; [ tauto | ].
        rewrite T in I. destruct I as [I | []]. discriminate.
    + split; [ intros; exact E1 | ]. intros _. left. simpl. left. exact T1.
  - intros type N1 N2 Old. rewrite !times_app.
    assert (Z1 : times type first = 0%nat).
    { destruct F as [[-> _] | [(m1 & -> & T) _]]; [ reflexivity | ].
      unfold times. simpl. rewrite T.
      destruct (String.eqb_spec "first_session" type); [ congruence | reflexivity ]. }
    assert (Z2 : times type counted = 0%nat).
    { destruct Cn as [-> | (m2 & -> & T)]; [ reflexivity | ].
      unfold times. simpl. rewrite T.
      destruct (String.eqb_spec "session_count" type); [ congruence | reflexivity ]. }
    assert (Z3 : times type levelled = 0%nat \/
                 type = "level_" ++ level /\ times type levelled = 1%nat
                 /\ times type (milestones brain) = 0%nat).
    { destruct L as [-> | (m3 & -> & T & R)]; [ left; reflexivity | ].
      unfold times at 1 2. cbn [filter]. rewrite T.
      destruct (String.eqb_spec ("level_" ++ level) type) as [<- | _];
        [ right | left; reflexivity ].
      repeat split. apply reached_times, R. }
    assert (Z4 : times type scored = 0%nat \/
                 type = "score_90" /\ times type scored = 1%nat
                 /\ times type (milestones brain) = 0%nat).
    { destruct S as [-> | (m4 & -> & T & R)]; [ left; reflexivity | ].
      unfold times at 1 2. cbn [filter]. rewrite T.
      destruct (String.eqb_spec "score_90" type) as [<- | _];
        [ right | left; reflexivity ].
      repeat split. apply reached_times, R. }
    rewrite Z1, Z2.
    destruct Z3 as [Z3 | (E3 & Z3 & O3)]; destruct Z4 as [Z4 | (E4 & Z4 & O4)];
      try lia.
    rewrite E3 in E4. discriminate E4.
Qed.

Lemma X26_milestones_once_witness :
  exists brain' new k',
    checkMilestones getDefaultBrain "B1" 64 (MoreSamples.clock 0) 0%nat
    = Some ((brain', new), k') /\
    milestones brain' = (milestones getDefaultBrain ++ new)%list /\
    (List.length new <= 4)%nat /\
    (In "first_session" (map ml_type new)
     <-> totalSessions (userProfile getDefaultBrain) = 1) /\
    forall type,
      type <> "first_session" -> type <> "session_count" ->
      (times type (milestones getDefaultBrain) <= 1)%nat ->
      (times type (milestones brain') <= 1)%nat.
Proof.
  apply (X26_milestones_once getDefaultBrain "B1" 64 (MoreSamples.clock 0) 0%nat).
  vm_compute. reflexivity.
Defined.

End MilestoneFacts.

Module MistakeFacts.
Import JsNum JsStr Transcriber AIAnalyzer JsObject BrainSystem.
Import OrderFacts RankingFacts StepFacts ObjectFacts.

Definition category_of (error : ErrorEntry) : string := toLowerCase (e_type error).

(** The list of a category is in order and within its length. *)
Definition in_order (known : list Mistake) : Prop :=
  (List.length known <= 10)%nat /\
  StronglySorted (fun a b => m_count b <= m_count a) known.

(** The list that a round of [learnFromMistakes] sorts. *)
Definition noted (error : ErrorEntry) (now : nat -> Z) (k : nat)
  (known : list Mistake) : list Mistake :=
  if existsb (fun m => String.eqb (m_description m) (e_description error)) known
  then recur (e_description error) (now k) known
  else (known ++ [ {| m_description := e_description error;
                      m_severity := severity error;
                      m_count := 1;
                      firstOccurrence := now k;
                      lastOccurrence := now (S k) |} ])%list.

Lemma mistake_step_eq brain error now k :
  covered (category_of error) = true ->
  exists k',
    mistake_step brain error now k
    = Some (match lookup (category_of error) (commonMistakes brain) with
            | Some known =>
                with_mistakes brain
                  (set (category_of error)
                     (firstn 10 (sort (most_first m_count) (noted error now k known)))
                     (commonMistakes brain))
            | None => brain
            end, k').
Proof.
  intros C. unfold mistake_step, noted. fold (category_of error). rewrite C.
  destruct (lookup (category_of error) (commonMistakes brain)) as [known |].
  - destruct (existsb _ known).
    + exists (S k). reflexivity.
    + exists (S (S k)). reflexivity.
  - exists k. reflexivity.
Qed.

Lemma mistake_step_spec brain error now k :
  covered (category_of error) = true ->
  exists brain' k',
    mistake_step brain error now k = Some (brain', k') /\
    map fst (commonMistakes brain') = map fst (commonMistakes brain) /\
    (forall category, category <> category_of error ->
       lookup category (commonMistakes brain') = lookup category (commonMistakes brain)) /\
    (forall known, lookup (category_of error) (commonMistakes brain') = Some known ->
       in_order known).
Proof.
  intros C. destruct (mistake_step_eq brain error now k C) as [k' E].
  eexists. exists k'. split; [ exact E | ].
  destruct (lookup (category_of error) (commonMistakes brain)) as [known |] eqn:L.
  - cbn [commonMistakes with_mistakes].
    split; [ eapply set_known_keys, L | ]. split.
    + intros category N. apply lookup_set_other, N.
    + intros known' H. rewrite lookup_set_same in H.
      match type of H with
      | Some ?list = _ => assert (E' : list = known') by congruence
      end.
      rewrite <- E'. split.
      * rewrite length_firstn. lia.
      * apply firstn_sorted, ranked.
  - split; [ reflexivity | ]. split; [ reflexivity | ]. intros known H. congruence.
Qed.

(** X27: when the categories of the errors are covered,
    [learnFromMistakes] keeps the categories of the brain as they are,
    so that an error of a category that the brain does not have is not
    recorded; the list of a category without an error is untouched, and
    the list of a category with an error holds at most ten mistakes, the
    most frequent first. *)
Theorem X27_mistakes_by_category (brain : Brain) (errors : list ErrorEntry)
  (now : nat -> Z) (k : nat)
  (Covered : forallb (fun error => covered (category_of error)) errors = true) :
  exists brain' k',
    learnFromMistakes brain errors now k = Some (brain', k') /\
    map fst (commonMistakes brain') = map fst (commonMistakes brain) /\
    forall category,
      if existsb (fun error => String.eqb (category_of error) category) errors
      then forall known,
             lookup category (commonMistakes brain') = Some known -> in_order known
      else lookup category (commonMistakes brain') = lookup category (commonMistakes brain).
Proof.
  revert brain k Covered. induction errors as [| error errors IH]; intros brain k C.
  - exists brain, k. repeat split.
  - cbn [forallb] in C. apply andb_prop in C. destruct C as [C1 C2].
    destruct (mistake_step_spec brain error now k C1) as (b1 & k1 & E1 & K1 & O1 & S1).
    destruct (IH b1 k1 C2) as (b2 & k2 & E2 & K2 & R2).
    exists b2, k2. split; [ | split ].
    + cbn [learnFromMistakes]. rewrite (bind_eq _ _ _ _ _ _ E1). exact E2.
    + congruence.
    + intros category. specialize (R2 category). cbn [existsb].
      destruct (existsb _ errors).
      * rewrite orb_true_r. exact R2.
      * rewrite orb_false_r.
        destruct (String.eqb_spec (category_of error) category) as [<- | N].
        -- intros known H. apply S1. congruence.
        -- rewrite R2. apply O1. congruence.
Qed.

Lemma X27_mistakes_by_category_witness :
  let errors := identifyErrors FeedbackFacts.halting_analyses in
  exists brain' k',
    learnFromMistakes getDefaultBrain errors (MoreSamples.clock 0) 0%nat
    = Some (brain', k') /\
    map fst (commonMistakes brain') = map fst (commonMistakes getDefaultBrain) /\
    forall category,
      if existsb (fun error => String.eqb (category_of error) category) errors
      then forall known,
             lookup category (commonMistakes brain') = Some known -> in_order known
      else lookup category (commonMistakes brain')
           = lookup category (commonMistakes getDefaultBrain).
Proof.
  apply (X27_mistakes_by_category getDefaultBrain
           (identifyErrors FeedbackFacts.halting_analyses) (MoreSamples.clock 0) 0%nat).
  vm_compute. reflexivity.
Defined.

End MistakeFacts.

Module WordFacts.
Import JsNum JsStr Transcriber AIAnalyzer JsObject BrainSystem.
Import OrderFacts RankingFacts StepFacts ObjectFacts.

(** The count kept for a word, 0 when there is none. *)
Definition count_of (word : string) (obj : list (string * Z)) : Z :=
  match lookup word obj with
  | Some n => n
  | None => 0
  end.

(** How often a word occurs in a list. *)
Definition occurrences (word : string) (words : list string) : Z :=
  Z.of_nat (count_occ string_dec words word).

Lemma count_up_same word obj : count_of word (count_up word obj) = count_of word obj + 1.
Proof.
  unfold count_up, count_of. rewrite lookup_set_same.
  destruct (lookup word obj) as [n |]; [ | reflexivity ].
  unfold or_default. destruct (Z.eqb_spec n 0); lia.
Qed.

Lemma count_up_other word other obj :
  other <> word -> count_of other (count_up word obj) = count_of other obj.
Proof.
  intros N. unfold count_up, count_of. rewrite (lookup_set_other _ _ _ _ N). reflexivity.
Qed.

(** The pieces of a split hold no separator. *)
Lemma split_go_pieces sep s : forall cur in_sep w c,
  In w (split_go sep s cur in_sep) -> In c (CountFacts.chars w) ->
  Forall (fun c => sep c = false) (CountFacts.chars cur) -> sep c = false.
Proof.
  induction s as [| a s IH]; intros cur in_sep w c; simpl.
  - intros [<- | []] Hc F. rewrite CountFacts.chars_rev_string in Hc. simpl in Hc.
    rewrite app_nil_r in Hc. apply in_rev in Hc.
    rewrite Forall_forall in F. apply F, Hc.
  - destruct (sep a) eqn:Sa.
    + destruct in_sep.
      * apply IH.
      * intros [<- | Hw] Hc F.
        -- rewrite CountFacts.chars_rev_string in Hc. simpl in Hc.
           rewrite app_nil_r in Hc. apply in_rev in Hc.
           rewrite Forall_forall in F. apply F, Hc.
        -- apply (IH _ _ _ _ Hw Hc). constructor.
    + intros Hw Hc F. apply (IH _ _ _ _ Hw Hc). constructor; assumption.
Qed.

Lemma word_without_space text word c :
  In word (words_of text) -> In c (CountFacts.chars word) -> is_space c = false.
Proof.
  unfold words_of. intros I Hc. apply filter_In in I. destruct I as [I _].
  unfold split in I. apply (split_go_pieces _ _ _ _ _ _ I Hc). constructor.
Qed.

Lemma no_phrase text phrase :
  existsb is_space (CountFacts.chars phrase) = true ->
  occurrences phrase (words_of text) = 0.
Proof.
  intros S. unfold occurrences.
  replace (count_occ string_dec (words_of text) phrase) with 0%nat; [ reflexivity | ].
  symmetry. apply count_occ_not_In. intros I.
  apply existsb_exists in S. destruct S as (c & Hc & Sc).
  rewrite (word_without_space text phrase c I Hc) in Sc. discriminate.
Qed.

(** The word bank after the loop over the words. *)
Lemma word_loop words : forall bank,
  let bank' := fold_left word_step words bank in
  totalWords bank' = totalWords bank /\
  (uniqueWords bank = AnObject -> uniqueWords bank' = AnObject) /\
  forall word,
    count_of word (wb_fillerWords bank')
    = count_of word (wb_fillerWords bank)
      + (if mem word fillerWordList then occurrences word words else 0).
Proof.
  induction words as [| w words IH]; intros bank; cbn [fold_left].
  - cbv zeta. split; [ reflexivity | ]. split; [ tauto | ]. intros word.
    unfold occurrences. cbn [count_occ Z.of_nat]. destruct (mem word fillerWordList); lia.
  - specialize (IH (word_step bank w)). cbv zeta in IH |- *.
    destruct IH as (T & U & F). split; [ | split ].
    + rewrite T. reflexivity.
    + intros E. apply U. cbn [word_step uniqueWords]. rewrite E. reflexivity.
    + intros word. rewrite F. cbn [word_step wb_fillerWords].
      unfold occurrences. cbn [count_occ].
      destruct (string_dec w word) as [-> | N].
      * destruct (mem word fillerWordList); [ | lia ].
        rewrite count_up_same. lia.
      * destruct (mem w fillerWordList).
        -- rewrite count_up_other by congruence. lia.
        -- lia.
Qed.

Lemma fromEntries_length {A} (entries : list (string * A)) :
  (List.length (fromEntries entries) <= List.length entries)%nat.
Proof.
  unfold fromEntries.
  assert (G : forall acc : list (string * A),
            (List.length
               (fold_left (fun obj entry => set (fst entry) (snd entry) obj) entries acc)
             <= List.length entries + List.length acc)%nat).
  { induction entries as [| e entries IH]; intros acc; cbn [fold_left List.length].
    - lia.
    - specialize (IH (set (fst e) (snd e) acc)). rewrite set_length in IH.
      destruct (has (fst e) acc); lia. }
  specialize (G []). simpl in G. lia.
Qed.

(** X28: when its words are covered, [learnFromTranscription] adds the
    number of words of the text to the total; every filler of its list
    is counted as often as it occurs among the words, and no other word
    is counted as a filler; the two fillers of two words, [you know] and
    [i mean], are never counted, as no word holds a blank; and at most
    500 frequent words are kept. *)
Theorem X28_words_of_a_session (brain : Brain) (text : string) (now : nat -> Z)
  (k : nat) (Covered : forallb covered (words_of text) = true) :
  exists brain',
    learnFromTranscription brain (Some text) now k = Some (brain', k) /\
    totalWords (wordBank brain')
    = totalWords (wordBank brain) + Z.of_nat (List.length (words_of text)) /\
    (forall word,
       count_of word (wb_fillerWords (wordBank brain'))
       = count_of word (wb_fillerWords (wordBank brain))
         + (if mem word fillerWordList then occurrences word (words_of text) else 0)) /\
    count_of "you know" (wb_fillerWords (wordBank brain'))
    = count_of "you know" (wb_fillerWords (wordBank brain)) /\
    count_of "i mean" (wb_fillerWords (wordBank brain'))
    = count_of "i mean" (wb_fillerWords (wordBank brain)) /\
    (text <> "" -> (List.length (frequentWords (wordBank brain')) <= 500)%nat).
Proof.
  assert (G : exists brain',
            learnFromTranscription brain (Some text) now k = Some (brain', k) /\
            totalWords (wordBank brain')
            = totalWords (wordBank brain) + Z.of_nat (List.length (words_of text)) /\
            (forall word,
               count_of word (wb_fillerWords (wordBank brain'))
               = count_of word (wb_fillerWords (wordBank brain))
                 + (if mem word fillerWordList
                    then occurrences word (words_of text) else 0)) /\
            (text <> "" -> (List.length (frequentWords (wordBank brain')) <= 500)%nat)).
  { unfold learnFromTranscription. destruct text as [| c text].
    - exists brain. split; [ reflexivity | ]. split; [ simpl; lia | ].
      split; [ | congruence ]. intros word. unfold occurrences.
      change (words_of "") with (@nil string). cbn [count_occ Z.of_nat].
      destruct (mem word fillerWordList); lia.
    - change (nonempty (String c text)) with true. cbv iota.
      rewrite Covered. cbv zeta.
      destruct (word_loop (words_of (String c text))
                  {| frequentWords := frequentWords (wordBank brain);
                     uniqueWords := uniqueWords (wordBank brain);
                     wb_fillerWords := wb_fillerWords (wordBank brain);
                     totalWords :=
                       totalWords (wordBank brain)
                       + Z.of_nat (List.length (words_of (String c text))) |})
        as (T & _ & F).
      cbv zeta in T, F. eexists. split; [ reflexivity | ].
      cbn [wordBank with_words totalWords wb_fillerWords frequentWords].
      split; [ exact T | ]. split; [ exact F | ]. intros _.
      eapply Nat.le_trans; [ apply fromEntries_length | ].
      rewrite length_firstn. lia. }
  destruct G as (brain' & E & T & F & Q). exists brain'.
  split; [ exact E | ]. split; [ exact T | ]. split; [ exact F | ].
  split; [ | split; [ | exact Q ] ].
  - rewrite F. rewrite no_phrase by reflexivity.
    destruct (mem "you know" fillerWordList); lia.
  - rewrite F. rewrite no_phrase by reflexivity.
    destruct (mem "i mean" fillerWordList); lia.
Qed.

Lemma X28_words_of_a_session_witness :
  let text := "Well, you know, I like my work. So I, um, like it." in
  exists brain',
    learnFromTranscription getDefaultBrain (Some text) (MoreSamples.clock 0) 0%nat
    = Some (brain', 0%nat) /\
    totalWords (wordBank brain')
    = totalWords (wordBank getDefaultBrain) + Z.of_nat (List.length (words_of text)) /\
    (forall word,
       count_of word (wb_fillerWords (wordBank brain'))
       = count_of word (wb_fillerWords (wordBank getDefaultBrain))
         + (if mem word fillerWordList then occurrences word (words_of text) else 0)) /\
    count_of "you know" (wb_fillerWords (wordBank brain'))
    = count_of "you know" (wb_fillerWords (wordBank getDefaultBrain)) /\
    count_of "i mean" (wb_fillerWords (wordBank brain'))
    = count_of "i mean" (wb_fillerWords (wordBank getDefaultBrain)) /\
    (text <> "" -> (List.length (frequentWords (wordBank brain')) <= 500)%nat).
Proof.
  apply (X28_words_of_a_session getDefaultBrain
           "Well, you know, I like my work. So I, um, like it." (MoreSamples.clock 0) 0%nat).
  vm_compute. reflexivity.
Defined.

End WordFacts.

Module SessionFacts.
Import JsNum JsStr Transcriber AIAnalyzer JsObject BrainSystem.
Import OrderFacts RankingFacts StepFacts ObjectFacts.
Import TopicFacts MistakeFacts MilestoneFacts WordFacts.

(** *** The steps of a session, one by one *)

Lemma updateTopicMastery_eq brain topic score now k :
  covered topic = true ->
  exists mastery,
    updateTopicMastery brain topic score now k = Some (with_mastery brain mastery, k).
Proof.
  intros C. unfold updateTopicMastery. rewrite C. eexists. reflexivity.
Qed.

Lemma trend_step_grows recent older lists skill :
  exists more1 more2,
    trend_step recent older lists skill
    = ((fst lists ++ more1)%list, (snd lists ++ more2)%list).
Proof.
  destruct lists as [i d]. unfold trend_step. cbn [fst snd].
  destruct (gtb _ 5).
  - destruct (existsb _ i).
    + exists [], []. rewrite !app_nil_r. reflexivity.
    + eexists. exists []. rewrite (app_nil_r d). reflexivity.
  - destruct (_ <? -5)%float.
    + destruct (existsb _ d).
      * exists [], []. rewrite !app_nil_r. reflexivity.
      * exists []. eexists. rewrite (app_nil_r i). reflexivity.
    + exists [], []. rewrite !app_nil_r. reflexivity.
Qed.

Lemma trend_loop recent older skills : forall lists,
  exists more1 more2,
    fold_left (trend_step recent older) skills lists
    = ((fst lists ++ more1)%list, (snd lists ++ more2)%list).
Proof.
  induction skills as [| skill skills IH]; intros lists; cbn [fold_left].
  - exists [], []. rewrite !app_nil_r. destruct lists; reflexivity.
  - destruct (trend_step_grows recent older lists skill) as (a1 & a2 & E).
    rewrite E. destruct (IH ((fst lists ++ a1)%list, (snd lists ++ a2)%list))
      as (b1 & b2 & E').
    rewrite E'. cbn [fst snd]. exists (a1 ++ b1)%list, (a2 ++ b2)%list.
    rewrite !app_assoc. reflexivity.
Qed.

(** The lists of improving and declining skills after the look at the
    history. *)
Definition trends (brain : Brain) (skills : list string)
  : list Trending * list Trending :=
  let lists :=
    (improvingSkills (learningPatterns brain),
     decliningSkills (learningPatterns brain)) in
  if (5 <=? List.length (sessionHistory brain))%nat then
    let recentSessions := last_n 5 (sessionHistory brain) in
    let olderSessions := slice_back 10 5 (sessionHistory brain) in
    if (0 <? List.length olderSessions)%nat then
      fold_left (trend_step recentSessions olderSessions) skills lists
    else lists
  else lists.

Lemma trends_grow brain skills :
  exists more1 more2,
    trends brain skills
    = ((improvingSkills (learningPatterns brain) ++ more1)%list,
       (decliningSkills (learningPatterns brain) ++ more2)%list).
Proof.
  unfold trends. cbv zeta.
  destruct (5 <=? List.length (sessionHistory brain))%nat;
    [ destruct (0 <? List.length (slice_back 10 5 (sessionHistory brain)))%nat | ];
    try (exists [], []; rewrite !app_nil_r; reflexivity).
  apply trend_loop.
Qed.

Definition rated (scores : list (string * Z)) : list RatedSkill :=
  map (fun entry => {| rs_skill := fst entry; rs_score := snd entry |}) scores.

Lemma analyzeSkillPatterns_eq brain scores now k :
  forallb covered (map fst scores) = true ->
  analyzeSkillPatterns brain scores now k
  = Some (with_patterns brain
            {| strongSkills :=
                 sort (fun a b => rs_score b <=? rs_score a)
                   (filter (fun r => 75 <=? rs_score r) (rated scores));
               weakSkills :=
                 sort (fun a b => rs_score a <=? rs_score b)
                   (filter (fun r => negb (75 <=? rs_score r) && (rs_score r <? 55))
                      (rated scores));
               improvingSkills := fst (trends brain (map fst scores));
               decliningSkills := snd (trends brain (map fst scores)) |}, k).
Proof.
  intros C. unfold analyzeSkillPatterns. rewrite C. cbv zeta.
  fold (rated scores).
  change (if (5 <=? List.length (sessionHistory brain))%nat
          then
            if (0 <? List.length (slice_back 10 5 (sessionHistory brain)))%nat
            then
              fold_left
                (trend_step (last_n 5 (sessionHistory brain))
                   (slice_back 10 5 (sessionHistory brain)))
                (map fst scores)
                (improvingSkills (learningPatterns brain),
                 decliningSkills (learningPatterns brain))
            else
              (improvingSkills (learningPatterns brain),
               decliningSkills (learningPatterns brain))
          else
            (improvingSkills (learningPatterns brain),
             decliningSkills (learningPatterns brain)))
    with (trends brain (map fst scores)).
  destruct (trends brain (map fst scores)) as [i d]. reflexivity.
Qed.

Lemma weak_skills_covered scores :
  forallb covered (map fst scores) = true ->
  Forall (fun r => covered (rs_skill r) = true)
    (sort (fun a b => rs_score a <=? rs_score b)
       (filter (fun r => negb (75 <=? rs_score r) && (rs_score r <? 55)) (rated scores))).
Proof.
  intros C. rewrite forallb_forall in C. rewrite Forall_forall. intros r I.
  apply (Permutation_in _ (SortFacts.sort_perm rs_score _)) in I.
  apply filter_In in I. destruct I as [I _]. unfold rated in I.
  apply in_map_iff in I. destruct I as (entry & <- & I). cbn [rs_skill].
  apply C. apply in_map, I.
Qed.

Lemma with_mistakes_same brain : with_mistakes brain (commonMistakes brain) = brain.
Proof. destruct brain. reflexivity. Qed.

Lemma learnFromMistakes_eq errors : forall brain now k,
  forallb (fun error => covered (category_of error)) errors = true ->
  exists mistakes k',
    learnFromMistakes brain errors now k = Some (with_mistakes brain mistakes, k').
Proof.
  induction errors as [| error errors IH]; intros brain now k C.
  - exists (commonMistakes brain), k. rewrite with_mistakes_same. reflexivity.
  - cbn [forallb] in C. apply andb_prop in C. destruct C as [C1 C2].
    destruct (mistake_step_eq brain error now k C1) as [k1 E1].
    cbn [learnFromMistakes]. rewrite (bind_eq _ _ _ _ _ _ E1).
    destruct (lookup (category_of error) (commonMistakes brain)).
    + destruct (IH (with_mistakes brain
                      (set (category_of error)
                         (firstn 10 (sort (most_first m_count) (noted error now k l)))
                         (commonMistakes brain))) now k1 C2) as (ms & k2 & E2).
      exists ms, k2. rewrite E2. reflexivity.
    + apply IH, C2.
Qed.

Lemma with_words_same brain : with_words brain (wordBank brain) = brain.
Proof. destruct brain. reflexivity. Qed.

Lemma learnFromTranscription_eq brain text now k :
  forallb covered (words_of text) = true ->
  exists bank,
    learnFromTranscription brain (Some text) now k = Some (with_words brain bank, k) /\
    (uniqueWords (wordBank brain) = AnObject -> uniqueWords bank = AnObject).
Proof.
  intros C. unfold learnFromTranscription. destruct (nonempty text).
  - rewrite C. cbv zeta. eexists. split; [ reflexivity | ].
    intros U. cbn [uniqueWords].
    destruct (word_loop (words_of text)
                {| frequentWords := frequentWords (wordBank brain);
                   uniqueWords := uniqueWords (wordBank brain);
                   wb_fillerWords := wb_fillerWords (wordBank brain);
                   totalWords :=
                     totalWords (wordBank brain)
                     + Z.of_nat (List.length (words_of text)) |}) as (_ & K & _).
    cbv zeta in K. rewrite (K U). reflexivity.
  - exists (wordBank brain). rewrite with_words_same. split; [ reflexivity | tauto ].
Qed.

Lemma generatePersonalizedTips_eq brain now k :
  Forall (fun r => covered (rs_skill r) = true) (weakSkills (learningPatterns brain)) ->
  exists tips,
    generatePersonalizedTips brain now k = Some (with_tips brain (firstn 5 tips), k).
Proof.
  intros F. unfold generatePersonalizedTips.
  destruct (weakSkills (learningPatterns brain)) as [| weakest rest].
  - eexists. reflexivity.
  - inversion F as [| ? ? C _]; subst. unfold getTipForSkill. rewrite C.
    eexists. reflexivity.
Qed.

(** *** A whole session *)

(** The conditions under which the model covers a session: no key that
    is read is the name of an inherited member. *)
Definition covered_session (assessment : Assessment) (transcription : option string)
  : bool :=
  covered (topic assessment)
  && forallb covered (map fst (scores assessment))
  && forallb (fun error => covered (category_of error)) (errors assessment)
  && match transcription with
     | Some text => forallb covered (words_of text)
     | None => true
     end
  && covered (level assessment).

(** The entry of the history for a session closed at [d]. *)
Definition session_at (d : Z) (assessment : Assessment) : Session :=
  {| se_date := d;
     se_topic := topic assessment;
     se_level := level assessment;
     se_overallScore := Some (overallScore assessment);
     se_scores := scores assessment |}.

Definition cut_history (history : list Session) : list Session :=
  if (100 <? List.length history)%nat then last_n 100 history else history.

Lemma learn_eq brain assessment transcription now k :
  covered_session assessment transcription = true ->
  exists topics mastery more1 more2 mistakes bank new tips d k',
    learn brain assessment transcription now k
    = Some
        ({| userProfile :=
              {| totalSessions := totalSessions (userProfile brain) + 1;
                 firstSession :=
                   Some match firstSession (userProfile brain) with
                        | Some first => first
                        | None => now (S k)
                        end;
                 lastSession := Some (now k);
                 preferredTopics := topics |};
            learningPatterns :=
              {| strongSkills :=
                   sort (fun a b => rs_score b <=? rs_score a)
                     (filter (fun r => 75 <=? rs_score r) (rated (scores assessment)));
                 weakSkills :=
                   sort (fun a b => rs_score a <=? rs_score b)
                     (filter (fun r => negb (75 <=? rs_score r) && (rs_score r <? 55))
                        (rated (scores assessment)));
                 improvingSkills :=
                   (improvingSkills (learningPatterns brain) ++ more1)%list;
                 decliningSkills :=
                   (decliningSkills (learningPatterns brain) ++ more2)%list |};
            commonMistakes := mistakes;
            topicMastery := mastery;
            wordBank := bank;
            milestones := (milestones brain ++ new)%list;
            personalizedTips := firstn 5 tips;
            sessionHistory :=
              cut_history (sessionHistory brain ++ [session_at d assessment])%list |},
         k') /\
    (uniqueWords (wordBank brain) = AnObject -> uniqueWords bank = AnObject).
Proof.
  unfold covered_session. intros C.
  apply andb_prop in C. destruct C as [C C5].
  apply andb_prop in C. destruct C as [C C4].
  apply andb_prop in C. destruct C as [C C3].
  apply andb_prop in C. destruct C as [C1 C2].
  unfold learn.
  (* the profile *)
  set (first := match firstSession (userProfile brain) with
                | Some first => first
                | None => now (S k)
                end).
  set (b1 := with_profile brain
               {| totalSessions := totalSessions (userProfile brain) + 1;
                  firstSession := Some first;
                  lastSession := Some (now k);
                  preferredTopics := preferredTopics (userProfile brain) |}).
  assert (E1 : exists k1, forall (B : Type) (f : Z -> Step B),
               (do first <- match firstSession (userProfile brain) with
                            | Some first => ret first
                            | None => date
                            end ;; f first) now (S k)
               = f first now k1).
  { unfold first. destruct (firstSession (userProfile brain)).
    - exists (S k). reflexivity.
    - exists (S (S k)). reflexivity. }
  destruct E1 as [k1 E1].
  rewrite (bind_eq date _ now k (now k) (S k) eq_refl). rewrite E1. clear E1.
  cbv zeta. fold b1.
  (* the topic *)
  assert (E2 : exists topics mastery k2,
               (if nonempty (topic assessment)
                then
                  do brain <- updateTopicPreference b1 (topic assessment) ;;
                  updateTopicMastery brain (topic assessment) (overallScore assessment)
                else ret b1) now k1
               = Some (with_mastery (with_topics b1 topics) mastery, k2)).
  { destruct (nonempty (topic assessment)).
    - destruct (updateTopicPreference_eq b1 (topic assessment) now k1) as [k2 E].
      rewrite (bind_eq _ _ _ _ _ _ E).
      destruct (updateTopicMastery_eq
                  (with_topics b1
                     (firstn 10
                        (sort (most_first tp_count)
                           (used (topic assessment) now k1
                              (preferredTopics (userProfile b1))))))
                  (topic assessment) (overallScore assessment) now k2 C1)
        as [mastery E'].
      do 3 eexists. exact E'.
    - exists (preferredTopics (userProfile b1)), (topicMastery b1), k1. reflexivity. }
  destruct E2 as (topics & mastery & k2 & E2).
  rewrite (bind_eq _ _ _ _ _ _ E2). clear E2.
  set (b2 := with_mastery (with_topics b1 topics) mastery).
  (* the skills *)
  rewrite (bind_eq _ _ _ _ _ _ (analyzeSkillPatterns_eq b2 (scores assessment) now k2 C2)).
  destruct (trends_grow b2 (map fst (scores assessment))) as (more1 & more2 & T).
  rewrite T. cbn [fst snd].
  match goal with
  | |- context [with_patterns b2 ?p] => set (b3 := with_patterns b2 p)
  end.
  (* the mistakes *)
  destruct (learnFromMistakes_eq (errors assessment) b3 now k2 C3)
    as (mistakes & k3 & E3).
  rewrite (bind_eq _ _ _ _ _ _ E3). clear E3.
  set (b4 := with_mistakes b3 mistakes).
  (* the words *)
  assert (E4 : exists bank,
               match transcription with
               | Some text =>
                   if nonempty text then learnFromTranscription b4 transcription
                   else ret b4
               | None => ret b4
               end now k3 = Some (with_words b4 bank, k3) /\
               (uniqueWords (wordBank b4) = AnObject -> uniqueWords bank = AnObject)).
  { destruct transcription as [text |].
    - destruct (nonempty text).
      + apply learnFromTranscription_eq, C4.
      + exists (wordBank b4). rewrite with_words_same. split; [ reflexivity | tauto ].
    - exists (wordBank b4). rewrite with_words_same. split; [ reflexivity | tauto ]. }
  destruct E4 as (bank & E4 & U).
  rewrite (bind_eq _ _ _ _ _ _ E4). clear E4.
  set (b5 := with_words b4 bank).
  (* the milestones *)
  destruct (checkMilestones_eq b5 (level assessment) (overallScore assessment) now k3 C5)
    as (m1 & m2 & m3 & m4 & k4 & E5 & _).
  rewrite (bind_eq _ _ _ _ _ _ E5). clear E5. cbn [fst].
  match goal with
  | |- context [with_milestones b5 ?m] => set (b6 := with_milestones b5 m)
  end.
  (* the tips *)
  destruct (generatePersonalizedTips_eq b6 now k4) as [tips E6].
  { apply weak_skills_covered, C2. }
  rewrite (bind_eq _ _ _ _ _ _ E6). clear E6.
  (* the history *)
  rewrite (bind_eq date _ now k4 (now k4) (S k4) eq_refl).
  exists topics, mastery, more1, more2, mistakes, bank,
    (m1 ++ m2 ++ m3 ++ m4)%list, tips, (now k4), (S k4).
  split; [ reflexivity | exact U ].
Qed.

(** What [learnFromSession] returns and stores. *)
Lemma learnFromSession_eq stored now fits assessment transcription brain k :
  learn (getBrain stored) assessment transcription now 0%nat = Some (brain, k) ->
  learnFromSession stored now fits assessment transcription
  = Some (converted brain, if fits then Some (json_brain (converted brain)) else stored).
Proof. unfold learnFromSession, saveBrain. intros ->. reflexivity. Qed.

Lemma cut_history_length history :
  List.length (cut_history history) = Nat.min 100 (List.length history).
Proof.
  unfold cut_history. destruct (Nat.ltb_spec 100 (List.length history)) as [L | L].
  - unfold last_n. rewrite length_skipn. lia.
  - lia.
Qed.

Lemma cut_history_last history session :
  exists earlier, cut_history (history ++ [session])%list = (earlier ++ [session])%list.
Proof.
  unfold cut_history. destruct (100 <? _)%nat.
  - apply (StorageFacts.last_n_app_last 99).
  - exists history. reflexivity.
Qed.

(** *** What the analyzer hands over *)

Definition level_covered (s : Z) : bool := covered (Design.band_of s).

Lemma level_covered_all : forallb level_covered LevelFacts.zero_to_hundred = true.
Proof. vm_compute. reflexivity. Qed.

Lemma errors_covered analyses :
  forallb (fun error => covered (category_of error)) (identifyErrors analyses) = true.
Proof.
  apply forallb_forall. intros error I.
  rewrite FeedbackFacts.errors_before_sorting in I.
  apply (Permutation_in _ (SortFacts.sort_perm FeedbackFacts.severity_rank _)) in I.
  apply in_map_iff in I. destruct I as ([name data] & <- & I).
  apply filter_In in I. destruct I as [I _]. unfold entries in I. cbn [In] in I.
  destruct I as [I | [I | [I | [I | [I | []]]]]]; inversion I; subst; reflexivity.
Qed.

Lemma analysis_covered features topic analysis now transcription :
  covered topic = true ->
  match transcription with
  | Some text => forallb covered (words_of text)
  | None => true
  end = true ->
  exists assessment,
    analyzeFullSpeaking new_AIAnalyzer features topic analysis now = Returns assessment /\
    covered_session assessment transcription = true.
Proof.
  intros C1 C4.
  destruct (OverallFacts.overall_in_range _
              (ScoringFacts.score_entries_in_range features topic analysis)
              (OverallFacts.score_entries_skills _ _))
    as (s & Hs & E).
  pose proof (LevelFacts.forall_0_100 LevelFacts.level_check LevelFacts.level_check_all s Hs) as L.
  unfold LevelFacts.level_check in L. apply andb_prop in L. destruct L as [L _].
  apply String.eqb_eq in L.
  unfold analyzeFullSpeaking. rewrite E, L.
  destruct (ReturnFacts.level_listed (of_Z s)) as [range R]. rewrite L in R. rewrite R.
  eexists. split; [ reflexivity | ].
  unfold covered_session. cbn [AIAnalyzer.topic scores errors level map fst forallb].
  rewrite C1, C4, errors_covered.
  pose proof (LevelFacts.forall_0_100 level_covered level_covered_all s Hs) as B.
  unfold level_covered in B. rewrite B. reflexivity.
Qed.

(** *** Sessions in a row *)

Record SessionInput := {
  si_assessment : Assessment;
  si_transcription : option string;
  si_now : nat -> Z;
  si_fits : bool
}.

(** What is stored after the sessions, one after the other. *)
Fixpoint after_sessions (stored : Stored) (inputs : list SessionInput)
  : option Stored :=
  match inputs with
  | [] => Some stored
  | input :: rest =>
      match learnFromSession stored (si_now input) (si_fits input)
              (si_assessment input) (si_transcription input) with
      | Some (_, stored) => after_sessions stored rest
      | None => None
      end
  end.

(** The brain in storage holds no list of unique words. *)
Definition untracked (stored : Stored) : Prop :=
  exists brain, stored = Some brain /\ uniqueWords (wordBank brain) = AnObject.

Lemma untracked_session stored input :
  untracked stored ->
  covered_session (si_assessment input) (si_transcription input) = true ->
  exists brain stored',
    learnFromSession stored (si_now input) (si_fits input)
      (si_assessment input) (si_transcription input) = Some (brain, stored') /\
    untracked stored'.
Proof.
  intros (old & -> & U) C.
  destruct (learn_eq old (si_assessment input) (si_transcription input)
              (si_now input) 0%nat C)
    as (topics & mastery & more1 & more2 & mistakes & bank & new & tips & d & k' & E & K).
  change old with (getBrain (Some old)) in E at 1.
  rewrite (learnFromSession_eq _ _ (si_fits input) _ _ _ _ E).
  do 2 eexists. split; [ reflexivity | ].
  destruct (si_fits input).
  - eexists. split; [ reflexivity | ].
    cbn [json_brain converted wordBank uniqueWords]. rewrite (K U). reflexivity.
  - exists old. split; [ reflexivity | exact U ].
Qed.

Lemma untracked_sessions inputs : forall stored,
  untracked stored ->
  Forall (fun input =>
            covered_session (si_assessment input) (si_transcription input) = true)
    inputs ->
  exists stored', after_sessions stored inputs = Some stored' /\ untracked stored'.
Proof.
  induction inputs as [| input inputs IH]; intros stored U F.
  - exists stored. split; [ reflexivity | exact U ].
  - inversion F as [| ? ? C F']; subst.
    destruct (untracked_session stored input U C) as (brain & stored1 & E & U1).
    cbn [after_sessions]. rewrite E. apply IH; assumption.
Qed.

(** X29: the unique words are never collected.  The brain that the
    constructor or a reset stores has gone through [JSON.stringify] with
    its [Set] of unique words, which leaves an empty object and not an
    array; so after any number of covered sessions the stored brain still
    has no array of unique words, and [getInsights] reports 0 unique
    words. *)
Theorem X29_unique_words_never_collected (start : Stored) (inputs : list SessionInput)
  (today : Z)
  (Fresh : new_BrainSystem true = Some start \/
           exists before, resetBrain before true true = Some (start, true))
  (Covered : Forall (fun input =>
                       covered_session (si_assessment input) (si_transcription input)
                       = true) inputs) :
  exists stored,
    after_sessions start inputs = Some stored /\
    uniqueWords (wordBank (getBrain stored)) = AnObject /\
    uniqueWordCount (getInsights stored today) = 0.
Proof.
  assert (U : untracked start).
  { exists (json_brain getDefaultBrain). split; [ | reflexivity ].
    destruct Fresh as [E | [before E]].
    - unfold new_BrainSystem, init in E. congruence.
    - unfold resetBrain in E. congruence. }
  destruct (untracked_sessions inputs start U Covered) as (stored & E & brain & -> & K).
  exists (Some brain). split; [ exact E | ].
  cbn [getBrain getInsights uniqueWordCount]. rewrite K. split; reflexivity.
Qed.

(** X30: a session that the analyzer has assessed is learnt.  For a
    covered topic and transcript, [analyzeFullSpeaking] with the settings
    of the constructor returns an assessment, and [learnFromSession]
    returns a brain for it and stores it when the write is accepted; the
    brain counts one more session, dates the last session at the first
    reading of the clock and the first session as before or at the second
    reading, ends its history with this session and keeps at most 100
    sessions, has at most five tips, and only adds to the lists of
    improving and declining skills and of milestones. *)
Theorem X30_assessed_session_is_learnt (stored : Stored)
  (features : AudioProcessor.Features)
  (topic : string) (analysis : option TranscriptAnalysis) (analysed : Z)
  (transcription : option string) (now : nat -> Z) (fits : bool)
  (Topic : covered topic = true)
  (Words : match transcription with
           | Some text => forallb covered (words_of text)
           | None => true
           end = true) :
  exists assessment brain d,
    analyzeFullSpeaking new_AIAnalyzer features topic analysis analysed
    = Returns assessment /\
    learnFromSession stored now fits assessment transcription
    = Some (brain, if fits then Some (json_brain brain) else stored) /\
    let old := getBrain stored in
    totalSessions (userProfile brain) = totalSessions (userProfile old) + 1 /\
    lastSession (userProfile brain) = Some (now 0%nat) /\
    firstSession (userProfile brain)
    = Some match firstSession (userProfile old) with
           | Some first => first
           | None => now 1%nat
           end /\
    (exists earlier,
       sessionHistory brain = (earlier ++ [session_at d assessment])%list) /\
    List.length (sessionHistory brain)
    = Nat.min 100 (S (List.length (sessionHistory old))) /\
    (List.length (personalizedTips brain) <= 5)%nat /\
    (exists more,
       improvingSkills (learningPatterns brain)
       = (improvingSkills (learningPatterns old) ++ more)%list) /\
    (exists more,
       decliningSkills (learningPatterns brain)
       = (decliningSkills (learningPatterns old) ++ more)%list) /\
    (exists new, milestones brain = (milestones old ++ new)%list).
Proof.
  destruct (analysis_covered features topic analysis analysed transcription Topic Words)
    as (assessment & A & C).
  destruct (learn_eq (getBrain stored) assessment transcription now 0%nat C)
    as (topics & mastery & more1 & more2 & mistakes & bank & new & tips & d & k' & E & _).
  exists assessment. eexists. exists d. split; [ exact A | ].
  split; [ exact (learnFromSession_eq _ _ fits _ _ _ _ E) | ].
  cbv zeta.
  cbn [converted userProfile totalSessions lastSession firstSession sessionHistory
       personalizedTips learningPatterns improvingSkills decliningSkills milestones].
  repeat split.
  - apply cut_history_last.
  - rewrite cut_history_length, length_app. cbn [List.length]. f_equal. lia.
  - rewrite length_firstn. lia.
  - exists more1. reflexivity.
  - exists more2. reflexivity.
  - exists new. reflexivity.
Qed.

(** A first session on work. *)
Definition first_input : SessionInput :=
  {| si_assessment := MoreSamples.plain_assessment 64 "B2";
     si_transcription := Some "Well, you know, I like my work. So I, um, like it.";
     si_now := MoreSamples.clock 1700000000000;
     si_fits := true |}.

Lemma X29_unique_words_never_collected_witness :
  exists stored,
    after_sessions (Some (json_brain getDefaultBrain)) [first_input; first_input]
    = Some stored /\
    uniqueWords (wordBank (getBrain stored)) = AnObject /\
    uniqueWordCount (getInsights stored 1700000000000) = 0.
Proof.
  apply (X29_unique_words_never_collected (Some (json_brain getDefaultBrain))
           [first_input; first_input] 1700000000000).
  - left. reflexivity.
  - repeat constructor; vm_compute; reflexivity.
Defined.

Lemma X30_assessed_session_is_learnt_witness :
  let now := MoreSamples.clock 1700000000000 in
  exists assessment brain d,
    analyzeFullSpeaking new_AIAnalyzer Samples.halting_features "work"
      (Some Samples.halting_transcript) 1700000000000
    = Returns assessment /\
    learnFromSession None now true assessment (Some Samples.halting_text)
    = Some (brain, if true then Some (json_brain brain) else None) /\
    let old := getBrain None in
    totalSessions (userProfile brain) = totalSessions (userProfile old) + 1 /\
    lastSession (userProfile brain) = Some (now 0%nat) /\
    firstSession (userProfile brain)
    = Some match firstSession (userProfile old) with
           | Some first => first
           | None => now 1%nat
           end /\
    (exists earlier,
       sessionHistory brain = (earlier ++ [session_at d assessment])%list) /\
    List.length (sessionHistory brain)
    = Nat.min 100 (S (List.length (sessionHistory old))) /\
    (List.length (personalizedTips brain) <= 5)%nat /\
    (exists more,
       improvingSkills (learningPatterns brain)
       = (improvingSkills (learningPatterns old) ++ more)%list) /\
    (exists more,
       decliningSkills (learningPatterns brain)
       = (decliningSkills (learningPatterns old) ++ more)%list) /\
    (exists new, milestones brain = (milestones old ++ new)%list).
Proof.
  apply (X30_assessed_session_is_learnt None Samples.halting_features "work"
           (Some Samples.halting_transcript) 1700000000000 (Some Samples.halting_text)
           (MoreSamples.clock 1700000000000) true).
  - vm_compute. reflexivity.
  - vm_compute. reflexivity.
Defined.

End SessionFacts.
